(** * MiniOS kernel: a shallow embedding of [src/minios/kernel.c]

    The kernel is a single C translation unit.  Its globals (terminal
    cursor, keyboard ring, file table) become the fields of one [kernel]
    record, and every C function becomes a computation in a small
    state-and-failure monad [K].  A computation yields [None] when the C
    function has no defined result from that state: it never returns
    (the busy-wait of [keyboard_getchar_irq] with no interrupt to come),
    or it reads or writes outside a declared array. *)

From Stdlib Require Import ZArith Lia String Ascii List.
From Stdlib Require DecimalString HexadecimalString DecimalN HexadecimalN.
From stdpp Require Import base list.

Local Open Scope Z_scope.

(** ** Machine integers

    [uint8_t], [uint16_t] and [uint32_t] are kept as [Z] with the
    wrap-around of the conversion written out; [char] is the signed
    8-bit type of the i386 ABI and [int]/[int32_t] the signed 32-bit one. *)

Definition u8 (z : Z) : Z := z mod 256.
Definition u16 (z : Z) : Z := z mod 65536.
Definition u32 (z : Z) : Z := z mod 2 ^ 32.
Definition i8 (z : Z) : Z := (z + 128) mod 256 - 128.
Definition i32 (z : Z) : Z := (z + 2 ^ 31) mod 2 ^ 32 - 2 ^ 31.

(** Character constants. *)
Definition ch (a : ascii) : Z := Z.of_N (N_of_ascii a).
Definition cstr (s : string) : list Z := map ch (list_ascii_of_string s).

Definition NUL : Z := 0.
Definition BS : Z := 8.   (* '\b' *)
Definition TAB : Z := 9.  (* '\t' *)
Definition LF : Z := 10.  (* '\n' *)
Definition CR : Z := 13.  (* '\r' *)
Definition ESC : Z := 27.
Definition SP : Z := 32.  (* ' ' *)

(** ** Arrays and C strings

    A C array of declared size [n] is a list; an access outside
    [0 .. n-1] has no defined result. *)

Definition rd (n : Z) (a : list Z) (i : Z) : option Z :=
  if (0 <=? i) && (i <? n) then Some (nth (Z.to_nat i) a 0) else None.

Definition wr (n : Z) (a : list Z) (i v : Z) : option (list Z) :=
  if (0 <=? i) && (i <? n) then Some (<[Z.to_nat i := v]> a) else None.

(** A [const char *] argument is the list of the bytes it points to; the
    terminating NUL is implicit, so reading at or past the end gives 0,
    and a 0 inside the list ends the string there. *)
Definition chr (s : list Z) (k : Z) : Z :=
  if k <? 0 then 0 else nth (Z.to_nat k) s 0.

(** [p + k] for a string pointer. *)
Definition advance (k : nat) (s : list Z) : list Z := drop k s.

(** ** Global state *)

Definition VGA_WIDTH : Z := 80.
Definition VGA_HEIGHT : Z := 25.
Definition KBUF_SIZE : Z := 256.
Definition INPUT_BUF : Z := 128.
Definition MAX_FILES : Z := 16.
Definition MAX_NAME : Z := 16.
Definition MAX_FILE_SIZE : Z := 512.

Record term_state := {
  term_row : Z;            (* uint8_t *)
  term_col : Z;            (* uint8_t *)
  term_color : Z;          (* uint8_t *)
  vga_buffer : list Z      (* uint16_t cells at 0xB8000 *)
}.

Record kbd_state := {
  kbuf : list Z;           (* volatile char kbuf[KBUF_SIZE] *)
  kbuf_head : Z;
  kbuf_tail : Z
}.

Record file_entry := {
  name : list Z;           (* char name[MAX_NAME] *)
  used : Z;
  size : Z;
  data : list Z            (* char data[MAX_FILE_SIZE] *)
}.

(** Port traffic, in program order. *)
Inductive io_event :=
| PortIn (port val : Z)
| PortOut (port val : Z).

(** The hardware seen from the program: [port_in p] is the stream of
    bytes that successive [inb] on port [p] will deliver, [io_log] records
    every port access made so far, and [irq1_keys] are the scancodes of
    the keyboard interrupts still to come. *)
Record hw_state := {
  port_in : Z -> nat -> Z;
  io_log : list io_event;
  irq1_keys : list Z
}.

(** [tty] is the transcript of the characters handed to [vga_putc]. *)
Record kernel := {
  term : term_state;
  kbd : kbd_state;
  files : list file_entry;
  hw : hw_state;
  tty : list Z
}.

Definition set_term (t : term_state) (st : kernel) : kernel :=
  {| term := t; kbd := kbd st; files := files st; hw := hw st; tty := tty st |}.
Definition set_kbd (q : kbd_state) (st : kernel) : kernel :=
  {| term := term st; kbd := q; files := files st; hw := hw st; tty := tty st |}.
Definition set_files (fs : list file_entry) (st : kernel) : kernel :=
  {| term := term st; kbd := kbd st; files := fs; hw := hw st; tty := tty st |}.
Definition set_hw (h : hw_state) (st : kernel) : kernel :=
  {| term := term st; kbd := kbd st; files := files st; hw := h; tty := tty st |}.
Definition set_tty (o : list Z) (st : kernel) : kernel :=
  {| term := term st; kbd := kbd st; files := files st; hw := hw st; tty := o |}.

Definition set_row (r : Z) (t : term_state) : term_state :=
  {| term_row := r; term_col := term_col t; term_color := term_color t;
     vga_buffer := vga_buffer t |}.
Definition set_col (c : Z) (t : term_state) : term_state :=
  {| term_row := term_row t; term_col := c; term_color := term_color t;
     vga_buffer := vga_buffer t |}.
Definition set_buffer (b : list Z) (t : term_state) : term_state :=
  {| term_row := term_row t; term_col := term_col t; term_color := term_color t;
     vga_buffer := b |}.

(** ** The monad *)

Definition K (A : Type) : Type := kernel -> option (A * kernel).

Definition ret {A} (a : A) : K A := fun st => Some (a, st).
Definition bind {A B} (m : K A) (f : A -> K B) : K B :=
  fun st => match m st with
            | Some (a, st') => f a st'
            | None => None
            end.
Definition fail {A} : K A := fun _ => None.
Definition get : K kernel := fun st => Some (st, st).
Definition modify (f : kernel -> kernel) : K unit := fun st => Some (tt, f st).
Definition lift {A} (o : option A) : K A :=
  fun st => match o with Some a => Some (a, st) | None => None end.

Notation "'let*' x ':=' m 'in' k" := (bind m (fun x => k))
  (at level 10, x name, m at level 100, k at level 200).
Notation "m1 >> m2" := (bind m1 (fun _ => m2))
  (at level 90, right associativity).

(** [for (int i = i0; <n more iterations>; ++i) body(i)] with a trip count
    fixed by constants. *)
Fixpoint for_ (n : nat) (i : Z) (body : Z -> K unit) : K unit :=
  match n with
  | O => ret tt
  | S n' => body i >> for_ n' (i + 1) body
  end.

(** ** I/O ports *)

Definition outb (port val : Z) : K unit :=
  modify (fun st =>
    let h := hw st in
    set_hw {| port_in := port_in h;
              io_log := io_log h ++ [PortOut port val];
              irq1_keys := irq1_keys h |} st).

Definition inb (port : Z) : K Z :=
  fun st =>
    let h := hw st in
    let v := u8 (port_in h port O) in
    Some (v, set_hw {| port_in := fun p n =>
                                    if p =? port then port_in h p (S n)
                                    else port_in h p n;
                       io_log := io_log h ++ [PortIn port v];
                       irq1_keys := irq1_keys h |} st).

(** ** VGA text mode *)

Definition update_cursor : K unit :=
  let* st := get in
  let pos := u16 (term_row (term st) * VGA_WIDTH + term_col (term st)) in
  outb 0x3D4 0x0F >>
  outb 0x3D5 (u8 (Z.land pos 0xFF)) >>
  outb 0x3D4 0x0E >>
  outb 0x3D5 (u8 (Z.land (Z.shiftr pos 8) 0xFF)).

(** Every access to the cell grid goes through these two: the grid has
    [VGA_WIDTH * VGA_HEIGHT] cells and an index outside it is no cell. *)
Definition vga_load (idx : Z) : K Z :=
  let* st := get in
  lift (rd (VGA_WIDTH * VGA_HEIGHT) (vga_buffer (term st)) idx).

Definition vga_store (idx v : Z) : K unit :=
  let* st := get in
  let* b := lift (wr (VGA_WIDTH * VGA_HEIGHT) (vga_buffer (term st)) idx v) in
  modify (fun st => set_term (set_buffer b (term st)) st).

Definition vga_putat (c color row col : Z) : K unit :=
  let idx := u16 (row * VGA_WIDTH + col) in
  vga_store idx (u16 (Z.lor (u16 c) (Z.shiftl (u16 color) 8))).

Definition vga_scroll : K unit :=
  for_ 24 0 (fun r =>
    for_ 80 0 (fun c =>
      let* v := vga_load ((r + 1) * VGA_WIDTH + c) in
      vga_store (r * VGA_WIDTH + c) v)) >>
  let* st := get in
  let blank := u16 (Z.lor (u16 SP) (Z.shiftl (u16 (term_color (term st))) 8)) in
  for_ 80 0 (fun c => vga_store ((VGA_HEIGHT - 1) * VGA_WIDTH + c) blank).

Definition set_term_row (r : Z) : K unit :=
  modify (fun st => set_term (set_row r (term st)) st).
Definition set_term_col (c : Z) : K unit :=
  modify (fun st => set_term (set_col c (term st)) st).

(** [if (++term_row == VGA_HEIGHT) { term_row = VGA_HEIGHT - 1; vga_scroll(); }] *)
Definition next_row : K unit :=
  let* st := get in
  let r := u8 (term_row (term st) + 1) in
  set_term_row r >>
  if r =? VGA_HEIGHT then set_term_row (VGA_HEIGHT - 1) >> vga_scroll
  else ret tt.

Definition vga_putc (c : Z) : K unit :=
  modify (fun st => set_tty (tty st ++ [c]) st) >>
  (if c =? LF then
     set_term_col 0 >> next_row
   else if c =? CR then
     set_term_col 0
   else if c =? BS then
     let* st := get in
     if 0 <? term_col (term st) then
       let col := u8 (term_col (term st) - 1) in
       set_term_col col >>
       vga_putat SP (term_color (term st)) (term_row (term st)) col
     else ret tt
   else
     let* st := get in
     vga_putat c (term_color (term st)) (term_row (term st)) (term_col (term st)) >>
     let col := u8 (term_col (term st) + 1) in
     set_term_col col >>
     if VGA_WIDTH <=? col then set_term_col 0 >> next_row else ret tt) >>
  update_cursor.

(** [for (int i = 0; s[i]; ++i) vga_putc(s[i]);] *)
Fixpoint vga_puts (s : list Z) : K unit :=
  match s with
  | [] => ret tt
  | c :: s' => if c =? NUL then ret tt else vga_putc c >> vga_puts s'
  end.

Definition vga_clear : K unit :=
  let* st := get in
  let blank := u16 (Z.lor (u16 SP) (Z.shiftl (u16 (term_color (term st))) 8)) in
  for_ 2000 0 (fun i => vga_store i blank) >>
  set_term_col 0 >> set_term_row 0 >>
  update_cursor.

(** ** Integer formatting *)

(** [(d < 10) ? ('0' + d) : ('a' + d - 10)], computed in [uint32_t] and
    stored into a [char]. *)
Definition digit_char (d : Z) : Z :=
  i8 (u32 (if d <? 10 then ch "0" + d else ch "a" + d - 10)).

(** The first loop of [kputu]: [while (val) { ... buf[i++] = ...; val /= base; }]
    over [char buf[33]].  Each round stores at [buf[i]] and increments
    [i], so the 34th round cannot be reached: the store at index 33 is
    already outside the array.  [base] is the [int] argument converted
    to [uint32_t]; dividing by 0 traps. *)
Fixpoint kputu_fill (fuel : nat) (val base : Z) (buf : list Z) (i : Z)
  : option (list Z * Z) :=
  if val =? 0 then Some (buf, i)
  else match fuel with
       | O => None
       | S fuel' =>
         if base =? 0 then None
         else
           let d := val mod base in
           match wr 33 buf i (digit_char d) with
           | None => None
           | Some buf' => kputu_fill fuel' (val / base) base buf' (i + 1)
           end
       end.

(** [while (i--) vga_putc(buf[i]);] *)
Fixpoint kputu_emit (i : nat) (buf : list Z) : K unit :=
  match i with
  | O => ret tt
  | S i' => let* c := lift (rd 33 buf (Z.of_nat i')) in
            vga_putc c >> kputu_emit i' buf
  end.

Definition kputu (val base : Z) : K unit :=
  if val =? 0 then vga_putc (ch "0")
  else
    let* r := lift (kputu_fill 34 val (u32 base) (replicate 33 0) 0) in
    kputu_emit (Z.to_nat (snd r)) (fst r).

Definition kputi (val base : Z) : K unit :=
  if val <? 0 then vga_putc (ch "-") >> kputu (u32 (i32 (- val))) base
  else kputu (u32 val) base.

(** A variadic argument: a string pointer ([None] is the null pointer)
    or a 32-bit word. *)
Inductive va_arg :=
| VStr (s : option (list Z))
| VInt (n : Z).

Definition va_str (args : list va_arg) : K (option (list Z) * list va_arg) :=
  match args with
  | VStr s :: args' => ret (s, args')
  | _ => fail
  end.

Definition va_int (args : list va_arg) : K (Z * list va_arg) :=
  match args with
  | VInt n :: args' => ret (n, args')
  | _ => fail
  end.

(** [kprintf]: the loop over [fmt].  A ['%'] that is the last character
    of the format prints ['%'] and the terminator, after which [++i]
    steps past the end of the string. *)
Fixpoint kprintf (fmt : list Z) (args : list va_arg) : K unit :=
  match fmt with
  | [] => ret tt
  | c :: rest =>
    if c =? NUL then ret tt
    else if negb (c =? ch "%") then vga_putc c >> kprintf rest args
    else
      match rest with
      | [] => vga_putc (ch "%") >> vga_putc NUL >> fail
      | f :: rest' =>
        if f =? ch "s" then
          let* a := va_str args in
          vga_puts (match fst a with Some s => s | None => cstr "(null)" end) >>
          kprintf rest' (snd a)
        else if f =? ch "d" then
          let* a := va_int args in
          kputi (i32 (fst a)) 10 >> kprintf rest' (snd a)
        else if f =? ch "u" then
          let* a := va_int args in
          kputu (u32 (fst a)) 10 >> kprintf rest' (snd a)
        else if f =? ch "x" then
          let* a := va_int args in
          kputu (u32 (fst a)) 16 >> kprintf rest' (snd a)
        else if f =? ch "c" then
          let* a := va_int args in
          vga_putc (i8 (fst a)) >> kprintf rest' (snd a)
        else if f =? NUL then
          vga_putc (ch "%") >> vga_putc NUL >> fail
        else
          vga_putc (ch "%") >> vga_putc f >> kprintf rest' args
      end
  end.

(** ** Keyboard *)

Definition scancode_map : list Z :=
  [ 0; ESC; ch "1"; ch "2"; ch "3"; ch "4"; ch "5"; ch "6"; ch "7"; ch "8";
    ch "9"; ch "0"; ch "-"; ch "="; BS;
    TAB; ch "q"; ch "w"; ch "e"; ch "r"; ch "t"; ch "y"; ch "u"; ch "i";
    ch "o"; ch "p"; ch "["; ch "]"; LF; 0;
    ch "a"; ch "s"; ch "d"; ch "f"; ch "g"; ch "h"; ch "j"; ch "k"; ch "l";
    ch ";"; ch "'"; ch "`"; 0; ch "\"; ch "z"; ch "x";
    ch "c"; ch "v"; ch "b"; ch "n"; ch "m"; ch ","; ch "."; ch "/"; 0;
    ch "*"; 0; SP ] ++ replicate 70 0.

Definition set_kbuf (b : list Z) (q : kbd_state) : kbd_state :=
  {| kbuf := b; kbuf_head := kbuf_head q; kbuf_tail := kbuf_tail q |}.
Definition set_head (h : Z) (q : kbd_state) : kbd_state :=
  {| kbuf := kbuf q; kbuf_head := h; kbuf_tail := kbuf_tail q |}.
Definition set_tail (t : Z) (q : kbd_state) : kbd_state :=
  {| kbuf := kbuf q; kbuf_head := kbuf_head q; kbuf_tail := t |}.

(** [%] on [int] truncates towards zero: [Z.rem]. *)
Definition keyboard_handler : K unit :=
  let* sc := inb 0x60 in
  if negb (Z.land sc 0x80 =? 0) then ret tt
  else
    let* c := (if sc <? 128 then lift (rd 128 scancode_map sc) else ret 0) in
    if c =? 0 then ret tt
    else
      let* st := get in
      let next := Z.rem (kbuf_head (kbd st) + 1) KBUF_SIZE in
      if negb (next =? kbuf_tail (kbd st)) then
        let* b := lift (wr KBUF_SIZE (kbuf (kbd st)) (kbuf_head (kbd st)) c) in
        modify (fun st => set_kbd (set_kbuf b (kbd st)) st) >>
        modify (fun st => set_kbd (set_head next (kbd st)) st)
      else ret tt.

(** The keyboard controller latches scancode [sc] at port 0x60 and raises
    IRQ1; the assembly stub calls [keyboard_handler]. *)
Definition latch (port v : Z) (h : hw_state) : hw_state :=
  {| port_in := fun p n =>
                  if p =? port then match n with O => v | S n' => port_in h p n' end
                  else port_in h p n;
     io_log := io_log h;
     irq1_keys := irq1_keys h |}.

Definition irq1 (sc : Z) : K unit :=
  modify (fun st => set_hw (latch 0x60 sc (hw st)) st) >> keyboard_handler.

Definition set_irq1_keys (ks : list Z) (h : hw_state) : hw_state :=
  {| port_in := port_in h; io_log := io_log h; irq1_keys := ks |}.

(** [while (kbuf_head == kbuf_tail) {}]: the foreground spins; the only
    thing that can end the wait is the next keyboard interrupt.  With no
    interrupt left the loop never exits. *)
Fixpoint getchar_wait (keys : list Z) : K unit :=
  let* st := get in
  if kbuf_head (kbd st) =? kbuf_tail (kbd st) then
    match keys with
    | [] => fail
    | sc :: keys' =>
      modify (fun st => set_hw (set_irq1_keys keys' (hw st)) st) >>
      irq1 sc >> getchar_wait keys'
    end
  else ret tt.

Definition keyboard_getchar_irq : K Z :=
  let* st := get in
  getchar_wait (irq1_keys (hw st)) >>
  let* st := get in
  let* c := lift (rd KBUF_SIZE (kbuf (kbd st)) (kbuf_tail (kbd st))) in
  modify (fun st =>
    set_kbd (set_tail (Z.rem (kbuf_tail (kbd st) + 1) KBUF_SIZE) (kbd st)) st) >>
  ret c.

(** Characters waiting in the ring plus interrupts still to come: an
    upper bound on the number of [keyboard_getchar_irq] calls that can
    return, hence on the rounds of any loop that calls it every round. *)
Definition input_budget (st : kernel) : nat :=
  S (Z.to_nat ((kbuf_head (kbd st) - kbuf_tail (kbd st)) mod KBUF_SIZE)
     + length (irq1_keys (hw st))).

(** [read_line]: the [while (1)] loop; [buf] has [bufsize] bytes. *)
Fixpoint read_line_loop (fuel : nat) (buf : list Z) (bufsize idx : Z)
  : K (list Z) :=
  match fuel with
  | O => fail
  | S fuel' =>
    let* c := keyboard_getchar_irq in
    if (c =? LF) || (c =? CR) then
      vga_putc LF >>
      let* b := lift (wr bufsize buf idx NUL) in
      ret b
    else if c =? BS then
      if 0 <? idx then vga_putc BS >> read_line_loop fuel' buf bufsize (idx - 1)
      else read_line_loop fuel' buf bufsize idx
    else
      if idx <? bufsize - 1 then
        let* b := lift (wr bufsize buf idx c) in
        vga_putc c >> read_line_loop fuel' b bufsize (idx + 1)
      else read_line_loop fuel' buf bufsize idx
  end.

Definition read_line (buf : list Z) (bufsize : Z) : K (list Z) :=
  let* st := get in
  read_line_loop (input_budget st) buf bufsize 0.

(** ** In-memory file store

    The file operations touch nothing but the table [files], so they are
    functions on the table; [fs_op] runs one of them on the kernel state. *)

#[global] Instance file_entry_inhabited : Inhabited file_entry :=
  populate {| name := []; used := 0; size := 0; data := [] |}.

Definition file_at (fs : list file_entry) (i : Z) : file_entry :=
  fs !!! Z.to_nat i.
Definition set_file (i : Z) (e : file_entry) (fs : list file_entry)
  : list file_entry := <[Z.to_nat i := e]> fs.

Definition set_name (n : list Z) (e : file_entry) : file_entry :=
  {| name := n; used := used e; size := size e; data := data e |}.
Definition set_used (u : Z) (e : file_entry) : file_entry :=
  {| name := name e; used := u; size := size e; data := data e |}.
Definition set_size (s : Z) (e : file_entry) : file_entry :=
  {| name := name e; used := used e; size := s; data := data e |}.
Definition set_data (d : list Z) (e : file_entry) : file_entry :=
  {| name := name e; used := used e; size := size e; data := d |}.

(** [while (n < limit && src[n]) { dst[n] = src[n]; ++n; }] into an array
    of [dsize] bytes; at most [limit] rounds. *)
Fixpoint copy_string (fuel : nat) (src dst : list Z) (dsize limit n : Z)
  : option (list Z * Z) :=
  if (n <? limit) && negb (chr src n =? 0) then
    match fuel with
    | O => None
    | S fuel' =>
      match wr dsize dst n (chr src n) with
      | None => None
      | Some dst' => copy_string fuel' src dst' dsize limit (n + 1)
      end
    end
  else Some (dst, n).

(** [while (n < len && n < limit) { dst[n] = src[n]; ++n; }]; [src] is a
    buffer of [length src] bytes. *)
Fixpoint copy_bytes (fuel : nat) (src dst : list Z) (dsize len limit n : Z)
  : option (list Z * Z) :=
  if (n <? len) && (n <? limit) then
    match fuel with
    | O => None
    | S fuel' =>
      match rd (Z.of_nat (length src)) src n with
      | None => None
      | Some v =>
        match wr dsize dst n v with
        | None => None
        | Some dst' => copy_bytes fuel' src dst' dsize len limit (n + 1)
        end
      end
    end
  else Some (dst, n).

(** First slot at or after [i] whose [used] flag is clear, or -1. *)
Fixpoint first_free (n : nat) (i : Z) (fs : list file_entry) : Z :=
  match n with
  | O => -1
  | S n' => if used (file_at fs i) =? 0 then i else first_free n' (i + 1) fs
  end.

Definition welcome_text : list Z :=
  cstr "welcome: This is MiniOS (in-memory FS)" ++ [LF].

Definition fs_init (fs : list file_entry) : option (unit * list file_entry) :=
  let fs := fold_left (fun fs i => set_file i (set_used 0 (file_at fs i)) fs)
                      (seqZ 0 MAX_FILES) fs in
  let idx := first_free 16 0 fs in
  if 0 <=? idx then
    let fs := set_file idx (set_used 1 (file_at fs idx)) fs in
    match copy_string 512 welcome_text (data (file_at fs idx))
                      MAX_FILE_SIZE MAX_FILE_SIZE 0 with
    | None => None
    | Some (d, n) =>
      let fs := set_file idx (set_data d (file_at fs idx)) fs in
      let fs := set_file idx (set_size n (file_at fs idx)) fs in
      match copy_string 15 (cstr "welcome") (name (file_at fs idx))
                        MAX_NAME (MAX_NAME - 1) 0 with
      | None => None
      | Some (nm, j) =>
        match wr MAX_NAME nm j NUL with
        | None => None
        | Some nm' => Some (tt, set_file idx (set_name nm' (file_at fs idx)) fs)
        end
      end
    end
  else Some (tt, fs).

(** [while (k < MAX_NAME && fname[k] && name[k] && fname[k] == name[k]) ++k;] *)
Fixpoint name_scan (fuel : nat) (fname nm : list Z) (k : Z) : Z :=
  match fuel with
  | O => k
  | S fuel' =>
    if (k <? MAX_NAME) && negb (nth (Z.to_nat k) fname 0 =? 0)
       && negb (chr nm k =? 0) && (nth (Z.to_nat k) fname 0 =? chr nm k)
    then name_scan fuel' fname nm (k + 1)
    else k
  end.

(** The slot loop of [fs_find].  After the scan the code reads
    [files[i].name[k]] without checking [k]: with no NUL among the 16 name
    bytes that read is outside the array. *)
Fixpoint fs_find_loop (n : nat) (i : Z) (nm : list Z) (fs : list file_entry)
  : option Z :=
  match n with
  | O => Some (-1)
  | S n' =>
    let e := file_at fs i in
    if negb (used e =? 0) then
      let k := name_scan 16 (name e) nm 0 in
      match rd MAX_NAME (name e) k with
      | None => None
      | Some a =>
        if (a =? 0) && (chr nm k =? 0) then Some i
        else fs_find_loop n' (i + 1) nm fs
      end
    else fs_find_loop n' (i + 1) nm fs
  end.

Definition fs_find (nm : list Z) (fs : list file_entry) : option Z :=
  fs_find_loop 16 0 nm fs.

Definition fs_create (nm : list Z) (fs : list file_entry)
  : option (Z * list file_entry) :=
  match fs_find nm fs with
  | None => None
  | Some r =>
    if 0 <=? r then Some (-1, fs)
    else
      let i := first_free 16 0 fs in
      if 0 <=? i then
        let fs := set_file i (set_used 1 (file_at fs i)) fs in
        let fs := set_file i (set_size 0 (file_at fs i)) fs in
        match copy_string 15 nm (name (file_at fs i)) MAX_NAME (MAX_NAME - 1) 0 with
        | None => None
        | Some (a, j) =>
          match wr MAX_NAME a j NUL with
          | None => None
          | Some a' => Some (i, set_file i (set_name a' (file_at fs i)) fs)
          end
        end
      else Some (-1, fs)
  end.

Definition fs_write (nm data_ : list Z) (len : Z) (fs : list file_entry)
  : option (Z * list file_entry) :=
  match fs_find nm fs with
  | None => None
  | Some idx =>
    match (if idx <? 0 then fs_create nm fs else Some (idx, fs)) with
    | None => None
    | Some (idx, fs) =>
      if idx <? 0 then Some (-1, fs)
      else
        match copy_bytes 512 data_ (data (file_at fs idx))
                         MAX_FILE_SIZE len MAX_FILE_SIZE 0 with
        | None => None
        | Some (d, n) =>
          let fs := set_file idx (set_data d (file_at fs idx)) fs in
          Some (n, set_file idx (set_size n (file_at fs idx)) fs)
        end
    end
  end.

Definition fs_remove (nm : list Z) (fs : list file_entry)
  : option (Z * list file_entry) :=
  match fs_find nm fs with
  | None => None
  | Some idx =>
    if idx <? 0 then Some (-1, fs)
    else Some (0, set_file idx (set_used 0 (file_at fs idx)) fs)
  end.

Definition fs_op {A} (f : list file_entry -> option (A * list file_entry))
  : K A :=
  fun st => match f (files st) with
            | Some (a, fs') => Some (a, set_files fs' st)
            | None => None
            end.

Definition fs_lookup (nm : list Z) : K Z :=
  let* st := get in lift (fs_find nm (files st)).

(** [for (int i = i0; i < i0 + n; ++i) vga_putc(a[i]);] over an array of
    [asize] bytes. *)
Fixpoint put_bytes (n : nat) (asize : Z) (a : list Z) (i : Z) : K unit :=
  match n with
  | O => ret tt
  | S n' => let* c := lift (rd asize a i) in
            vga_putc c >> put_bytes n' asize a (i + 1)
  end.

Definition fs_read_to_console (nm : list Z) : K Z :=
  let* idx := fs_lookup nm in
  if idx <? 0 then ret (-1)
  else
    let* st := get in
    let e := file_at (files st) idx in
    put_bytes (Z.to_nat (size e)) MAX_FILE_SIZE (data e) 0 >>
    ret (size e).

Definition fs_list : K unit :=
  kprintf (cstr "Files:" ++ [LF]) [] >>
  for_ 16 0 (fun i =>
    let* st := get in
    let e := file_at (files st) i in
    if negb (used e =? 0) then
      kprintf (cstr "  %s (%d bytes)" ++ [LF]) [VStr (Some (name e)); VInt (size e)]
    else ret tt).

(** ** Line editor *)

(** What one round of the editor loop decides. *)
Inductive loop_ctl := Continue | Break.

(** [while (line[i]) { if (len < MAX_FILE_SIZE) buf[len++] = line[i++];
                       else { kprintf("Buffer full\n"); break; } }] *)
Fixpoint nano_append (line buf : list Z) (len : Z) : K (list Z * Z) :=
  match line with
  | [] => ret (buf, len)
  | c :: line' =>
    if c =? NUL then ret (buf, len)
    else if len <? MAX_FILE_SIZE then
      let* b := lift (wr MAX_FILE_SIZE buf len c) in
      nano_append line' b (len + 1)
    else kprintf (cstr "Buffer full" ++ [LF]) [] >> ret (buf, len)
  end.

Definition nano_save (filename buf : list Z) (len : Z) : K unit :=
  let* written := fs_op (fs_write filename buf len) in
  if written <? 0 then kprintf (cstr "Save failed" ++ [LF]) []
  else kprintf (cstr "Saved %d bytes" ++ [LF]) [VInt written].

(** The body of the editor's [while (1)] after [read_line] has filled
    [line]: the new edit buffer, its length, and whether the loop goes on. *)
Definition nano_line (filename line buf : list Z) (len : Z)
  : K (loop_ctl * (list Z * Z)) :=
  if chr line 0 =? NUL then ret (Continue, (buf, len))
  else if chr line 0 =? ch "." then
    if chr line 1 =? NUL then ret (Continue, (buf, len))
    else if (chr line 1 =? ch "h") && (chr line 2 =? ch "e") && (chr line 3 =? ch "l")
            && (chr line 4 =? ch "p") && (chr line 5 =? NUL) then
      kprintf (cstr "Editor commands:" ++ [LF]) [] >>
      kprintf (cstr "  .help - show this message" ++ [LF]) [] >>
      kprintf (cstr "  .save - save to file" ++ [LF]) [] >>
      kprintf (cstr "  .wq   - write and quit" ++ [LF]) [] >>
      kprintf (cstr "  .quit - quit without saving" ++ [LF]) [] >>
      ret (Continue, (buf, len))
    else if (chr line 1 =? ch "s") && (chr line 2 =? ch "a") && (chr line 3 =? ch "v")
            && (chr line 4 =? ch "e") && (chr line 5 =? NUL) then
      nano_save filename buf len >> ret (Continue, (buf, len))
    else if (chr line 1 =? ch "w") && (chr line 2 =? ch "q") && (chr line 3 =? NUL) then
      nano_save filename buf len >> ret (Break, (buf, len))
    else if (chr line 1 =? ch "q") && (chr line 2 =? NUL) then
      kprintf (cstr "Quit without saving" ++ [LF]) [] >> ret (Break, (buf, len))
    else
      kprintf (cstr "Unknown editor command: %s" ++ [LF]) [VStr (Some line)] >>
      ret (Continue, (buf, len))
  else
    let* r := nano_append line buf len in
    if snd r <? MAX_FILE_SIZE then
      let* b := lift (wr MAX_FILE_SIZE (fst r) (snd r) LF) in
      ret (Continue, (b, snd r + 1))
    else
      kprintf (cstr "Buffer full, no newline" ++ [LF]) [] >>
      ret (Continue, r).

(** The editor's [while (1)]: every round reads a line, so the rounds
    are bounded by the input still to come. *)
Fixpoint nano_loop (fuel : nat) (filename line buf : list Z) (len : Z) : K unit :=
  match fuel with
  | O => fail
  | S fuel' =>
    kprintf (cstr "edit> ") [] >>
    let* line := read_line line INPUT_BUF in
    let* r := nano_line filename line buf len in
    match fst r with
    | Continue => nano_loop fuel' filename line (fst (snd r)) (snd (snd r))
    | Break => ret tt
    end
  end.

Definition nano_edit (filename : list Z) : K unit :=
  let* idx := fs_lookup filename in
  let* seed :=
    (if 0 <=? idx then
       let* st := get in
       let e := file_at (files st) idx in
       let len := if MAX_FILE_SIZE <? size e then MAX_FILE_SIZE else size e in
       let* r := lift (copy_bytes 512 (data e) (replicate 512 0)
                                  MAX_FILE_SIZE len MAX_FILE_SIZE 0) in
       ret (fst r, len)
     else ret (replicate 512 0, 0)) in
  let buf := fst seed in
  let len := snd seed in
  kprintf (cstr "--- nano: editing %s (max %d bytes) ---" ++ [LF])
          [VStr (Some filename); VInt MAX_FILE_SIZE] >>
  kprintf (cstr "Commands: .help .save .wq .quit" ++ [LF]) [] >>
  (if 0 <? len then
     kprintf (cstr "--- current contents ---" ++ [LF]) [] >>
     put_bytes (Z.to_nat len) MAX_FILE_SIZE buf 0 >>
     kprintf (cstr "--- end ---" ++ [LF]) []
   else ret tt) >>
  let* st := get in
  nano_loop (input_budget st) filename (replicate 128 0) buf len >>
  kprintf (cstr "Exiting editor" ++ [LF]) [].

(** ** Command interpreter *)

Fixpoint skip_spaces (s : list Z) : list Z :=
  match s with
  | c :: s' => if c =? SP then skip_spaces s' else s
  | [] => []
  end.

(** [p[0]==w[0] && p[1]==w[1] && ...] for the letters of a command word. *)
Fixpoint starts_with (w p : list Z) : bool :=
  match w with
  | [] => true
  | c :: w' => (chr p 0 =? c) && starts_with w' (advance 1 p)
  end.

(** The file-name token of [write]: characters of [arg] are copied to
    [fname] until a NUL, a space, or [MAX_NAME - 1] characters. *)
Fixpoint take_name (arg fname : list Z) (fi : Z) : option (list Z * Z * list Z) :=
  match arg with
  | [] => Some (fname, fi, arg)
  | c :: arg' =>
    if negb (c =? NUL) && negb (c =? SP) && (fi <? MAX_NAME - 1) then
      match wr MAX_NAME fname fi c with
      | None => None
      | Some fname' => take_name arg' fname' (fi + 1)
      end
    else Some (fname, fi, arg)
  end.

(** [while (arg[len]) ++len;] *)
Fixpoint strlen (s : list Z) : Z :=
  match s with
  | [] => 0
  | c :: s' => if c =? NUL then 0 else 1 + strlen s'
  end.

Definition help_text : list (list Z) :=
  [ cstr "Available commands:";
    cstr "  help           - show this message";
    cstr "  clear          - clear the screen";
    cstr "  echo <text>    - echo text";
    cstr "  version        - show kernel version";
    cstr "  ls             - list files";
    cstr "  cat <file>     - show file contents";
    cstr "  write <file> <text> - write text to file (overwrite)";
    cstr "  touch <file>   - create empty file";
    cstr "  rm <file>      - remove file";
    cstr "  nano <file>    - edit/create a file with simple editor" ].

Fixpoint print_lines (ls : list (list Z)) : K unit :=
  match ls with
  | [] => ret tt
  | l :: ls' => kprintf (l ++ [LF]) [] >> print_lines ls'
  end.

Definition end_or_space (p : list Z) (k : Z) : bool :=
  (chr p k =? NUL) || (chr p k =? SP).

Definition run_command (line : list Z) : K unit :=
  let p := skip_spaces line in
  if chr p 0 =? NUL then ret tt
  else if starts_with (cstr "help") p && (chr p 4 =? NUL) then
    print_lines help_text
  else if starts_with (cstr "nano") p && end_or_space p 4 then
    let arg := skip_spaces (advance 4 p) in
    if negb (chr arg 0 =? NUL) then nano_edit arg
    else kprintf (cstr "Usage: nano <file>" ++ [LF]) []
  else if starts_with (cstr "clear") p && end_or_space p 5 then vga_clear
  else if starts_with (cstr "version") p && end_or_space p 7 then
    kprintf (cstr "MiniOS version 0.2" ++ [LF]) []
  else if starts_with (cstr "echo") p && end_or_space p 4 then
    let arg := skip_spaces (advance 4 p) in
    kprintf (cstr "%s" ++ [LF]) [VStr (Some arg)]
  else if starts_with (cstr "ls") p && end_or_space p 2 then fs_list
  else if starts_with (cstr "cat") p && (chr p 3 =? SP) then
    let arg := skip_spaces (advance 4 p) in
    if negb (chr arg 0 =? NUL) then
      let* r := fs_read_to_console arg in
      if r <? 0 then kprintf (cstr "No such file: %s" ++ [LF]) [VStr (Some arg)]
      else kprintf [LF] []
    else kprintf (cstr "Usage: cat <file>" ++ [LF]) []
  else if starts_with (cstr "touch") p && (chr p 5 =? SP) then
    let arg := skip_spaces (advance 6 p) in
    if negb (chr arg 0 =? NUL) then
      let* r := fs_op (fs_create arg) in
      if r <? 0 then kprintf (cstr "Cannot create file: %s" ++ [LF]) [VStr (Some arg)]
      else ret tt
    else kprintf (cstr "Usage: touch <file>" ++ [LF]) []
  else if starts_with (cstr "rm") p && (chr p 2 =? SP) then
    let arg := skip_spaces (advance 3 p) in
    if negb (chr arg 0 =? NUL) then
      let* r := fs_op (fs_remove arg) in
      if r <? 0 then kprintf (cstr "No such file: %s" ++ [LF]) [VStr (Some arg)]
      else ret tt
    else kprintf (cstr "Usage: rm <file>" ++ [LF]) []
  else if starts_with (cstr "write") p && (chr p 5 =? SP) then
    let arg := skip_spaces (advance 6 p) in
    if chr arg 0 =? NUL then kprintf (cstr "Usage: write <file> <text>" ++ [LF]) []
    else
      let* t := lift (take_name arg (replicate 16 0) 0) in
      let* fname := lift (wr MAX_NAME (fst (fst t)) (snd (fst t)) NUL) in
      let arg := skip_spaces (snd t) in
      if chr fname 0 =? NUL then kprintf (cstr "Invalid file name" ++ [LF]) []
      else if chr arg 0 =? NUL then kprintf (cstr "No text provided" ++ [LF]) []
      else
        let len := strlen arg in
        let* written := fs_op (fs_write fname arg len) in
        if written <? 0 then kprintf (cstr "Failed to write file" ++ [LF]) []
        else kprintf (cstr "Wrote %d bytes to %s" ++ [LF]) [VInt written; VStr (Some fname)]
  else kprintf (cstr "Unknown command: %s" ++ [LF]) [VStr (Some p)].

(** ** Interrupt controller *)

Definition pic_remap : K unit :=
  let* a1 := inb 0x21 in
  let* a2 := inb 0xA1 in
  outb 0x20 0x11 >>
  outb 0xA0 0x11 >>
  outb 0x21 0x20 >>
  outb 0xA1 0x28 >>
  outb 0x21 4 >>
  outb 0xA1 2 >>
  outb 0x21 0x01 >>
  outb 0xA1 0x01 >>
  outb 0x21 a1 >>
  outb 0xA1 a2.

(** [mask &= ~(1 << 1)]: computed in [int], stored back into a [uint8_t]. *)
Definition pic_unmask_keyboard : K unit :=
  let* mask := inb 0x21 in
  let mask := u8 (Z.land mask (Z.lnot (Z.shiftl 1 1))) in
  outb 0x21 mask.

(** The part of [interrupts_install] that concerns the ring: it is reset
    to empty before the controller is programmed and the keyboard line
    unmasked.  (The descriptor table built in between touches neither the
    ports nor any state modelled here.) *)
Definition interrupts_install : K unit :=
  modify (fun st => set_kbd (set_tail 0 (kbd st)) st) >>
  modify (fun st => set_kbd (set_head 0 (kbd st)) st) >>
  pic_remap >>
  pic_unmask_keyboard.

(** ** Start-up

    The memory image in which [kernel_main] is entered: statics carry
    their initialisers (zero where there is none). *)
Definition image : kernel :=
  {| term := {| term_row := 0; term_col := 0; term_color := 0x07;
                vga_buffer := replicate 2000 0 |};
     kbd := {| kbuf := replicate 256 0; kbuf_head := 0; kbuf_tail := 0 |};
     files := replicate 16 {| name := replicate 16 0; used := 0; size := 0;
                              data := replicate 512 0 |};
     hw := {| port_in := fun _ _ => 0; io_log := []; irq1_keys := [] |};
     tty := [] |}.

(** [kernel_main] up to its command loop. *)
Definition boot : K unit :=
  vga_clear >>
  interrupts_install >>
  fs_op fs_init >>
  kprintf (cstr "MiniOS v0.3 - terminal + tiny FS" ++ [LF]) [] >>
  kprintf (cstr "Type 'help' for commands." ++ [LF; LF]) [].

(** One round of the command loop of [kernel_main]. *)
Definition shell_round (line : list Z) : K (list Z) :=
  kprintf (cstr "mini> ") [] >>
  let* line := read_line line INPUT_BUF in
  (if chr line 0 =? NUL then ret tt else run_command line) >>
  ret line.

(** * Specification vocabulary *)

(** The bytes [pic_remap] and [pic_unmask_keyboard] exchange with the
    two controllers, given what the mask ports deliver. *)
Definition pic_traffic (a1 a2 m : Z) : list io_event :=
  [ PortIn 0x21 a1; PortIn 0xA1 a2;
    PortOut 0x20 0x11; PortOut 0xA0 0x11;
    PortOut 0x21 0x20; PortOut 0xA1 0x28;
    PortOut 0x21 4; PortOut 0xA1 2;
    PortOut 0x21 0x01; PortOut 0xA1 0x01;
    PortOut 0x21 a1; PortOut 0xA1 a2;
    PortIn 0x21 m; PortOut 0x21 (Z.land m 0xFD) ].

Definition cursor_ok (st : kernel) : Prop :=
  0 <= term_row (term st) < VGA_HEIGHT /\ 0 <= term_col (term st) < VGA_WIDTH.

(** [repaint st st']: only cells of the grid differ. *)
Definition repaint (st st' : kernel) : Prop :=
  term_row (term st') = term_row (term st) /\
  term_col (term st') = term_col (term st) /\
  term_color (term st') = term_color (term st) /\
  kbd st' = kbd st /\ files st' = files st /\ hw st' = hw st /\ tty st' = tty st.

(** [printed s st st']: the characters [s] went to the terminal and
    nothing but the terminal (grid, cursor, cursor ports) changed. *)
Definition printed (s : list Z) (st st' : kernel) : Prop :=
  cursor_ok st' /\ tty st' = tty st ++ s /\
  term_color (term st') = term_color (term st) /\
  files st' = files st /\ kbd st' = kbd st /\
  port_in (hw st') = port_in (hw st) /\
  irq1_keys (hw st') = irq1_keys (hw st).

(** The character [keyboard_handler] decodes from a raw scancode byte;
    0 stands for no key event (a release, or a key outside the table). *)
Definition scancode_char (sc : Z) : Z :=
  if negb (Z.land sc 0x80 =? 0) then 0
  else if sc <? 128 then nth (Z.to_nat sc) scancode_map 0 else 0.

(** The ring's indices are inside the array, which has its 256 bytes. *)
Definition ring_ok (q : kbd_state) : Prop :=
  0 <= kbuf_head q < KBUF_SIZE /\ 0 <= kbuf_tail q < KBUF_SIZE /\
  length (kbuf q) = 256%nat.

(** [n] consecutive ring slots from index [t] on, wrapping around. *)
Fixpoint ring_slice (n : nat) (t : Z) (b : list Z) : list Z :=
  match n with
  | O => []
  | S n' => nth (Z.to_nat t) b 0 :: ring_slice n' ((t + 1) mod KBUF_SIZE) b
  end.

(** The characters pushed and not yet popped, oldest first. *)
Definition pending (q : kbd_state) : list Z :=
  ring_slice (Z.to_nat ((kbuf_head q - kbuf_tail q) mod KBUF_SIZE))
             (kbuf_tail q) (kbuf q).

(** A trace of the two sides of the queue: a keyboard interrupt
    carrying a scancode, or a [keyboard_getchar_irq] that returns. *)
Inductive kbd_event :=
| Key (sc : Z)
| Getc.

Fixpoint run_events (evs : list kbd_event) : K (list Z) :=
  match evs with
  | [] => ret []
  | Key sc :: evs' => irq1 sc >> run_events evs'
  | Getc :: evs' =>
    let* c := keyboard_getchar_irq in
    let* cs := run_events evs' in
    ret (c :: cs)
  end.

(** The characters the interrupts of a trace push, in order. *)
Fixpoint pushed (evs : list kbd_event) : list Z :=
  match evs with
  | [] => []
  | Key sc :: evs' =>
    let c := scancode_char (u8 sc) in
    if c =? 0 then pushed evs' else c :: pushed evs'
  | Getc :: evs' => pushed evs'
  end.

(** With [n] characters pending at the start, the trace never has more
    than [KBUF_SIZE - 1] pending, and every [Getc] finds one to return. *)
Fixpoint within_capacity (n : Z) (evs : list kbd_event) : bool :=
  match evs with
  | [] => true
  | Key sc :: evs' =>
    if scancode_char (u8 sc) =? 0 then within_capacity n evs'
    else (n + 1 <=? KBUF_SIZE - 1) && within_capacity (n + 1) evs'
  | Getc :: evs' => (0 <? n) && within_capacity (n - 1) evs'
  end.

(** The number a digit sequence denotes in base [b], most significant
    digit first. *)
Definition numeral (b : Z) (ds : list Z) : Z :=
  fold_left (fun acc d => acc * b + d) ds 0.

(** [ds] is the base-[b] representation of [v]: digits below the base,
    denoting [v], no leading zero, and the single digit 0 for zero. *)
Definition digits_of (b v : Z) (ds : list Z) : Prop :=
  Forall (fun d => 0 <= d < b) ds /\ numeral b ds = v /\
  match ds with
  | [] => False
  | d :: ds' => d <> 0 \/ (v = 0 /\ ds' = [])
  end.

(** The string held in a character array: the bytes before the first NUL. *)
Fixpoint c_str (a : list Z) : list Z :=
  match a with
  | [] => []
  | c :: a' => if c =? 0 then [] else c :: c_str a'
  end.

(** A name array holds a NUL among its [MAX_NAME] bytes. *)
Definition terminated (a : list Z) : Prop :=
  exists j, (j < 16)%nat /\ nth j a 0 = 0.

Definition entry_ok (e : file_entry) : Prop :=
  length (name e) = 16%nat /\ length (data e) = 512%nat /\
  (used e <> 0 -> terminated (name e)).

(** The file table as the program keeps it: 16 slots with arrays of the
    declared sizes, and a terminated name in every used slot. *)
Definition fs_wf (fs : list file_entry) : Prop :=
  length fs = 16%nat /\ Forall entry_ok fs.

(** Slot [i] is in use and holds exactly the name [nm]. *)
Definition slot_named (fs : list file_entry) (nm : list Z) (i : Z) : Prop :=
  used (file_at fs i) <> 0 /\ c_str (name (file_at fs i)) = c_str nm.

(** The name array after [fs_create] has copied [nm] into [a]: at most
    15 characters, a NUL, and the old bytes behind it. *)
Definition stored_name (nm a : list Z) : list Z :=
  take 15 (c_str nm) ++ [0] ++ drop (S (length (take 15 (c_str nm)))) a.

(** The entry [fs_write] leaves in a slot: [n] bytes of [src] over the
    old data. *)
Definition written (src : list Z) (n : Z) (e : file_entry) : file_entry :=
  {| name := name e; used := used e; size := n;
     data := take (Z.to_nat n) src ++ drop (Z.to_nat n) (data e) |}.

(** The entry [fs_create] makes of a free slot. *)
Definition created (nm : list Z) (e : file_entry) : file_entry :=
  {| name := stored_name nm (name e); used := 1; size := 0; data := data e |}.

(** The text [kputu] and [kputi] print, read off the digit buffer. *)
Definition utoa (val base : Z) : list Z :=
  if val =? 0 then [ch "0"]
  else match kputu_fill 34 val (u32 base) (replicate 33 0) 0 with
       | Some (buf, i) => rev (take (Z.to_nat i) buf)
       | None => []
       end.

Definition itoa (val base : Z) : list Z :=
  if val <? 0 then ch "-" :: utoa (u32 (i32 (- val))) base
  else utoa (u32 val) base.

(** The text [kprintf] prints for a format and its arguments; [None]
    where [kprintf] has no defined result. *)
Fixpoint format (fmt : list Z) (args : list va_arg) : option (list Z) :=
  match fmt with
  | [] => Some []
  | c :: rest =>
    if c =? NUL then Some []
    else if negb (c =? ch "%") then option_map (cons c) (format rest args)
    else
      match rest with
      | [] => None
      | f :: rest' =>
        if f =? ch "s" then
          match args with
          | VStr s :: args' =>
            option_map
              (app (c_str (match s with Some s => s | None => cstr "(null)" end)))
              (format rest' args')
          | _ => None
          end
        else if f =? ch "d" then
          match args with
          | VInt n :: args' => option_map (app (itoa (i32 n) 10)) (format rest' args')
          | _ => None
          end
        else if f =? ch "u" then
          match args with
          | VInt n :: args' => option_map (app (utoa (u32 n) 10)) (format rest' args')
          | _ => None
          end
        else if f =? ch "x" then
          match args with
          | VInt n :: args' => option_map (app (utoa (u32 n) 16)) (format rest' args')
          | _ => None
          end
        else if f =? ch "c" then
          match args with
          | VInt n :: args' => option_map (cons (i8 n)) (format rest' args')
          | _ => None
          end
        else if f =? NUL then None
        else option_map (fun s => ch "%" :: f :: s) (format rest' args)
      end
  end.

(** What a computation adds to the terminal transcript. *)
Definition output {A} (m : K A) (st : kernel) : option (list Z) :=
  option_map (fun r => drop (length (tty st)) (tty (snd r))) (m st).

(** What [fs_list] prints for one used slot, and for a table. *)
Definition listing_line (e : file_entry) : list Z :=
  cstr "  " ++ c_str (name e) ++ cstr " (" ++ itoa (i32 (size e)) 10
  ++ cstr " bytes)" ++ [LF].

Definition listing (fs : list file_entry) : list Z :=
  (cstr "Files:" ++ [LF]) ++
  concat (map (fun i => if negb (used (file_at fs i) =? 0)
                        then listing_line (file_at fs i) else [])
              (seqZ 0 16)).

(** The (name, size) pairs of the used slots, in table order. *)
Definition entries (fs : list file_entry) : list (list Z * Z) :=
  map (fun e => (c_str (name e), size e))
      (List.filter (fun e => negb (used e =? 0)) fs).

(** The listing example: the file operations from [fs_init] on, followed
    by [fs_list]. *)
Definition listing_example : K unit :=
  fs_op fs_init >>
  fs_op (fs_create (cstr "x")) >>
  fs_op (fs_create (cstr "y")) >>
  fs_op (fs_remove (cstr "x")) >>
  fs_list.

(** What [.save] and [.wq] report for the value [fs_write] returned. *)
Definition save_report (w : Z) : list Z :=
  if w <? 0 then cstr "Save failed" ++ [LF]
  else cstr "Saved " ++ itoa (i32 w) 10 ++ cstr " bytes" ++ [LF].




(** The memory of the file table: 16 slots with arrays of the declared
    sizes, whatever they contain. *)
Definition fs_shape (fs : list file_entry) : Prop :=
  length fs = 16%nat /\
  Forall (fun e => length (name e) = 16%nat /\ length (data e) = 512%nat) fs.

(** ** Numerals as text

    The decimal and hexadecimal notation of a number, taken from the
    standard library's printers; they owe nothing to [kputu]. *)
Definition decimal (v : Z) : list Z :=
  cstr (DecimalString.NilZero.string_of_int (Z.to_int v)).

Definition hexadecimal (v : Z) : list Z :=
  cstr (HexadecimalString.NilZero.string_of_uint (N.to_hex_uint (Z.to_N v))).

(** The character of a digit below 36. *)
Definition digit_glyph (d : Z) : Z :=
  nth (Z.to_nat d) (cstr "0123456789abcdefghijklmnopqrstuvwxyz") 0.

(** Digit sequences, most significant digit first, as the numerals of
    the standard library. *)
Fixpoint dec_uint (ds : list Z) : Decimal.uint :=
  match ds with
  | [] => Decimal.Nil
  | d :: ds' =>
    (match d with
     | 0 => Decimal.D0 | 1 => Decimal.D1 | 2 => Decimal.D2 | 3 => Decimal.D3
     | 4 => Decimal.D4 | 5 => Decimal.D5 | 6 => Decimal.D6 | 7 => Decimal.D7
     | 8 => Decimal.D8 | _ => Decimal.D9
     end) (dec_uint ds')
  end.

Fixpoint hex_uint (ds : list Z) : Hexadecimal.uint :=
  match ds with
  | [] => Hexadecimal.Nil
  | d :: ds' =>
    (match d with
     | 0 => Hexadecimal.D0 | 1 => Hexadecimal.D1 | 2 => Hexadecimal.D2
     | 3 => Hexadecimal.D3 | 4 => Hexadecimal.D4 | 5 => Hexadecimal.D5
     | 6 => Hexadecimal.D6 | 7 => Hexadecimal.D7 | 8 => Hexadecimal.D8
     | 9 => Hexadecimal.D9 | 10 => Hexadecimal.Da | 11 => Hexadecimal.Db
     | 12 => Hexadecimal.Dc | 13 => Hexadecimal.Dd | 14 => Hexadecimal.De
     | _ => Hexadecimal.Df
     end) (hex_uint ds')
  end.

(** The file table once [fs_init] has run on the start-up image: the
    file "welcome" in slot 0, every other slot free. *)
Definition boot_files : list file_entry :=
  match fs_init (files image) with
  | Some (_, fs) => fs
  | None => files image
  end.


(** ** Interrupt descriptor table

    [idt_init], [idt_set_gate] and [idt_load] touch nothing but the
    table [idt], its descriptor [idtp], and the table register of the
    processor, which [lidt] loads from [idtp]. *)

Record idt_entry := {
  offset_low : Z;          (* uint16_t *)
  selector : Z;            (* uint16_t *)
  zero : Z;                (* uint8_t *)
  flags : Z;               (* uint8_t *)
  offset_high : Z          (* uint16_t *)
}.

Record idt_ptr := {
  limit : Z;               (* uint16_t *)
  base : Z                 (* uint32_t *)
}.

Record idt_state := {
  idt : list idt_entry;    (* struct idt_entry idt[256] *)
  idtp : idt_ptr;
  idtr : idt_ptr           (* the register loaded by lidt *)
}.

#[global] Instance idt_entry_inhabited : Inhabited idt_entry :=
  populate {| offset_low := 0; selector := 0; zero := 0; flags := 0;
              offset_high := 0 |}.

(** [n] is a [uint8_t], so the index is always inside the 256 entries;
    [handler] is a [uint32_t]. *)
Definition idt_set_gate (n handler : Z) (s : idt_state) : idt_state :=
  let n := u8 n in
  let handler := u32 handler in
  {| idt := <[Z.to_nat n :=
               {| offset_low := u16 (Z.land handler 0xFFFF);
                  selector := 0x08;
                  zero := 0;
                  flags := 0x8E;
                  offset_high := u16 (Z.land (Z.shiftr handler 16) 0xFFFF) |}]>
            (idt s);
     idtp := idtp s;
     idtr := idtr s |}.

(** [idt_addr] is the address of [idt]; an entry is 8 bytes (the struct
    is packed), so [sizeof(idt)] is 2048. *)
Definition idt_init (idt_addr : Z) (s : idt_state) : idt_state :=
  {| idt := fold_left
              (fun t i => <[Z.to_nat i :=
                             {| offset_low := 0; selector := 0; zero := 0;
                                flags := 0; offset_high := 0 |}]> t)
              (seqZ 0 256) (idt s);
     idtp := {| limit := u16 (256 * 8 - 1); base := u32 idt_addr |};
     idtr := idtr s |}.

Definition idt_load (s : idt_state) : idt_state :=
  {| idt := idt s; idtp := idtp s; idtr := idtp s |}.

(** The descriptor-table calls of [interrupts_install], between
    [pic_remap] and [pic_unmask_keyboard]: [irq1_entry] is the address
    of the assembly stub. *)
Definition interrupts_install_idt (idt_addr irq1_entry : Z) (s : idt_state)
  : idt_state :=
  idt_load (idt_set_gate 0x21 irq1_entry (idt_init idt_addr s)).

(** The characters a sequence of keyboard interrupts delivers: the
    scancodes that decode to a character, in order. *)
Definition decoded (scs : list Z) : list Z := pushed (map Key scs).

(** Everything [keyboard_getchar_irq] can still return: the characters
    waiting in the ring, then those of the interrupts to come. *)
Definition input_stream (st : kernel) : list Z :=
  pending (kbd st) ++ decoded (irq1_keys (hw st)).

(** The line [read_line] holds after the keys [ks], starting from the
    characters [acc]: a backspace removes the last character, any other
    key is appended while fewer than [cap] characters are held. *)
Fixpoint typed (cap : nat) (ks acc : list Z) : list Z :=
  match ks with
  | [] => acc
  | c :: ks' =>
    typed cap ks' (if c =? BS then removelast acc
                   else if (length acc <? cap)%nat then acc ++ [c] else acc)
  end.

(** What [read_line] echoes for the keys [ks]: a backspace where there
    is a character to remove, a character where it is taken. *)
Fixpoint echoed (cap : nat) (ks acc : list Z) : list Z :=
  match ks with
  | [] => []
  | c :: ks' =>
    if c =? BS then
      (match acc with [] => [] | _ => [BS] end) ++ echoed cap ks' (removelast acc)
    else if (length acc <? cap)%nat then c :: echoed cap ks' (acc ++ [c])
    else echoed cap ks' acc
  end.

(** No two used slots hold the same name. *)
Definition fs_unique (fs : list file_entry) : Prop :=
  forall nm i j, 0 <= i < 16 -> 0 <= j < 16 ->
    slot_named fs nm i -> slot_named fs nm j -> i = j.

(** A cell of the text grid: the character in the low byte, the
    attribute in the high byte. *)
Definition cell (c color : Z) : Z := c + 256 * color.

(** The grid moved up by one row, with a blank last row. *)
Definition scrolled (color : Z) (b : list Z) : list Z :=
  drop 80 b ++ replicate 80 (cell SP color).

(** The port writes by which [update_cursor] sets the hardware cursor
    to the cell position [pos]: register 0x0F takes the low byte,
    register 0x0E the high byte. *)
Definition cursor_ports (pos : Z) : list io_event :=
  [ PortOut 0x3D4 0x0F; PortOut 0x3D5 (pos mod 256);
    PortOut 0x3D4 0x0E; PortOut 0x3D5 (pos / 256) ].

(** The terminal as the program keeps it: the cursor inside the grid,
    the grid with its 2000 cells, the attribute a byte. *)
Definition term_ok (st : kernel) : Prop :=
  cursor_ok st /\ length (vga_buffer (term st)) = 2000%nat /\
  0 <= term_color (term st) < 256.

(** The value [vga_putat] stores for a character and an attribute. *)
Definition raw_cell (c color : Z) : Z :=
  u16 (Z.lor (u16 c) (Z.shiftl (u16 color) 8)).

(** The terminal after a move to the next row: on the last row the grid
    scrolls and the cursor stays on that row. *)
Definition line_feed (t : term_state) : term_state :=
  if term_row t + 1 =? VGA_HEIGHT then
    {| term_row := VGA_HEIGHT - 1; term_col := term_col t;
       term_color := term_color t;
       vga_buffer := drop 80 (vga_buffer t)
                     ++ replicate 80 (raw_cell SP (term_color t)) |}
  else set_row (term_row t + 1) t.

(** The terminal after [vga_putc c]. *)
Definition term_putc (c : Z) (t : term_state) : term_state :=
  if c =? LF then line_feed (set_col 0 t)
  else if c =? CR then set_col 0 t
  else if c =? BS then
    if 0 <? term_col t then
      set_buffer (<[Z.to_nat (term_row t * 80 + (term_col t - 1))
                    := raw_cell SP (term_color t)]> (vga_buffer t))
                 (set_col (term_col t - 1) t)
    else t
  else
    let t1 := set_buffer (<[Z.to_nat (term_row t * 80 + term_col t)
                            := raw_cell c (term_color t)]> (vga_buffer t)) t in
    if VGA_WIDTH <=? term_col t + 1 then line_feed (set_col 0 t1)
    else set_col (term_col t + 1) t1.

(** Format text that [kprintf] copies as it is: no NUL, no ['%']. *)
Definition plain_text (s : list Z) : Prop :=
  Forall (fun c => c <> NUL /\ c <> ch "%") s.

(** A line of text as the editor takes it from the keyboard: not empty,
    at most 127 plain characters, not starting with ['.']. *)
Definition text_line (l : list Z) : Prop :=
  l <> [] /\ (length l <= 127)%nat /\ nth 0 l 0 <> ch "." /\
  Forall (fun c => c <> NUL /\ c <> LF /\ c <> CR /\ c <> BS) l.

(** Lines as a byte sequence, each followed by a newline. *)
Definition with_newlines (ls : list (list Z)) : list Z :=
  concat (map (fun l => l ++ [LF]) ls).

(** The transcript of editor rounds: the prompt and the echo of each
    line. *)
Definition edit_rounds (ls : list (list Z)) : list Z :=
  concat (map (fun l => cstr "edit> " ++ l ++ [LF]) ls).

(** What [nano_edit] prints before its first prompt when the file is
    new or empty. *)
Definition nano_banner (fn : list Z) : list Z :=
  cstr "--- nano: editing " ++ c_str fn ++ cstr " (max 512 bytes) ---" ++ [LF]
  ++ cstr "Commands: .help .save .wq .quit" ++ [LF].

(** The contents of the file [fn]: its first [size] bytes, and nothing
    if the table holds no such file. *)
Definition file_text (fn : list Z) (fs : list file_entry) : list Z :=
  match fs_find fn fs with
  | Some r => if 0 <=? r
              then take (Z.to_nat (size (file_at fs r))) (data (file_at fs r))
              else []
  | None => []
  end.

(** What [nano_edit] prints before its first prompt: the banner, and the
    contents [old] of the file if it has any. *)
Definition nano_opening (fn old : list Z) : list Z :=
  nano_banner fn ++
  match old with
  | [] => []
  | _ => cstr "--- current contents ---" ++ [LF] ++ old ++ cstr "--- end ---" ++ [LF]
  end.
(** * Properties *)

(** ** Machine-integer facts *)

Lemma u8_range z : 0 <= u8 z < 256.
Proof. unfold u8. apply Z.mod_pos_bound. lia. Qed.

Lemma u8_small z : 0 <= z < 256 -> u8 z = z.
Proof. intros. unfold u8. apply Z.mod_small. lia. Qed.

Lemma u16_small z : 0 <= z < 65536 -> u16 z = z.
Proof. intros. unfold u16. apply Z.mod_small. lia. Qed.

Lemma u32_small z : 0 <= z < 2 ^ 32 -> u32 z = z.
Proof. intros. unfold u32. apply Z.mod_small. lia. Qed.

Lemma rem_mod_nonneg a b : 0 <= a -> 0 < b -> Z.rem a b = a mod b.
Proof. intros. apply Z.rem_mod_nonneg; lia. Qed.

(** Clearing bit 1 of a byte: the [int] complement [~2] and the byte
    [0xFD] mask the same way. *)
Lemma clear_bit1 m : 0 <= m < 256 -> u8 (Z.land m (Z.lnot (Z.shiftl 1 1))) = Z.land m 0xFD.
Proof.
  intros Hm.
  assert (Hle : 0 <= Z.land m 0xFD < 256).
  { split; [apply Z.land_nonneg; lia|].
    apply Z.log2_lt_cancel.
    pose proof (Z.log2_land m 0xFD ltac:(lia) ltac:(lia)) as Hl.
    pose proof (Z.le_min_r (Z.log2 m) (Z.log2 0xFD)) as Hr.
    change (Z.log2 0xFD) with 7 in *. change (Z.log2 256) with 8. lia. }
  assert (E : Z.land m (Z.lnot (Z.shiftl 1 1)) = Z.land m 0xFD).
  { apply Z.bits_inj'. intros i Hi.
    rewrite !Z.land_spec.
    destruct (Z_lt_le_dec i 8) as [Hlt|Hge].
    - assert (Hc : i = 0 \/ i = 1 \/ i = 2 \/ i = 3 \/ i = 4 \/ i = 5 \/ i = 6 \/ i = 7) by lia.
      destruct Hc as [->|[->|[->|[->|[->|[->|[->| ->]]]]]]]; reflexivity.
    - assert (Hz : Z.testbit m i = false).
      { destruct (Z.eq_dec m 0) as [->|Hnz]; [apply Z.bits_0|].
        apply Z.bits_above_log2; [lia|].
        assert (Z.log2 m < 8); [|lia].
        apply Z.log2_lt_pow2; lia. }
      rewrite Hz. reflexivity. }
  rewrite E. apply u8_small. lia.
Qed.

(** ** Monad plumbing *)

Ltac kunfold :=
  unfold bind, ret, get, modify, lift, fail in *.

Lemma bind_some {A B} (m : K A) (f : A -> K B) st a st' :
  m st = Some (a, st') -> bind m f st = f a st'.
Proof. intros H. unfold bind. rewrite H. reflexivity. Qed.

Lemma bind_none {A B} (m : K A) (f : A -> K B) st :
  m st = None -> bind m f st = None.
Proof. intros H. unfold bind. rewrite H. reflexivity. Qed.

(** A counted loop whose body keeps an invariant runs to its end and
    keeps it. *)
Lemma for_invariant (P : kernel -> Prop) body n i st :
  (forall j s, i <= j < i + Z.of_nat n -> P s ->
               exists s', body j s = Some (tt, s') /\ P s') ->
  P st -> exists st', for_ n i body st = Some (tt, st') /\ P st'.
Proof.
  revert i st. induction n as [|n IH]; intros i st Hbody HP.
  - exists st. split; [reflexivity|assumption].
  - destruct (Hbody i st) as (s1 & E1 & P1); [lia|assumption|].
    destruct (IH (i + 1) s1) as (s2 & E2 & P2); [|assumption|].
    + intros j s Hj. apply Hbody. lia.
    + exists s2. split; [|assumption].
      cbn [for_]. rewrite (bind_some _ _ _ _ _ E1). exact E2.
Qed.

(** ** C6: programming the interrupt controller *)

(** One port write: the log grows by that write and nothing else moves. *)
Lemma outb_run p v st :
  exists st', outb p v st = Some (tt, st') /\
    io_log (hw st') = io_log (hw st) ++ [PortOut p v] /\
    port_in (hw st') = port_in (hw st) /\
    irq1_keys (hw st') = irq1_keys (hw st) /\
    term st' = term st /\ kbd st' = kbd st /\ files st' = files st /\
    tty st' = tty st.
Proof. eexists. split; [reflexivity|]. cbn. tauto. Qed.

(** One port read: it delivers the head of the port's stream, logs it,
    and advances that stream. *)
Lemma inb_run p st :
  exists st', inb p st = Some (u8 (port_in (hw st) p 0%nat), st') /\
    io_log (hw st') = io_log (hw st) ++ [PortIn p (u8 (port_in (hw st) p 0%nat))] /\
    (forall q n, port_in (hw st') q n =
                 if q =? p then port_in (hw st) q (S n) else port_in (hw st) q n) /\
    irq1_keys (hw st') = irq1_keys (hw st) /\
    term st' = term st /\ kbd st' = kbd st /\ files st' = files st /\
    tty st' = tty st.
Proof. eexists. split; [reflexivity|]. cbn. tauto. Qed.

Ltac run_outb s' :=
  match goal with
  | |- context [bind (outb ?p ?v) _ ?s] =>
    let E := fresh "E" in
    destruct (outb_run p v s) as (s' & E & ? & ? & ? & ? & ? & ? & ?);
    rewrite (bind_some _ _ _ _ _ E); clear E
  | |- context [outb ?p ?v ?s] =>
    let E := fresh "E" in
    destruct (outb_run p v s) as (s' & E & ? & ? & ? & ? & ? & ? & ?);
    rewrite E; clear E
  end.

Ltac run_inb s' :=
  match goal with
  | |- context [bind (inb ?p) _ ?s] =>
    let E := fresh "E" in
    destruct (inb_run p s) as (s' & E & ? & ? & ? & ? & ? & ? & ?);
    rewrite (bind_some _ _ _ _ _ E); clear E
  end.

(** C6.  From any state, [pic_remap] followed by [pic_unmask_keyboard]
    adds to the port log exactly: the reads of the two masks [a1], [a2];
    0x11 to both command ports; the vector bases 0x20 and 0x28; the
    cascade bytes 4 and 2; the mode byte 0x01 twice; the two masks written
    back; then a read [m] of the primary mask and its write-back with bit 1
    cleared and every other bit as read.  Nothing else changes. *)
Theorem pic_configuration (st : kernel) :
  let a1 := u8 (port_in (hw st) 0x21 0%nat) in
  let a2 := u8 (port_in (hw st) 0xA1 0%nat) in
  let m := u8 (port_in (hw st) 0x21 1%nat) in
  exists st',
    (pic_remap >> pic_unmask_keyboard) st = Some (tt, st') /\
    io_log (hw st') = io_log (hw st) ++ pic_traffic a1 a2 m /\
    Z.testbit (Z.land m 0xFD) 1 = false /\
    (forall i, 0 <= i -> i <> 1 -> Z.testbit (Z.land m 0xFD) i = Z.testbit m i) /\
    term st' = term st /\ kbd st' = kbd st /\ files st' = files st /\
    tty st' = tty st.
Proof.
  intros a1 a2 m.
  assert (Hm : 0 <= m < 256) by apply u8_range.
  subst a1 a2. revert Hm. generalize (eq_refl m). unfold m at 2. clearbody m.
  intros Hdef Hm.
  unfold pic_remap. unfold bind at 1.
  run_inb s1. run_inb s2.
  run_outb s3. run_outb s4. run_outb s5. run_outb s6. run_outb s7.
  run_outb s8. run_outb s9. run_outb s10. run_outb s11. run_outb s12.
  unfold pic_unmask_keyboard.
  run_inb s13.
  assert (Ea2 : u8 (port_in (hw s1) 0xA1 0%nat) = u8 (port_in (hw st) 0xA1 0%nat)).
  { match goal with H : forall q n, port_in (hw s1) q n = _ |- _ =>
      rewrite (H 0xA1 0%nat) end.
    reflexivity. }
  assert (Em : u8 (port_in (hw s12) 0x21 0%nat) = m).
  { repeat match goal with H : port_in (hw _) = port_in (hw _) |- _ =>
             rewrite H; clear H end.
    match goal with H : forall q n, port_in (hw s2) q n = _ |- _ =>
      rewrite (H 0x21 0%nat) end.
    match goal with H : forall q n, port_in (hw s1) q n = _ |- _ =>
      rewrite (H 0x21 0%nat) end.
    symmetry. exact Hdef. }
  rewrite Ea2, Em in *.
  rewrite (clear_bit1 m Hm).
  run_outb s14.
  exists s14. split; [reflexivity|].
  split.
  { repeat match goal with H : io_log (hw _) = _ |- _ => rewrite H; clear H end.
    rewrite <- !app_assoc. reflexivity. }
  split; [rewrite Z.land_spec; apply andb_false_r|].
  split; [|repeat split; congruence].
  intros i Hi Hne. rewrite Z.land_spec.
  destruct (Z_lt_le_dec i 8) as [Hlt|Hge].
  - assert (Hc : i = 0 \/ i = 2 \/ i = 3 \/ i = 4 \/ i = 5 \/ i = 6 \/ i = 7) by lia.
    destruct Hc as [->|[->|[->|[->|[->|[->| ->]]]]]]; apply andb_true_r.
  - assert (Hz : Z.testbit m i = false).
    { destruct (Z.eq_dec m 0) as [Ez|Hnz]; [rewrite Ez; apply Z.bits_0|].
      apply Z.bits_above_log2; [lia|].
      assert (Z.log2 m < 8); [|lia].
      apply Z.log2_lt_pow2; lia. }
    rewrite Hz. reflexivity.
Qed.
(** ** Terminal *)

Lemma repaint_refl st : repaint st st.
Proof. unfold repaint. tauto. Qed.

Lemma repaint_trans a b c : repaint a b -> repaint b c -> repaint a c.
Proof. unfold repaint. intuition congruence. Qed.

Lemma vga_store_in_grid idx v st :
  0 <= idx < VGA_WIDTH * VGA_HEIGHT ->
  exists st', vga_store idx v st = Some (tt, st') /\ repaint st st'.
Proof.
  intros H. unfold vga_store, wr. kunfold.
  replace ((0 <=? idx) && (idx <? VGA_WIDTH * VGA_HEIGHT)) with true
    by (symmetry; apply andb_true_iff; split; [apply Z.leb_le|apply Z.ltb_lt]; lia).
  eexists. split; [reflexivity|]. unfold repaint. cbn. tauto.
Qed.

(** A store outside the grid has no result: whenever an operation of
    the renderer returns, each of its cell writes was inside the grid. *)
Lemma vga_store_defined idx v st st' :
  vga_store idx v st = Some (tt, st') -> 0 <= idx < VGA_WIDTH * VGA_HEIGHT.
Proof.
  unfold vga_store, wr. kunfold.
  destruct ((0 <=? idx) && (idx <? VGA_WIDTH * VGA_HEIGHT)) eqn:E; [|discriminate].
  intros _. apply andb_true_iff in E. destruct E as [E1 E2].
  apply Z.leb_le in E1. apply Z.ltb_lt in E2. lia.
Qed.

Lemma vga_load_in_grid idx st :
  0 <= idx < VGA_WIDTH * VGA_HEIGHT ->
  exists v, vga_load idx st = Some (v, st).
Proof.
  intros H. unfold vga_load, rd. kunfold.
  replace ((0 <=? idx) && (idx <? VGA_WIDTH * VGA_HEIGHT)) with true
    by (symmetry; apply andb_true_iff; split; [apply Z.leb_le|apply Z.ltb_lt]; lia).
  eexists. reflexivity.
Qed.

Lemma vga_scroll_repaint st :
  exists st', vga_scroll st = Some (tt, st') /\ repaint st st'.
Proof.
  unfold vga_scroll.
  destruct (for_invariant (repaint st)
              (fun r => for_ 80 0 (fun c =>
                 let* v := vga_load ((r + 1) * VGA_WIDTH + c) in
                 vga_store (r * VGA_WIDTH + c) v)) 24 0 st) as (s1 & E1 & R1).
  { intros r s Hr Hs.
    apply (for_invariant (repaint st)); [|assumption].
    intros c s' Hc Hs'.
    destruct (vga_load_in_grid ((r + 1) * VGA_WIDTH + c) s') as (v & Ev);
      [unfold VGA_WIDTH, VGA_HEIGHT; lia|].
    destruct (vga_store_in_grid (r * VGA_WIDTH + c) v s') as (s'' & Es & Rs);
      [unfold VGA_WIDTH, VGA_HEIGHT; lia|].
    exists s''. split; [|eauto using repaint_trans].
    rewrite (bind_some _ _ _ _ _ Ev). exact Es. }
  { apply repaint_refl. }
  rewrite (bind_some _ _ _ _ _ E1).
  unfold get at 1. unfold bind at 1.
  apply (for_invariant (repaint st)); [|assumption].
  intros c s' Hc Hs'.
  destruct (vga_store_in_grid ((VGA_HEIGHT - 1) * VGA_WIDTH + c)
              (u16 (Z.lor (u16 SP) (Z.shiftl (u16 (term_color (term s1))) 8))) s')
    as (s'' & Es & Rs); [unfold VGA_WIDTH, VGA_HEIGHT; lia|].
  exists s''. split; [exact Es|eauto using repaint_trans].
Qed.

Lemma vga_clear_cursor st :
  exists st', vga_clear st = Some (tt, st') /\
    term_row (term st') = 0 /\ term_col (term st') = 0 /\
    term_color (term st') = term_color (term st) /\
    kbd st' = kbd st /\ files st' = files st /\ tty st' = tty st.
Proof.
  unfold vga_clear. unfold get at 1. unfold bind at 1.
  destruct (for_invariant (repaint st)
              (fun i => vga_store i
                 (u16 (Z.lor (u16 SP) (Z.shiftl (u16 (term_color (term st))) 8))))
              2000 0 st) as (s1 & E1 & R1).
  { intros i s Hi Hs.
    destruct (vga_store_in_grid i
                (u16 (Z.lor (u16 SP) (Z.shiftl (u16 (term_color (term st))) 8))) s)
      as (s' & Es & Rs); [unfold VGA_WIDTH, VGA_HEIGHT; lia|].
    exists s'. split; [exact Es|eauto using repaint_trans]. }
  { apply repaint_refl. }
  rewrite (bind_some _ _ _ _ _ E1).
  destruct R1 as (R1 & R2 & R3 & R4 & R5 & R6 & R7).
  unfold set_term_col, set_term_row, update_cursor, outb. kunfold.
  eexists. split; [reflexivity|]. cbn. tauto.
Qed.

(** What [update_cursor] leaves alone: everything but the port log. *)
Lemma update_cursor_log st :
  exists st', update_cursor st = Some (tt, st') /\
    term st' = term st /\ kbd st' = kbd st /\ files st' = files st /\
    tty st' = tty st /\ port_in (hw st') = port_in (hw st) /\
    irq1_keys (hw st') = irq1_keys (hw st).
Proof.
  unfold update_cursor, outb. kunfold.
  eexists. split; [reflexivity|]. cbn. tauto.
Qed.

Lemma next_row_cursor st :
  0 <= term_row (term st) < VGA_HEIGHT ->
  exists st', next_row st = Some (tt, st') /\
    0 <= term_row (term st') < VGA_HEIGHT /\
    term_col (term st') = term_col (term st) /\
    term_color (term st') = term_color (term st) /\
    kbd st' = kbd st /\ files st' = files st /\ hw st' = hw st /\
    tty st' = tty st.
Proof.
  intros Hr. unfold next_row. unfold get at 1. unfold bind at 1.
  unfold VGA_HEIGHT in *.
  rewrite u8_small by lia.
  unfold set_term_row at 1. unfold modify at 1. unfold bind at 1.
  destruct (term_row (term st) + 1 =? 25) eqn:E.
  - unfold set_term_row, modify, bind at 1.
    destruct (vga_scroll_repaint
                (set_term (set_row (25 - 1)
                  (term (set_term (set_row (term_row (term st) + 1) (term st)) st)))
                  (set_term (set_row (term_row (term st) + 1) (term st)) st)))
      as (s' & Es & R1 & R2 & R3 & R4 & R5 & R6 & R7).
    exists s'. split; [exact Es|].
    cbn in *. rewrite R1, R2, R3, R4, R5, R6, R7. repeat split; lia.
  - apply Z.eqb_neq in E. eexists. split; [reflexivity|]. cbn.
    repeat split; lia.
Qed.

Lemma printed_nil st : cursor_ok st -> printed [] st st.
Proof. unfold printed. rewrite app_nil_r. tauto. Qed.

Lemma printed_app a b st st1 st2 :
  printed a st st1 -> printed b st1 st2 -> printed (a ++ b) st st2.
Proof.
  unfold printed. intros (?&?&?&?&?&?&?) (?&?&?&?&?&?&?).
  rewrite app_assoc. intuition congruence.
Qed.

Lemma vga_putc_printed c st :
  cursor_ok st -> exists st', vga_putc c st = Some (tt, st') /\ printed [c] st st'.
Proof.
  intros [Hr Hc]. unfold vga_putc.
  unfold modify at 1. unfold bind at 1.
  set (s0 := set_tty (tty st ++ [c]) st).
  assert (H0 : term s0 = term st /\ kbd s0 = kbd st /\ files s0 = files st /\
               hw s0 = hw st /\ tty s0 = tty st ++ [c]) by (cbn; tauto).
  clearbody s0. destruct H0 as (T0 & K0 & F0 & W0 & O0).
  assert (Hput : exists s1,
    (if c =? LF then set_term_col 0 >> next_row
     else if c =? CR then set_term_col 0
     else if c =? BS then
       let* st := get in
       if 0 <? term_col (term st) then
         let col := u8 (term_col (term st) - 1) in
         set_term_col col >>
         vga_putat SP (term_color (term st)) (term_row (term st)) col
       else ret tt
     else
       let* st := get in
       vga_putat c (term_color (term st)) (term_row (term st)) (term_col (term st)) >>
       let col := u8 (term_col (term st) + 1) in
       set_term_col col >>
       if VGA_WIDTH <=? col then set_term_col 0 >> next_row else ret tt) s0
    = Some (tt, s1) /\
    cursor_ok s1 /\ term_color (term s1) = term_color (term s0) /\
    kbd s1 = kbd s0 /\ files s1 = files s0 /\ hw s1 = hw s0 /\ tty s1 = tty s0).
  { rewrite <- T0 in Hr, Hc. clear T0 K0 F0 W0 O0.
    unfold VGA_WIDTH, VGA_HEIGHT in *.
    destruct (c =? LF); [|destruct (c =? CR); [|destruct (c =? BS)]].
    - unfold set_term_col, modify. unfold bind at 1.
      destruct (next_row_cursor (set_term (set_col 0 (term s0)) s0))
        as (s1 & E & R1 & R2 & R3 & R4 & R5 & R6 & R7); [exact Hr|].
      exists s1. split; [exact E|]. unfold cursor_ok.
      cbn in *. unfold VGA_WIDTH, VGA_HEIGHT in *. rewrite R2. repeat split; auto; lia.
    - eexists. split; [reflexivity|]. unfold cursor_ok. cbn.
      unfold VGA_WIDTH, VGA_HEIGHT. repeat split; auto; lia.
    - unfold get at 1. unfold bind at 1.
      destruct (0 <? term_col (term s0)) eqn:E.
      + apply Z.ltb_lt in E. rewrite u8_small by lia.
        unfold set_term_col, modify. unfold bind at 1. unfold vga_putat.
        destruct (vga_store_in_grid
                    (u16 (term_row (term s0) * VGA_WIDTH + (term_col (term s0) - 1)))
                    (u16 (Z.lor (u16 SP) (Z.shiftl (u16 (term_color (term s0))) 8)))
                    (set_term (set_col (term_col (term s0) - 1) (term s0)) s0))
          as (s1 & Es & R1 & R2 & R3 & R4 & R5 & R6 & R7).
        { unfold VGA_WIDTH, VGA_HEIGHT. rewrite u16_small by lia. lia. }
        exists s1. split; [exact Es|]. unfold cursor_ok. cbn in *.
        unfold VGA_WIDTH, VGA_HEIGHT in *. rewrite R1, R2. repeat split; auto; lia.
      + eexists. split; [reflexivity|]. unfold cursor_ok.
        unfold VGA_WIDTH, VGA_HEIGHT. repeat split; auto; lia.
    - unfold get at 1. unfold bind at 1. unfold vga_putat.
      destruct (vga_store_in_grid
                  (u16 (term_row (term s0) * VGA_WIDTH + term_col (term s0)))
                  (u16 (Z.lor (u16 c) (Z.shiftl (u16 (term_color (term s0))) 8))) s0)
        as (s1 & Es & R1 & R2 & R3 & R4 & R5 & R6 & R7).
      { unfold VGA_WIDTH, VGA_HEIGHT. rewrite u16_small by lia. lia. }
      rewrite (bind_some _ _ _ _ _ Es).
      rewrite u8_small by lia.
      unfold set_term_col at 1. unfold modify at 1. unfold bind at 1.
      destruct (80 <=? term_col (term s0) + 1) eqn:E.
      * unfold set_term_col, modify. unfold bind at 1.
        destruct (next_row_cursor
                    (set_term (set_col 0
                       (term (set_term (set_col (term_col (term s0) + 1) (term s1)) s1)))
                       (set_term (set_col (term_col (term s0) + 1) (term s1)) s1)))
          as (s2 & E2 & Q1 & Q2 & Q3 & Q4 & Q5 & Q6 & Q7).
        { cbn. unfold VGA_HEIGHT. rewrite R1. lia. }
        exists s2. split; [exact E2|]. unfold cursor_ok. cbn in *.
        unfold VGA_WIDTH, VGA_HEIGHT in *. rewrite Q2, Q3, Q4, Q5, Q6, Q7.
        repeat split; auto; lia.
      * apply Z.leb_gt in E. eexists. split; [reflexivity|].
        unfold cursor_ok. cbn. unfold VGA_WIDTH, VGA_HEIGHT.
        rewrite R1. repeat split; auto; lia. }
  destruct Hput as (s1 & E1 & C1 & L1 & K1 & F1 & W1 & O1).
  rewrite (bind_some _ _ _ _ _ E1).
  destruct (update_cursor_log s1) as (s2 & E2 & T2 & K2 & F2 & O2 & P2 & I2).
  exists s2. split; [exact E2|].
  unfold printed, cursor_ok in *. rewrite T2, K2, F2, O2, P2, I2.
  rewrite L1, K1, F1, W1, O1, T0, K0, F0, W0, O0. tauto.
Qed.

(** C7.  From a state whose cursor is inside the grid, [vga_putc] (for
    every character), [vga_clear] and [vga_scroll] all return, and leave
    the cursor inside the grid.  A store outside the grid has no result
    ([vga_store_defined]), so returning means every cell written was one
    of the [VGA_WIDTH * VGA_HEIGHT] cells. *)
Theorem cursor_invariant (st : kernel) (c : Z) :
  cursor_ok st ->
  (exists st', vga_putc c st = Some (tt, st') /\ cursor_ok st') /\
  (exists st', vga_clear st = Some (tt, st') /\ cursor_ok st') /\
  (exists st', vga_scroll st = Some (tt, st') /\ cursor_ok st').
Proof.
  intros H. split; [|split].
  - destruct (vga_putc_printed c st H) as (st' & E & P).
    exists st'. split; [exact E|apply P].
  - destruct (vga_clear_cursor st) as (st' & E & R & C & _).
    exists st'. split; [exact E|]. unfold cursor_ok, VGA_WIDTH, VGA_HEIGHT.
    rewrite R, C. lia.
  - destruct (vga_scroll_repaint st) as (st' & E & R1 & R2 & _).
    exists st'. split; [exact E|]. unfold cursor_ok in *. rewrite R1, R2. exact H.
Qed.

Lemma cursor_invariant_witness :
  cursor_ok image /\
  (exists st', vga_putc LF image = Some (tt, st') /\ cursor_ok st') /\
  (exists st', vga_clear image = Some (tt, st') /\ cursor_ok st') /\
  (exists st', vga_scroll image = Some (tt, st') /\ cursor_ok st').
Proof.
  assert (H : cursor_ok image) by (unfold cursor_ok; cbn; unfold VGA_WIDTH, VGA_HEIGHT; lia).
  split; [exact H|]. exact (cursor_invariant image LF H).
Defined.

(** ** C1, C2: the keyboard ring *)

Lemma scancode_char_range sc : 0 <= sc < 128 -> scancode_char sc = nth (Z.to_nat sc) scancode_map 0.
Proof.
  intros H. unfold scancode_char.
  assert (E : Z.land sc 0x80 = 0).
  { apply Z.bits_inj'. intros i Hi. rewrite Z.land_spec, Z.bits_0.
    destruct (Z.eq_dec i 7) as [->|Hne].
    - replace (Z.testbit sc 7) with false; [reflexivity|].
      symmetry. destruct (Z.eq_dec sc 0) as [->|Hnz]; [apply Z.bits_0|].
      apply Z.bits_above_log2; [lia|].
      assert (Z.log2 sc < 7); [|lia]. apply Z.log2_lt_pow2; lia.
    - replace (Z.testbit 0x80 i) with false; [apply andb_false_r|].
      symmetry. change 0x80 with (2 ^ 7). apply Z.pow2_bits_false. lia. }
  rewrite E. cbn [Z.eqb negb].
  destruct (sc <? 128) eqn:E'; [reflexivity|]. apply Z.ltb_ge in E'. lia.
Qed.

(** What one run of the handler does to the ring. *)
Lemma keyboard_handler_run st :
  0 <= kbuf_head (kbd st) < KBUF_SIZE ->
  let c := scancode_char (u8 (port_in (hw st) 0x60 0%nat)) in
  let next := (kbuf_head (kbd st) + 1) mod KBUF_SIZE in
  exists st', keyboard_handler st = Some (tt, st') /\
    kbd st' = (if (c =? 0) || (next =? kbuf_tail (kbd st)) then kbd st
               else {| kbuf := <[Z.to_nat (kbuf_head (kbd st)) := c]> (kbuf (kbd st));
                       kbuf_head := next;
                       kbuf_tail := kbuf_tail (kbd st) |}) /\
    irq1_keys (hw st') = irq1_keys (hw st) /\
    term st' = term st /\ files st' = files st /\ tty st' = tty st.
Proof.
  intros Hh c next. unfold keyboard_handler.
  destruct (inb_run 0x60 st) as (s1 & E1 & L1 & P1 & I1 & T1 & K1 & F1 & O1).
  rewrite (bind_some _ _ _ _ _ E1).
  subst c. unfold scancode_char.
  set (sc := u8 (port_in (hw st) 0x60 0%nat)).
  assert (Hsc : 0 <= sc < 256) by apply u8_range.
  destruct (negb (Z.land sc 0x80 =? 0)) eqn:Erel.
  { exists s1. cbn. rewrite K1. repeat split; auto. }
  destruct (sc <? 128) eqn:Elt.
  2:{ exists s1. cbn. rewrite K1. repeat split; auto. }
  apply Z.ltb_lt in Elt.
  unfold rd.
  replace ((0 <=? sc) && (sc <? 128)) with true
    by (symmetry; apply andb_true_iff; split; [apply Z.leb_le|apply Z.ltb_lt]; lia).
  unfold lift at 1. unfold bind at 1.
  set (c := nth (Z.to_nat sc) scancode_map 0).
  destruct (c =? 0) eqn:Ec.
  { exists s1. cbn. rewrite K1. repeat split; auto. }
  cbn [orb]. unfold get at 1. unfold bind at 1.
  rewrite K1. rewrite rem_mod_nonneg by (unfold KBUF_SIZE in *; lia).
  fold next.
  destruct (next =? kbuf_tail (kbd st)) eqn:Efull.
  { exists s1. cbn. rewrite K1. repeat split; auto. }
  cbn [negb]. unfold wr.
  replace ((0 <=? kbuf_head (kbd st)) && (kbuf_head (kbd st) <? KBUF_SIZE)) with true
    by (symmetry; apply andb_true_iff; split; [apply Z.leb_le|apply Z.ltb_lt]; lia).
  unfold lift, modify, bind.
  eexists. split; [reflexivity|]. cbn. rewrite K1. repeat split; auto.
Qed.

(** C2.  A push is a run of [keyboard_handler] whose scancode decodes to
    a character [c].  If the ring is full, i.e. [kbuf_head + 1] modulo
    [KBUF_SIZE] equals [kbuf_tail], the ring (contents, head and tail) is
    left as it was, so [c] is lost; otherwise [c] is stored at the head
    slot, the head advances by one modulo [KBUF_SIZE], and the tail stays. *)
Theorem kbuf_drop_policy (st : kernel) (c : Z) :
  0 <= kbuf_head (kbd st) < KBUF_SIZE ->
  scancode_char (u8 (port_in (hw st) 0x60 0%nat)) = c -> c <> 0 ->
  exists st', keyboard_handler st = Some (tt, st') /\
    ((kbuf_head (kbd st) + 1) mod KBUF_SIZE = kbuf_tail (kbd st) ->
       kbd st' = kbd st) /\
    ((kbuf_head (kbd st) + 1) mod KBUF_SIZE <> kbuf_tail (kbd st) ->
       kbuf (kbd st') = <[Z.to_nat (kbuf_head (kbd st)) := c]> (kbuf (kbd st)) /\
       kbuf_head (kbd st') = (kbuf_head (kbd st) + 1) mod KBUF_SIZE /\
       kbuf_tail (kbd st') = kbuf_tail (kbd st)).
Proof.
  intros Hh Hc Hnz.
  destruct (keyboard_handler_run st Hh) as (st' & E & Hk & _).
  rewrite Hc in Hk. apply Z.eqb_neq in Hnz. rewrite Hnz in Hk. cbn [orb] in Hk.
  exists st'. split; [exact E|]. split.
  - intros Hfull. apply Z.eqb_eq in Hfull. rewrite Hfull in Hk. exact Hk.
  - intros Hfree. apply Z.eqb_neq in Hfree. rewrite Hfree in Hk.
    rewrite Hk. cbn. tauto.
Qed.

Lemma kbuf_drop_policy_witness :
  let st := set_hw (latch 0x60 0x1E (hw image)) image in
  exists st', keyboard_handler st = Some (tt, st') /\
    ((kbuf_head (kbd st) + 1) mod KBUF_SIZE = kbuf_tail (kbd st) ->
       kbd st' = kbd st) /\
    ((kbuf_head (kbd st) + 1) mod KBUF_SIZE <> kbuf_tail (kbd st) ->
       kbuf (kbd st') = <[Z.to_nat (kbuf_head (kbd st)) := ch "a"]> (kbuf (kbd st)) /\
       kbuf_head (kbd st') = (kbuf_head (kbd st) + 1) mod KBUF_SIZE /\
       kbuf_tail (kbd st') = kbuf_tail (kbd st)).
Proof.
  apply (kbuf_drop_policy (set_hw (latch 0x60 0x1E (hw image)) image) (ch "a")).
  - cbn. unfold KBUF_SIZE. lia.
  - reflexivity.
  - discriminate.
Defined.

Ltac zmod := unfold KBUF_SIZE in *; Z.div_mod_to_equations; lia.

Lemma nth_insert_other (b : list Z) i j c :
  i <> j -> nth j (<[i := c]> b) 0 = nth j b 0.
Proof. intros H. rewrite !nth_lookup, list_lookup_insert_ne by exact H. reflexivity. Qed.

Lemma nth_insert_same (b : list Z) i c :
  (i < length b)%nat -> nth i (<[i := c]> b) 0 = c.
Proof. intros H. rewrite nth_lookup, list_lookup_insert_eq by exact H. reflexivity. Qed.

Lemma ring_slice_snoc n t b :
  0 <= t < KBUF_SIZE ->
  ring_slice (S n) t b =
  ring_slice n t b ++ [nth (Z.to_nat ((t + Z.of_nat n) mod KBUF_SIZE)) b 0].
Proof.
  revert t. induction n as [|n IH]; intros t Ht.
  - cbn [ring_slice app]. rewrite Z.add_0_r, Z.mod_small by lia. reflexivity.
  - change (ring_slice (S (S n)) t b)
      with (nth (Z.to_nat t) b 0 :: ring_slice (S n) ((t + 1) mod KBUF_SIZE) b).
    rewrite IH by zmod. cbn [ring_slice app].
    replace (((t + 1) mod KBUF_SIZE + Z.of_nat n) mod KBUF_SIZE)
      with ((t + Z.of_nat (S n)) mod KBUF_SIZE); [reflexivity|].
    rewrite Zplus_mod_idemp_l. f_equal. lia.
Qed.

Lemma ring_slice_insert_other n t h c b :
  0 <= t < KBUF_SIZE -> 0 <= h ->
  (forall k, 0 <= k < Z.of_nat n -> (t + k) mod KBUF_SIZE <> h) ->
  ring_slice n t (<[Z.to_nat h := c]> b) = ring_slice n t b.
Proof.
  revert t. induction n as [|n IH]; intros t Ht Hh Hne; [reflexivity|].
  cbn [ring_slice]. f_equal.
  - apply nth_insert_other. specialize (Hne 0 ltac:(lia)).
    rewrite Z.add_0_r, Z.mod_small in Hne by lia. lia.
  - apply IH; [zmod|exact Hh|]. intros k Hk.
    rewrite Zplus_mod_idemp_l. replace (t + 1 + k) with (t + (k + 1)) by lia.
    apply Hne. lia.
Qed.

(** A push into a ring that is not full appends to the pending list. *)
Lemma pending_push q c :
  ring_ok q ->
  (kbuf_head q + 1) mod KBUF_SIZE <> kbuf_tail q ->
  let q' := {| kbuf := <[Z.to_nat (kbuf_head q) := c]> (kbuf q);
               kbuf_head := (kbuf_head q + 1) mod KBUF_SIZE;
               kbuf_tail := kbuf_tail q |} in
  ring_ok q' /\ pending q' = pending q ++ [c].
Proof.
  intros (Hh & Ht & Hl) Hfree q'. split.
  - unfold ring_ok, q'. cbn. rewrite length_insert. repeat split; auto; zmod.
  - unfold pending, q'. cbn [kbuf kbuf_head kbuf_tail].
    set (n := (kbuf_head q - kbuf_tail q) mod KBUF_SIZE).
    assert (Hn : 0 <= n < 255) by (subst n; zmod).
    replace (((kbuf_head q + 1) mod KBUF_SIZE - kbuf_tail q) mod KBUF_SIZE)
      with (n + 1) by (subst n; zmod).
    replace (Z.to_nat (n + 1)) with (S (Z.to_nat n)) by lia.
    rewrite ring_slice_snoc by exact Ht.
    rewrite Z2Nat.id by lia.
    replace ((kbuf_tail q + n) mod KBUF_SIZE) with (kbuf_head q) by (subst n; zmod).
    rewrite nth_insert_same by (unfold KBUF_SIZE in *; lia).
    rewrite ring_slice_insert_other; [reflexivity|exact Ht|lia|].
    intros k Hk. subst n. zmod.
Qed.

(** A pop from a ring that is not empty takes the first pending one. *)
Lemma pending_pop q :
  ring_ok q -> kbuf_head q <> kbuf_tail q ->
  let q' := set_tail ((kbuf_tail q + 1) mod KBUF_SIZE) q in
  ring_ok q' /\ pending q = nth (Z.to_nat (kbuf_tail q)) (kbuf q) 0 :: pending q'.
Proof.
  intros (Hh & Ht & Hl) Hne q'. split.
  - unfold ring_ok, q'. cbn. repeat split; auto; zmod.
  - unfold pending, q'. cbn [kbuf kbuf_head kbuf_tail set_tail].
    set (n := (kbuf_head q - kbuf_tail q) mod KBUF_SIZE).
    assert (Hn : 0 < n < 256) by (subst n; zmod).
    replace ((kbuf_head q - (kbuf_tail q + 1) mod KBUF_SIZE) mod KBUF_SIZE)
      with (n - 1) by (subst n; zmod).
    replace (Z.to_nat n) with (S (Z.to_nat (n - 1))) by lia.
    reflexivity.
Qed.

Lemma pending_length q :
  Z.of_nat (length (pending q)) = (kbuf_head q - kbuf_tail q) mod KBUF_SIZE.
Proof.
  unfold pending.
  assert (H : forall n t b, length (ring_slice n t b) = n).
  { induction n; intros; cbn; auto. }
  rewrite H. apply Z2Nat.id. zmod.
Qed.

Lemma irq1_run st sc :
  0 <= kbuf_head (kbd st) < KBUF_SIZE ->
  let c := scancode_char (u8 sc) in
  let next := (kbuf_head (kbd st) + 1) mod KBUF_SIZE in
  exists st', irq1 sc st = Some (tt, st') /\
    kbd st' = (if (c =? 0) || (next =? kbuf_tail (kbd st)) then kbd st
               else {| kbuf := <[Z.to_nat (kbuf_head (kbd st)) := c]> (kbuf (kbd st));
                       kbuf_head := next;
                       kbuf_tail := kbuf_tail (kbd st) |}) /\
    irq1_keys (hw st') = irq1_keys (hw st) /\
    term st' = term st /\ files st' = files st /\ tty st' = tty st.
Proof.
  intros Hh c next. unfold irq1, modify. unfold bind at 1.
  exact (keyboard_handler_run (set_hw (latch 0x60 sc (hw st)) st) Hh).
Qed.

Lemma getchar_wait_ready keys st :
  kbuf_head (kbd st) <> kbuf_tail (kbd st) ->
  getchar_wait keys st = Some (tt, st).
Proof.
  intros Hne. apply Z.eqb_neq in Hne.
  destruct keys; cbn [getchar_wait]; unfold get, bind; rewrite Hne; reflexivity.
Qed.

Lemma getchar_run st :
  ring_ok (kbd st) ->
  kbuf_head (kbd st) <> kbuf_tail (kbd st) ->
  exists st',
    keyboard_getchar_irq st
    = Some (nth (Z.to_nat (kbuf_tail (kbd st))) (kbuf (kbd st)) 0, st') /\
    kbd st' = set_tail ((kbuf_tail (kbd st) + 1) mod KBUF_SIZE) (kbd st) /\
    hw st' = hw st /\ term st' = term st /\ files st' = files st /\
    tty st' = tty st.
Proof.
  intros (Hh & Ht & Hl) Hne. unfold keyboard_getchar_irq.
  unfold get at 1. unfold bind at 1.
  rewrite (bind_some _ _ _ _ _ (getchar_wait_ready _ st Hne)).
  unfold get at 1. unfold bind at 1.
  unfold rd.
  replace ((0 <=? kbuf_tail (kbd st)) && (kbuf_tail (kbd st) <? KBUF_SIZE)) with true
    by (symmetry; apply andb_true_iff; split; [apply Z.leb_le|apply Z.ltb_lt]; lia).
  unfold lift, modify, ret, bind.
  eexists. split; [reflexivity|].
  cbn [kbd set_kbd hw term files tty].
  rewrite rem_mod_nonneg by (unfold KBUF_SIZE in *; lia). tauto.
Qed.

(** The ring invariant and the pending list across a trace. *)
Lemma run_events_pending evs : forall st,
  ring_ok (kbd st) ->
  within_capacity (Z.of_nat (length (pending (kbd st)))) evs = true ->
  exists outs st',
    run_events evs st = Some (outs, st') /\
    ring_ok (kbd st') /\
    outs ++ pending (kbd st') = pending (kbd st) ++ pushed evs.
Proof.
  induction evs as [|[sc|] evs IH]; intros st Hok Hcap.
  - exists [], st. cbn. rewrite app_nil_r. auto.
  - cbn [run_events pushed within_capacity] in *.
    destruct Hok as (Hh & Ht & Hl).
    destruct (irq1_run st sc Hh) as (s1 & E1 & K1 & I1 & _).
    rewrite (bind_some _ _ _ _ _ E1).
    destruct (scancode_char (u8 sc) =? 0) eqn:Ec.
    + cbn [orb] in K1.
      destruct (IH s1) as (outs & st' & E & Hok' & Hp).
      * rewrite K1. unfold ring_ok. auto.
      * rewrite K1. exact Hcap.
      * exists outs, st'. rewrite K1 in Hp. auto.
    + cbn [orb] in K1. apply andb_true_iff in Hcap. destruct Hcap as [Hroom Hcap].
      apply Z.leb_le in Hroom. rewrite pending_length in Hroom.
      assert (Hfree : (kbuf_head (kbd st) + 1) mod KBUF_SIZE <> kbuf_tail (kbd st))
        by zmod.
      destruct (pending_push (kbd st) (scancode_char (u8 sc))
                  (conj Hh (conj Ht Hl)) Hfree) as [Hok1 Hp1].
      apply Z.eqb_neq in Hfree. rewrite Hfree in K1. rewrite <- K1 in Hok1, Hp1.
      destruct (IH s1) as (outs & st' & E & Hok' & Hp).
      * exact Hok1.
      * rewrite Hp1, length_app. cbn [length].
        replace (Z.of_nat (length (pending (kbd st)) + 1))
          with (Z.of_nat (length (pending (kbd st))) + 1) by lia.
        exact Hcap.
      * exists outs, st'. split; [exact E|]. split; [exact Hok'|].
        rewrite Hp, Hp1, <- app_assoc. reflexivity.
  - cbn [run_events pushed within_capacity] in *.
    apply andb_true_iff in Hcap. destruct Hcap as [Hsome Hcap].
    apply Z.ltb_lt in Hsome.
    assert (Hne : kbuf_head (kbd st) <> kbuf_tail (kbd st)).
    { rewrite pending_length in Hsome. intros E. rewrite E, Z.sub_diag in Hsome.
      unfold KBUF_SIZE in Hsome. rewrite Z.mod_0_l in Hsome; lia. }
    destruct (getchar_run st Hok Hne) as (s1 & E1 & K1 & W1 & _).
    destruct (pending_pop (kbd st) Hok Hne) as [Hok1 Hp1].
    rewrite <- K1 in Hok1, Hp1.
    rewrite (bind_some _ _ _ _ _ E1).
    destruct (IH s1) as (outs & st' & E & Hok' & Hp).
    + exact Hok1.
    + replace (Z.of_nat (length (pending (kbd s1))))
        with (Z.of_nat (length (pending (kbd st))) - 1); [exact Hcap|].
      rewrite Hp1. cbn [length]. lia.
    + rewrite (bind_some _ _ _ _ _ E).
      eexists _, st'. split; [reflexivity|]. split; [exact Hok'|].
      rewrite Hp1. cbn [app]. f_equal. exact Hp.
Qed.

(** C1.  Take any trace of keyboard interrupts ([Key sc]: the handler
    runs on scancode [sc]) interleaved with returns of
    [keyboard_getchar_irq], started on an empty ring, in which the number
    of characters pushed and not yet popped never exceeds [KBUF_SIZE - 1].
    Then every call returns, and the characters returned are, in order,
    the first characters pushed: what was returned followed by what is
    still pending is exactly the sequence pushed. *)
Theorem kbuf_fifo (evs : list kbd_event) (st : kernel) :
  ring_ok (kbd st) ->
  kbuf_head (kbd st) = kbuf_tail (kbd st) ->
  within_capacity 0 evs = true ->
  exists outs st',
    run_events evs st = Some (outs, st') /\
    outs ++ pending (kbd st') = pushed evs /\
    outs = take (length outs) (pushed evs).
Proof.
  intros Hok Hempty Hcap.
  assert (Hp0 : pending (kbd st) = []).
  { unfold pending. rewrite Hempty, Z.sub_diag. reflexivity. }
  destruct (run_events_pending evs st Hok) as (outs & st' & E & _ & Hp).
  { rewrite Hp0. exact Hcap. }
  rewrite Hp0 in Hp. cbn [app] in Hp.
  exists outs, st'. split; [exact E|]. split; [exact Hp|].
  rewrite <- Hp. rewrite take_app_length. reflexivity.
Qed.

Lemma kbuf_fifo_witness :
  let evs := [Key 0x23; Key 0xA3; Key 0x17; Getc; Key 0x1C; Getc; Getc] in
  exists outs st',
    run_events evs image = Some (outs, st') /\
    outs ++ pending (kbd st') = pushed evs /\
    outs = take (length outs) (pushed evs).
Proof.
  apply (kbuf_fifo [Key 0x23; Key 0xA3; Key 0x17; Getc; Key 0x1C; Getc; Getc] image).
  - split; [cbn; unfold KBUF_SIZE; lia|].
    split; [cbn; unfold KBUF_SIZE; lia|reflexivity].
  - reflexivity.
  - vm_compute. reflexivity.
Defined.

(** ** Numerals as text *)

Lemma small_cases (P : Z -> Prop) (n : nat) :
  (forall k : nat, (k < n)%nat -> P (Z.of_nat k)) ->
  forall d, 0 <= d < Z.of_nat n -> P d.
Proof.
  intros H d Hd. rewrite <- (Z2Nat.id d) by lia. apply H. lia.
Qed.

Ltac digit_literal :=
  match goal with
  | |- context [Z.of_nat ?k] =>
    let z := eval vm_compute in (Z.of_nat k) in change (Z.of_nat k) with z
  end.

Lemma digit_char_glyph d : 0 <= d < 36 -> digit_char d = digit_glyph d.
Proof.
  revert d. apply (small_cases _ 36). intros k Hk.
  do 36 (destruct k as [|k]; [reflexivity|]). lia.
Qed.

Lemma map_digit_glyph b ds :
  b <= 36 -> Forall (fun d => 0 <= d < b) ds ->
  map digit_char ds = map digit_glyph ds.
Proof.
  intros Hb H. induction H as [|d ds Hd _ IH]; [reflexivity|].
  cbn [map]. rewrite IH, digit_char_glyph by lia. reflexivity.
Qed.

Lemma dec_uint_text ds :
  Forall (fun d => 0 <= d < 10) ds ->
  cstr (DecimalString.NilEmpty.string_of_uint (dec_uint ds)) = map digit_glyph ds.
Proof.
  intros H. induction H as [|d ds Hd _ IH]; [reflexivity|].
  cbn [map]. rewrite <- IH. clear IH. revert d Hd.
  apply (small_cases _ 10). intros k Hk.
  do 10 (destruct k as [|k]; [reflexivity|]). lia.
Qed.

Lemma hex_uint_text ds :
  Forall (fun d => 0 <= d < 16) ds ->
  cstr (HexadecimalString.NilEmpty.string_of_uint (hex_uint ds)) = map digit_glyph ds.
Proof.
  intros H. induction H as [|d ds Hd _ IH]; [reflexivity|].
  cbn [map]. rewrite <- IH. clear IH. revert d Hd.
  apply (small_cases _ 16). intros k Hk.
  do 16 (destruct k as [|k]; [reflexivity|]). lia.
Qed.

Lemma dec_uint_acc ds : Forall (fun d => 0 <= d < 10) ds ->
  forall acc,
  Z.pos (Pos.of_uint_acc (dec_uint ds) acc)
  = fold_left (fun a d => a * 10 + d) ds (Z.pos acc).
Proof.
  intros H. induction H as [|d ds Hd _ IH]; intros acc; [reflexivity|].
  cbn [fold_left]. revert d Hd.
  apply (small_cases _ 10). intros k Hk.
  do 10 (destruct k as [|k];
         [digit_literal; cbn [dec_uint Pos.of_uint_acc];
          rewrite IH; f_equal; lia|]).
  lia.
Qed.

Lemma hex_uint_acc ds : Forall (fun d => 0 <= d < 16) ds ->
  forall acc,
  Z.pos (Pos.of_hex_uint_acc (hex_uint ds) acc)
  = fold_left (fun a d => a * 16 + d) ds (Z.pos acc).
Proof.
  intros H. induction H as [|d ds Hd _ IH]; intros acc; [reflexivity|].
  cbn [fold_left]. revert d Hd.
  apply (small_cases _ 16). intros k Hk.
  do 16 (destruct k as [|k];
         [digit_literal; cbn [hex_uint Pos.of_hex_uint_acc];
          rewrite IH; f_equal; lia|]).
  lia.
Qed.

(** The representation of [v] in base 10 is the numeral the standard
    library gives for [v]. *)
Lemma dec_uint_numeral v ds :
  digits_of 10 v ds -> N.to_uint (Z.to_N v) = dec_uint ds /\ ds <> [].
Proof.
  intros (Hr & Hv & Hh). destruct ds as [|d ds]; [contradiction|].
  split; [|discriminate].
  inversion Hr as [|? ? Hd Hr']; subst.
  destruct Hh as [Hd0|[Hv0 ->]].
  - assert (E : N.of_uint (dec_uint (d :: ds)) = Z.to_N (numeral 10 (d :: ds))).
    { unfold numeral. cbn [fold_left]. rewrite Z.mul_0_l, Z.add_0_l.
      revert d Hd Hd0 Hr. apply (small_cases (fun d => d <> 0 -> _ -> _) 10).
      intros k Hk Hk0 _. destruct k as [|k]; [contradiction Hk0; reflexivity|].
      do 9 (destruct k as [|k];
            [digit_literal;
             cbn [dec_uint N.of_uint Pos.of_uint];
             rewrite <- (dec_uint_acc ds Hr'); reflexivity|]).
      lia. }
    rewrite <- E, DecimalN.Unsigned.to_of.
    revert d Hd Hd0 Hr E. apply (small_cases (fun d => d <> 0 -> _ -> _ -> _) 10).
    intros k Hk Hk0 _ _. destruct k as [|k]; [contradiction Hk0; reflexivity|].
    do 9 (destruct k as [|k]; [reflexivity|]). lia.
  - unfold numeral in Hv0. cbn [fold_left] in Hv0.
    assert (d = 0) by lia. subst d. reflexivity.
Qed.

Lemma hex_uint_numeral v ds :
  digits_of 16 v ds -> N.to_hex_uint (Z.to_N v) = hex_uint ds /\ ds <> [].
Proof.
  intros (Hr & Hv & Hh). destruct ds as [|d ds]; [contradiction|].
  split; [|discriminate].
  inversion Hr as [|? ? Hd Hr']; subst.
  destruct Hh as [Hd0|[Hv0 ->]].
  - assert (E : N.of_hex_uint (hex_uint (d :: ds)) = Z.to_N (numeral 16 (d :: ds))).
    { unfold numeral. cbn [fold_left]. rewrite Z.mul_0_l, Z.add_0_l.
      revert d Hd Hd0 Hr. apply (small_cases (fun d => d <> 0 -> _ -> _) 16).
      intros k Hk Hk0 _. destruct k as [|k]; [contradiction Hk0; reflexivity|].
      do 15 (destruct k as [|k];
            [digit_literal;
             cbn [hex_uint N.of_hex_uint Pos.of_hex_uint];
             rewrite <- (hex_uint_acc ds Hr'); reflexivity|]).
      lia. }
    rewrite <- E, HexadecimalN.Unsigned.to_of.
    revert d Hd Hd0 Hr E. apply (small_cases (fun d => d <> 0 -> _ -> _ -> _) 16).
    intros k Hk Hk0 _ _. destruct k as [|k]; [contradiction Hk0; reflexivity|].
    do 15 (destruct k as [|k]; [reflexivity|]). lia.
  - unfold numeral in Hv0. cbn [fold_left] in Hv0.
    assert (d = 0) by lia. subst d. reflexivity.
Qed.

Lemma digits_nonneg b v ds : 2 <= b -> digits_of b v ds -> 0 <= v.
Proof.
  intros Hb (Hr & Hv & _). subst v. unfold numeral.
  assert (G : forall a, 0 <= a -> 0 <= fold_left (fun acc d => acc * b + d) ds a).
  { induction Hr as [|d ds Hd _ IH]; intros a Ha; [exact Ha|].
    cbn [fold_left]. apply IH. nia. }
  apply G. lia.
Qed.

Lemma decimal_nonneg v :
  0 <= v -> decimal v = cstr (DecimalString.NilZero.string_of_uint (N.to_uint (Z.to_N v))).
Proof. intros H. unfold decimal. destruct v; [reflexivity|reflexivity|lia]. Qed.

Lemma decimal_neg v : v < 0 -> decimal v = ch "-" :: decimal (- v).
Proof.
  intros H. destruct v as [|p|p]; [lia|lia|]. reflexivity.
Qed.

Lemma digits_decimal v ds : digits_of 10 v ds -> map digit_glyph ds = decimal v.
Proof.
  intros H. rewrite decimal_nonneg by (apply (digits_nonneg 10 v ds); [lia|exact H]).
  destruct (dec_uint_numeral v ds H) as [E Hne]. rewrite E.
  destruct H as (Hr & _). rewrite <- dec_uint_text by exact Hr.
  destruct ds; [contradiction|]. cbn [dec_uint].
  destruct z as [|p|p]; try reflexivity.
  do 4 (destruct p as [p|p|]; try reflexivity).
Qed.

Lemma digits_hexadecimal v ds : digits_of 16 v ds -> map digit_glyph ds = hexadecimal v.
Proof.
  intros H. unfold hexadecimal.
  destruct (hex_uint_numeral v ds H) as [E Hne]. rewrite E.
  destruct H as (Hr & _). rewrite <- hex_uint_text by exact Hr.
  destruct ds; [contradiction|]. cbn [hex_uint].
  destruct z as [|p|p]; try reflexivity.
  do 5 (destruct p as [p|p|]; try reflexivity).
Qed.

(** ** C8: integer formatting *)

Lemma kputu_fill_eq fuel val base buf i :
  kputu_fill fuel val base buf i =
  if val =? 0 then Some (buf, i)
  else match fuel with
       | O => None
       | S fuel' =>
         if base =? 0 then None
         else match wr 33 buf i (digit_char (val mod base)) with
              | None => None
              | Some buf' => kputu_fill fuel' (val / base) base buf' (i + 1)
              end
       end.
Proof. destruct fuel; reflexivity. Qed.

Lemma numeral_snoc b ds d : numeral b (ds ++ [d]) = numeral b ds * b + d.
Proof. unfold numeral. rewrite fold_left_app. reflexivity. Qed.

(** The digit loop: from index [i] on, the buffer receives the digits of
    [val], least significant first; [ds] lists them most significant
    first.  [n] bounds the number of binary digits of [val]. *)
Lemma kputu_fill_digits b : 2 <= b ->
  forall (n : nat) val buf (i fuel : nat),
  0 <= val < 2 ^ Z.of_nat n -> (n < fuel)%nat -> (i + n <= 33)%nat ->
  length buf = 33%nat ->
  exists ds buf',
    kputu_fill fuel val b buf (Z.of_nat i) = Some (buf', Z.of_nat (i + length ds)) /\
    length buf' = 33%nat /\
    take (i + length ds) buf' = take i buf ++ rev (map digit_char ds) /\
    Forall (fun d => 0 <= d < b) ds /\
    numeral b ds = val /\
    (val = 0 -> ds = []) /\
    (val <> 0 -> exists d ds', ds = d :: ds' /\ d <> 0).
Proof.
  intros Hb. induction n as [|n IH]; intros val buf i fuel Hval Hfuel Hi Hlen.
  - assert (val = 0) by (cbn in Hval; lia). subst val.
    exists [], buf. rewrite kputu_fill_eq. cbn [Z.eqb length map rev].
    rewrite Nat.add_0_r, app_nil_r. repeat split; auto. congruence.
  - destruct (Z.eq_dec val 0) as [->|Hnz].
    { exists [], buf. rewrite kputu_fill_eq. cbn [Z.eqb length map rev].
      rewrite Nat.add_0_r, app_nil_r. repeat split; auto. congruence. }
    rewrite kputu_fill_eq.
    replace (val =? 0) with false by (symmetry; apply Z.eqb_neq; exact Hnz).
    destruct fuel as [|fuel]; [lia|].
    replace (b =? 0) with false by (symmetry; apply Z.eqb_neq; lia).
    unfold wr.
    replace ((0 <=? Z.of_nat i) && (Z.of_nat i <? 33)) with true
      by (symmetry; apply andb_true_iff; split; [apply Z.leb_le|apply Z.ltb_lt]; lia).
    rewrite Nat2Z.id.
    set (d := val mod b).
    assert (Hd : 0 <= d < b) by (subst d; apply Z.mod_pos_bound; lia).
    assert (Hq : 0 <= val / b < 2 ^ Z.of_nat n).
    { split; [apply Z.div_pos; lia|].
      apply Z.div_lt_upper_bound; [lia|].
      rewrite Nat2Z.inj_succ, Z.pow_succ_r in Hval by lia.
      assert (0 < 2 ^ Z.of_nat n) by (apply Z.pow_pos_nonneg; lia). nia. }
    destruct (IH (val / b) (<[i := digit_char d]> buf) (S i) fuel)
      as (ds & buf' & E & Hl' & Ht & Hr & Hv & Hz & Hh);
      [exact Hq|lia|lia|rewrite length_insert; exact Hlen|].
    exists (ds ++ [d]), buf'.
    rewrite length_app. cbn [length].
    replace (Z.of_nat i + 1) with (Z.of_nat (S i)) by lia.
    rewrite E. replace (i + (length ds + 1))%nat with (S i + length ds)%nat by lia.
    split; [reflexivity|]. split; [exact Hl'|]. split; [|split; [|split; [|split]]].
    + rewrite Ht, map_app, rev_app_distr. cbn [map rev app].
      rewrite (take_S_r _ _ (digit_char d))
        by (apply list_lookup_insert_eq; lia).
      rewrite take_insert_ge by lia. rewrite <- app_assoc. reflexivity.
    + apply Forall_app. split; [exact Hr|]. constructor; [exact Hd|constructor].
    + rewrite numeral_snoc, Hv. subst d. rewrite Z.mul_comm.
      symmetry. apply Z.div_mod. lia.
    + intros; contradiction.
    + intros _. destruct (Z.eq_dec (val / b) 0) as [Ez|Enz].
      * rewrite (Hz Ez). exists d, []. split; [reflexivity|].
        subst d. intros Hm. pose proof (Z.div_mod val b ltac:(lia)). lia.
      * destruct (Hh Enz) as (d0 & ds' & -> & Hd0).
        exists d0, (ds' ++ [d]). split; [reflexivity|exact Hd0].
Qed.

Lemma kputu_emit_printed buf : length buf = 33%nat ->
  forall (n : nat) st, (n <= 33)%nat -> cursor_ok st ->
  exists st', kputu_emit n buf st = Some (tt, st') /\
              printed (rev (take n buf)) st st'.
Proof.
  intros Hlen. induction n as [|n IH]; intros st Hn Hok.
  - exists st. split; [reflexivity|]. apply printed_nil. exact Hok.
  - cbn [kputu_emit]. unfold rd.
    replace ((0 <=? Z.of_nat n) && (Z.of_nat n <? 33)) with true
      by (symmetry; apply andb_true_iff; split; [apply Z.leb_le|apply Z.ltb_lt]; lia).
    rewrite Nat2Z.id. unfold lift at 1. unfold bind at 1.
    destruct (vga_putc_printed (nth n buf 0) st Hok) as (s1 & E1 & P1).
    rewrite (bind_some _ _ _ _ _ E1).
    destruct (IH s1) as (s2 & E2 & P2); [lia|apply P1|].
    exists s2. split; [exact E2|].
    destruct (lookup_lt_is_Some_2 buf n ltac:(lia)) as [x Hx].
    rewrite (take_S_r _ _ x Hx), rev_app_distr. cbn [rev app].
    rewrite (nth_lookup_Some _ _ _ _ Hx) in P1.
    exact (printed_app _ _ _ _ _ P1 P2).
Qed.

Lemma kputu_printed val base st :
  0 <= val < 2 ^ 32 -> 2 <= base < 2 ^ 31 -> cursor_ok st ->
  exists ds st',
    kputu val base st = Some (tt, st') /\
    printed (map digit_char ds) st st' /\
    digits_of base val ds /\
    (val <> 0 ->
     exists buf, kputu_fill 34 val (u32 base) (replicate 33 0) 0
                 = Some (buf, Z.of_nat (length ds)) /\
                 take (length ds) buf = rev (map digit_char ds)).
Proof.
  intros Hval Hbase Hok. unfold kputu.
  destruct (Z.eq_dec val 0) as [->|Hnz].
  - cbn [Z.eqb].
    destruct (vga_putc_printed (ch "0") st Hok) as (st' & E & P).
    exists [0], st'. split; [exact E|]. split; [exact P|].
    split; [|intros; contradiction].
    unfold digits_of. split; [constructor; [lia|constructor]|].
    split; [reflexivity|]. right. auto.
  - replace (val =? 0) with false by (symmetry; apply Z.eqb_neq; exact Hnz).
    rewrite u32_small by lia.
    destruct (kputu_fill_digits base ltac:(lia) 32 val (replicate 33 0) 0 34)
      as (ds & buf' & E & Hl & Ht & Hr & Hv & _ & Hh);
      [exact Hval|lia|lia|apply length_replicate|].
    change (Z.of_nat 0) with 0 in E. rewrite E.
    unfold lift at 1. unfold bind at 1. cbn [fst snd].
    rewrite Nat2Z.id.
    assert (Hds : (length ds <= 33)%nat).
    { cbn [Nat.add] in Ht. apply (f_equal length) in Ht.
      rewrite take_0, app_nil_l, length_rev, length_map in Ht.
      rewrite length_take in Ht. lia. }
    destruct (kputu_emit_printed buf' Hl (length ds) st Hds Hok) as (st' & E' & P).
    exists ds, st'. split; [exact E'|]. split.
    + cbn [Nat.add] in Ht. rewrite Ht, take_0, app_nil_l, rev_involutive in P. exact P.
    + split.
      * unfold digits_of. split; [exact Hr|]. split; [exact Hv|].
        destruct (Hh Hnz) as (d & ds' & -> & Hd). left. exact Hd.
      * intros _. exists buf'. split; [reflexivity|].
        cbn [Nat.add] in Ht. rewrite Ht, take_0. reflexivity.
Qed.

Lemma negate_wraps v : - 2 ^ 31 <= v < 0 -> u32 (i32 (- v)) = - v.
Proof.
  intros H. unfold u32, i32.
  change (2 ^ 31) with 2147483648 in *. change (2 ^ 32) with 4294967296.
  Z.div_mod_to_equations. lia.
Qed.

(** C8.  For every 32-bit value [val] and base [base >= 2], [kputu]
    prints the base-[base] representation [ds] of [val], most
    significant digit first: its digits are below the base, denote
    [val], and have no leading zero, zero being printed as the single
    digit 0.  A digit below 10 is printed as its decimal character and
    a digit from 10 to 35 as the letter ['a'] to ['z'] (for a base up
    to 36 the text is [map digit_glyph ds]); in base 10 and 16 the text
    is the decimal and the hexadecimal notation of [val].  The digits
    come from the division loop, which leaves them least significant
    first in the local buffer.  For every negative 32-bit [v], the most
    negative one included, [kputi v 10] prints ['-'] and then the
    decimal representation of the magnitude [- v], which is the decimal
    notation of [v]. *)
Theorem integer_formatting (st : kernel) (val base v : Z) :
  cursor_ok st ->
  0 <= val < 2 ^ 32 -> 2 <= base < 2 ^ 31 -> - 2 ^ 31 <= v < 0 ->
  (exists ds st',
     kputu val base st = Some (tt, st') /\
     printed (map digit_char ds) st st' /\
     digits_of base val ds /\
     (base <= 36 -> map digit_char ds = map digit_glyph ds) /\
     (base = 10 -> map digit_char ds = decimal val) /\
     (base = 16 -> map digit_char ds = hexadecimal val) /\
     (val <> 0 ->
      exists buf, kputu_fill 34 val (u32 base) (replicate 33 0) 0
                  = Some (buf, Z.of_nat (length ds)) /\
                  take (length ds) buf = rev (map digit_char ds))) /\
  (exists ds st',
     kputi v 10 st = Some (tt, st') /\
     printed (ch "-" :: map digit_glyph ds) st st' /\
     digits_of 10 (- v) ds /\
     ch "-" :: map digit_glyph ds = decimal v).
Proof.
  intros Hok Hval Hbase Hv. split.
  - destruct (kputu_printed val base st Hval Hbase Hok) as (ds & st' & E & P & D & B).
    exists ds, st'.
    split; [exact E|]. split; [exact P|]. split; [exact D|].
    assert (G : base <= 36 -> map digit_char ds = map digit_glyph ds).
    { intros Hb. apply (map_digit_glyph base); [exact Hb|apply D]. }
    split; [exact G|]. split; [|split; [|exact B]].
    + intros ->. rewrite G by lia. apply digits_decimal. exact D.
    + intros ->. rewrite G by lia. apply digits_hexadecimal. exact D.
  - unfold kputi.
    replace (v <? 0) with true by (symmetry; apply Z.ltb_lt; lia).
    destruct (vga_putc_printed (ch "-") st Hok) as (s1 & E1 & P1).
    rewrite (bind_some _ _ _ _ _ E1). rewrite negate_wraps by exact Hv.
    destruct (kputu_printed (- v) 10 s1) as (ds & st' & E & P & D & _);
      [change (2 ^ 32) with 4294967296; change (2 ^ 31) with 2147483648 in Hv; lia
      |change (2 ^ 31) with 2147483648; lia|apply P1|].
    rewrite (map_digit_glyph 10) in P by (lia || apply D).
    exists ds, st'. split; [exact E|]. split; [|split; [exact D|]].
    + exact (printed_app _ _ _ _ _ P1 P).
    + rewrite decimal_neg by lia. f_equal. apply digits_decimal. exact D.
Qed.

Lemma integer_formatting_witness :
  cursor_ok image /\
  (exists ds st',
     kputu 255 16 image = Some (tt, st') /\
     printed (map digit_char ds) image st' /\
     digits_of 16 255 ds /\
     (16 <= 36 -> map digit_char ds = map digit_glyph ds) /\
     (16 = 10 -> map digit_char ds = decimal 255) /\
     (16 = 16 -> map digit_char ds = hexadecimal 255) /\
     (255 <> 0 ->
      exists buf, kputu_fill 34 255 (u32 16) (replicate 33 0) 0
                  = Some (buf, Z.of_nat (length ds)) /\
                  take (length ds) buf = rev (map digit_char ds))) /\
  (exists ds st',
     kputi (- 2 ^ 31) 10 image = Some (tt, st') /\
     printed (ch "-" :: map digit_glyph ds) image st' /\
     digits_of 10 (- - 2 ^ 31) ds /\
     ch "-" :: map digit_glyph ds = decimal (- 2 ^ 31)).
Proof.
  assert (H : cursor_ok image)
    by (unfold cursor_ok; cbn; unfold VGA_WIDTH, VGA_HEIGHT; lia).
  split; [exact H|].
  apply (integer_formatting image 255 16 (- 2 ^ 31) H); lia.
Defined.

(** The two formats [kprintf] uses, on concrete values. *)
Example kputu_hex_beef :
  option_map (fun r => tty (snd r)) (kputu 48879 16 image) = Some (cstr "beef").
Proof. vm_compute. reflexivity. Qed.

Example kputi_int_min :
  option_map (fun r => tty (snd r)) (kputi (- 2 ^ 31) 10 image)
  = Some (cstr "-2147483648").
Proof. vm_compute. reflexivity. Qed.

(** ** The text of [utoa] and [itoa] *)

Lemma utoa_digits val base :
  0 <= val < 2 ^ 32 -> 2 <= base < 2 ^ 31 ->
  exists ds, digits_of base val ds /\ utoa val base = map digit_char ds.
Proof.
  intros Hval Hbase. unfold utoa.
  destruct (Z.eq_dec val 0) as [->|Hnz].
  - exists [0]. split; [|reflexivity].
    split; [constructor; [lia|constructor]|]. split; [reflexivity|]. right. auto.
  - replace (val =? 0) with false by (symmetry; apply Z.eqb_neq; exact Hnz).
    rewrite u32_small by lia.
    destruct (kputu_fill_digits base ltac:(lia) 32 val (replicate 33 0) 0 34)
      as (ds & buf' & E & Hl & Ht & Hr & Hv & _ & Hh);
      [exact Hval|lia|lia|apply length_replicate|].
    change (Z.of_nat 0) with 0 in E. rewrite E. cbn [Nat.add] in Ht |- *.
    rewrite Nat2Z.id, Ht, take_0, app_nil_l, rev_involutive.
    exists ds. split; [|reflexivity].
    split; [exact Hr|]. split; [exact Hv|].
    destruct (Hh Hnz) as (d & ds' & -> & Hd). left. exact Hd.
Qed.

Lemma utoa_decimal v : 0 <= v < 2 ^ 32 -> utoa v 10 = decimal v.
Proof.
  intros Hv. destruct (utoa_digits v 10 Hv ltac:(lia)) as (ds & D & ->).
  rewrite (map_digit_glyph 10) by (lia || apply D). apply digits_decimal. exact D.
Qed.

Lemma utoa_hexadecimal v : 0 <= v < 2 ^ 32 -> utoa v 16 = hexadecimal v.
Proof.
  intros Hv. destruct (utoa_digits v 16 Hv ltac:(lia)) as (ds & D & ->).
  rewrite (map_digit_glyph 16) by (lia || apply D). apply digits_hexadecimal. exact D.
Qed.

Lemma itoa_decimal v : - 2 ^ 31 <= v < 2 ^ 31 -> itoa v 10 = decimal v.
Proof.
  intros Hv. unfold itoa. destruct (v <? 0) eqn:E.
  - apply Z.ltb_lt in E. rewrite negate_wraps by lia.
    rewrite decimal_neg by lia. f_equal. apply utoa_decimal.
    change (2 ^ 32) with 4294967296. change (2 ^ 31) with 2147483648 in Hv. lia.
  - apply Z.ltb_ge in E. rewrite u32_small; [apply utoa_decimal|];
      change (2 ^ 32) with 4294967296; change (2 ^ 31) with 2147483648 in Hv; lia.
Qed.

Lemma i32_range z : - 2 ^ 31 <= i32 z < 2 ^ 31.
Proof.
  unfold i32. pose proof (Z.mod_pos_bound (z + 2 ^ 31) (2 ^ 32) ltac:(lia)).
  change (2 ^ 32) with 4294967296 in *. change (2 ^ 31) with 2147483648 in *. lia.
Qed.

Lemma i32_small z : - 2 ^ 31 <= z < 2 ^ 31 -> i32 z = z.
Proof.
  intros H. unfold i32.
  change (2 ^ 32) with 4294967296 in *. change (2 ^ 31) with 2147483648 in *.
  rewrite Z.mod_small by lia. lia.
Qed.

(** ** File store: basic facts *)

Lemma c_str_drop k : forall s,
  c_str (drop k s) =
  if nth k s 0 =? 0 then [] else nth k s 0 :: c_str (drop (S k) s).
Proof.
  induction k as [|k IH]; intros [|c s];
    first [reflexivity | exact (IH s) | cbn; destruct (c =? 0); reflexivity].
Qed.

Lemma c_str_nonzero s : Forall (fun c => c <> 0) (c_str s).
Proof.
  induction s as [|c s IH]; cbn; [constructor|].
  destruct (c =? 0) eqn:E; [constructor|].
  apply Z.eqb_neq in E. constructor; assumption.
Qed.

Lemma c_str_id s : Forall (fun c => c <> 0) s -> c_str s = s.
Proof.
  induction 1 as [|c s Hc _ IH]; [reflexivity|].
  cbn. apply Z.eqb_neq in Hc. rewrite Hc, IH. reflexivity.
Qed.

Lemma c_str_app_nul s t : Forall (fun c => c <> 0) s -> c_str (s ++ 0 :: t) = s.
Proof.
  induction 1 as [|c s Hc _ IH]; [reflexivity|].
  cbn. apply Z.eqb_neq in Hc. rewrite Hc, IH. reflexivity.
Qed.

Lemma c_str_idem s : c_str (c_str s) = c_str s.
Proof. apply c_str_id, c_str_nonzero. Qed.

Lemma c_str_take n s : c_str (take n (c_str s)) = take n (c_str s).
Proof. apply c_str_id, Forall_take, c_str_nonzero. Qed.

(** A terminated 16-byte array holds a string of at most 15 characters. *)
Lemma c_str_terminated a :
  terminated a -> (length (c_str a) <= 15)%nat.
Proof.
  intros (j & Hj & Hz).
  assert (H : forall (s : list Z) (j : nat), nth j s 0 = 0 -> (length (c_str s) <= j)%nat).
  { clear. induction s as [|c s IH]; intros j Hz; cbn; [lia|].
    destruct (c =? 0) eqn:E; cbn; [lia|].
    destruct j as [|j]; cbn in Hz; [apply Z.eqb_neq in E; contradiction|].
    specialize (IH j Hz). lia. }
  specialize (H a j Hz). lia.
Qed.

Lemma chr_nth s (k : nat) : chr s (Z.of_nat k) = nth k s 0.
Proof.
  unfold chr. replace (Z.of_nat k <? 0) with false by (symmetry; apply Z.ltb_ge; lia).
  rewrite Nat2Z.id. reflexivity.
Qed.

(** The comparison loop of [fs_find] decides equality of the stored
    string and the queried one. *)
Lemma name_scan_spec a nm : forall (fuel k : nat),
  (k + fuel = 16)%nat ->
  (exists j, (k <= j < 16)%nat /\ nth j a 0 = 0) ->
  exists k' : nat,
    name_scan fuel a nm (Z.of_nat k) = Z.of_nat k' /\ (k <= k' < 16)%nat /\
    ((nth k' a 0 = 0 /\ nth k' nm 0 = 0) <-> c_str (drop k a) = c_str (drop k nm)).
Proof.
  induction fuel as [|fuel IH]; intros k Hk (j & Hj & Hz); [lia|].
  cbn [name_scan]. rewrite chr_nth, Nat2Z.id.
  rewrite (c_str_drop k a), (c_str_drop k nm).
  replace (Z.of_nat k <? MAX_NAME) with true
    by (symmetry; apply Z.ltb_lt; unfold MAX_NAME; lia).
  cbn [andb].
  destruct (nth k a 0 =? 0) eqn:Ea; cbn [negb andb].
  { exists k. split; [reflexivity|]. split; [lia|].
    apply Z.eqb_eq in Ea.
    destruct (nth k nm 0 =? 0) eqn:En.
    - apply Z.eqb_eq in En. tauto.
    - apply Z.eqb_neq in En. split; [tauto|discriminate]. }
  destruct (nth k nm 0 =? 0) eqn:En; cbn [negb andb].
  { exists k. split; [reflexivity|]. split; [lia|].
    apply Z.eqb_neq in Ea. split; [tauto|discriminate]. }
  destruct (nth k a 0 =? nth k nm 0) eqn:Eq.
  - apply Z.eqb_eq in Eq. apply Z.eqb_neq in Ea.
    destruct (IH (S k)) as (k' & E & Hk' & Hiff); [lia| |].
    { exists j. split; [|exact Hz].
      destruct (Nat.eq_dec j k) as [->|]; [contradiction|lia]. }
    exists k'. replace (Z.of_nat k + 1) with (Z.of_nat (S k)) by lia.
    split; [exact E|]. split; [lia|].
    rewrite Hiff, Eq. split; [congruence|]. intros H. injection H. auto.
  - exists k. split; [reflexivity|]. split; [lia|].
    apply Z.eqb_neq in Eq. apply Z.eqb_neq in Ea.
    split; [tauto|]. intros H. injection H. intros. contradiction.
Qed.

Lemma name_match a nm :
  terminated a ->
  exists x, rd MAX_NAME a (name_scan 16 a nm 0) = Some x /\
    ((x =? 0) && (chr nm (name_scan 16 a nm 0) =? 0) = true <-> c_str a = c_str nm).
Proof.
  intros (j & Hj & Hz).
  destruct (name_scan_spec a nm 16 0) as (k' & E & Hk' & Hiff); [lia| |].
  { exists j. split; [lia|exact Hz]. }
  change (Z.of_nat 0) with 0 in E. rewrite E. unfold rd.
  replace ((0 <=? Z.of_nat k') && (Z.of_nat k' <? MAX_NAME)) with true
    by (symmetry; apply andb_true_iff; split;
        [apply Z.leb_le|apply Z.ltb_lt; unfold MAX_NAME]; lia).
  rewrite Nat2Z.id, chr_nth. eexists. split; [reflexivity|].
  rewrite !drop_0 in Hiff. rewrite <- Hiff, andb_true_iff, !Z.eqb_eq. tauto.
Qed.

Lemma file_at_ok fs i : fs_wf fs -> 0 <= i < 16 -> entry_ok (file_at fs i).
Proof.
  intros [Hl Hf] Hi. unfold file_at.
  apply Forall_lookup_total_1; [exact Hf|lia].
Qed.

Lemma file_at_set_same fs i e :
  0 <= i < 16 -> length fs = 16%nat -> file_at (set_file i e fs) i = e.
Proof.
  intros Hi Hl. unfold file_at, set_file.
  apply list_lookup_total_insert_eq. lia.
Qed.

Lemma file_at_set_other fs i j e :
  0 <= i -> 0 <= j -> i <> j -> file_at (set_file i e fs) j = file_at fs j.
Proof.
  intros Hi Hj Hne. unfold file_at, set_file.
  apply list_lookup_total_insert_ne. lia.
Qed.

Lemma set_file_twice fs i e1 e2 :
  set_file i e2 (set_file i e1 fs) = set_file i e2 fs.
Proof. unfold set_file. apply list_insert_insert_eq. Qed.

Lemma set_file_wf fs i e : fs_wf fs -> entry_ok e -> fs_wf (set_file i e fs).
Proof.
  intros [Hl Hf] He. unfold fs_wf, set_file. rewrite length_insert.
  split; [exact Hl|]. apply Forall_insert; assumption.
Qed.

(** [fs_find] returns the first used slot holding the name, or -1. *)
Lemma fs_find_loop_spec nm fs : fs_wf fs ->
  forall (n : nat) i, 0 <= i -> i + Z.of_nat n = 16 ->
  exists r, fs_find_loop n i nm fs = Some r /\
    ((r = -1 /\ forall j, i <= j < 16 -> ~ slot_named fs nm j) \/
     (i <= r < 16 /\ slot_named fs nm r /\
      forall j, i <= j < r -> ~ slot_named fs nm j)).
Proof.
  intros Hwf. induction n as [|n IH]; intros i Hi Hn.
  - exists (-1). split; [reflexivity|]. left. split; [reflexivity|]. intros; lia.
  - cbn [fs_find_loop].
    destruct (IH (i + 1)) as (r & E & Hr); [lia|lia|].
    assert (Hskip : ~ slot_named fs nm i ->
      exists r, Some r = Some r /\
        fs_find_loop n (i + 1) nm fs = Some r /\
        ((r = -1 /\ forall j, i <= j < 16 -> ~ slot_named fs nm j) \/
         (i <= r < 16 /\ slot_named fs nm r /\
          forall j, i <= j < r -> ~ slot_named fs nm j))).
    { intros Hno. exists r. split; [reflexivity|]. split; [exact E|].
      destruct Hr as [[-> Hall]|(Hrange & Hnamed & Hbefore)].
      - left. split; [reflexivity|]. intros j Hj.
        destruct (Z.eq_dec j i) as [->|]; [exact Hno|apply Hall; lia].
      - right. split; [lia|]. split; [exact Hnamed|]. intros j Hj.
        destruct (Z.eq_dec j i) as [->|]; [exact Hno|apply Hbefore; lia]. }
    destruct (used (file_at fs i) =? 0) eqn:Eu; cbn [negb].
    + apply Z.eqb_eq in Eu.
      destruct Hskip as (r' & _ & E' & Hr'); [intros [Hu _]; contradiction|].
      exists r'. auto.
    + apply Z.eqb_neq in Eu.
      destruct (file_at_ok fs i Hwf ltac:(lia)) as (_ & _ & Ht).
      destruct (name_match (name (file_at fs i)) nm (Ht Eu)) as (x & Ex & Hiff).
      rewrite Ex.
      destruct ((x =? 0) && (chr nm (name_scan 16 (name (file_at fs i)) nm 0) =? 0)) eqn:Em.
      * exists i. split; [reflexivity|]. right. split; [lia|].
        split; [split; [exact Eu|apply Hiff; reflexivity]|]. intros; lia.
      * destruct Hskip as (r' & _ & E' & Hr').
        { intros [_ Hs]. apply Hiff in Hs. discriminate. }
        exists r'. auto.
Qed.

Lemma fs_find_spec nm fs : fs_wf fs ->
  exists r, fs_find nm fs = Some r /\
    ((r = -1 /\ forall j, 0 <= j < 16 -> ~ slot_named fs nm j) \/
     (0 <= r < 16 /\ slot_named fs nm r /\
      forall j, 0 <= j < r -> ~ slot_named fs nm j)).
Proof. intros Hwf. apply (fs_find_loop_spec nm fs Hwf 16 0); lia. Qed.

(** The result of [fs_find] is determined by which slots hold the name. *)
Lemma fs_find_unique nm fs r1 r2 :
  ((r1 = -1 /\ forall j, 0 <= j < 16 -> ~ slot_named fs nm j) \/
   (0 <= r1 < 16 /\ slot_named fs nm r1 /\
    forall j, 0 <= j < r1 -> ~ slot_named fs nm j)) ->
  ((r2 = -1 /\ forall j, 0 <= j < 16 -> ~ slot_named fs nm j) \/
   (0 <= r2 < 16 /\ slot_named fs nm r2 /\
    forall j, 0 <= j < r2 -> ~ slot_named fs nm j)) ->
  r1 = r2.
Proof.
  intros [[-> H1]|(R1 & N1 & B1)] [[-> H2]|(R2 & N2 & B2)].
  - reflexivity.
  - exfalso. exact (H1 r2 R2 N2).
  - exfalso. exact (H2 r1 R1 N1).
  - destruct (Z_lt_le_dec r1 r2) as [Hlt|Hge].
    + exfalso. apply (B2 r1); [lia|exact N1].
    + destruct (Z.eq_dec r1 r2); [assumption|].
      exfalso. apply (B1 r2); [lia|exact N2].
Qed.

Lemma first_free_spec fs : forall (n : nat) i, 0 <= i -> i + Z.of_nat n = 16 ->
  let r := first_free n i fs in
  (r = -1 /\ forall j, i <= j < 16 -> used (file_at fs j) <> 0) \/
  (i <= r < 16 /\ used (file_at fs r) = 0 /\
   forall j, i <= j < r -> used (file_at fs j) <> 0).
Proof.
  induction n as [|n IH]; intros i Hi Hn; cbn [first_free].
  - left. split; [reflexivity|]. intros; lia.
  - destruct (used (file_at fs i) =? 0) eqn:Eu.
    + apply Z.eqb_eq in Eu. right. split; [lia|]. split; [exact Eu|]. intros; lia.
    + apply Z.eqb_neq in Eu.
      destruct (IH (i + 1)) as [[E Hall]|(Hr & Hu & Hb)]; [lia|lia| |].
      * left. split; [exact E|]. intros j Hj.
        destruct (Z.eq_dec j i) as [->|]; [exact Eu|apply Hall; lia].
      * right. split; [lia|]. split; [exact Hu|]. intros j Hj.
        destruct (Z.eq_dec j i) as [->|]; [exact Eu|apply Hb; lia].
Qed.

(** ** File store: the copy loops *)

Lemma c_str_nth_lt s : forall n, (n < length (c_str s))%nat ->
  nth n s 0 = nth n (c_str s) 0 /\ nth n s 0 <> 0.
Proof.
  induction s as [|c s IH]; intros n Hn; cbn in *; [lia|].
  destruct (c =? 0) eqn:E; cbn in *; [lia|].
  apply Z.eqb_neq in E.
  destruct n as [|n]; [auto|]. apply IH. lia.
Qed.

Lemma c_str_nth_end s : nth (length (c_str s)) s 0 = 0.
Proof.
  induction s as [|c s IH]; cbn; [reflexivity|].
  destruct (c =? 0) eqn:E; cbn; [apply Z.eqb_eq in E; exact E|exact IH].
Qed.

Lemma insert_at_boundary (pre old : list Z) c :
  (length pre < length old)%nat ->
  <[length pre := c]> (pre ++ drop (length pre) old)
  = (pre ++ [c]) ++ drop (S (length pre)) old.
Proof.
  intros H.
  replace (length pre) with (length pre + 0)%nat at 1 by lia.
  rewrite insert_app_r.
  destruct (drop (length pre) old) as [|x rest] eqn:E.
  { apply (f_equal length) in E. rewrite length_drop in E. cbn in E. lia. }
  cbn. rewrite <- app_assoc. cbn. do 2 f_equal.
  replace (S (length pre)) with (length pre + 1)%nat by lia.
  rewrite <- drop_drop, E. reflexivity.
Qed.

(** [copy_string] from index 0 copies the string, cut at [limit]
    characters, over the start of the destination. *)
Lemma copy_string_spec src dst0 (D limit : nat) :
  length dst0 = D -> (limit <= D)%nat ->
  let m := Nat.min limit (length (c_str src)) in
  forall (fuel n : nat), (n <= m)%nat -> (m <= n + fuel)%nat ->
  copy_string fuel src (take n (c_str src) ++ drop n dst0)
              (Z.of_nat D) (Z.of_nat limit) (Z.of_nat n)
  = Some (take m (c_str src) ++ drop m dst0, Z.of_nat m).
Proof.
  intros HD Hlim m. induction fuel as [|fuel IH]; intros n Hn Hfuel.
  - assert (n = m) by lia. subst n. cbn [copy_string]. rewrite chr_nth.
    destruct (Nat.eq_dec m limit) as [E|E].
    + replace (Z.of_nat m <? Z.of_nat limit) with false
        by (symmetry; apply Z.ltb_ge; lia). reflexivity.
    + assert (Hm : m = length (c_str src)) by lia.
      rewrite Hm at 2. rewrite c_str_nth_end. rewrite andb_false_r. reflexivity.
  - cbn [copy_string]. rewrite chr_nth.
    destruct (Nat.eq_dec n m) as [->|Hne].
    + destruct (Nat.eq_dec m limit) as [E|E].
      * replace (Z.of_nat m <? Z.of_nat limit) with false
          by (symmetry; apply Z.ltb_ge; lia). reflexivity.
      * assert (Hm : m = length (c_str src)) by lia.
        rewrite Hm at 2. rewrite c_str_nth_end. rewrite andb_false_r. reflexivity.
    + assert (Hlt : (n < length (c_str src))%nat) by lia.
      destruct (c_str_nth_lt src n Hlt) as [Hnth Hnz].
      replace (Z.of_nat n <? Z.of_nat limit) with true
        by (symmetry; apply Z.ltb_lt; lia).
      replace (nth n src 0 =? 0) with false by (symmetry; apply Z.eqb_neq; exact Hnz).
      cbn [negb andb]. unfold wr.
      replace ((0 <=? Z.of_nat n) && (Z.of_nat n <? Z.of_nat D)) with true
        by (symmetry; apply andb_true_iff; split; [apply Z.leb_le|apply Z.ltb_lt]; lia).
      rewrite Nat2Z.id.
      assert (Hlen : length (take n (c_str src)) = n) by (rewrite length_take; lia).
      assert (Hstep : <[n := nth n src 0]> (take n (c_str src) ++ drop n dst0)
                      = take (S n) (c_str src) ++ drop (S n) dst0).
      { pose proof (insert_at_boundary (take n (c_str src)) dst0 (nth n src 0)) as Hb.
        rewrite Hlen in Hb. rewrite Hb by lia.
        rewrite Hnth.
        destruct (lookup_lt_is_Some_2 (c_str src) n Hlt) as [x Hx].
        rewrite (take_S_r _ _ x Hx), (nth_lookup_Some _ _ _ _ Hx). reflexivity. }
      rewrite Hstep.
      replace (Z.of_nat n + 1) with (Z.of_nat (S n)) by lia.
      apply IH; lia.
Qed.

(** [copy_bytes] from index 0 copies [min len limit] bytes over the
    start of the destination. *)
Lemma copy_bytes_spec src dst0 (D limit m : nat) len :
  length dst0 = D -> (limit <= D)%nat ->
  Z.of_nat m = Z.min len (Z.of_nat limit) -> (m <= length src)%nat ->
  forall (fuel n : nat), (n <= m)%nat -> (m <= n + fuel)%nat ->
  copy_bytes fuel src (take n src ++ drop n dst0)
             (Z.of_nat D) len (Z.of_nat limit) (Z.of_nat n)
  = Some (take m src ++ drop m dst0, Z.of_nat m).
Proof.
  intros HD Hlim Hm Hsrc. induction fuel as [|fuel IH]; intros n Hn Hfuel.
  - assert (n = m) by lia. subst n. cbn [copy_bytes].
    replace ((Z.of_nat m <? len) && (Z.of_nat m <? Z.of_nat limit)) with false;
      [reflexivity|].
    symmetry. apply andb_false_iff. rewrite !Z.ltb_ge. lia.
  - cbn [copy_bytes].
    destruct (Nat.eq_dec n m) as [->|Hne].
    + replace ((Z.of_nat m <? len) && (Z.of_nat m <? Z.of_nat limit)) with false;
        [reflexivity|].
      symmetry. apply andb_false_iff. rewrite !Z.ltb_ge. lia.
    + replace ((Z.of_nat n <? len) && (Z.of_nat n <? Z.of_nat limit)) with true
        by (symmetry; apply andb_true_iff; rewrite !Z.ltb_lt; lia).
      unfold rd, wr.
      replace ((0 <=? Z.of_nat n) && (Z.of_nat n <? Z.of_nat (length src))) with true
        by (symmetry; apply andb_true_iff; split; [apply Z.leb_le|apply Z.ltb_lt]; lia).
      replace ((0 <=? Z.of_nat n) && (Z.of_nat n <? Z.of_nat D)) with true
        by (symmetry; apply andb_true_iff; split; [apply Z.leb_le|apply Z.ltb_lt]; lia).
      rewrite Nat2Z.id.
      assert (Hlen : length (take n src) = n) by (rewrite length_take; lia).
      assert (Hstep : <[n := nth n src 0]> (take n src ++ drop n dst0)
                      = take (S n) src ++ drop (S n) dst0).
      { pose proof (insert_at_boundary (take n src) dst0 (nth n src 0)) as Hb.
        rewrite Hlen in Hb. rewrite Hb by lia.
        destruct (lookup_lt_is_Some_2 src n ltac:(lia)) as [x Hx].
        rewrite (take_S_r _ _ x Hx), (nth_lookup_Some _ _ _ _ Hx). reflexivity. }
      rewrite Hstep.
      replace (Z.of_nat n + 1) with (Z.of_nat (S n)) by lia.
      apply IH; lia.
Qed.

Lemma stored_name_terminated nm a : terminated (stored_name nm a).
Proof.
  unfold terminated, stored_name.
  exists (length (take 15 (c_str nm))). split.
  - rewrite length_take. lia.
  - rewrite app_nth2 by lia. rewrite Nat.sub_diag. reflexivity.
Qed.

Lemma stored_name_length nm a : length a = 16%nat -> length (stored_name nm a) = 16%nat.
Proof.
  intros H. unfold stored_name.
  rewrite !length_app, length_drop, H. cbn [length].
  assert (length (take 15 (c_str nm)) <= 15)%nat by (rewrite length_take; lia). lia.
Qed.

Lemma stored_name_str nm a : c_str (stored_name nm a) = take 15 (c_str nm).
Proof.
  unfold stored_name. cbn [app].
  apply c_str_app_nul, Forall_take, c_str_nonzero.
Qed.

(** Copying a name into a 16-byte array and terminating it. *)
Lemma copy_name nm a :
  length a = 16%nat ->
  exists b j, copy_string 15 nm a MAX_NAME (MAX_NAME - 1) 0 = Some (b, j) /\
              wr MAX_NAME b j NUL = Some (stored_name nm a).
Proof.
  intros Ha.
  pose proof (copy_string_spec nm a 16 15 Ha ltac:(lia) 15 0 ltac:(lia) ltac:(lia)) as H.
  cbn [take drop app] in H. cbv zeta in H.
  change (Z.of_nat 16) with MAX_NAME in H.
  change (Z.of_nat 15) with (MAX_NAME - 1) in H.
  change (Z.of_nat 0) with 0 in H.
  set (m := Nat.min 15 (length (c_str nm))) in *.
  eexists _, _. split; [exact H|].
  unfold wr, MAX_NAME.
  replace ((0 <=? Z.of_nat m) && (Z.of_nat m <? 16)) with true
    by (symmetry; apply andb_true_iff; split; [apply Z.leb_le|apply Z.ltb_lt]; lia).
  rewrite Nat2Z.id. f_equal.
  assert (Hm : length (take 15 (c_str nm)) = m) by (rewrite length_take; reflexivity).
  assert (Ht : take m (c_str nm) = take 15 (c_str nm)).
  { unfold m. destruct (Nat.le_ge_cases 15 (length (c_str nm))) as [Hle|Hge].
    - rewrite Nat.min_l by exact Hle. reflexivity.
    - rewrite Nat.min_r by exact Hge. rewrite !take_ge by lia. reflexivity. }
  unfold stored_name. rewrite Hm, Ht.
  pose proof (insert_at_boundary (take 15 (c_str nm)) a NUL) as Hb.
  rewrite Hm in Hb. rewrite Hb by lia. rewrite <- app_assoc. reflexivity.
Qed.

(** ** File store: create and write *)

Lemma length_set_file i e fs : length (set_file i e fs) = length fs.
Proof. apply length_insert. Qed.

Lemma created_ok nm e : entry_ok e -> entry_ok (created nm e).
Proof.
  intros (Hn & Hd & _). unfold entry_ok, created. cbn.
  split; [apply stored_name_length; exact Hn|]. split; [exact Hd|].
  intros _. apply stored_name_terminated.
Qed.

Lemma written_ok src n e :
  entry_ok e -> 0 <= n <= 512 -> n <= Z.of_nat (length src) ->
  entry_ok (written src n e).
Proof.
  intros (Hn & Hd & Ht) Hr Hs. unfold entry_ok, written. cbn.
  split; [exact Hn|]. split; [|exact Ht].
  rewrite length_app, length_take, length_drop, Hd. lia.
Qed.

(** [fs_create] as a function of what [fs_find] and the search for a
    free slot return. *)
Lemma fs_create_eq nm fs : fs_wf fs ->
  exists r, fs_find nm fs = Some r /\ -1 <= r < 16 /\
    fs_create nm fs =
    Some (if 0 <=? r then (-1, fs)
          else let i := first_free 16 0 fs in
               if 0 <=? i then (i, set_file i (created nm (file_at fs i)) fs)
               else (-1, fs)).
Proof.
  intros Hwf. destruct (fs_find_spec nm fs Hwf) as (r & Er & Hr).
  exists r. split; [exact Er|]. split; [lia|].
  unfold fs_create. rewrite Er.
  destruct (0 <=? r); [reflexivity|].
  pose proof (first_free_spec fs 16 0 ltac:(lia) ltac:(lia)) as Hfree.
  cbv zeta in *. set (i := first_free 16 0 fs) in *.
  destruct (0 <=? i) eqn:Ei; [|reflexivity].
  apply Z.leb_le in Ei.
  assert (Hi : 0 <= i < 16) by (destruct Hfree as [[E1 _]|[Hr' _]]; lia).
  destruct Hwf as [Hl Hf].
  rewrite !file_at_set_same by (rewrite ?length_set_file; assumption).
  cbn [name set_size set_used].
  destruct (file_at_ok fs i (conj Hl Hf) Hi) as (Hn & _).
  destruct (copy_name nm (name (file_at fs i)) Hn) as (b & j & Ec & Ew).
  rewrite Ec, Ew. rewrite !set_file_twice. reflexivity.
Qed.

Lemma fs_create_wf nm fs r fs' :
  fs_wf fs -> fs_create nm fs = Some (r, fs') -> fs_wf fs'.
Proof.
  intros Hwf E. destruct (fs_create_eq nm fs Hwf) as (r0 & _ & Hr0 & E').
  pose proof (first_free_spec fs 16 0 ltac:(lia) ltac:(lia)) as Hfree.
  cbv zeta in Hfree, E'. set (i := first_free 16 0 fs) in *. clearbody i.
  rewrite E' in E.
  destruct (0 <=? r0); [injection E as <- <-; exact Hwf|].
  destruct (0 <=? i) eqn:Ei; injection E as <- <-; [|exact Hwf].
  apply Z.leb_le in Ei.
  apply set_file_wf; [exact Hwf|]. apply created_ok, file_at_ok; [exact Hwf|].
  destruct Hfree as [[E1 _]|[Hr _]]; lia.
Qed.

(** Writing [len] bytes into the slot [idx] of a well-formed table. *)
Lemma write_slot src len fs idx :
  fs_wf fs -> 0 <= idx < 16 -> 0 <= len <= Z.of_nat (length src) ->
  exists d,
    copy_bytes 512 src (data (file_at fs idx)) MAX_FILE_SIZE len MAX_FILE_SIZE 0
    = Some (d, Z.min len MAX_FILE_SIZE) /\
    set_file idx (set_size (Z.min len MAX_FILE_SIZE)
                    (file_at (set_file idx (set_data d (file_at fs idx)) fs) idx))
             (set_file idx (set_data d (file_at fs idx)) fs)
    = set_file idx (written src (Z.min len MAX_FILE_SIZE) (file_at fs idx)) fs.
Proof.
  intros Hwf Hidx Hlen.
  destruct (file_at_ok fs idx Hwf Hidx) as (_ & Hd & _).
  set (n := Z.min len MAX_FILE_SIZE).
  assert (Hn : 0 <= n <= 512) by (subst n; unfold MAX_FILE_SIZE; lia).
  pose proof (copy_bytes_spec src (data (file_at fs idx)) 512 512 (Z.to_nat n) len
                Hd ltac:(lia)) as H.
  specialize (H ltac:(subst n; unfold MAX_FILE_SIZE in *; lia) ltac:(subst n; lia)
                512%nat 0%nat ltac:(lia) ltac:(lia)).
  cbn [take drop app] in H.
  change (Z.of_nat 512) with MAX_FILE_SIZE in H. change (Z.of_nat 0) with 0 in H.
  rewrite Z2Nat.id in H by lia.
  eexists. split; [exact H|].
  destruct Hwf as [Hl _].
  rewrite file_at_set_same by assumption. rewrite set_file_twice. reflexivity.
Qed.

(** [fs_write] as a function of what [fs_find] and the search for a
    free slot return. *)
Lemma fs_write_eq nm src len fs :
  fs_wf fs -> 0 <= len <= Z.of_nat (length src) ->
  let n := Z.min len MAX_FILE_SIZE in
  exists r, fs_find nm fs = Some r /\ -1 <= r < 16 /\
    fs_write nm src len fs =
    Some (if 0 <=? r then (n, set_file r (written src n (file_at fs r)) fs)
          else let i := first_free 16 0 fs in
               if 0 <=? i
               then (n, set_file i (written src n (created nm (file_at fs i))) fs)
               else (-1, fs)).
Proof.
  intros Hwf Hlen n.
  destruct (fs_create_eq nm fs Hwf) as (r & Er & Hr & Ec).
  exists r. split; [exact Er|]. split; [exact Hr|].
  unfold fs_write. rewrite Er.
  destruct (0 <=? r) eqn:E0.
  - apply Z.leb_le in E0.
    assert (Hneg : (r <? 0) = false) by (apply Z.ltb_ge; lia).
    rewrite Hneg. cbn beta iota. rewrite Hneg.
    destruct (write_slot src len fs r Hwf ltac:(lia) Hlen) as (d & Ed & Es).
    rewrite Ed, Es. reflexivity.
  - apply Z.leb_gt in E0.
    replace (r <? 0) with true by (symmetry; apply Z.ltb_lt; lia).
    rewrite Ec. cbv zeta.
    pose proof (first_free_spec fs 16 0 ltac:(lia) ltac:(lia)) as Hfree.
    cbv zeta in Hfree. set (i := first_free 16 0 fs) in *.
    destruct (0 <=? i) eqn:Ei.
    + apply Z.leb_le in Ei.
      replace (i <? 0) with false by (symmetry; apply Z.ltb_ge; lia).
      assert (Hi : 0 <= i < 16) by (destruct Hfree as [[E1 _]|[Hr' _]]; lia).
      assert (Hwf1 : fs_wf (set_file i (created nm (file_at fs i)) fs)).
      { apply set_file_wf; [exact Hwf|]. apply created_ok, file_at_ok; assumption. }
      destruct (write_slot src len _ i Hwf1 Hi Hlen) as (d & Ed & Es).
      rewrite Ed, Es.
      rewrite file_at_set_same by (destruct Hwf; assumption).
      rewrite set_file_twice. reflexivity.
    + reflexivity.
Qed.

(** ** C3: the contract of [fs_write] *)

Lemma image_files_wf : fs_wf (files image).
Proof.
  split; [reflexivity|]. apply Forall_replicate.
  split; [reflexivity|]. split; [reflexivity|]. intros H. contradiction H. reflexivity.
Qed.

(** C3.  On a well-formed table, with [len] at most the length of the
    payload and [n = min len MAX_FILE_SIZE]: if a used slot holds the
    name, [fs_write] replaces the first [n] bytes of the buffer of the
    first such slot by those of the payload, sets its size to [n] and
    returns [n], changing nothing else.  If no used slot holds the name
    it runs [fs_create], which on this path fails exactly when no slot
    is free; [fs_write] then returns -1 and leaves the table as it was.
    Otherwise [fs_create] takes the lowest free slot and [fs_write]
    writes into the slot just created in the same way.  A count above
    the capacity is cut to it without any other sign.  In particular a
    2-byte write to a name no slot holds, with a slot free, yields a
    used slot of size 2 that holds the name (cut to 15 characters) and
    the two bytes. *)
Theorem fs_write_contract (nm src : list Z) (len : Z) (fs : list file_entry) :
  fs_wf fs -> 0 <= len <= Z.of_nat (length src) ->
  let n := Z.min len MAX_FILE_SIZE in
  (forall r, 0 <= r < 16 -> slot_named fs nm r ->
     (forall j, 0 <= j < r -> ~ slot_named fs nm j) ->
     fs_write nm src len fs
     = Some (n, set_file r (written src n (file_at fs r)) fs) /\
     size (file_at (set_file r (written src n (file_at fs r)) fs) r) = n /\
     take (Z.to_nat n) (data (file_at (set_file r (written src n (file_at fs r)) fs) r))
     = take (Z.to_nat n) src) /\
  ((forall j, 0 <= j < 16 -> ~ slot_named fs nm j) ->
     exists c fs1, fs_create nm fs = Some (c, fs1) /\
       (c < 0 <-> forall j, 0 <= j < 16 -> used (file_at fs j) <> 0) /\
       (c < 0 -> fs1 = fs /\ fs_write nm src len fs = Some (-1, fs)) /\
       (0 <= c ->
          c < 16 /\ used (file_at fs c) = 0 /\
          (forall j, 0 <= j < c -> used (file_at fs j) <> 0) /\
          fs1 = set_file c (created nm (file_at fs c)) fs /\
          fs_write nm src len fs
          = Some (n, set_file c (written src n (file_at fs1 c)) fs1))) /\
  ((forall j, 0 <= j < 16 -> ~ slot_named fs nm j) -> len = 2 ->
     (exists j, 0 <= j < 16 /\ used (file_at fs j) = 0) ->
     exists c fs',
       fs_write nm src len fs = Some (2, fs') /\ 0 <= c < 16 /\
       used (file_at fs c) = 0 /\
       used (file_at fs' c) = 1 /\ size (file_at fs' c) = 2 /\
       c_str (name (file_at fs' c)) = take 15 (c_str nm) /\
       take 2 (data (file_at fs' c)) = take 2 src).
Proof.
  intros Hwf Hlen n.
  destruct (fs_write_eq nm src len fs Hwf Hlen) as (r & Er & Hr & Ew).
  destruct (fs_create_eq nm fs Hwf) as (r' & Er' & _ & Ec).
  assert (r' = r) by congruence. subst r'.
  destruct (fs_find_spec nm fs Hwf) as (r0 & Er0 & Hfind).
  assert (r0 = r) by congruence. subst r0.
  pose proof (first_free_spec fs 16 0 ltac:(lia) ltac:(lia)) as Hfree.
  cbv zeta in Hfree, Ew, Ec. fold n in Ew.
  set (i := first_free 16 0 fs) in *. clearbody i.
  assert (Hn : 0 <= n <= 512) by (subst n; unfold MAX_FILE_SIZE; lia).
  assert (Hnone : (forall j, 0 <= j < 16 -> ~ slot_named fs nm j) -> r = -1).
  { intros Hno. destruct Hfind as [[-> _]|(Hr1 & Hn1 & _)]; [reflexivity|].
    exfalso. exact (Hno r Hr1 Hn1). }
  destruct Hwf as [Hl Hf].
  split; [|split].
  - intros s Hs Hnamed Hfirst.
    assert (r = s).
    { apply (fs_find_unique nm fs); [exact Hfind|]. right. auto. }
    subst s.
    replace (0 <=? r) with true in Ew by (symmetry; apply Z.leb_le; lia).
    split; [exact Ew|].
    rewrite file_at_set_same by (assumption || lia). cbn [size data written].
    split; [reflexivity|].
    rewrite take_app_le by (rewrite length_take; lia).
    rewrite take_take. f_equal. lia.
  - intros Hno. rewrite (Hnone Hno) in Ew, Ec. cbn [Z.leb] in Ew, Ec.
    destruct Hfree as [[-> Hall]|(Hi & Hu & Hb)].
    + exists (-1), fs. cbn [Z.leb] in *. split; [exact Ec|].
      split; [split; [intros _; exact Hall|lia]|]. split; [auto|lia].
    + replace (0 <=? i) with true in Ew, Ec by (symmetry; apply Z.leb_le; lia).
      exists i, (set_file i (created nm (file_at fs i)) fs).
      split; [exact Ec|]. split.
      { split; [lia|]. intros Hall. exfalso. exact (Hall i ltac:(lia) Hu). }
      split; [lia|]. intros _.
      split; [lia|]. split; [exact Hu|]. split; [intros j Hj; apply Hb; lia|].
      split; [reflexivity|].
      rewrite file_at_set_same by (assumption || lia).
      rewrite set_file_twice. exact Ew.
  - intros Hno H2 (j & Hj & Hju).
    rewrite (Hnone Hno) in Ew. cbn [Z.leb] in Ew.
    destruct Hfree as [[-> Hall]|(Hi & Hu & _)]; [exfalso; exact (Hall j Hj Hju)|].
    replace (0 <=? i) with true in Ew by (symmetry; apply Z.leb_le; lia).
    assert (Hn2 : n = 2) by (subst n len; reflexivity).
    rewrite Hn2 in Ew.
    exists i, (set_file i (written src 2 (created nm (file_at fs i))) fs).
    split; [exact Ew|]. split; [lia|]. split; [exact Hu|].
    rewrite file_at_set_same by (assumption || lia). cbn [used size name data written created].
    split; [reflexivity|]. split; [reflexivity|]. split; [apply stored_name_str|].
    rewrite take_app_le by (rewrite length_take; lia).
    rewrite take_take. reflexivity.
Qed.

(** The spec's example on the table the kernel starts with. *)
Example fs_write_b_hi :
  match fs_init (files image) with
  | Some (_, fs0) =>
    match fs_write (cstr "b") (cstr "hi") 2 fs0 with
    | Some (r, fs1) =>
      r = 2 /\ fs_find (cstr "b") fs0 = Some (-1) /\ fs_find (cstr "b") fs1 = Some 1 /\
      size (file_at fs1 1) = 2 /\ take 2 (data (file_at fs1 1)) = cstr "hi"
    | None => False
    end
  | None => False
  end.
Proof. vm_compute. repeat split; reflexivity. Qed.

(** ** C10: names longer than the name array *)

(** No used slot of a well-formed table holds a name of 16 characters
    or more. *)
Lemma long_name_unnamed nm fs j :
  fs_wf fs -> 0 <= j < 16 -> (15 < length (c_str nm))%nat -> ~ slot_named fs nm j.
Proof.
  intros Hwf Hj Hlong [Hu Hs].
  destruct (file_at_ok fs j Hwf Hj) as (_ & _ & Ht).
  pose proof (c_str_terminated _ (Ht Hu)) as Hle. rewrite Hs in Hle. lia.
Qed.

Lemma long_name_not_found nm fs :
  fs_wf fs -> (15 < length (c_str nm))%nat -> fs_find nm fs = Some (-1).
Proof.
  intros Hwf Hlong.
  destruct (fs_find_spec nm fs Hwf) as (r & E & [[-> _]|(Hr & Hn & _)]); [exact E|].
  exfalso. exact (long_name_unnamed nm fs r Hwf Hr Hlong Hn).
Qed.

(** Which slots hold a name, after slot [i] has been created for [nm]. *)
Lemma slot_named_created fs nm q i j :
  fs_wf fs -> 0 <= i < 16 -> 0 <= j < 16 -> used (file_at fs i) = 0 ->
  slot_named (set_file i (created nm (file_at fs i)) fs) q j <->
  (j = i /\ take 15 (c_str nm) = c_str q) \/ (j <> i /\ slot_named fs q j).
Proof.
  intros [Hl Hf] Hi Hj Hu. unfold slot_named.
  destruct (Z.eq_dec j i) as [->|Hne].
  - rewrite file_at_set_same by assumption. cbn [used name created].
    rewrite stored_name_str. split.
    + intros [_ H]. left. auto.
    + intros [[_ H]|[H _]]; [|contradiction]. split; [discriminate|exact H].
  - rewrite file_at_set_other by lia. split; [right; auto|].
    intros [[H _]|[_ H]]; [contradiction|exact H].
Qed.

(** Where the 15-character prefix of a long name leads after
    [fs_create]: to the first used slot holding it, which is the new slot
    [i] unless [fs_find] already found the prefix in a slot before [i]. *)
Lemma long_name_prefix_lookup (nm : list Z) (fs : list file_entry) :
  fs_wf fs -> Forall (fun c => c <> 0) nm -> (15 < length nm)%nat ->
  (exists j, 0 <= j < 16 /\ used (file_at fs j) = 0) ->
  exists i fs' p,
    fs_create nm fs = Some (i, fs') /\ 0 <= i < 16 /\
    used (file_at fs i) = 0 /\ fs_wf fs' /\
    file_at fs' i = created nm (file_at fs i) /\
    fs_find (take 15 nm) fs = Some p /\
    ((p = -1 /\ forall j, 0 <= j < 16 -> ~ slot_named fs (take 15 nm) j) \/
     (0 <= p < 16 /\ slot_named fs (take 15 nm) p /\
      forall j, 0 <= j < p -> ~ slot_named fs (take 15 nm) j)) /\
    fs_find (take 15 nm) fs' = Some (if (0 <=? p) && (p <? i) then p else i).
Proof.
  intros Hwf Hnz Hlong (j0 & Hj0 & Hfree0).
  assert (Hstr : c_str nm = nm) by (apply c_str_id; exact Hnz).
  assert (Hlong' : (15 < length (c_str nm))%nat) by (rewrite Hstr; exact Hlong).
  destruct (fs_create_eq nm fs Hwf) as (r & Er & _ & Ec).
  rewrite (long_name_not_found nm fs Hwf Hlong') in Er. injection Er as <-.
  pose proof (first_free_spec fs 16 0 ltac:(lia) ltac:(lia)) as Hfree.
  cbv zeta in Hfree, Ec. set (i := first_free 16 0 fs) in *. clearbody i.
  destruct Hfree as [[-> Hall]|(Hi & Hu & _)]; [exfalso; exact (Hall j0 Hj0 Hfree0)|].
  cbn [Z.leb] in Ec.
  replace (0 <=? i) with true in Ec by (symmetry; apply Z.leb_le; lia).
  set (fs' := set_file i (created nm (file_at fs i)) fs) in *.
  assert (Hwf' : fs_wf fs').
  { apply set_file_wf; [exact Hwf|]. apply created_ok, file_at_ok; assumption. }
  destruct (fs_find_spec (take 15 nm) fs Hwf) as (p & Ep & Hp).
  exists i, fs', p.
  split; [exact Ec|]. split; [exact Hi|]. split; [exact Hu|]. split; [exact Hwf'|].
  split; [apply file_at_set_same; [exact Hi|apply Hwf]|].
  split; [exact Ep|]. split; [exact Hp|].
  destruct (fs_find_spec (take 15 nm) fs' Hwf') as (p' & Ep' & Hp').
  rewrite Ep'. f_equal.
  assert (Hq : take 15 (c_str nm) = c_str (take 15 nm)).
  { rewrite Hstr. symmetry. apply c_str_id, Forall_take, Hnz. }
  apply (fs_find_unique (take 15 nm) fs' _ _ Hp').
  destruct ((0 <=? p) && (p <? i)) eqn:Eb.
  - apply andb_true_iff in Eb. destruct Eb as [E1 E2].
    apply Z.leb_le in E1. apply Z.ltb_lt in E2.
    destruct Hp as [[-> _]|(Hr & Hn & Hb)]; [lia|].
    right. split; [exact Hr|]. split.
    + apply (slot_named_created fs nm _ i p Hwf Hi Hr Hu). right. split; [lia|exact Hn].
    + intros j Hj Hs.
      apply (slot_named_created fs nm _ i j Hwf Hi ltac:(lia) Hu) in Hs.
      destruct Hs as [[-> _]|[_ Hs]]; [lia|exact (Hb j Hj Hs)].
  - right. split; [exact Hi|]. split.
    + apply (slot_named_created fs nm _ i i Hwf Hi Hi Hu). left. auto.
    + intros j Hj Hs.
      apply (slot_named_created fs nm _ i j Hwf Hi ltac:(lia) Hu) in Hs.
      destruct Hs as [[-> _]|[_ Hs]]; [lia|].
      destruct Hp as [[-> Hnone]|(Hr & Hn & Hb)]; [exact (Hnone j ltac:(lia) Hs)|].
      assert (Hpi : i <= p).
      { apply andb_false_iff in Eb. rewrite Z.leb_gt, Z.ltb_ge in Eb. lia. }
      destruct Hn as [Hpu _].
      assert (p <> i) by (intros ->; contradiction).
      apply (Hb j); [lia|exact Hs].
Qed.

(** C10, as the code has it.  For a name of more than 15 characters and a
    table with a free slot, [fs_create] claims the first free slot [i] and
    stores the first 15 characters and a terminator.  A following
    [fs_find] with the full name finds nothing.  [fs_find] with the
    15-character prefix finds the new slot [i], provided no used slot
    before [i] already holds that prefix as its name. *)
Theorem long_name_truncation (nm : list Z) (fs : list file_entry) :
  fs_wf fs -> Forall (fun c => c <> 0) nm -> (15 < length nm)%nat ->
  (exists j, 0 <= j < 16 /\ used (file_at fs j) = 0) ->
  exists i fs',
    fs_create nm fs = Some (i, fs') /\ 0 <= i < 16 /\
    used (file_at fs i) = 0 /\ used (file_at fs' i) = 1 /\
    name (file_at fs' i) = take 15 nm ++ [0] ++ drop 16 (name (file_at fs i)) /\
    fs_find nm fs' = Some (-1) /\
    ((forall j, 0 <= j < i -> ~ slot_named fs (take 15 nm) j) ->
     fs_find (take 15 nm) fs' = Some i).
Proof.
  intros Hwf Hnz Hlong Hfree.
  destruct (long_name_prefix_lookup nm fs Hwf Hnz Hlong Hfree)
    as (i & fs' & p & Ec & Hi & Hu & Hwf' & Hat & Ep & Hp & Ef).
  assert (Hstr : c_str nm = nm) by (apply c_str_id; exact Hnz).
  exists i, fs'. split; [exact Ec|]. split; [exact Hi|]. split; [exact Hu|].
  rewrite Hat. cbn [used name created]. split; [reflexivity|]. split.
  { unfold stored_name. rewrite Hstr, length_take.
    replace (S (Nat.min 15 (length nm))) with 16%nat by lia. reflexivity. }
  split; [apply long_name_not_found; [exact Hwf'|rewrite Hstr; exact Hlong]|].
  intros Hnone. rewrite Ef.
  destruct ((0 <=? p) && (p <? i)) eqn:Eb; [|reflexivity].
  apply andb_true_iff in Eb. destruct Eb as [E1 E2].
  apply Z.leb_le in E1. apply Z.ltb_lt in E2.
  destruct Hp as [[-> _]|(_ & Hn & _)]; [lia|].
  exfalso. exact (Hnone p ltac:(lia) Hn).
Qed.

Lemma long_name_truncation_witness :
  let nm := cstr "a_rather_long_name.txt" in
  let fs := files image in
  exists i fs',
    fs_create nm fs = Some (i, fs') /\ 0 <= i < 16 /\
    used (file_at fs i) = 0 /\ used (file_at fs' i) = 1 /\
    name (file_at fs' i) = take 15 nm ++ [0] ++ drop 16 (name (file_at fs i)) /\
    fs_find nm fs' = Some (-1) /\
    ((forall j, 0 <= j < i -> ~ slot_named fs (take 15 nm) j) ->
     fs_find (take 15 nm) fs' = Some i).
Proof.
  apply (long_name_truncation (cstr "a_rather_long_name.txt") (files image)
           image_files_wf).
  - repeat constructor; discriminate.
  - cbn. lia.
  - exists 0. split; [lia|reflexivity].
Defined.

(** The claim as stated fails when the 15-character prefix is already
    the name of a file in an earlier slot: the prefix then finds that
    file, not the slot just created. *)
Lemma long_name_prefix_finds_older_file :
  let long := cstr "aaaaaaaaaaaaaaaa" in
  match fs_init (files image) with
  | Some (_, fs0) =>
    match fs_create (take 15 long) fs0 with
    | Some (_, fs1) =>
      match fs_create long fs1 with
      | Some (i, fs2) =>
        (15 < length long)%nat /\ i = 2 /\ fs_find long fs2 = Some (-1) /\
        fs_find (take 15 long) fs2 = Some 1 /\ 1 <> i
      | None => False
      end
    | None => False
    end
  | None => False
  end.
Proof. vm_compute. repeat split; (reflexivity || lia || discriminate). Qed.

(** ** Printing *)

Lemma printed_cursor s st st' : printed s st st' -> cursor_ok st'.
Proof. intros H. apply H. Qed.

Lemma vga_puts_printed s : forall st, cursor_ok st ->
  exists st', vga_puts s st = Some (tt, st') /\ printed (c_str s) st st'.
Proof.
  induction s as [|c s IH]; intros st Hok; cbn [vga_puts c_str].
  - exists st. split; [reflexivity|apply printed_nil; exact Hok].
  - unfold NUL. destruct (c =? 0).
    + exists st. split; [reflexivity|apply printed_nil; exact Hok].
    + destruct (vga_putc_printed c st Hok) as (s1 & E1 & P1).
      rewrite (bind_some _ _ _ _ _ E1).
      destruct (IH s1 (printed_cursor _ _ _ P1)) as (s2 & E2 & P2).
      exists s2. split; [exact E2|]. exact (printed_app [c] _ _ _ _ P1 P2).
Qed.

Lemma put_bytes_printed asize a : forall (n : nat) (i : nat) st,
  cursor_ok st -> Z.of_nat (i + n) <= asize ->
  exists st', put_bytes n asize a (Z.of_nat i) st = Some (tt, st') /\
              printed (take n (drop i (a ++ replicate (i + n) 0))) st st'.
Proof.
  induction n as [|n IH]; intros i st Hok Hn.
  - exists st. split; [reflexivity|]. rewrite take_0. apply printed_nil. exact Hok.
  - cbn [put_bytes]. unfold rd.
    replace ((0 <=? Z.of_nat i) && (Z.of_nat i <? asize)) with true
      by (symmetry; apply andb_true_iff; split; [apply Z.leb_le|apply Z.ltb_lt]; lia).
    rewrite Nat2Z.id. unfold lift at 1. unfold bind at 1.
    destruct (vga_putc_printed (nth i a 0) st Hok) as (s1 & E1 & P1).
    rewrite (bind_some _ _ _ _ _ E1).
    replace (Z.of_nat i + 1) with (Z.of_nat (S i)) by lia.
    destruct (IH (S i) s1 (printed_cursor _ _ _ P1) ltac:(lia)) as (s2 & E2 & P2).
    exists s2. split; [exact E2|].
    assert (Hx : (a ++ replicate (i + S n) 0) !! i = Some (nth i a 0)).
    { destruct (Nat.lt_ge_cases i (length a)) as [Hlt|Hge].
      - rewrite lookup_app_l by lia.
        destruct (lookup_lt_is_Some_2 a i Hlt) as [x Hx].
        rewrite Hx, (nth_lookup_Some _ _ _ _ Hx). reflexivity.
      - rewrite lookup_app_r by lia. rewrite nth_overflow by lia.
        apply lookup_replicate_2. lia. }
    rewrite (drop_S _ _ _ Hx). cbn [take].
    replace (drop (S i) (a ++ replicate (i + S n) 0))
      with (drop (S i) (a ++ replicate (S i + n) 0)) by (do 3 f_equal; lia).
    exact (printed_app [_] _ _ _ _ P1 P2).
Qed.

Lemma kputu_utoa val base st :
  0 <= val < 2 ^ 32 -> 2 <= base < 2 ^ 31 -> cursor_ok st ->
  exists st', kputu val base st = Some (tt, st') /\ printed (utoa val base) st st'.
Proof.
  intros Hval Hbase Hok.
  destruct (Z.eq_dec val 0) as [->|Hnz].
  - unfold kputu, utoa. cbn [Z.eqb]. apply vga_putc_printed. exact Hok.
  - destruct (kputu_printed val base st Hval Hbase Hok) as (ds & st' & E & P & _ & B).
    destruct (B Hnz) as (buf & Ef & Et).
    exists st'. split; [exact E|]. unfold utoa.
    replace (val =? 0) with false by (symmetry; apply Z.eqb_neq; exact Hnz).
    rewrite Ef, Nat2Z.id, Et, rev_involutive. exact P.
Qed.

Lemma u32_range z : 0 <= u32 z < 2 ^ 32.
Proof. unfold u32. apply Z.mod_pos_bound. lia. Qed.

Lemma kputi_itoa val base st :
  2 <= base < 2 ^ 31 -> cursor_ok st ->
  exists st', kputi val base st = Some (tt, st') /\ printed (itoa val base) st st'.
Proof.
  intros Hbase Hok. unfold kputi, itoa.
  destruct (val <? 0).
  - destruct (vga_putc_printed (ch "-") st Hok) as (s1 & E1 & P1).
    rewrite (bind_some _ _ _ _ _ E1).
    destruct (kputu_utoa (u32 (i32 (- val))) base s1 (u32_range _) Hbase
                (printed_cursor _ _ _ P1)) as (s2 & E2 & P2).
    exists s2. split; [exact E2|]. exact (printed_app [_] _ _ _ _ P1 P2).
  - apply kputu_utoa; [apply u32_range|exact Hbase|exact Hok].
Qed.

(** [kprintf] prints what [format] says, wherever [format] is defined. *)
Lemma kprintf_printed_len (n : nat) : forall fmt args s st,
  (length fmt <= n)%nat -> cursor_ok st -> format fmt args = Some s ->
  exists st', kprintf fmt args st = Some (tt, st') /\ printed s st st'.
Proof.
  induction n as [|n IH]; intros fmt args s st Hlen Hok Hf.
  - destruct fmt; [|cbn in Hlen; lia]. injection Hf as <-.
    exists st. split; [reflexivity|apply printed_nil; exact Hok].
  - destruct fmt as [|c rest].
    { injection Hf as <-. exists st. split; [reflexivity|apply printed_nil; exact Hok]. }
    cbn [kprintf format] in *. cbn [length] in Hlen.
    destruct (c =? NUL).
    { injection Hf as <-. exists st. split; [reflexivity|apply printed_nil; exact Hok]. }
    destruct (c =? ch "%"); cbn [negb] in *.
    2:{ destruct (format rest args) as [s'|] eqn:Er; [|discriminate].
        injection Hf as <-.
        destruct (vga_putc_printed c st Hok) as (s1 & E1 & P1).
        rewrite (bind_some _ _ _ _ _ E1).
        destruct (IH rest args s' s1 ltac:(lia) (printed_cursor _ _ _ P1) Er)
          as (s2 & E2 & P2).
        exists s2. split; [exact E2|]. exact (printed_app [c] _ _ _ _ P1 P2). }
    destruct rest as [|f rest']; [discriminate|]. cbn [length] in Hlen.
    destruct (f =? ch "s").
    { destruct args as [|[sv|nv] args']; try discriminate.
      destruct (format rest' args') as [s'|] eqn:Er; [|discriminate].
      injection Hf as <-. unfold va_str, ret. unfold bind at 1. cbn [fst snd].
      destruct (vga_puts_printed (match sv with Some s0 => s0 | None => cstr "(null)" end)
                  st Hok) as (s1 & E1 & P1).
      rewrite (bind_some _ _ _ _ _ E1).
      destruct (IH rest' args' s' s1 ltac:(lia) (printed_cursor _ _ _ P1) Er)
        as (s2 & E2 & P2).
      exists s2. split; [exact E2|]. exact (printed_app _ _ _ _ _ P1 P2). }
    destruct (f =? ch "d").
    { destruct args as [|[sv|nv] args']; try discriminate.
      destruct (format rest' args') as [s'|] eqn:Er; [|discriminate].
      injection Hf as <-. unfold va_int, ret. unfold bind at 1. cbn [fst snd].
      destruct (kputi_itoa (i32 nv) 10 st ltac:(lia) Hok) as (s1 & E1 & P1).
      rewrite (bind_some _ _ _ _ _ E1).
      destruct (IH rest' args' s' s1 ltac:(lia) (printed_cursor _ _ _ P1) Er)
        as (s2 & E2 & P2).
      exists s2. split; [exact E2|]. exact (printed_app _ _ _ _ _ P1 P2). }
    destruct (f =? ch "u").
    { destruct args as [|[sv|nv] args']; try discriminate.
      destruct (format rest' args') as [s'|] eqn:Er; [|discriminate].
      injection Hf as <-. unfold va_int, ret. unfold bind at 1. cbn [fst snd].
      destruct (kputu_utoa (u32 nv) 10 st (u32_range _) ltac:(lia) Hok) as (s1 & E1 & P1).
      rewrite (bind_some _ _ _ _ _ E1).
      destruct (IH rest' args' s' s1 ltac:(lia) (printed_cursor _ _ _ P1) Er)
        as (s2 & E2 & P2).
      exists s2. split; [exact E2|]. exact (printed_app _ _ _ _ _ P1 P2). }
    destruct (f =? ch "x").
    { destruct args as [|[sv|nv] args']; try discriminate.
      destruct (format rest' args') as [s'|] eqn:Er; [|discriminate].
      injection Hf as <-. unfold va_int, ret. unfold bind at 1. cbn [fst snd].
      destruct (kputu_utoa (u32 nv) 16 st (u32_range _) ltac:(lia) Hok) as (s1 & E1 & P1).
      rewrite (bind_some _ _ _ _ _ E1).
      destruct (IH rest' args' s' s1 ltac:(lia) (printed_cursor _ _ _ P1) Er)
        as (s2 & E2 & P2).
      exists s2. split; [exact E2|]. exact (printed_app _ _ _ _ _ P1 P2). }
    destruct (f =? ch "c").
    { destruct args as [|[sv|nv] args']; try discriminate.
      destruct (format rest' args') as [s'|] eqn:Er; [|discriminate].
      injection Hf as <-. unfold va_int, ret. unfold bind at 1. cbn [fst snd].
      destruct (vga_putc_printed (i8 nv) st Hok) as (s1 & E1 & P1).
      rewrite (bind_some _ _ _ _ _ E1).
      destruct (IH rest' args' s' s1 ltac:(lia) (printed_cursor _ _ _ P1) Er)
        as (s2 & E2 & P2).
      exists s2. split; [exact E2|]. exact (printed_app [_] _ _ _ _ P1 P2). }
    destruct (f =? NUL); [discriminate|].
    destruct (format rest' args) as [s'|] eqn:Er; [|discriminate].
    injection Hf as <-.
    destruct (vga_putc_printed (ch "%") st Hok) as (s1 & E1 & P1).
    rewrite (bind_some _ _ _ _ _ E1).
    destruct (vga_putc_printed f s1 (printed_cursor _ _ _ P1)) as (s2 & E2 & P2).
    rewrite (bind_some _ _ _ _ _ E2).
    destruct (IH rest' args s' s2 ltac:(lia) (printed_cursor _ _ _ P2) Er)
      as (s3 & E3 & P3).
    exists s3. split; [exact E3|].
    exact (printed_app [_] _ _ _ _ P1 (printed_app [_] _ _ _ _ P2 P3)).
Qed.

Lemma kprintf_printed fmt args s st :
  cursor_ok st -> format fmt args = Some s ->
  exists st', kprintf fmt args st = Some (tt, st') /\ printed s st st'.
Proof. apply (kprintf_printed_len (length fmt)). lia. Qed.

(** ** C4: [cat] and [touch] without an argument *)

Lemma printed_output {A} (m : K A) s st a st' :
  m st = Some (a, st') -> printed s st st' -> output m st = Some s.
Proof.
  intros E (_ & Ht & _). unfold output. rewrite E. cbn [option_map snd].
  rewrite Ht, drop_app_length. reflexivity.
Qed.

Lemma skip_spaces_leading k s : skip_spaces (replicate k SP ++ s) = skip_spaces s.
Proof. induction k as [|k IH]; [reflexivity|exact IH]. Qed.

Lemma skip_spaces_only n : skip_spaces (replicate n SP) = [].
Proof. induction n as [|n IH]; [reflexivity|exact IH]. Qed.

(** A command word followed by spaces only gets the usage message. *)
Lemma usage_after_spaces (k n : nat) (st : kernel) :
  cursor_ok st ->
  output (run_command (replicate k SP ++ cstr "cat" ++ replicate (S n) SP)) st
  = Some (cstr "Usage: cat <file>" ++ [LF]) /\
  output (run_command (replicate k SP ++ cstr "touch" ++ replicate (S n) SP)) st
  = Some (cstr "Usage: touch <file>" ++ [LF]).
Proof.
  intros Hok. split.
  - assert (E : run_command (replicate k SP ++ cstr "cat" ++ replicate (S n) SP)
                = kprintf (cstr "Usage: cat <file>" ++ [LF]) []).
    { unfold run_command. rewrite skip_spaces_leading.
      change (skip_spaces (cstr "cat" ++ replicate (S n) SP))
        with (cstr "cat" ++ replicate (S n) SP).
      change (skip_spaces (advance 4 (cstr "cat" ++ replicate (S n) SP)))
        with (skip_spaces (replicate n SP)).
      rewrite skip_spaces_only. reflexivity. }
    rewrite E.
    destruct (kprintf_printed (cstr "Usage: cat <file>" ++ [LF]) [] _ st Hok eq_refl)
      as (st' & E' & P).
    exact (printed_output _ _ _ _ _ E' P).
  - assert (E : run_command (replicate k SP ++ cstr "touch" ++ replicate (S n) SP)
                = kprintf (cstr "Usage: touch <file>" ++ [LF]) []).
    { unfold run_command. rewrite skip_spaces_leading.
      change (skip_spaces (cstr "touch" ++ replicate (S n) SP))
        with (cstr "touch" ++ replicate (S n) SP).
      change (skip_spaces (advance 6 (cstr "touch" ++ replicate (S n) SP)))
        with (skip_spaces (replicate n SP)).
      rewrite skip_spaces_only. reflexivity. }
    rewrite E.
    destruct (kprintf_printed (cstr "Usage: touch <file>" ++ [LF]) [] _ st Hok eq_refl)
      as (st' & E' & P).
    exact (printed_output _ _ _ _ _ E' P).
Qed.

(** C4 fails on the code.  The bare words [cat] and [touch], with
    nothing after them, are not recognised as these commands (the test
    asks for a space after the word): [run_command] prints
    "Unknown command: cat" and "Unknown command: touch", not the usage
    messages. *)
Theorem bare_word_is_unknown (k : nat) (st : kernel) :
  cursor_ok st ->
  output (run_command (replicate k SP ++ cstr "cat")) st
  = Some (cstr "Unknown command: cat" ++ [LF]) /\
  output (run_command (replicate k SP ++ cstr "touch")) st
  = Some (cstr "Unknown command: touch" ++ [LF]).
Proof.
  intros Hok. split.
  - assert (E : run_command (replicate k SP ++ cstr "cat")
                = kprintf (cstr "Unknown command: %s" ++ [LF]) [VStr (Some (cstr "cat"))]).
    { unfold run_command. rewrite skip_spaces_leading. reflexivity. }
    rewrite E.
    destruct (kprintf_printed (cstr "Unknown command: %s" ++ [LF])
                [VStr (Some (cstr "cat"))] _ st Hok eq_refl) as (st' & E' & P).
    exact (printed_output _ _ _ _ _ E' P).
  - assert (E : run_command (replicate k SP ++ cstr "touch")
                = kprintf (cstr "Unknown command: %s" ++ [LF]) [VStr (Some (cstr "touch"))]).
    { unfold run_command. rewrite skip_spaces_leading. reflexivity. }
    rewrite E.
    destruct (kprintf_printed (cstr "Unknown command: %s" ++ [LF])
                [VStr (Some (cstr "touch"))] _ st Hok eq_refl) as (st' & E' & P).
    exact (printed_output _ _ _ _ _ E' P).
Qed.

Lemma bare_word_is_unknown_witness :
  cursor_ok image /\
  output (run_command (cstr "cat")) image
  = Some (cstr "Unknown command: cat" ++ [LF]) /\
  output (run_command (cstr "touch")) image
  = Some (cstr "Unknown command: touch" ++ [LF]).
Proof.
  assert (H : cursor_ok image)
    by (unfold cursor_ok; cbn; unfold VGA_WIDTH, VGA_HEIGHT; lia).
  split; [exact H|]. exact (bare_word_is_unknown 0 image H).
Defined.

(** The sibling command [nano] does take the bare word, and answers it
    with its usage message. *)
Example bare_nano_usage :
  output (run_command (cstr "nano")) image = Some (cstr "Usage: nano <file>" ++ [LF]).
Proof. vm_compute. reflexivity. Qed.

(** ** C5: listing after create, create, remove *)

Lemma for_printed (text : Z -> list Z) body fs : forall (n : nat) i st,
  (forall j s, cursor_ok s -> files s = fs ->
               exists s', body j s = Some (tt, s') /\ printed (text j) s s') ->
  cursor_ok st -> files st = fs ->
  exists st', for_ n i body st = Some (tt, st') /\
              printed (concat (map text (seqZ i (Z.of_nat n)))) st st'.
Proof.
  induction n as [|n IH]; intros i st Hbody Hok Hfs.
  - exists st. split; [reflexivity|]. apply printed_nil. exact Hok.
  - cbn [for_].
    destruct (Hbody i st Hok Hfs) as (s1 & E1 & P1).
    rewrite (bind_some _ _ _ _ _ E1).
    destruct (IH (i + 1) s1 Hbody (printed_cursor _ _ _ P1)) as (s2 & E2 & P2).
    { destruct P1 as (_ & _ & _ & F & _). congruence. }
    exists s2. split; [exact E2|].
    replace (Z.of_nat (S n)) with (Z.succ (Z.of_nat n)) by lia.
    rewrite seqZ_cons by lia. cbn [map concat].
    replace (Z.pred (Z.succ (Z.of_nat n))) with (Z.of_nat n) by lia.
    replace (Z.succ i) with (i + 1) by lia.
    exact (printed_app _ _ _ _ _ P1 P2).
Qed.

Lemma fs_list_printed st :
  cursor_ok st ->
  exists st', fs_list st = Some (tt, st') /\ printed (listing (files st)) st st'.
Proof.
  intros Hok. unfold fs_list, listing.
  destruct (kprintf_printed (cstr "Files:" ++ [LF]) [] _ st Hok eq_refl)
    as (s1 & E1 & P1).
  rewrite (bind_some _ _ _ _ _ E1).
  destruct (for_printed
              (fun i => if negb (used (file_at (files st) i) =? 0)
                        then listing_line (file_at (files st) i) else [])
              (fun i =>
                 let* st := get in
                 let e := file_at (files st) i in
                 if negb (used e =? 0) then
                   kprintf (cstr "  %s (%d bytes)" ++ [LF])
                           [VStr (Some (name e)); VInt (size e)]
                 else ret tt)
              (files st) 16 0 s1) as (s2 & E2 & P2).
  - intros j s Hs Hfs. unfold get at 1. unfold bind at 1. cbv zeta. rewrite Hfs.
    destruct (negb (used (file_at (files st) j) =? 0)).
    + apply kprintf_printed; [exact Hs|reflexivity].
    + exists s. split; [reflexivity|apply printed_nil; exact Hs].
  - exact (printed_cursor _ _ _ P1).
  - apply P1.
  - exists s2. split; [exact E2|]. exact (printed_app _ _ _ _ _ P1 P2).
Qed.

Ltac explode16 l H :=
  do 16 (destruct l as [|? l]; [discriminate H|]);
  destruct l; [|discriminate H].

(** Evaluate a closed-enough term once and keep the equation. *)
Ltac evaluated t E :=
  let v := eval vm_compute in t in
  assert (E : t = v) by (vm_compute; reflexivity).

(** The example's file operations, whatever the table held before
    [fs_init]: "welcome" goes to slot 0, "x" to slot 1, "y" to slot 2, and
    slot 1 is released again. *)
Lemma create_x_y_remove_x_steps fs :
  fs_wf fs ->
  exists fs0 fs1 fs2 fs3,
    fs_init fs = Some (tt, fs0) /\
    fs_create (cstr "x") fs0 = Some (1, fs1) /\
    fs_create (cstr "y") fs1 = Some (2, fs2) /\
    fs_remove (cstr "x") fs2 = Some (0, fs3) /\
    listing fs3
    = cstr "Files:" ++ [LF] ++ cstr "  welcome (39 bytes)" ++ [LF]
      ++ cstr "  y (0 bytes)" ++ [LF] /\
    entries fs3 = [(cstr "welcome", 39); (cstr "y", 0)].
Proof.
  intros [Hl Hf].
  explode16 fs Hl. clear Hl.
  repeat match goal with
         | H : Forall _ (_ :: _) |- _ => inversion H; clear H; subst
         end.
  repeat match goal with
         | H : entry_ok ?e |- _ =>
           let Hn := fresh "Hn" in
           destruct H as (Hn & _ & _); destruct e as [nm ? ? ?];
           cbn [name] in Hn; explode16 nm Hn; clear Hn
         end.
  match goal with |- exists _ _ _ _, fs_init ?t = _ /\ _ => evaluated (fs_init t) E0 end.
  match type of E0 with _ = Some (_, ?t0) =>
    evaluated (fs_create (cstr "x") t0) E1 end.
  match type of E1 with _ = Some (_, ?t1) =>
    evaluated (fs_create (cstr "y") t1) E2 end.
  match type of E2 with _ = Some (_, ?t2) =>
    evaluated (fs_remove (cstr "x") t2) E3 end.
  eexists _, _, _, _.
  split; [exact E0|]. split; [exact E1|]. split; [exact E2|]. split; [exact E3|].
  split; vm_compute; reflexivity.
Qed.

Lemma fs_op_run {A} (f : list file_entry -> option (A * list file_entry)) st a fs' :
  f (files st) = Some (a, fs') -> fs_op f st = Some (a, set_files fs' st).
Proof. intros E. unfold fs_op. rewrite E. reflexivity. Qed.

Lemma image_cursor_ok : cursor_ok image.
Proof. unfold cursor_ok. cbn. unfold VGA_WIDTH, VGA_HEIGHT. lia. Qed.

(** C5, as the code has it.  [fs_init] itself creates the file
    "welcome" (39 bytes) in slot 0.  Hence, from the table [fs_init]
    sets up, creating "x" and "y" and removing "x" leaves two entries, and
    [fs_list] prints both, in slot order: "welcome" with 39 bytes, then
    "y" with 0 bytes; "x" is not listed. *)
Theorem listing_after_create_remove (st : kernel) :
  cursor_ok st -> fs_wf (files st) ->
  exists st',
    listing_example st = Some (tt, st') /\
    entries (files st') = [(cstr "welcome", 39); (cstr "y", 0)] /\
    tty st' = tty st ++ cstr "Files:" ++ [LF] ++ cstr "  welcome (39 bytes)" ++ [LF]
                     ++ cstr "  y (0 bytes)" ++ [LF].
Proof.
  intros Hok Hwf.
  destruct (create_x_y_remove_x_steps (files st) Hwf)
    as (fs0 & fs1 & fs2 & fs3 & E0 & E1 & E2 & E3 & Hlist & Hent).
  unfold listing_example.
  rewrite (bind_some _ _ _ _ _ (fs_op_run _ st _ _ E0)).
  rewrite (bind_some _ _ _ _ _ (fs_op_run _ (set_files fs0 st) _ _ E1)).
  rewrite (bind_some _ _ _ _ _ (fs_op_run _ (set_files fs1 (set_files fs0 st)) _ _ E2)).
  rewrite (bind_some _ _ _ _ _
             (fs_op_run _ (set_files fs2 (set_files fs1 (set_files fs0 st))) _ _ E3)).
  match goal with |- exists st', fs_list ?s = _ /\ _ =>
    destruct (fs_list_printed s Hok) as (st' & E & P)
  end.
  exists st'. split; [exact E|].
  destruct P as (_ & Ht & _ & Hf & _). cbn [files tty set_files] in Ht, Hf.
  rewrite Hf. split; [exact Hent|].
  rewrite Ht, Hlist. reflexivity.
Qed.

Lemma listing_after_create_remove_witness :
  cursor_ok image /\ fs_wf (files image) /\
  exists st',
    listing_example image = Some (tt, st') /\
    entries (files st') = [(cstr "welcome", 39); (cstr "y", 0)] /\
    tty st' = tty image ++ cstr "Files:" ++ [LF] ++ cstr "  welcome (39 bytes)" ++ [LF]
                        ++ cstr "  y (0 bytes)" ++ [LF].
Proof.
  split; [exact image_cursor_ok|]. split; [exact image_files_wf|].
  exact (listing_after_create_remove image image_cursor_ok image_files_wf).
Defined.

(** The claim as stated fails: on the table the kernel starts with, the
    listing has two entries, and the first is not "y". *)
Lemma listing_has_welcome_too :
  output listing_example image
  = Some (cstr "Files:" ++ [LF] ++ cstr "  welcome (39 bytes)" ++ [LF]
          ++ cstr "  y (0 bytes)" ++ [LF]) /\
  match listing_example image with
  | Some (_, st') =>
    entries (files st') = [(cstr "welcome", 39); (cstr "y", 0)] /\
    length (entries (files st')) <> 1%nat
  | None => False
  end.
Proof. vm_compute. repeat split; (reflexivity || discriminate). Qed.

(** ** C9: saving twice in the editor *)


(** [written] and [created] do not change which slots hold which name,
    beyond the slot created. *)
Lemma slot_named_written fs src n q i j :
  length fs = 16%nat -> 0 <= i < 16 -> 0 <= j < 16 ->
  slot_named (set_file i (written src n (file_at fs i)) fs) q j <-> slot_named fs q j.
Proof.
  intros Hl Hi Hj. unfold slot_named.
  destruct (Z.eq_dec j i) as [->|Hne].
  - rewrite file_at_set_same by assumption. reflexivity.
  - rewrite file_at_set_other by lia. reflexivity.
Qed.


Lemma fs_write_total nm src len fs :
  fs_wf fs -> 0 <= len <= Z.of_nat (length src) ->
  exists w fs1, fs_write nm src len fs = Some (w, fs1).
Proof.
  intros Hwf Hlen.
  destruct (fs_write_eq nm src len fs Hwf Hlen) as (r & _ & _ & E).
  rewrite E. eexists _, _. apply f_equal. apply surjective_pairing.
Qed.

(** One [.save]: the table becomes what [fs_write] returns and the
    report is printed. *)
Lemma nano_save_run fn buf len st :
  cursor_ok st -> fs_wf (files st) -> 0 <= len <= Z.of_nat (length buf) ->
  exists w st1,
    nano_save fn buf len st = Some (tt, st1) /\
    fs_write fn buf len (files st) = Some (w, files st1) /\
    cursor_ok st1 /\ tty st1 = tty st ++ save_report w.
Proof.
  intros Hok Hwf Hlen.
  destruct (fs_write_total fn buf len (files st) Hwf Hlen) as (w & fs1 & Ew).
  unfold nano_save.
  rewrite (bind_some _ _ _ _ _ (fs_op_run _ st _ _ Ew)).
  assert (Hok1 : cursor_ok (set_files fs1 st)) by exact Hok.
  unfold save_report.
  destruct (w <? 0) eqn:Ew0.
  - destruct (kprintf_printed (cstr "Save failed" ++ [LF]) [] _ _ Hok1 eq_refl)
      as (st1 & E1 & (C1 & T1 & _ & F1 & _)).
    exists w, st1. rewrite Ew0. split; [exact E1|]. split; [rewrite F1; exact Ew|].
    split; [exact C1|exact T1].
  - destruct (kprintf_printed (cstr "Saved %d bytes" ++ [LF]) [VInt w] _ _ Hok1 eq_refl)
      as (st1 & E1 & (C1 & T1 & _ & F1 & _)).
    exists w, st1. rewrite Ew0. split; [exact E1|]. split; [rewrite F1; exact Ew|].
    split; [exact C1|exact T1].
Qed.








(** ** The loops that wait for input

    [read_line_loop] and [nano_loop] are given [input_budget] rounds.
    Every round consumes pending input, so the budget is never what ends
    them: any larger number of rounds gives the same result. *)

Lemma input_budget_eq st st' :
  kbd st' = kbd st -> irq1_keys (hw st') = irq1_keys (hw st) ->
  input_budget st' = input_budget st.
Proof. intros Hk Hi. unfold input_budget. rewrite Hk, Hi. reflexivity. Qed.

Lemma getchar_wait_budget : forall keys st s1,
  ring_ok (kbd st) -> irq1_keys (hw st) = keys ->
  getchar_wait keys st = Some (tt, s1) ->
  ring_ok (kbd s1) /\ kbuf_head (kbd s1) <> kbuf_tail (kbd s1) /\
  (input_budget s1 <= input_budget st)%nat /\
  term s1 = term st /\ files s1 = files st /\ tty s1 = tty st.
Proof.
  induction keys as [|sc keys IH]; intros st s1 Hok Hkeys E.
  - cbn [getchar_wait] in E. unfold get, bind in E.
    destruct (kbuf_head (kbd st) =? kbuf_tail (kbd st)) eqn:Ee; [discriminate|].
    injection E as <-. apply Z.eqb_neq in Ee. repeat split; auto; apply Hok.
  - cbn [getchar_wait] in E. unfold get at 1 in E. unfold bind at 1 in E.
    destruct (kbuf_head (kbd st) =? kbuf_tail (kbd st)) eqn:Ee.
    2:{ injection E as <-. apply Z.eqb_neq in Ee. repeat split; auto; apply Hok. }
    apply Z.eqb_eq in Ee.
    unfold modify at 1 in E. unfold bind at 1 in E.
    set (s' := set_hw (set_irq1_keys keys (hw st)) st) in E.
    destruct Hok as (Hh & Ht & Hl).
    destruct (irq1_run s' sc Hh) as (s2 & E2 & K2 & I2 & T2 & F2 & O2).
    rewrite (bind_some _ _ _ _ _ E2) in E.
    assert (Hok2 : ring_ok (kbd s2) /\
                   (input_budget s2 <= input_budget st)%nat).
    { unfold input_budget. rewrite I2, K2, Hkeys. cbn [kbd hw irq1_keys s' set_hw set_irq1_keys length].
      destruct ((scancode_char (u8 sc) =? 0)
                || ((kbuf_head (kbd st) + 1) mod KBUF_SIZE =? kbuf_tail (kbd st))).
      - split; [exact (conj Hh (conj Ht Hl))|]. lia.
      - assert (Hfree : (kbuf_head (kbd st) + 1) mod KBUF_SIZE <> kbuf_tail (kbd st))
          by zmod.
        destruct (pending_push (kbd st) (scancode_char (u8 sc))
                    (conj Hh (conj Ht Hl)) Hfree) as [Hok' _].
        split; [exact Hok'|]. cbn [kbuf_head kbuf_tail].
        rewrite Ee, Z.sub_diag.
        replace (((kbuf_tail (kbd st) + 1) mod KBUF_SIZE - kbuf_tail (kbd st))
                 mod KBUF_SIZE) with 1 by zmod.
        unfold KBUF_SIZE. rewrite Z.mod_0_l by lia. cbn. lia. }
    destruct Hok2 as [Hok2 Hb2].
    destruct (IH s2 s1 Hok2 I2 E) as (R1 & R2 & R3 & R4 & R5 & R6).
    subst s'. cbn [term files tty set_hw] in T2, F2, O2.
    split; [exact R1|]. split; [exact R2|]. split; [lia|].
    repeat split; congruence.
Qed.

(** A [keyboard_getchar_irq] that returns has used up input. *)
Lemma getchar_budget st c s1 :
  ring_ok (kbd st) -> keyboard_getchar_irq st = Some (c, s1) ->
  ring_ok (kbd s1) /\ (input_budget s1 < input_budget st)%nat /\
  term s1 = term st /\ files s1 = files st /\ tty s1 = tty st.
Proof.
  intros Hok E. unfold keyboard_getchar_irq in E.
  unfold get at 1 in E. unfold bind at 1 in E.
  destruct (getchar_wait (irq1_keys (hw st)) st) as [[[] s0]|] eqn:Ew;
    [|rewrite (bind_none _ _ _ Ew) in E; discriminate].
  rewrite (bind_some _ _ _ _ _ Ew) in E.
  destruct (getchar_wait_budget _ st s0 Hok eq_refl Ew) as (R1 & R2 & R3 & R4 & R5 & R6).
  destruct (getchar_run s0 R1 R2) as (s1' & E1 & K1 & W1 & T1 & F1 & O1).
  unfold keyboard_getchar_irq in E1.
  unfold get at 1 in E1. unfold bind at 1 in E1.
  rewrite (bind_some _ _ _ _ _ (getchar_wait_ready _ s0 R2)) in E1.
  rewrite E1 in E. injection E as <- <-.
  destruct (pending_pop (kbd s0) R1 R2) as [Hok1 Hp].
  rewrite <- K1 in Hok1, Hp.
  split; [exact Hok1|]. split; [|repeat split; congruence].
  apply (f_equal (@length Z)) in Hp. cbn [length] in Hp.
  pose proof (pending_length (kbd s0)) as L0.
  pose proof (pending_length (kbd s1')) as L1.
  unfold input_budget in *. rewrite W1. lia.
Qed.

Lemma printed_budget s st st' :
  printed s st st' -> input_budget st' = input_budget st.
Proof. intros (_ & _ & _ & _ & K & _ & I). apply input_budget_eq; assumption. Qed.

Lemma printed_ring s st st' : printed s st st' -> ring_ok (kbd st) -> ring_ok (kbd st').
Proof. intros (_ & _ & _ & _ & K & _). rewrite K. auto. Qed.

Lemma bind_lift {A B} (a : A) (f : A -> K B) st :
  bind (lift (Some a)) f st = f a st.
Proof. reflexivity. Qed.

Lemma bind_lift_none {A B} (f : A -> K B) st :
  bind (lift (@None A)) f st = None.
Proof. reflexivity. Qed.

Lemma read_line_loop_fuel : forall fuel fuel' buf bufsize idx st,
  cursor_ok st -> ring_ok (kbd st) ->
  (input_budget st <= fuel)%nat -> (input_budget st <= fuel')%nat ->
  read_line_loop fuel buf bufsize idx st = read_line_loop fuel' buf bufsize idx st.
Proof.
  induction fuel as [|fuel IH]; intros fuel' buf bufsize idx st Hc Hr Hf Hf'.
  { unfold input_budget in Hf. lia. }
  destruct fuel' as [|fuel']; [unfold input_budget in Hf'; lia|].
  cbn [read_line_loop].
  destruct (keyboard_getchar_irq st) as [[c s1]|] eqn:Eg;
    [|rewrite !(bind_none _ _ _ Eg); reflexivity].
  rewrite !(bind_some _ _ _ _ _ Eg).
  destruct (getchar_budget st c s1 Hr Eg) as (Hr1 & Hb1 & T1 & _).
  assert (Hc1 : cursor_ok s1) by (unfold cursor_ok; rewrite T1; exact Hc).
  destruct ((c =? LF) || (c =? CR)); [reflexivity|].
  destruct (c =? BS).
  - destruct (0 <? idx).
    + destruct (vga_putc_printed BS s1 Hc1) as (s2 & E2 & P2).
      rewrite !(bind_some _ _ _ _ _ E2).
      pose proof (printed_budget _ _ _ P2).
      apply IH; [apply P2|exact (printed_ring _ _ _ P2 Hr1)|lia|lia].
    + apply IH; [exact Hc1|exact Hr1|lia|lia].
  - destruct (idx <? bufsize - 1).
    + destruct (wr bufsize buf idx c) as [b|]; [|reflexivity].
      rewrite !bind_lift.
      destruct (vga_putc_printed c s1 Hc1) as (s2 & E2 & P2).
      rewrite !(bind_some _ _ _ _ _ E2).
      pose proof (printed_budget _ _ _ P2).
      apply IH; [apply P2|exact (printed_ring _ _ _ P2 Hr1)|lia|lia].
    + apply IH; [exact Hc1|exact Hr1|lia|lia].
Qed.

(** A [read_line] that returns has used up input and left the
    invariants in place. *)
Lemma read_line_loop_budget : forall fuel buf bufsize idx st line st',
  cursor_ok st -> ring_ok (kbd st) ->
  read_line_loop fuel buf bufsize idx st = Some (line, st') ->
  cursor_ok st' /\ ring_ok (kbd st') /\ (input_budget st' < input_budget st)%nat /\
  files st' = files st.
Proof.
  induction fuel as [|fuel IH]; intros buf bufsize idx st line st' Hc Hr E;
    [discriminate|].
  cbn [read_line_loop] in E.
  destruct (keyboard_getchar_irq st) as [[c s1]|] eqn:Eg;
    [|rewrite (bind_none _ _ _ Eg) in E; discriminate].
  rewrite (bind_some _ _ _ _ _ Eg) in E.
  destruct (getchar_budget st c s1 Hr Eg) as (Hr1 & Hb1 & T1 & F1 & _).
  assert (Hc1 : cursor_ok s1) by (unfold cursor_ok; rewrite T1; exact Hc).
  destruct ((c =? LF) || (c =? CR)).
  { destruct (vga_putc_printed LF s1 Hc1) as (s2 & E2 & P2).
    rewrite (bind_some _ _ _ _ _ E2) in E.
    pose proof (printed_budget _ _ _ P2).
    destruct (wr bufsize buf idx NUL) as [b|]; [|discriminate].
    injection E as <- <-.
    split; [apply P2|]. split; [exact (printed_ring _ _ _ P2 Hr1)|].
    split; [lia|]. destruct P2 as (_ & _ & _ & F2 & _). congruence. }
  assert (Hrec : forall b i s2,
            cursor_ok s2 -> ring_ok (kbd s2) ->
            (input_budget s2 <= input_budget s1)%nat -> files s2 = files s1 ->
            read_line_loop fuel b bufsize i s2 = Some (line, st') ->
            cursor_ok st' /\ ring_ok (kbd st') /\
            (input_budget st' < input_budget st)%nat /\ files st' = files st).
  { intros b i s2 Hc2 Hr2 Hb2 F2 E2.
    destruct (IH b bufsize i s2 line st' Hc2 Hr2 E2) as (R1 & R2 & R3 & R4).
    split; [exact R1|]. split; [exact R2|]. split; [lia|congruence]. }
  destruct (c =? BS).
  - destruct (0 <? idx).
    + destruct (vga_putc_printed BS s1 Hc1) as (s2 & E2 & P2).
      rewrite (bind_some _ _ _ _ _ E2) in E.
      pose proof (printed_budget _ _ _ P2).
      refine (Hrec _ _ s2 _ (printed_ring _ _ _ P2 Hr1) _ _ E); [apply P2|lia|apply P2].
    + refine (Hrec _ _ s1 Hc1 Hr1 _ eq_refl E). lia.
  - destruct (idx <? bufsize - 1).
    + destruct (wr bufsize buf idx c) as [b|]; [|discriminate].
      rewrite bind_lift in E.
      destruct (vga_putc_printed c s1 Hc1) as (s2 & E2 & P2).
      rewrite (bind_some _ _ _ _ _ E2) in E.
      pose proof (printed_budget _ _ _ P2).
      refine (Hrec _ _ s2 _ (printed_ring _ _ _ P2 Hr1) _ _ E); [apply P2|lia|apply P2].
    + refine (Hrec _ _ s1 Hc1 Hr1 _ eq_refl E). lia.
Qed.

(** The budget [read_line] gives itself is enough. *)
Lemma read_line_fuel_adequate fuel buf bufsize st :
  cursor_ok st -> ring_ok (kbd st) -> (input_budget st <= fuel)%nat ->
  read_line_loop fuel buf bufsize 0 st = read_line buf bufsize st.
Proof.
  intros Hc Hr Hf. unfold read_line. unfold get, bind.
  apply read_line_loop_fuel; auto.
Qed.

(** [quiet st st']: the cursor is still in the grid and the keyboard
    side is untouched. *)
Lemma printed_quiet s st st' :
  printed s st st' ->
  cursor_ok st' /\ kbd st' = kbd st /\ irq1_keys (hw st') = irq1_keys (hw st).
Proof. intros (C & _ & _ & _ & K & _ & I). auto. Qed.

Lemma nano_append_quiet : forall line buf len st r st',
  cursor_ok st -> nano_append line buf len st = Some (r, st') ->
  cursor_ok st' /\ kbd st' = kbd st /\ irq1_keys (hw st') = irq1_keys (hw st).
Proof.
  induction line as [|c line IH]; intros buf len st r st' Hc E.
  - injection E as <- <-. auto.
  - cbn [nano_append] in E.
    destruct (c =? NUL); [injection E as <- <-; auto|].
    destruct (len <? MAX_FILE_SIZE).
    + destruct (wr MAX_FILE_SIZE buf len c) as [b|]; [|discriminate].
      rewrite bind_lift in E. exact (IH _ _ _ _ _ Hc E).
    + destruct (kprintf_printed (cstr "Buffer full" ++ [LF]) [] _ st Hc eq_refl)
        as (s1 & E1 & P1).
      rewrite (bind_some _ _ _ _ _ E1) in E. injection E as <- <-.
      exact (printed_quiet _ _ _ P1).
Qed.

Lemma nano_save_quiet fn buf len st st' :
  cursor_ok st -> nano_save fn buf len st = Some (tt, st') ->
  cursor_ok st' /\ kbd st' = kbd st /\ irq1_keys (hw st') = irq1_keys (hw st).
Proof.
  intros Hc E. unfold nano_save in E.
  destruct (fs_write fn buf len (files st)) as [[w fs1]|] eqn:Ew.
  2:{ assert (En : fs_op (fs_write fn buf len) st = None)
        by (unfold fs_op; rewrite Ew; reflexivity).
      rewrite (bind_none _ _ _ En) in E. discriminate. }
  rewrite (bind_some _ _ _ _ _ (fs_op_run _ st _ _ Ew)) in E.
  assert (Hc1 : cursor_ok (set_files fs1 st)) by exact Hc.
  destruct (w <? 0).
  - destruct (kprintf_printed (cstr "Save failed" ++ [LF]) [] _ _ Hc1 eq_refl)
      as (s1 & E1 & P1).
    rewrite E1 in E. injection E as <-. exact (printed_quiet _ _ _ P1).
  - destruct (kprintf_printed (cstr "Saved %d bytes" ++ [LF]) [VInt w] _ _ Hc1 eq_refl)
      as (s1 & E1 & P1).
    rewrite E1 in E. injection E as <-. exact (printed_quiet _ _ _ P1).
Qed.

Lemma nano_line_quiet fn line buf len st r st' :
  cursor_ok st -> nano_line fn line buf len st = Some (r, st') ->
  cursor_ok st' /\ kbd st' = kbd st /\ irq1_keys (hw st') = irq1_keys (hw st).
Proof.
  intros Hc E. unfold nano_line in E.
  destruct (chr line 0 =? NUL); [injection E as <- <-; auto|].
  destruct (chr line 0 =? ch ".").
  - destruct (chr line 1 =? NUL); [injection E as <- <-; auto|].
    destruct ((chr line 1 =? ch "h") && (chr line 2 =? ch "e") && (chr line 3 =? ch "l")
              && (chr line 4 =? ch "p") && (chr line 5 =? NUL)).
    { destruct (kprintf_printed (cstr "Editor commands:" ++ [LF]) [] _ st Hc eq_refl)
        as (s1 & E1 & P1).
      rewrite (bind_some _ _ _ _ _ E1) in E.
      destruct (kprintf_printed (cstr "  .help - show this message" ++ [LF]) [] _ s1
                  (printed_cursor _ _ _ P1) eq_refl) as (s2 & E2 & P2).
      rewrite (bind_some _ _ _ _ _ E2) in E.
      destruct (kprintf_printed (cstr "  .save - save to file" ++ [LF]) [] _ s2
                  (printed_cursor _ _ _ P2) eq_refl) as (s3 & E3 & P3).
      rewrite (bind_some _ _ _ _ _ E3) in E.
      destruct (kprintf_printed (cstr "  .wq   - write and quit" ++ [LF]) [] _ s3
                  (printed_cursor _ _ _ P3) eq_refl) as (s4 & E4 & P4).
      rewrite (bind_some _ _ _ _ _ E4) in E.
      destruct (kprintf_printed (cstr "  .quit - quit without saving" ++ [LF]) [] _ s4
                  (printed_cursor _ _ _ P4) eq_refl) as (s5 & E5 & P5).
      rewrite (bind_some _ _ _ _ _ E5) in E. injection E as <- <-.
      pose proof (printed_quiet _ _ _
                    (printed_app _ _ _ _ _ P1
                       (printed_app _ _ _ _ _ P2
                          (printed_app _ _ _ _ _ P3
                             (printed_app _ _ _ _ _ P4 P5))))) as Q.
      exact Q. }
    destruct ((chr line 1 =? ch "s") && (chr line 2 =? ch "a") && (chr line 3 =? ch "v")
              && (chr line 4 =? ch "e") && (chr line 5 =? NUL)).
    { destruct (nano_save fn buf len st) as [[[] s1]|] eqn:Es;
        [|rewrite (bind_none _ _ _ Es) in E; discriminate].
      rewrite (bind_some _ _ _ _ _ Es) in E. injection E as <- <-.
      exact (nano_save_quiet _ _ _ _ _ Hc Es). }
    destruct ((chr line 1 =? ch "w") && (chr line 2 =? ch "q") && (chr line 3 =? NUL)).
    { destruct (nano_save fn buf len st) as [[[] s1]|] eqn:Es;
        [|rewrite (bind_none _ _ _ Es) in E; discriminate].
      rewrite (bind_some _ _ _ _ _ Es) in E. injection E as <- <-.
      exact (nano_save_quiet _ _ _ _ _ Hc Es). }
    destruct ((chr line 1 =? ch "q") && (chr line 2 =? NUL)).
    { destruct (kprintf_printed (cstr "Quit without saving" ++ [LF]) [] _ st Hc eq_refl)
        as (s1 & E1 & P1).
      rewrite (bind_some _ _ _ _ _ E1) in E. injection E as <- <-.
      exact (printed_quiet _ _ _ P1). }
    destruct (kprintf_printed (cstr "Unknown editor command: %s" ++ [LF])
                [VStr (Some line)] _ st Hc eq_refl) as (s1 & E1 & P1).
    rewrite (bind_some _ _ _ _ _ E1) in E. injection E as <- <-.
    exact (printed_quiet _ _ _ P1).
  - destruct (nano_append line buf len st) as [[a s1]|] eqn:Ea;
      [|rewrite (bind_none _ _ _ Ea) in E; discriminate].
    rewrite (bind_some _ _ _ _ _ Ea) in E.
    destruct (nano_append_quiet _ _ _ _ _ _ Hc Ea) as (C1 & K1 & I1).
    destruct (snd a <? MAX_FILE_SIZE).
    + destruct (wr MAX_FILE_SIZE (fst a) (snd a) LF) as [b|]; [|discriminate].
      rewrite bind_lift in E. injection E as <- <-. auto.
    + destruct (kprintf_printed (cstr "Buffer full, no newline" ++ [LF]) [] _ s1 C1 eq_refl)
        as (s2 & E2 & P2).
      rewrite (bind_some _ _ _ _ _ E2) in E. injection E as <- <-.
      destruct (printed_quiet _ _ _ P2) as (C2 & K2 & I2).
      split; [exact C2|]. split; congruence.
Qed.

(** The budget [nano_edit] gives the editor loop is enough: more rounds
    change nothing. *)
Lemma nano_loop_fuel : forall fuel fuel' fn line buf len st,
  cursor_ok st -> ring_ok (kbd st) ->
  (input_budget st <= fuel)%nat -> (input_budget st <= fuel')%nat ->
  nano_loop fuel fn line buf len st = nano_loop fuel' fn line buf len st.
Proof.
  induction fuel as [|fuel IH]; intros fuel' fn line buf len st Hc Hr Hf Hf'.
  { unfold input_budget in Hf. lia. }
  destruct fuel' as [|fuel']; [unfold input_budget in Hf'; lia|].
  cbn [nano_loop].
  destruct (kprintf_printed (cstr "edit> ") [] _ st Hc eq_refl) as (s1 & E1 & P1).
  rewrite !(bind_some _ _ _ _ _ E1).
  pose proof (printed_budget _ _ _ P1) as B1.
  pose proof (printed_ring _ _ _ P1 Hr) as R1.
  pose proof (printed_cursor _ _ _ P1) as C1.
  destruct (read_line line INPUT_BUF s1) as [[l s2]|] eqn:El;
    [|rewrite !(bind_none _ _ _ El); reflexivity].
  rewrite !(bind_some _ _ _ _ _ El).
  unfold read_line in El. unfold get at 1 in El. unfold bind at 1 in El.
  destruct (read_line_loop_budget _ _ _ _ _ _ _ C1 R1 El) as (C2 & R2 & B2 & _).
  destruct (nano_line fn l buf len s2) as [[r s3]|] eqn:En;
    [|rewrite !(bind_none _ _ _ En); reflexivity].
  rewrite !(bind_some _ _ _ _ _ En).
  destruct (nano_line_quiet _ _ _ _ _ _ _ C2 En) as (C3 & K3 & I3).
  pose proof (input_budget_eq _ _ K3 I3) as B3.
  destruct (fst r); [|reflexivity].
  apply IH; [exact C3|rewrite K3; exact R2|lia|lia].
Qed.

(** ** The table invariant

    [fs_init] establishes [fs_wf] on any memory of the right shape, and
    the other operations keep it. *)

Lemma file_at_nth fs i : file_at fs i = nth (Z.to_nat i) fs inhabitant.
Proof. unfold file_at. rewrite list_lookup_total_alt, nth_lookup. reflexivity. Qed.

Lemma file_at_map_used fs i :
  file_at (map (set_used 0) fs) i = set_used 0 (file_at fs i).
Proof.
  rewrite !file_at_nth.
  exact (map_nth (set_used 0) fs inhabitant (Z.to_nat i)).
Qed.

(** The first loop of [fs_init] clears every [used] flag. *)
Lemma clear_used_prefix fs : forall n : nat, (n <= length fs)%nat ->
  fold_left (fun fs i => set_file i (set_used 0 (file_at fs i)) fs)
            (seqZ 0 (Z.of_nat n)) fs
  = map (set_used 0) (take n fs) ++ drop n fs.
Proof.
  induction n as [|n IH]; intros Hn; [reflexivity|].
  rewrite seqZ_S, fold_left_app, IH by lia. cbn [fold_left].
  rewrite Z.add_0_l.
  destruct (lookup_lt_is_Some_2 fs n ltac:(lia)) as [e He].
  assert (Hlen : length (map (set_used 0) (take n fs)) = n)
    by (rewrite length_map, length_take; lia).
  assert (Hat : file_at (map (set_used 0) (take n fs) ++ drop n fs) (Z.of_nat n) = e).
  { unfold file_at. rewrite Nat2Z.id, lookup_total_app_r by lia.
    rewrite Hlen, Nat.sub_diag, (drop_S _ _ _ He). reflexivity. }
  rewrite Hat. unfold set_file. rewrite Nat2Z.id.
  rewrite insert_app_r_alt by lia. rewrite Hlen, Nat.sub_diag.
  rewrite (drop_S _ _ _ He). cbn [insert list_insert].
  rewrite (take_S_r _ _ _ He), map_app. cbn [map].
  rewrite <- app_assoc. reflexivity.
Qed.

Lemma fs_shape_cleared fs : fs_shape fs -> fs_wf (map (set_used 0) fs).
Proof.
  intros [Hl Hf]. split; [rewrite length_map; exact Hl|].
  apply Forall_forall. intros e He.
  apply list_elem_of_In, in_map_iff in He. destruct He as (e0 & <- & Hin).
  apply list_elem_of_In in Hin.
  rewrite Forall_forall in Hf. destruct (Hf e0 Hin) as [Hn Hd].
  split; [exact Hn|]. split; [exact Hd|]. intros H. contradiction H. reflexivity.
Qed.

(** [fs_init]: every slot is released, then slot 0 becomes the file
    "welcome" holding the 39 bytes of the greeting. *)
Lemma fs_init_eq fs :
  fs_shape fs ->
  fs_init fs
  = Some (tt, set_file 0
                {| name := stored_name (cstr "welcome") (name (file_at fs 0));
                   used := 1; size := 39;
                   data := welcome_text ++ drop 39 (data (file_at fs 0)) |}
                (map (set_used 0) fs)).
Proof.
  intros Hs. pose proof (fs_shape_cleared fs Hs) as Hwf.
  destruct Hs as [Hl Hf]. unfold fs_init.
  change MAX_FILES with (Z.of_nat 16).
  rewrite clear_used_prefix by lia.
  rewrite take_ge, drop_ge, app_nil_r by lia.
  set (fa := map (set_used 0) fs) in *.
  assert (Hfree : first_free 16 0 fa = 0).
  { pose proof (first_free_spec fa 16 0 ltac:(lia) ltac:(lia)) as H. cbv zeta in H.
    assert (H0 : used (file_at fa 0) = 0) by (unfold fa; rewrite file_at_map_used; reflexivity).
    destruct H as [[_ Hall]|(Hr & _ & Hb)].
    - exfalso. exact (Hall 0 ltac:(lia) H0).
    - destruct (Z.eq_dec (first_free 16 0 fa) 0) as [E|E]; [exact E|].
      exfalso. exact (Hb 0 ltac:(lia) H0). }
  rewrite Hfree. cbn [Z.leb Z.compare].
  destruct Hwf as [Hla Hfa].
  rewrite !file_at_set_same by (rewrite ?length_set_file; assumption || lia).
  cbn [data name set_used set_data set_size].
  assert (Hat : file_at fa 0 = set_used 0 (file_at fs 0)) by apply file_at_map_used.
  rewrite Hat. cbn [data name set_used].
  assert (Hshape0 : length (name (file_at fs 0)) = 16%nat /\
                    length (data (file_at fs 0)) = 512%nat).
  { unfold file_at.
    exact (Forall_lookup_total_1
             (fun e => length (name e) = 16%nat /\ length (data e) = 512%nat)
             fs (Z.to_nat 0) Hf ltac:(cbn; lia)). }
  destruct Hshape0 as [Hn0 Hd0].
  pose proof (copy_string_spec welcome_text (data (file_at fs 0)) 512 512 Hd0
                ltac:(lia) 512 0 ltac:(lia)) as Hc.
  cbv zeta in Hc.
  assert (Hm : Nat.min 512 (length (c_str welcome_text)) = 39%nat) by reflexivity.
  rewrite Hm in Hc. specialize (Hc ltac:(lia)).
  assert (Hw : take 39 (c_str welcome_text) = welcome_text) by reflexivity.
  rewrite Hw in Hc.
  change (take 0 (c_str welcome_text)) with (@nil Z) in Hc.
  rewrite drop_0 in Hc. cbn [app] in Hc.
  change (Z.of_nat 512) with MAX_FILE_SIZE in Hc.
  change (Z.of_nat 0) with 0 in Hc. change (Z.of_nat 39) with 39 in Hc.
  rewrite Hc. cbv beta iota zeta.
  rewrite !file_at_set_same by (rewrite ?length_set_file; assumption || lia).
  cbn [data name set_data set_size set_used].
  destruct (copy_name (cstr "welcome") (name (file_at fs 0)) Hn0) as (b & j & Ec & Ew).
  rewrite Ec, Ew. rewrite !set_file_twice. reflexivity.
Qed.

Lemma fs_init_wf fs :
  fs_shape fs -> exists fs', fs_init fs = Some (tt, fs') /\ fs_wf fs'.
Proof.
  intros Hs. rewrite (fs_init_eq fs Hs). eexists. split; [reflexivity|].
  apply set_file_wf; [apply fs_shape_cleared; exact Hs|].
  destruct Hs as [Hl Hf].
  assert (Hshape0 : length (name (file_at fs 0)) = 16%nat /\
                    length (data (file_at fs 0)) = 512%nat).
  { unfold file_at.
    exact (Forall_lookup_total_1
             (fun e => length (name e) = 16%nat /\ length (data e) = 512%nat)
             fs (Z.to_nat 0) Hf ltac:(cbn; lia)). }
  destruct Hshape0 as [Hn0 Hd0].
  split; [apply stored_name_length; exact Hn0|]. split.
  - cbn [data]. rewrite length_app, length_drop, Hd0. reflexivity.
  - intros _. apply stored_name_terminated.
Qed.

Lemma fs_write_wf nm src len fs w fs1 :
  fs_wf fs -> 0 <= len <= Z.of_nat (length src) ->
  fs_write nm src len fs = Some (w, fs1) -> fs_wf fs1.
Proof.
  intros Hwf Hlen E.
  destruct (fs_write_eq nm src len fs Hwf Hlen) as (r & _ & Hr & E').
  pose proof (first_free_spec fs 16 0 ltac:(lia) ltac:(lia)) as Hfree.
  cbv zeta in E', Hfree. set (i := first_free 16 0 fs) in *. clearbody i.
  set (n := Z.min len MAX_FILE_SIZE) in *.
  assert (Hn : 0 <= n <= 512 /\ n <= Z.of_nat (length src))
    by (subst n; unfold MAX_FILE_SIZE; lia).
  rewrite E' in E.
  destruct (0 <=? r) eqn:E0.
  - apply Z.leb_le in E0. injection E as <- <-.
    apply set_file_wf; [exact Hwf|].
    apply written_ok; [apply file_at_ok; [exact Hwf|lia]|lia|lia].
  - destruct (0 <=? i) eqn:Ei; injection E as <- <-; [|exact Hwf].
    apply Z.leb_le in Ei.
    apply set_file_wf; [exact Hwf|].
    apply written_ok; [|lia|lia]. apply created_ok, file_at_ok; [exact Hwf|].
    destruct Hfree as [[E1 _]|[Hi _]]; lia.
Qed.

Lemma fs_remove_wf nm fs r fs1 :
  fs_wf fs -> fs_remove nm fs = Some (r, fs1) -> fs_wf fs1.
Proof.
  intros Hwf E. unfold fs_remove in E.
  destruct (fs_find_spec nm fs Hwf) as (idx & Ei & Hspec). rewrite Ei in E.
  destruct (idx <? 0) eqn:E0; injection E as <- <-; [exact Hwf|].
  apply Z.ltb_ge in E0.
  assert (Hidx : 0 <= idx < 16) by (destruct Hspec as [[-> _]|[Hr _]]; lia).
  apply set_file_wf; [exact Hwf|].
  destruct (file_at_ok fs idx Hwf Hidx) as (Hn & Hd & _).
  split; [exact Hn|]. split; [exact Hd|]. intros H. contradiction H. reflexivity.
Qed.

(** ** The table after start-up *)

Lemma fs_find_intro nm fs r : fs_wf fs ->
  ((r = -1 /\ forall j, 0 <= j < 16 -> ~ slot_named fs nm j) \/
   (0 <= r < 16 /\ slot_named fs nm r /\
    forall j, 0 <= j < r -> ~ slot_named fs nm j)) ->
  fs_find nm fs = Some r.
Proof.
  intros Hwf H. destruct (fs_find_spec nm fs Hwf) as (r' & E & H').
  rewrite E. f_equal. exact (fs_find_unique nm fs r' r H' H).
Qed.

Lemma fs_find_absent nm fs : fs_wf fs ->
  fs_find nm fs = Some (-1) -> forall j, 0 <= j < 16 -> ~ slot_named fs nm j.
Proof.
  intros Hwf E. destruct (fs_find_spec nm fs Hwf) as (r & E' & H).
  rewrite E in E'. injection E' as <-.
  destruct H as [[_ H]|[H _]]; [exact H|lia].
Qed.

Lemma fs_find_present nm fs r : fs_wf fs ->
  fs_find nm fs = Some r -> 0 <= r ->
  r < 16 /\ slot_named fs nm r /\ forall j, 0 <= j < r -> ~ slot_named fs nm j.
Proof.
  intros Hwf E Hr. destruct (fs_find_spec nm fs Hwf) as (r' & E' & H).
  rewrite E in E'. injection E' as <-.
  destruct H as [[H _]|(H1 & H2 & H3)]; [lia|]. split; [lia|]. split; assumption.
Qed.

Lemma image_files_shape : fs_shape (files image).
Proof.
  split; [reflexivity|]. cbn [files image].
  apply Forall_replicate. split; reflexivity.
Qed.

Lemma boot_files_wf : fs_wf boot_files.
Proof.
  unfold boot_files.
  destruct (fs_init_wf (files image) image_files_shape) as (fs' & E & H).
  rewrite E. exact H.
Qed.

Lemma boot_files_welcome :
  slot_named boot_files (cstr "welcome") 0 /\
  (forall j, 0 <= j < 0 -> ~ slot_named boot_files (cstr "welcome") j) /\
  (forall j, 0 <= j < 16 -> ~ slot_named boot_files (cstr "b") j).
Proof.
  destruct (fs_find_present (cstr "welcome") boot_files 0 boot_files_wf eq_refl
              ltac:(lia)) as (_ & H1 & H2).
  split; [exact H1|]. split; [exact H2|].
  exact (fs_find_absent (cstr "b") boot_files boot_files_wf eq_refl).
Qed.

Lemma fs_write_contract_witness :
  let fs := boot_files in
  (fs_wf fs /\ 0 <= 2 <= Z.of_nat (length (cstr "hi"))) /\
  (slot_named fs (cstr "welcome") 0 /\
   fs_write (cstr "welcome") (cstr "hi") 2 fs
   = Some (2, set_file 0 (written (cstr "hi") 2 (file_at fs 0)) fs) /\
   size (file_at (set_file 0 (written (cstr "hi") 2 (file_at fs 0)) fs) 0) = 2) /\
  ((forall j, 0 <= j < 16 -> ~ slot_named fs (cstr "b") j) /\
   exists c fs',
     fs_write (cstr "b") (cstr "hi") 2 fs = Some (2, fs') /\ 0 <= c < 16 /\
     used (file_at fs c) = 0 /\
     used (file_at fs' c) = 1 /\ size (file_at fs' c) = 2 /\
     c_str (name (file_at fs' c)) = take 15 (c_str (cstr "b")) /\
     take 2 (data (file_at fs' c)) = take 2 (cstr "hi")).
Proof.
  cbv zeta.
  assert (Hlen : 0 <= 2 <= Z.of_nat (length (cstr "hi"))) by (cbn; lia).
  destruct boot_files_welcome as (Hw & Hfirst & Hb).
  split; [split; [exact boot_files_wf|exact Hlen]|]. split.
  - split; [exact Hw|].
    destruct (proj1 (fs_write_contract (cstr "welcome") (cstr "hi") 2 boot_files
                       boot_files_wf Hlen) 0 ltac:(lia) Hw Hfirst) as (E & S & _).
    split; [exact E|exact S].
  - split; [exact Hb|].
    apply (proj2 (proj2 (fs_write_contract (cstr "b") (cstr "hi") 2 boot_files
                           boot_files_wf Hlen)) Hb eq_refl).
    exists 1. split; [lia|reflexivity].
Defined.

(** ** The keyboard as an input stream *)

Lemma pending_empty q : kbuf_head q = kbuf_tail q -> pending q = [].
Proof.
  intros E. unfold pending. rewrite E, Z.sub_diag. reflexivity.
Qed.

Lemma pending_nonempty q :
  ring_ok q -> kbuf_head q <> kbuf_tail q -> pending q <> [].
Proof.
  intros (Hh & Ht & _) Hne Hp. pose proof (pending_length q) as L.
  rewrite Hp in L. cbn [length] in L. zmod.
Qed.

(** Spinning on an empty ring: interrupts are taken until one of them
    brings a character; with none to come the wait never ends. *)
Lemma getchar_wait_stream : forall keys st,
  ring_ok (kbd st) -> kbuf_head (kbd st) = kbuf_tail (kbd st) ->
  match decoded keys with
  | [] => getchar_wait keys st = None
  | c :: rest =>
    exists st', getchar_wait keys st = Some (tt, st') /\
      ring_ok (kbd st') /\ pending (kbd st') = [c] /\
      decoded (irq1_keys (hw st')) = rest /\
      term st' = term st /\ files st' = files st /\ tty st' = tty st
  end.
Proof.
  induction keys as [|sc keys IH]; intros st Hok Ee.
  - cbn [decoded pushed map getchar_wait]. unfold get, bind.
    apply Z.eqb_eq in Ee. rewrite Ee. reflexivity.
  - assert (Hstep : getchar_wait (sc :: keys) st
                    = (irq1 sc >> getchar_wait keys)
                        (set_hw (set_irq1_keys keys (hw st)) st)).
    { cbn [getchar_wait]. unfold get at 1. unfold bind at 1.
      apply Z.eqb_eq in Ee. rewrite Ee. reflexivity. }
    rewrite Hstep. clear Hstep.
    set (s' := set_hw (set_irq1_keys keys (hw st)) st).
    pose proof Hok as (Hh & Ht & Hl).
    destruct (irq1_run s' sc Hh) as (s2 & E2 & K2 & I2 & T2 & F2 & O2).
    rewrite (bind_some _ _ _ _ _ E2).
    change (decoded (sc :: keys))
      with (if scancode_char (u8 sc) =? 0 then decoded keys
            else scancode_char (u8 sc) :: decoded keys).
    change (kbd s') with (kbd st) in K2.
    change (term s') with (term st) in T2.
    change (files s') with (files st) in F2.
    change (tty s') with (tty st) in O2.
    change (irq1_keys (hw s')) with keys in I2.
    clearbody s'.
    destruct (scancode_char (u8 sc) =? 0) eqn:Ec.
    + cbn [orb] in K2.
      assert (Hok2 : ring_ok (kbd s2)) by (rewrite K2; exact Hok).
      assert (Ee2 : kbuf_head (kbd s2) = kbuf_tail (kbd s2)) by (rewrite K2; exact Ee).
      specialize (IH s2 Hok2 Ee2).
      destruct (decoded keys) as [|c rest]; [exact IH|].
      destruct IH as (st' & E & R1 & R2 & R3 & R4 & R5 & R6).
      exists st'. split; [exact E|]. split; [exact R1|]. split; [exact R2|].
      split; [exact R3|]. repeat split; congruence.
    + assert (Hfree : (kbuf_head (kbd st) + 1) mod KBUF_SIZE <> kbuf_tail (kbd st))
        by zmod.
      cbn [orb] in K2.
      replace ((kbuf_head (kbd st) + 1) mod KBUF_SIZE =? kbuf_tail (kbd st))
        with false in K2 by (symmetry; apply Z.eqb_neq; exact Hfree).
      destruct (pending_push (kbd st) (scancode_char (u8 sc)) Hok Hfree) as [Hok' Hp'].
      rewrite <- K2 in Hok', Hp'.
      rewrite (pending_empty _ Ee) in Hp'. cbn [app] in Hp'.
      assert (Hne : kbuf_head (kbd s2) <> kbuf_tail (kbd s2)).
      { intros E. rewrite (pending_empty _ E) in Hp'. discriminate. }
      exists s2. split; [apply getchar_wait_ready; exact Hne|].
      split; [exact Hok'|]. split; [exact Hp'|]. split; [rewrite I2; reflexivity|].
      repeat split; assumption.
Qed.

(** One [keyboard_getchar_irq]: it returns the head of the input stream
    and leaves the rest; on an empty stream it never returns. *)
Lemma getchar_next st :
  ring_ok (kbd st) ->
  match input_stream st with
  | [] => keyboard_getchar_irq st = None
  | c :: rest =>
    exists st', keyboard_getchar_irq st = Some (c, st') /\
      ring_ok (kbd st') /\ input_stream st' = rest /\
      term st' = term st /\ files st' = files st /\ tty st' = tty st
  end.
Proof.
  intros Hok. unfold input_stream.
  destruct (Z.eq_dec (kbuf_head (kbd st)) (kbuf_tail (kbd st))) as [Ee|Hne].
  - rewrite (pending_empty _ Ee). cbn [app].
    pose proof (getchar_wait_stream (irq1_keys (hw st)) st Hok Ee) as W.
    destruct (decoded (irq1_keys (hw st))) as [|c rest].
    + unfold keyboard_getchar_irq. unfold get at 1. unfold bind at 1.
      rewrite (bind_none _ _ _ W). reflexivity.
    + destruct W as (s0 & E0 & R1 & R2 & R3 & R4 & R5 & R6).
      assert (Hne0 : kbuf_head (kbd s0) <> kbuf_tail (kbd s0)).
      { intros E. rewrite (pending_empty _ E) in R2. discriminate. }
      destruct (getchar_run s0 R1 Hne0) as (s1 & E1 & K1 & W1 & T1 & F1 & O1).
      unfold keyboard_getchar_irq in E1.
      unfold get at 1 in E1. unfold bind at 1 in E1.
      rewrite (bind_some _ _ _ _ _ (getchar_wait_ready _ s0 Hne0)) in E1.
      destruct (pending_pop (kbd s0) R1 Hne0) as [Hok1 Hp].
      rewrite <- K1 in Hok1, Hp. rewrite R2 in Hp. injection Hp as Hc Hp.
      exists s1. split.
      { unfold keyboard_getchar_irq. unfold get at 1. unfold bind at 1.
        rewrite (bind_some _ _ _ _ _ E0). rewrite E1, <- Hc. reflexivity. }
      split; [exact Hok1|]. split; [rewrite <- Hp, W1, R3; reflexivity|].
      repeat split; congruence.
  - destruct (getchar_run st Hok Hne) as (s1 & E1 & K1 & W1 & T1 & F1 & O1).
    destruct (pending_pop (kbd st) Hok Hne) as [Hok1 Hp].
    rewrite <- K1 in Hok1, Hp. rewrite Hp. cbn [app].
    exists s1. split; [exact E1|]. split; [exact Hok1|].
    split; [rewrite W1; reflexivity|]. repeat split; assumption.
Qed.

(** X1.  [keyboard_getchar_irq] reads the keyboard as a stream: on a
    well-formed ring it returns the first character of [input_stream]
    (the characters waiting in the ring, then those the coming
    interrupts decode to) and leaves the rest of the stream; if the
    stream is empty it never returns. *)
Theorem keyboard_getchar_input (st : kernel) :
  ring_ok (kbd st) ->
  (input_stream st = [] -> keyboard_getchar_irq st = None) /\
  (forall c rest, input_stream st = c :: rest ->
     exists st', keyboard_getchar_irq st = Some (c, st') /\
       ring_ok (kbd st') /\ input_stream st' = rest /\
       term st' = term st /\ files st' = files st /\ tty st' = tty st).
Proof.
  intros Hok. pose proof (getchar_next st Hok) as H. split.
  - intros E. rewrite E in H. exact H.
  - intros c rest E. rewrite E in H. exact H.
Qed.

Lemma image_ring_ok : ring_ok (kbd image).
Proof.
  unfold ring_ok, KBUF_SIZE. cbn [kbd image kbuf_head kbuf_tail kbuf].
  split; [lia|]. split; [lia|]. reflexivity.
Qed.

Lemma keyboard_getchar_input_witness :
  let st := set_hw (set_irq1_keys [0x9E; 0x1E; 0x30] (hw image)) image in
  (input_stream st = [] -> keyboard_getchar_irq st = None) /\
  (forall c rest, input_stream st = c :: rest ->
     exists st', keyboard_getchar_irq st = Some (c, st') /\
       ring_ok (kbd st') /\ input_stream st' = rest /\
       term st' = term st /\ files st' = files st /\ tty st' = tty st).
Proof.
  exact (keyboard_getchar_input
           (set_hw (set_irq1_keys [0x9E; 0x1E; 0x30] (hw image)) image)
           image_ring_ok).
Defined.

Lemma pending_bound q : (length (pending q) <= 255)%nat.
Proof. pose proof (pending_length q). zmod. Qed.

(** X2.  The ring holds at most [KBUF_SIZE - 1] = 255 characters and a
    full ring drops the newest: after any run of keyboard interrupts
    with no reader in between, the pending characters are the first 255
    of those that were pending followed by those the interrupts decode
    to, and the read index has not moved. *)
Theorem kbuf_keeps_oldest (scs : list Z) (st : kernel) :
  ring_ok (kbd st) ->
  exists st', run_events (map Key scs) st = Some ([], st') /\
    ring_ok (kbd st') /\
    pending (kbd st') = take 255 (pending (kbd st) ++ decoded scs) /\
    kbuf_tail (kbd st') = kbuf_tail (kbd st).
Proof.
  revert st. induction scs as [|sc scs IH]; intros st Hok.
  - exists st. split; [reflexivity|]. split; [exact Hok|].
    unfold decoded. cbn [map pushed]. rewrite app_nil_r.
    rewrite take_ge by apply pending_bound. split; reflexivity.
  - cbn [map run_events].
    pose proof Hok as (Hh & Ht & Hl).
    destruct (irq1_run st sc Hh) as (s1 & E1 & K1 & _).
    rewrite (bind_some _ _ _ _ _ E1).
    change (decoded (sc :: scs))
      with (if scancode_char (u8 sc) =? 0 then decoded scs
            else scancode_char (u8 sc) :: decoded scs).
    destruct (scancode_char (u8 sc) =? 0) eqn:Ec.
    + cbn [orb] in K1.
      destruct (IH s1) as (st' & E & R1 & R2 & R3); [rewrite K1; exact Hok|].
      exists st'. rewrite K1 in R2, R3. auto.
    + cbn [orb] in K1.
      destruct ((kbuf_head (kbd st) + 1) mod KBUF_SIZE =? kbuf_tail (kbd st)) eqn:Efull.
      * apply Z.eqb_eq in Efull.
        destruct (IH s1) as (st' & E & R1 & R2 & R3); [rewrite K1; exact Hok|].
        exists st'. rewrite K1 in R2, R3.
        split; [exact E|]. split; [exact R1|]. split; [|exact R3].
        assert (L : length (pending (kbd st)) = 255%nat).
        { pose proof (pending_length (kbd st)). zmod. }
        rewrite R2, !take_app_le by lia. reflexivity.
      * apply Z.eqb_neq in Efull.
        destruct (pending_push (kbd st) (scancode_char (u8 sc)) Hok Efull) as [Hok' Hp'].
        rewrite <- K1 in Hok', Hp'.
        destruct (IH s1 Hok') as (st' & E & R1 & R2 & R3).
        exists st'. split; [exact E|]. split; [exact R1|].
        rewrite R2, Hp', <- app_assoc, R3, K1. split; reflexivity.
Qed.

Lemma kbuf_keeps_oldest_witness :
  exists st', run_events (map Key (replicate 300 0x1E)) image = Some ([], st') /\
    ring_ok (kbd st') /\
    pending (kbd st') = take 255 (pending (kbd image) ++ decoded (replicate 300 0x1E)) /\
    kbuf_tail (kbd st') = kbuf_tail (kbd image).
Proof. exact (kbuf_keeps_oldest (replicate 300 0x1E) image image_ring_ok). Defined.

Lemma scancode_unmapped_table :
  forallb (fun sc => implb ((128 <=? sc) || (58 <=? sc) || (sc =? 0) || (sc =? 29)
                            || (sc =? 42) || (sc =? 54) || (sc =? 56))
                           (scancode_char sc =? 0))
          (seqZ 0 256) = true.
Proof. vm_compute. reflexivity. Qed.

Lemma scancode_unmapped sc :
  0 <= sc < 256 ->
  128 <= sc \/ 58 <= sc \/ sc = 0 \/ sc = 29 \/ sc = 42 \/ sc = 54 \/ sc = 56 ->
  scancode_char sc = 0.
Proof.
  intros Hr Hc. pose proof scancode_unmapped_table as T.
  rewrite forallb_forall in T. specialize (T sc).
  assert (Hin : In sc (seqZ 0 256)).
  { apply list_elem_of_In, elem_of_seqZ. lia. }
  specialize (T Hin).
  replace ((128 <=? sc) || (58 <=? sc) || (sc =? 0) || (sc =? 29)
           || (sc =? 42) || (sc =? 54) || (sc =? 56)) with true in T.
  - cbn [implb] in T. apply Z.eqb_eq. exact T.
  - symmetry. rewrite !orb_true_iff, !Z.leb_le, !Z.eqb_eq. tauto.
Qed.

(** X3.  [keyboard_handler] ignores key releases and keys outside its
    table: when the scancode read from port 0x60 has bit 7 set, or is
    one of the codes the table maps to 0 (0, 29, 42, 54, 56 and 58 to
    127), the handler returns with the ring, whatever its state, left
    untouched; all it has done is the port read. *)
Theorem keyboard_handler_ignores (st : kernel) :
  let sc := u8 (port_in (hw st) 0x60 0%nat) in
  128 <= sc \/ 58 <= sc \/ sc = 0 \/ sc = 29 \/ sc = 42 \/ sc = 54 \/ sc = 56 ->
  exists st', keyboard_handler st = Some (tt, st') /\
    kbd st' = kbd st /\ term st' = term st /\ files st' = files st /\
    tty st' = tty st /\
    io_log (hw st') = io_log (hw st) ++ [PortIn 0x60 sc].
Proof.
  intros sc Hc. unfold keyboard_handler.
  destruct (inb_run 0x60 st) as (s1 & E1 & L1 & P1 & I1 & T1 & K1 & F1 & O1).
  rewrite (bind_some _ _ _ _ _ E1). fold sc in L1 |- *.
  assert (Hsc : 0 <= sc < 256) by apply u8_range.
  pose proof (scancode_unmapped sc Hsc Hc) as Hz. unfold scancode_char in Hz.
  destruct (negb (Z.land sc 0x80 =? 0)).
  { exists s1. split; [reflexivity|]. auto. }
  destruct (sc <? 128) eqn:Elt.
  - apply Z.ltb_lt in Elt. unfold rd.
    replace ((0 <=? sc) && (sc <? 128)) with true
      by (symmetry; apply andb_true_iff; split; [apply Z.leb_le|apply Z.ltb_lt]; lia).
    unfold lift at 1. unfold bind at 1. rewrite Hz. cbn [Z.eqb].
    exists s1. split; [reflexivity|]. auto.
  - unfold ret at 1. unfold bind at 1. cbn [Z.eqb].
    exists s1. split; [reflexivity|]. auto.
Qed.

Lemma keyboard_handler_ignores_witness :
  let st := set_hw (latch 0x60 0x9E (hw image)) image in
  exists st', keyboard_handler st = Some (tt, st') /\
    kbd st' = kbd st /\ term st' = term st /\ files st' = files st /\
    tty st' = tty st /\
    io_log (hw st') = io_log (hw st) ++ [PortIn 0x60 (u8 (port_in (hw st) 0x60 0%nat))].
Proof.
  apply (keyboard_handler_ignores (set_hw (latch 0x60 0x9E (hw image)) image)).
  left. vm_compute. discriminate.
Defined.

(** ** [read_line] *)

Lemma take_insert_snoc (buf : list Z) n c :
  (n < length buf)%nat -> take (S n) (<[n := c]> buf) = take n buf ++ [c].
Proof.
  intros H. rewrite (take_S_r _ _ c) by (apply list_lookup_insert_eq; exact H).
  rewrite take_insert_ge by lia. reflexivity.
Qed.

Lemma removelast_take (acc buf : list Z) :
  take (length acc) buf = acc ->
  length (removelast acc) = pred (length acc) /\
  take (length (removelast acc)) buf = removelast acc.
Proof.
  intros H.
  assert (L : length (removelast acc) = pred (length acc)).
  { rewrite removelast_firstn_len, length_take. lia. }
  split; [exact L|].
  rewrite L.
  transitivity (take (pred (length acc)) (take (length acc) buf)).
  - rewrite take_take. f_equal. lia.
  - rewrite H. symmetry. apply removelast_firstn_len.
Qed.

Lemma input_budget_pos st : (1 <= input_budget st)%nat.
Proof. unfold input_budget. lia. Qed.

(** The loop of [read_line] against the input stream: with [acc] in the
    buffer and the keys [ks] followed by a line terminator to come, it
    returns the buffer holding [typed cap ks acc] and its terminator. *)
Lemma read_line_loop_typed (cap : nat) : forall ks acc fuel buf st t rest,
  cursor_ok st -> ring_ok (kbd st) ->
  length buf = S cap -> (length acc <= cap)%nat -> take (length acc) buf = acc ->
  input_stream st = ks ++ t :: rest ->
  t = LF \/ t = CR -> Forall (fun c => c <> LF /\ c <> CR) ks ->
  (input_budget st <= fuel)%nat ->
  exists line st',
    read_line_loop fuel buf (Z.of_nat (S cap)) (Z.of_nat (length acc)) st
    = Some (line, st') /\
    length line = S cap /\
    take (S (length (typed cap ks acc))) line = typed cap ks acc ++ [0] /\
    (length (typed cap ks acc) <= cap)%nat /\
    tty st' = tty st ++ echoed cap ks acc ++ [LF] /\
    input_stream st' = rest /\ files st' = files st /\
    cursor_ok st' /\ ring_ok (kbd st').
Proof.
  induction ks as [|c ks IH]; intros acc fuel buf st t rest Hc Hr Hb Ha Ht Hs Hterm Hks Hf.
  - pose proof (input_budget_pos st).
    destruct fuel as [|fuel]; [lia|]. cbn [read_line_loop typed echoed app].
    pose proof (getchar_next st Hr) as G. rewrite Hs in G. cbn [app] in G.
    destruct G as (s1 & E1 & R1 & S1 & T1 & F1 & O1).
    rewrite (bind_some _ _ _ _ _ E1).
    replace ((t =? LF) || (t =? CR)) with true
      by (symmetry; apply orb_true_iff; rewrite !Z.eqb_eq; exact Hterm).
    assert (Hc1 : cursor_ok s1) by (unfold cursor_ok; rewrite T1; exact Hc).
    destruct (vga_putc_printed LF s1 Hc1) as (s2 & E2 & P2).
    rewrite (bind_some _ _ _ _ _ E2).
    unfold wr.
    replace ((0 <=? Z.of_nat (length acc)) && (Z.of_nat (length acc) <? Z.of_nat (S cap)))
      with true
      by (symmetry; apply andb_true_iff; split; [apply Z.leb_le|apply Z.ltb_lt]; lia).
    rewrite bind_lift, Nat2Z.id. unfold NUL.
    exists (<[length acc := 0]> buf), s2. split; [reflexivity|].
    destruct P2 as (C2 & O2 & _ & F2 & K2 & _ & I2).
    split; [rewrite length_insert; exact Hb|].
    split; [rewrite take_insert_snoc by lia; rewrite Ht; reflexivity|].
    split; [exact Ha|]. split; [rewrite O2, O1; reflexivity|].
    split; [unfold input_stream in *; rewrite K2, I2; exact S1|].
    split; [congruence|]. split; [exact C2|]. rewrite K2. exact R1.
  - pose proof (input_budget_pos st).
    destruct fuel as [|fuel]; [lia|]. cbn [read_line_loop].
    pose proof (getchar_next st Hr) as G. rewrite Hs in G. cbn [app] in G.
    destruct G as (s1 & E1 & R1 & S1 & T1 & F1 & O1).
    rewrite (bind_some _ _ _ _ _ E1).
    destruct (getchar_budget st c s1 Hr E1) as (_ & B1 & _).
    apply Forall_cons in Hks. destruct Hks as [[HcLF HcCR] Hks].
    replace ((c =? LF) || (c =? CR)) with false
      by (symmetry; apply orb_false_iff; rewrite !Z.eqb_neq; split; assumption).
    assert (Hc1 : cursor_ok s1) by (unfold cursor_ok; rewrite T1; exact Hc).
    cbn [typed echoed].
    destruct (c =? BS) eqn:Ebs.
    + destruct (removelast_take acc buf Ht) as [Lr Tr].
      destruct acc as [|a0 acc0].
      * cbn [length Z.of_nat Z.ltb Z.compare removelast app].
        destruct (IH [] fuel buf s1 t rest Hc1 R1 Hb ltac:(cbn; lia) eq_refl S1 Hterm Hks
                    ltac:(lia)) as (line & st' & E & Q1 & Q2 & Q3 & Q4 & Q5 & Q6 & Q7 & Q8).
        exists line, st'. split; [exact E|]. split; [exact Q1|]. split; [exact Q2|].
        split; [exact Q3|]. split; [rewrite Q4, O1; reflexivity|].
        split; [exact Q5|]. split; [congruence|]. split; assumption.
      * set (acc := a0 :: acc0) in *.
        replace (0 <? Z.of_nat (length acc)) with true
          by (symmetry; apply Z.ltb_lt; subst acc; cbn [length]; lia).
        destruct (vga_putc_printed BS s1 Hc1) as (s2 & E2 & P2).
        rewrite (bind_some _ _ _ _ _ E2).
        pose proof (printed_budget _ _ _ P2) as B2.
        pose proof (printed_ring _ _ _ P2 R1) as R2.
        destruct P2 as (C2 & O2 & _ & F2 & K2 & _ & I2).
        assert (S2 : input_stream s2 = ks ++ t :: rest)
          by (unfold input_stream in *; rewrite K2, I2; exact S1).
        replace (Z.of_nat (length acc) - 1) with (Z.of_nat (length (removelast acc)))
          by (rewrite Lr; subst acc; cbn [length]; lia).
        destruct (IH (removelast acc) fuel buf s2 t rest C2 R2 Hb ltac:(lia) Tr S2
                    Hterm Hks ltac:(lia))
          as (line & st' & E & Q1 & Q2 & Q3 & Q4 & Q5 & Q6 & Q7 & Q8).
        exists line, st'. split; [exact E|]. split; [exact Q1|]. split; [exact Q2|].
        split; [exact Q3|].
        split; [rewrite Q4, O2, O1, <- !app_assoc; reflexivity|].
        split; [exact Q5|]. split; [congruence|]. split; assumption.
    + replace (Z.of_nat (S cap) - 1) with (Z.of_nat cap) by lia.
      destruct (Nat.ltb_spec (length acc) cap) as [Hlt|Hge].
      * replace (Z.of_nat (length acc) <? Z.of_nat cap) with true
          by (symmetry; apply Z.ltb_lt; lia).
        unfold wr.
        replace ((0 <=? Z.of_nat (length acc)) && (Z.of_nat (length acc) <? Z.of_nat (S cap)))
          with true
          by (symmetry; apply andb_true_iff; split; [apply Z.leb_le|apply Z.ltb_lt]; lia).
        rewrite bind_lift, Nat2Z.id.
        destruct (vga_putc_printed c s1 Hc1) as (s2 & E2 & P2).
        rewrite (bind_some _ _ _ _ _ E2).
        pose proof (printed_budget _ _ _ P2) as B2.
        pose proof (printed_ring _ _ _ P2 R1) as R2.
        destruct P2 as (C2 & O2 & _ & F2 & K2 & _ & I2).
        assert (S2 : input_stream s2 = ks ++ t :: rest)
          by (unfold input_stream in *; rewrite K2, I2; exact S1).
        replace (Z.of_nat (length acc) + 1) with (Z.of_nat (length (acc ++ [c])))
          by (rewrite length_app; cbn [length]; lia).
        destruct (IH (acc ++ [c]) fuel (<[length acc := c]> buf) s2 t rest C2 R2
                    ltac:(rewrite length_insert; exact Hb)
                    ltac:(rewrite length_app; cbn [length]; lia)
                    ltac:(rewrite length_app, Nat.add_1_r, take_insert_snoc by lia;
                          rewrite Ht; reflexivity)
                    S2 Hterm Hks ltac:(lia))
          as (line & st' & E & Q1 & Q2 & Q3 & Q4 & Q5 & Q6 & Q7 & Q8).
        exists line, st'. split; [exact E|]. split; [exact Q1|]. split; [exact Q2|].
        split; [exact Q3|].
        split; [rewrite Q4, O2, O1, <- !app_assoc; reflexivity|].
        split; [exact Q5|]. split; [congruence|]. split; assumption.
      * replace (Z.of_nat (length acc) <? Z.of_nat cap) with false
          by (symmetry; apply Z.ltb_ge; lia).
        destruct (IH acc fuel buf s1 t rest Hc1 R1 Hb Ha Ht S1 Hterm Hks ltac:(lia))
          as (line & st' & E & Q1 & Q2 & Q3 & Q4 & Q5 & Q6 & Q7 & Q8).
        exists line, st'. split; [exact E|]. split; [exact Q1|]. split; [exact Q2|].
        split; [exact Q3|]. split; [rewrite Q4, O1; reflexivity|].
        split; [exact Q5|]. split; [congruence|]. split; assumption.
Qed.

Lemma read_line_typed buf st ks t rest :
  cursor_ok st -> ring_ok (kbd st) -> length buf = 128%nat ->
  input_stream st = ks ++ t :: rest ->
  t = LF \/ t = CR -> Forall (fun c => c <> LF /\ c <> CR) ks ->
  exists line st',
    read_line buf INPUT_BUF st = Some (line, st') /\
    length line = 128%nat /\
    take (S (length (typed 127 ks []))) line = typed 127 ks [] ++ [0] /\
    (length (typed 127 ks []) <= 127)%nat /\
    tty st' = tty st ++ echoed 127 ks [] ++ [LF] /\
    input_stream st' = rest /\ files st' = files st /\
    cursor_ok st' /\ ring_ok (kbd st').
Proof.
  intros Hc Hr Hb Hs Hterm Hks. unfold read_line. unfold get at 1. unfold bind at 1.
  exact (read_line_loop_typed 127 ks [] (input_budget st) buf st t rest Hc Hr Hb
           ltac:(cbn; lia) eq_refl Hs Hterm Hks ltac:(lia)).
Qed.

Lemma typed_plain cap : forall ks acc,
  Forall (fun c => c <> BS) ks -> (length acc <= cap)%nat ->
  typed cap ks acc = take cap (acc ++ ks).
Proof.
  induction ks as [|c ks IH]; intros acc Hks Ha; cbn [typed].
  - rewrite app_nil_r, take_ge by lia. reflexivity.
  - apply Forall_cons in Hks. destruct Hks as [Hc Hks].
    replace (c =? BS) with false by (symmetry; apply Z.eqb_neq; exact Hc).
    destruct (Nat.ltb_spec (length acc) cap) as [Hlt|Hge].
    + rewrite IH by (try assumption; rewrite length_app; cbn [length]; lia).
      rewrite <- app_assoc. reflexivity.
    + rewrite IH by assumption. rewrite !take_app_le by lia. reflexivity.
Qed.

Lemma echoed_plain cap : forall ks acc,
  Forall (fun c => c <> BS) ks -> (length acc <= cap)%nat ->
  echoed cap ks acc = take (cap - length acc) ks.
Proof.
  induction ks as [|c ks IH]; intros acc Hks Ha; cbn [echoed].
  - rewrite take_nil. reflexivity.
  - apply Forall_cons in Hks. destruct Hks as [Hc Hks].
    replace (c =? BS) with false by (symmetry; apply Z.eqb_neq; exact Hc).
    destruct (Nat.ltb_spec (length acc) cap) as [Hlt|Hge].
    + rewrite IH by (try assumption; rewrite length_app; cbn [length]; lia).
      rewrite length_app. cbn [length].
      replace (cap - length acc)%nat with (S (cap - (length acc + 1))) by lia.
      reflexivity.
    + rewrite IH by assumption.
      replace (cap - length acc)%nat with 0%nat by lia. reflexivity.
Qed.

Lemma c_str_of_prefix (line l : list Z) :
  take (S (length l)) line = l ++ [0] -> Forall (fun c => c <> 0) l ->
  c_str line = l.
Proof.
  intros Ht Hl. rewrite <- (take_drop (S (length l)) line), Ht, <- app_assoc.
  cbn [app]. apply c_str_app_nul. exact Hl.
Qed.

Lemma typed_nonzero cap : forall ks acc,
  Forall (fun c => c <> 0) ks -> Forall (fun c => c <> 0) acc ->
  Forall (fun c => c <> 0) (typed cap ks acc).
Proof.
  induction ks as [|c ks IH]; intros acc Hks Ha; cbn [typed]; [exact Ha|].
  apply Forall_cons in Hks. destruct Hks as [Hc Hks].
  apply IH; [exact Hks|].
  destruct (c =? BS).
  - rewrite removelast_firstn_len. apply Forall_take. exact Ha.
  - destruct (length acc <? cap)%nat; [|exact Ha].
    apply Forall_app. split; [exact Ha|]. apply Forall_cons. split; [exact Hc|constructor].
Qed.

(** X4.  [read_line] is a line editor over the input stream.  With the
    keys [ks] (none of them a line terminator or NUL) followed by a
    newline or carriage return in the stream, it returns; the string in
    the 128-byte buffer is [typed 127 ks []]: every backspace has removed
    the last character held (none on an empty line), every other key
    was appended while fewer than 127 were held; it is at most 127
    characters long.  The terminal received [echoed 127 ks []] and a
    newline, the stream is left at the character after the terminator,
    and the file table is untouched. *)
Theorem read_line_edits (buf : list Z) (st : kernel) (ks rest : list Z) (t : Z) :
  cursor_ok st -> ring_ok (kbd st) -> length buf = 128%nat ->
  input_stream st = ks ++ t :: rest ->
  t = LF \/ t = CR ->
  Forall (fun c => c <> LF /\ c <> CR) ks -> Forall (fun c => c <> 0) ks ->
  exists line st',
    read_line buf INPUT_BUF st = Some (line, st') /\
    length line = 128%nat /\
    c_str line = typed 127 ks [] /\
    (length (c_str line) <= 127)%nat /\
    tty st' = tty st ++ echoed 127 ks [] ++ [LF] /\
    input_stream st' = rest /\ files st' = files st.
Proof.
  intros Hc Hr Hb Hs Hterm Hks Hnz.
  destruct (read_line_typed buf st ks t rest Hc Hr Hb Hs Hterm Hks)
    as (line & st' & E & Q1 & Q2 & Q3 & Q4 & Q5 & Q6 & _).
  assert (Hl : c_str line = typed 127 ks []).
  { apply c_str_of_prefix; [exact Q2|]. apply typed_nonzero; [exact Hnz|constructor]. }
  exists line, st'. rewrite Hl. auto 10.
Qed.

Lemma read_line_edits_witness :
  let st := set_hw (set_irq1_keys [0x23; 0x17; 0x0E; 0x0E; 0x0E; 0x18; 0x25; 0x1C; 0x1E]
                                  (hw image)) image in
  exists line st',
    read_line (replicate 128 0) INPUT_BUF st = Some (line, st') /\
    length line = 128%nat /\
    c_str line = typed 127 [ch "h"; ch "i"; BS; BS; BS; ch "o"; ch "k"] [] /\
    (length (c_str line) <= 127)%nat /\
    tty st' = tty st ++ echoed 127 [ch "h"; ch "i"; BS; BS; BS; ch "o"; ch "k"] [] ++ [LF] /\
    input_stream st' = [ch "a"] /\ files st' = files st.
Proof.
  refine (read_line_edits (replicate 128 0)
            (set_hw (set_irq1_keys [0x23; 0x17; 0x0E; 0x0E; 0x0E; 0x18; 0x25; 0x1C; 0x1E]
                                   (hw image)) image)
            [ch "h"; ch "i"; BS; BS; BS; ch "o"; ch "k"] [ch "a"] LF
            image_cursor_ok image_ring_ok eq_refl eq_refl (or_introl eq_refl) _ _).
  - repeat (apply Forall_cons; split; [split; discriminate|]). constructor.
  - repeat (apply Forall_cons; split; [discriminate|]). constructor.
Defined.

(** X5.  [read_line] keeps at most 127 characters.  When the keys
    before the terminator are plain characters (no backspace), the
    string returned is their first 127; the characters beyond are
    dropped without being echoed. *)
Theorem read_line_truncates (buf : list Z) (st : kernel) (ks rest : list Z) (t : Z) :
  cursor_ok st -> ring_ok (kbd st) -> length buf = 128%nat ->
  input_stream st = ks ++ t :: rest ->
  t = LF \/ t = CR ->
  Forall (fun c => c <> LF /\ c <> CR /\ c <> BS /\ c <> 0) ks ->
  exists line st',
    read_line buf INPUT_BUF st = Some (line, st') /\
    c_str line = take 127 ks /\
    tty st' = tty st ++ take 127 ks ++ [LF] /\
    input_stream st' = rest.
Proof.
  intros Hc Hr Hb Hs Hterm Hks.
  assert (H1 : Forall (fun c => c <> LF /\ c <> CR) ks)
    by (eapply Forall_impl; [exact Hks|]; cbn; tauto).
  assert (H2 : Forall (fun c => c <> BS) ks)
    by (eapply Forall_impl; [exact Hks|]; cbn; tauto).
  assert (H3 : Forall (fun c => c <> 0) ks)
    by (eapply Forall_impl; [exact Hks|]; cbn; tauto).
  destruct (read_line_typed buf st ks t rest Hc Hr Hb Hs Hterm H1)
    as (line & st' & E & Q1 & Q2 & Q3 & Q4 & Q5 & _).
  rewrite (typed_plain 127 ks [] H2 ltac:(cbn; lia)) in Q2.
  rewrite (echoed_plain 127 ks [] H2 ltac:(cbn; lia)) in Q4.
  cbn [app length] in Q2, Q4.
  exists line, st'. split; [exact E|]. split; [|split; [exact Q4|exact Q5]].
  apply c_str_of_prefix; [exact Q2|]. apply Forall_take. exact H3.
Qed.

Lemma read_line_truncates_witness :
  let st := set_hw (set_irq1_keys (replicate 130 0x1E ++ [0x1C]) (hw image)) image in
  exists line st',
    read_line (replicate 128 0) INPUT_BUF st = Some (line, st') /\
    c_str line = take 127 (replicate 130 (ch "a")) /\
    tty st' = tty st ++ take 127 (replicate 130 (ch "a")) ++ [LF] /\
    input_stream st' = [].
Proof.
  refine (read_line_truncates (replicate 128 0)
            (set_hw (set_irq1_keys (replicate 130 0x1E ++ [0x1C]) (hw image)) image)
            (replicate 130 (ch "a")) [] LF
            image_cursor_ok image_ring_ok eq_refl _ (or_introl eq_refl) _).
  - vm_compute. reflexivity.
  - apply Forall_replicate. repeat split; discriminate.
Defined.

Lemma read_line_loop_waits : forall fuel buf bufsize idx st,
  cursor_ok st -> ring_ok (kbd st) ->
  Forall (fun c => c <> LF /\ c <> CR) (input_stream st) ->
  read_line_loop fuel buf bufsize idx st = None.
Proof.
  induction fuel as [|fuel IH]; intros buf bufsize idx st Hc Hr Hs; [reflexivity|].
  cbn [read_line_loop].
  pose proof (getchar_next st Hr) as G.
  destruct (input_stream st) as [|c rest]; [apply bind_none; exact G|].
  destruct G as (s1 & E1 & R1 & S1 & T1 & F1 & O1).
  rewrite (bind_some _ _ _ _ _ E1).
  apply Forall_cons in Hs. destruct Hs as [[HcLF HcCR] Hs].
  replace ((c =? LF) || (c =? CR)) with false
    by (symmetry; apply orb_false_iff; rewrite !Z.eqb_neq; split; assumption).
  assert (Hc1 : cursor_ok s1) by (unfold cursor_ok; rewrite T1; exact Hc).
  rewrite <- S1 in Hs.
  assert (Hput : forall ch0 b i,
            (vga_putc ch0 >> read_line_loop fuel b bufsize i) s1 = None).
  { intros ch0 b i. destruct (vga_putc_printed ch0 s1 Hc1) as (s2 & E2 & P2).
    rewrite (bind_some _ _ _ _ _ E2).
    pose proof (printed_ring _ _ _ P2 R1) as R2.
    destruct P2 as (C2 & _ & _ & _ & K2 & _ & I2).
    apply IH; [exact C2|exact R2|].
    unfold input_stream in *. rewrite K2, I2. exact Hs. }
  destruct (c =? BS).
  - destruct (0 <? idx); [apply Hput|]. apply IH; assumption.
  - destruct (idx <? bufsize - 1); [|apply IH; assumption].
    destruct (wr bufsize buf idx c) as [b|]; [|apply bind_lift_none].
    rewrite bind_lift. apply Hput.
Qed.

(** X6.  [read_line] returns only on a line terminator: if the input
    stream holds neither a newline nor a carriage return, the call never
    returns, whatever the buffer. *)
Theorem read_line_needs_terminator (buf : list Z) (bufsize : Z) (st : kernel) :
  cursor_ok st -> ring_ok (kbd st) ->
  Forall (fun c => c <> LF /\ c <> CR) (input_stream st) ->
  read_line buf bufsize st = None.
Proof.
  intros Hc Hr Hs. unfold read_line. unfold get at 1. unfold bind at 1.
  apply read_line_loop_waits; assumption.
Qed.

Lemma read_line_needs_terminator_witness :
  read_line (replicate 128 0) INPUT_BUF
            (set_hw (set_irq1_keys [0x23; 0x17] (hw image)) image) = None.
Proof.
  apply read_line_needs_terminator;
    [exact image_cursor_ok|exact image_ring_ok|].
  repeat (apply Forall_cons; split; [split; discriminate|]). constructor.
Defined.

(** ** The file store: lookups after updates *)

(** Lookups see the table only through [slot_named]. *)
Lemma fs_find_ext q fs fs' : fs_wf fs -> fs_wf fs' ->
  (forall j, 0 <= j < 16 -> slot_named fs' q j <-> slot_named fs q j) ->
  fs_find q fs' = fs_find q fs.
Proof.
  intros Hwf Hwf' Hx. destruct (fs_find_spec q fs Hwf) as (r & E & H).
  rewrite E. apply fs_find_intro; [exact Hwf'|].
  destruct H as [[H1 H2]|(H1 & H2 & H3)].
  - left. split; [exact H1|]. intros j Hj Hn. apply (H2 j Hj), Hx; assumption.
  - right. split; [exact H1|]. split; [apply Hx; assumption|].
    intros j Hj Hn. apply (H3 j Hj), Hx; [lia|exact Hn].
Qed.

Lemma slot_named_removed fs q i j :
  length fs = 16%nat -> 0 <= i < 16 -> 0 <= j < 16 ->
  slot_named (set_file i (set_used 0 (file_at fs i)) fs) q j <->
  j <> i /\ slot_named fs q j.
Proof.
  intros Hl Hi Hj. unfold slot_named.
  destruct (Z.eq_dec j i) as [->|Hne].
  - rewrite file_at_set_same by assumption. cbn [used set_used]. split.
    + intros [H _]. contradiction H. reflexivity.
    + intros [H _]. contradiction H. reflexivity.
  - rewrite file_at_set_other by lia. tauto.
Qed.

Lemma created_name_short nm : (length (c_str nm) <= 15)%nat ->
  take 15 (c_str nm) = c_str nm.
Proof. intros H. apply take_ge. exact H. Qed.

Lemma filter_cleared (l : list file_entry) :
  List.filter (fun e => negb (used e =? 0)) (map (set_used 0) l) = [].
Proof. induction l as [|e l IH]; [reflexivity|exact IH]. Qed.

Lemma file_shape_at fs i : fs_shape fs -> 0 <= i < 16 ->
  length (name (file_at fs i)) = 16%nat /\ length (data (file_at fs i)) = 512%nat.
Proof.
  intros [Hl Hf] Hi. unfold file_at.
  exact (Forall_lookup_total_1
           (fun e => length (name e) = 16%nat /\ length (data e) = 512%nat)
           fs (Z.to_nat i) Hf ltac:(lia)).
Qed.

Lemma entries_fresh e (fs : list file_entry) :
  (0 < length fs)%nat -> used e <> 0 ->
  entries (set_file 0 e (map (set_used 0) fs)) = [(c_str (name e), size e)].
Proof.
  intros Hl Hu. destruct fs as [|x tl]; [cbn in Hl; lia|].
  change (set_file 0 e (map (set_used 0) (x :: tl))) with (e :: map (set_used 0) tl).
  unfold entries. cbn [List.filter].
  replace (used e =? 0) with false by (symmetry; apply Z.eqb_neq; exact Hu).
  cbn [negb]. rewrite filter_cleared. reflexivity.
Qed.

(** [fs_init] in full. *)
Lemma fs_init_store (fs : list file_entry) :
  fs_shape fs ->
  exists fs', fs_init fs = Some (tt, fs') /\
    fs_wf fs' /\ fs_unique fs' /\
    entries fs' = [(cstr "welcome", 39)] /\
    (forall j, 1 <= j < 16 -> used (file_at fs' j) = 0) /\
    fs_find (cstr "welcome") fs' = Some 0 /\
    take 39 (data (file_at fs' 0)) = welcome_text.
Proof.
  intros Hs.
  pose (e0 := {| name := stored_name (cstr "welcome") (name (file_at fs 0));
                 used := 1; size := 39;
                 data := welcome_text ++ drop 39 (data (file_at fs 0)) |}).
  assert (E : fs_init fs = Some (tt, set_file 0 e0 (map (set_used 0) fs)))
    by exact (fs_init_eq fs Hs).
  assert (Hwf : fs_wf (set_file 0 e0 (map (set_used 0) fs))).
  { destruct (fs_init_wf fs Hs) as (f & Ef & W). rewrite E in Ef.
    injection Ef as Ef. rewrite Ef. exact W. }
  pose proof Hs as [Hl Hf].
  assert (He : entries (set_file 0 e0 (map (set_used 0) fs)) = [(cstr "welcome", 39)]).
  { rewrite entries_fresh; [|lia|discriminate]. cbn [name size e0].
    rewrite stored_name_str. reflexivity. }
  revert E Hwf He. generalize (set_file 0 e0 (map (set_used 0) fs)) at 1 2 3 as fs'.
  intros fs' E Hwf He. exists fs'. split; [exact E|]. split; [exact Hwf|].
  rewrite (fs_init_eq fs Hs) in E. injection E as E0.
  assert (H0 : file_at fs' 0 = e0).
  { rewrite <- E0. apply file_at_set_same; [lia|]. rewrite length_map. exact Hl. }
  assert (Hrest : forall j, 1 <= j < 16 -> used (file_at fs' j) = 0).
  { intros j Hj. rewrite <- E0, file_at_set_other by lia.
    rewrite file_at_map_used. reflexivity. }
  assert (Hnamed : forall q j, 0 <= j < 16 ->
            slot_named fs' q j <-> j = 0 /\ cstr "welcome" = c_str q).
  { intros q j Hj. unfold slot_named. destruct (Z.eq_dec j 0) as [->|Hne].
    - rewrite H0. cbn [used name e0]. rewrite stored_name_str.
      change (take 15 (c_str (cstr "welcome"))) with (cstr "welcome").
      split; [intros [_ H]; auto|intros [_ H]; split; [discriminate|exact H]].
    - rewrite (Hrest j) by lia. split; [intros [H _]; contradiction H; reflexivity|].
      intros [H _]. contradiction. }
  split.
  { intros q i j Hi Hj Ni Nj. apply Hnamed in Ni, Nj; [|assumption..]. lia. }
  split; [exact He|].
  split; [exact Hrest|]. split.
  - apply fs_find_intro; [exact Hwf|]. right. split; [lia|].
    split; [apply Hnamed; [lia|split; reflexivity]|]. intros j Hj. lia.
  - rewrite H0. cbn [data e0]. apply take_app_length'. reflexivity.
Qed.

(** X7.  [fs_init] makes a fresh store of whatever the table memory
    held: it returns; every slot but the first is free; slot 0 is the
    file "welcome" with the 39 bytes of the greeting, which a lookup
    finds; the table is well formed and its names are unique. *)
Theorem fs_init_fresh (fs : list file_entry) :
  fs_shape fs ->
  exists fs', fs_init fs = Some (tt, fs') /\
    fs_wf fs' /\ fs_unique fs' /\
    entries fs' = [(cstr "welcome", 39)] /\
    (forall j, 1 <= j < 16 -> used (file_at fs' j) = 0) /\
    fs_find (cstr "welcome") fs' = Some 0 /\
    take 39 (data (file_at fs' 0)) = welcome_text.
Proof. exact (fs_init_store fs). Qed.

Lemma fs_init_fresh_witness :
  exists fs', fs_init (files image) = Some (tt, fs') /\
    fs_wf fs' /\ fs_unique fs' /\
    entries fs' = [(cstr "welcome", 39)] /\
    (forall j, 1 <= j < 16 -> used (file_at fs' j) = 0) /\
    fs_find (cstr "welcome") fs' = Some 0 /\
    take 39 (data (file_at fs' 0)) = welcome_text.
Proof. exact (fs_init_fresh (files image) image_files_shape). Defined.

(** What [fs_create] does to a table without the name and with a free
    slot. *)
Lemma fs_create_new nm fs :
  fs_wf fs -> fs_find nm fs = Some (-1) ->
  (exists j, 0 <= j < 16 /\ used (file_at fs j) = 0) ->
  exists i, 0 <= i < 16 /\ used (file_at fs i) = 0 /\
    (forall j, 0 <= j < i -> used (file_at fs j) <> 0) /\
    fs_create nm fs = Some (i, set_file i (created nm (file_at fs i)) fs).
Proof.
  intros Hwf Ef (j0 & Hj0 & Hu0).
  destruct (fs_create_eq nm fs Hwf) as (r & E & _ & Ec).
  rewrite Ef in E. injection E as <-. cbn [Z.leb Z.compare] in Ec. cbv zeta in Ec.
  pose proof (first_free_spec fs 16 0 ltac:(lia) ltac:(lia)) as Hfree.
  cbv zeta in Hfree. set (i := first_free 16 0 fs) in *. clearbody i.
  destruct Hfree as [[_ Hall]|(Hi & Hu & Hb)]; [exfalso; exact (Hall j0 Hj0 Hu0)|].
  exists i. replace (0 <=? i) with true in Ec by (symmetry; apply Z.leb_le; lia).
  auto.
Qed.

(** X8.  Create, then look up.  On a well-formed table that does not
    hold the name and has a free slot, [fs_create] of a name of at most
    15 characters takes the lowest free slot, gives the file size 0, and
    leaves every other slot as it was; a lookup of the name then finds
    that slot, and lookups of other names answer as before. *)
Theorem fs_create_then_find (nm : list Z) (fs : list file_entry) :
  fs_wf fs -> (length (c_str nm) <= 15)%nat ->
  fs_find nm fs = Some (-1) ->
  (exists j, 0 <= j < 16 /\ used (file_at fs j) = 0) ->
  exists i fs',
    fs_create nm fs = Some (i, fs') /\ 0 <= i < 16 /\ fs_wf fs' /\
    used (file_at fs i) = 0 /\ (forall j, 0 <= j < i -> used (file_at fs j) <> 0) /\
    fs_find nm fs' = Some i /\
    size (file_at fs' i) = 0 /\ c_str (name (file_at fs' i)) = c_str nm /\
    (forall j, 0 <= j < 16 -> j <> i -> file_at fs' j = file_at fs j) /\
    (forall q, c_str q <> c_str nm -> fs_find q fs' = fs_find q fs).
Proof.
  intros Hwf Hshort Ef Hfree.
  destruct (fs_create_new nm fs Hwf Ef Hfree) as (i & Hi & Hu & Hlow & Ec).
  pose proof (fs_create_wf nm fs _ _ Hwf Ec) as Hwf'.
  pose proof (fs_find_absent nm fs Hwf Ef) as Habs.
  pose proof Hwf as [Hl _].
  exists i, (set_file i (created nm (file_at fs i)) fs).
  split; [exact Ec|]. split; [exact Hi|]. split; [exact Hwf'|].
  split; [exact Hu|]. split; [exact Hlow|]. split.
  { apply fs_find_intro; [exact Hwf'|]. right. split; [exact Hi|]. split.
    - apply slot_named_created; try assumption. left. split; [reflexivity|].
      apply created_name_short. exact Hshort.
    - intros j Hj Hn. apply slot_named_created in Hn; try assumption; [|lia].
      destruct Hn as [[Hn _]|[_ Hn]]; [lia|]. exact (Habs j ltac:(lia) Hn). }
  rewrite file_at_set_same by assumption. cbn [size name created].
  split; [reflexivity|].
  split; [rewrite stored_name_str; apply created_name_short; exact Hshort|].
  split; [intros j Hj Hne; apply file_at_set_other; lia|].
  intros q Hq. apply fs_find_ext; [exact Hwf|exact Hwf'|].
  intros j Hj. rewrite slot_named_created by assumption.
  rewrite (created_name_short nm Hshort). split.
  - intros [[_ H]|[_ H]]; [congruence|exact H].
  - intros H. right. split; [|exact H]. intros ->. destruct H as [H _]. contradiction.
Qed.

Lemma fs_create_then_find_witness :
  let nm := cstr "notes" in
  let fs := files image in
  exists i fs',
    fs_create nm fs = Some (i, fs') /\ 0 <= i < 16 /\ fs_wf fs' /\
    used (file_at fs i) = 0 /\ (forall j, 0 <= j < i -> used (file_at fs j) <> 0) /\
    fs_find nm fs' = Some i /\
    size (file_at fs' i) = 0 /\ c_str (name (file_at fs' i)) = c_str nm /\
    (forall j, 0 <= j < 16 -> j <> i -> file_at fs' j = file_at fs j) /\
    (forall q, c_str q <> c_str nm -> fs_find q fs' = fs_find q fs).
Proof.
  refine (fs_create_then_find (cstr "notes") (files image) image_files_wf _ eq_refl _).
  - vm_compute. lia.
  - exists 0. split; [lia|reflexivity].
Defined.

(** X9.  When [fs_create] refuses.  On a well-formed table [fs_create]
    always returns; it answers -1 exactly when a used slot already holds
    the name or no slot is free, and then the table is unchanged. *)
Theorem fs_create_refuses (nm : list Z) (fs : list file_entry) :
  fs_wf fs ->
  exists r fs', fs_create nm fs = Some (r, fs') /\ -1 <= r < 16 /\
    (r = -1 <->
       (exists j, 0 <= j < 16 /\ slot_named fs nm j) \/
       (forall j, 0 <= j < 16 -> used (file_at fs j) <> 0)) /\
    (r = -1 -> fs' = fs).
Proof.
  intros Hwf. destruct (fs_create_eq nm fs Hwf) as (r & E & Hr & Ec).
  destruct (fs_find_spec nm fs Hwf) as (r' & E' & Hspec).
  rewrite E in E'. injection E' as <-.
  pose proof (first_free_spec fs 16 0 ltac:(lia) ltac:(lia)) as Hfree.
  cbv zeta in Ec, Hfree. set (i := first_free 16 0 fs) in *. clearbody i.
  destruct (0 <=? r) eqn:E0.
  - apply Z.leb_le in E0. exists (-1), fs. split; [exact Ec|]. split; [lia|].
    split; [|reflexivity]. split; [|reflexivity]. intros _. left.
    destruct Hspec as [[H _]|(H1 & H2 & _)]; [lia|]. exists r. auto.
  - apply Z.leb_gt in E0.
    destruct Hspec as [[_ Hnone]|(H1 & _)]; [|lia].
    destruct Hfree as [[-> Hall]|(Hi & Hu & Hb)].
    + cbn [Z.leb Z.compare] in Ec. exists (-1), fs. split; [exact Ec|].
      split; [lia|]. split; [|reflexivity]. split; [|reflexivity].
      intros _. right. exact Hall.
    + replace (0 <=? i) with true in Ec by (symmetry; apply Z.leb_le; lia).
      exists i, (set_file i (created nm (file_at fs i)) fs).
      split; [exact Ec|]. split; [lia|]. split; [|lia]. split; [lia|].
      intros [(j & Hj & Hn)|Hall]; [exfalso; exact (Hnone j Hj Hn)|].
      exfalso. exact (Hall i Hi Hu).
Qed.

Lemma fs_create_refuses_witness :
  exists r fs', fs_create (cstr "welcome") (files image) = Some (r, fs') /\ -1 <= r < 16 /\
    (r = -1 <->
       (exists j, 0 <= j < 16 /\ slot_named (files image) (cstr "welcome") j) \/
       (forall j, 0 <= j < 16 -> used (file_at (files image) j) <> 0)) /\
    (r = -1 -> fs' = files image).
Proof. exact (fs_create_refuses (cstr "welcome") (files image) image_files_wf). Defined.

Lemma set_used_ok e : entry_ok e -> entry_ok (set_used 0 e).
Proof.
  intros (Hn & Hd & _). split; [exact Hn|]. split; [exact Hd|].
  intros H. contradiction H. reflexivity.
Qed.

(** X10.  [fs_remove].  If no used slot holds the name it returns -1
    and leaves the table as it was.  If one does, it returns 0 and
    releases the first slot that holds the name; no other slot changes,
    so the other slots hold the names they held and lookups of other
    names answer as before; and where names are unique, no slot holds
    the name any more and a lookup of it finds nothing. *)
Theorem fs_remove_then_find (nm : list Z) (fs : list file_entry) :
  fs_wf fs ->
  ((forall j, 0 <= j < 16 -> ~ slot_named fs nm j) ->
     fs_remove nm fs = Some (-1, fs)) /\
  (forall r, 0 <= r < 16 -> slot_named fs nm r ->
     (forall j, 0 <= j < r -> ~ slot_named fs nm j) ->
     exists fs', fs_remove nm fs = Some (0, fs') /\ fs_wf fs' /\
       used (file_at fs' r) = 0 /\
       (forall j, 0 <= j < 16 -> j <> r -> file_at fs' j = file_at fs j) /\
       (forall q j, 0 <= j < 16 ->
          slot_named fs' q j <-> j <> r /\ slot_named fs q j) /\
       (forall q, c_str q <> c_str nm -> fs_find q fs' = fs_find q fs) /\
       (fs_unique fs ->
          (forall j, 0 <= j < 16 -> ~ slot_named fs' nm j) /\
          fs_find nm fs' = Some (-1) /\ fs_unique fs')).
Proof.
  intros Hwf. pose proof Hwf as [Hl _]. unfold fs_remove. split.
  - intros Hno. rewrite (fs_find_intro nm fs (-1) Hwf) by (left; auto). reflexivity.
  - intros r Hr16 Hn Hb.
    rewrite (fs_find_intro nm fs r Hwf) by (right; auto).
    replace (r <? 0) with false by (symmetry; apply Z.ltb_ge; lia).
    set (fs' := set_file r (set_used 0 (file_at fs r)) fs).
    assert (Hwf' : fs_wf fs').
    { apply set_file_wf; [exact Hwf|]. apply set_used_ok, file_at_ok; assumption. }
    assert (Hsl : forall q j, 0 <= j < 16 ->
              slot_named fs' q j <-> j <> r /\ slot_named fs q j).
    { intros q j Hj. unfold fs'. apply slot_named_removed; assumption. }
    exists fs'. split; [reflexivity|]. split; [exact Hwf'|].
    split; [unfold fs'; rewrite file_at_set_same by assumption; reflexivity|].
    split; [intros j Hj Hne; apply file_at_set_other; lia|].
    split; [exact Hsl|]. split.
    + intros q Hq. apply fs_find_ext; [exact Hwf|exact Hwf'|].
      intros j Hj. rewrite Hsl by exact Hj.
      split; [tauto|]. intros H. split; [|exact H]. intros ->.
      destruct Hn as [_ Hn]. destruct H as [_ H]. congruence.
    + intros Hu.
      assert (Hgone : forall j, 0 <= j < 16 -> ~ slot_named fs' nm j).
      { intros j Hj Hnj. apply Hsl in Hnj; [|exact Hj].
        destruct Hnj as [Hne Hnj]. apply Hne. exact (Hu nm j r Hj Hr16 Hnj Hn). }
      split; [exact Hgone|]. split.
      * apply fs_find_intro; [exact Hwf'|]. left. split; [reflexivity|exact Hgone].
      * intros q i j Hi Hj Ni Nj.
        apply Hsl in Ni, Nj; try assumption.
        exact (Hu q i j Hi Hj (proj2 Ni) (proj2 Nj)).
Qed.

Lemma fs_remove_then_find_witness :
  fs_wf boot_files /\ slot_named boot_files (cstr "welcome") 0 /\
  (forall j, 0 <= j < 16 -> ~ slot_named boot_files (cstr "b") j) /\
  fs_remove (cstr "b") boot_files = Some (-1, boot_files) /\
  exists fs', fs_remove (cstr "welcome") boot_files = Some (0, fs') /\
    fs_wf fs' /\ used (file_at fs' 0) = 0 /\
    fs_find (cstr "welcome") boot_files = Some 0 /\
    fs_find (cstr "welcome") fs' = Some (-1).
Proof.
  destruct boot_files_welcome as (Hw & Hfirst & Hb).
  split; [exact boot_files_wf|]. split; [exact Hw|]. split; [exact Hb|]. split.
  - exact (proj1 (fs_remove_then_find (cstr "b") boot_files boot_files_wf) Hb).
  - destruct (proj2 (fs_remove_then_find (cstr "welcome") boot_files boot_files_wf)
                0 ltac:(lia) Hw Hfirst) as (fs' & E & Hwf' & Hu & _).
    exists fs'. split; [exact E|]. split; [exact Hwf'|]. split; [exact Hu|].
    split; [reflexivity|].
    injection E as <-. reflexivity.
Defined.

Lemma fs_unique_created nm fs i :
  fs_wf fs -> fs_unique fs -> (length (c_str nm) <= 15)%nat ->
  (forall j, 0 <= j < 16 -> ~ slot_named fs nm j) ->
  0 <= i < 16 -> used (file_at fs i) = 0 ->
  fs_unique (set_file i (created nm (file_at fs i)) fs).
Proof.
  intros Hwf Hu Hshort Habs Hi Hfree q a b Ha Hb Na Nb.
  apply slot_named_created in Na, Nb; try assumption.
  rewrite (created_name_short nm Hshort) in Na, Nb.
  destruct Na as [[-> Ea]|[Ha' Na]], Nb as [[-> Eb]|[Hb' Nb]]; try reflexivity.
  - exfalso. apply (Habs b Hb). destruct Nb as [N1 N2]. split; [exact N1|congruence].
  - exfalso. apply (Habs a Ha). destruct Na as [N1 N2]. split; [exact N1|congruence].
  - exact (Hu q a b Ha Hb Na Nb).
Qed.

Lemma fs_unique_written fs src n i :
  length fs = 16%nat -> fs_unique fs -> 0 <= i < 16 ->
  fs_unique (set_file i (written src n (file_at fs i)) fs).
Proof.
  intros Hl Hu Hi q a b Ha Hb Na Nb.
  apply slot_named_written in Na, Nb; try assumption.
  exact (Hu q a b Ha Hb Na Nb).
Qed.

(** X11.  The table invariant.  On a well-formed table with unique
    names, [fs_create] and [fs_write] of a name of at most 15 characters
    and [fs_remove] of any name return and leave the table well formed
    with unique names. *)
Theorem fs_invariant (nm src : list Z) (len : Z) (fs : list file_entry) :
  fs_wf fs -> fs_unique fs -> (length (c_str nm) <= 15)%nat ->
  0 <= len <= Z.of_nat (length src) ->
  (exists r fs', fs_create nm fs = Some (r, fs') /\ fs_wf fs' /\ fs_unique fs') /\
  (exists w fs', fs_write nm src len fs = Some (w, fs') /\ fs_wf fs' /\ fs_unique fs') /\
  (forall q, exists r fs', fs_remove q fs = Some (r, fs') /\ fs_wf fs' /\ fs_unique fs').
Proof.
  intros Hwf Hu Hshort Hlen. pose proof Hwf as [Hl _].
  destruct (fs_find_spec nm fs Hwf) as (r & E & Hspec).
  pose proof (first_free_spec fs 16 0 ltac:(lia) ltac:(lia)) as Hfree.
  cbv zeta in Hfree.
  split; [|split].
  - destruct (fs_create_eq nm fs Hwf) as (r' & E' & _ & Ec).
    rewrite E in E'. injection E' as <-. cbv zeta in Ec.
    set (i := first_free 16 0 fs) in *. clearbody i.
    destruct (0 <=? r) eqn:E0; [exists (-1), fs; auto|].
    apply Z.leb_gt in E0.
    destruct (0 <=? i) eqn:Ei; [|exists (-1), fs; auto].
    apply Z.leb_le in Ei.
    destruct Hfree as [[H _]|(Hi & Hfu & _)]; [lia|].
    destruct Hspec as [[_ Habs]|(Hr & _)]; [|lia].
    eexists _, _. split; [exact Ec|].
    split; [exact (fs_create_wf nm fs _ _ Hwf Ec)|].
    apply fs_unique_created; assumption.
  - destruct (fs_write_eq nm src len fs Hwf Hlen) as (r' & E' & _ & Ew).
    rewrite E in E'. injection E' as <-. cbv zeta in Ew.
    set (i := first_free 16 0 fs) in *. clearbody i.
    set (n := Z.min len MAX_FILE_SIZE) in *.
    assert (Hn : 0 <= n <= 512 /\ n <= Z.of_nat (length src))
      by (subst n; unfold MAX_FILE_SIZE; lia).
    destruct (0 <=? r) eqn:E0.
    + apply Z.leb_le in E0.
      destruct Hspec as [[H _]|(Hr & _)]; [lia|].
      eexists _, _. split; [exact Ew|].
      split; [exact (fs_write_wf nm src len fs _ _ Hwf Hlen Ew)|].
      apply fs_unique_written; assumption.
    + destruct (0 <=? i) eqn:Ei; [|exists (-1), fs; auto].
      apply Z.leb_le in Ei. apply Z.leb_gt in E0.
      destruct Hfree as [[H _]|(Hi & Hfu & _)]; [lia|].
      destruct Hspec as [[_ Habs]|(Hr & _)]; [|lia].
      eexists _, _. split; [exact Ew|].
      split; [exact (fs_write_wf nm src len fs _ _ Hwf Hlen Ew)|].
      pose proof (fs_unique_created nm fs i Hwf Hu Hshort Habs Hi Hfu) as Hu1.
      pose proof (fs_unique_written (set_file i (created nm (file_at fs i)) fs) src n i
                    ltac:(rewrite length_set_file; exact Hl) Hu1 Hi) as Hu2.
      rewrite file_at_set_same, set_file_twice in Hu2 by assumption. exact Hu2.
  - intros q. destruct (fs_find_spec q fs Hwf) as (rq & Eq & Hq).
    unfold fs_remove. rewrite Eq.
    destruct (rq <? 0) eqn:E0; [exists (-1), fs; auto|].
    apply Z.ltb_ge in E0.
    destruct Hq as [[H _]|(Hr & _)]; [lia|].
    eexists _, _. split; [reflexivity|]. split.
    + apply set_file_wf; [exact Hwf|]. apply set_used_ok, file_at_ok; assumption.
    + intros p a b Ha Hb Na Nb.
      apply slot_named_removed in Na, Nb; try assumption.
      exact (Hu p a b Ha Hb (proj2 Na) (proj2 Nb)).
Qed.

Lemma image_file_free j : 0 <= j < 16 -> used (file_at (files image) j) = 0.
Proof.
  intros Hj. unfold file_at. cbn [files image].
  rewrite lookup_total_replicate_2 by lia. reflexivity.
Qed.

Lemma image_files_unique : fs_unique (files image).
Proof.
  intros q i j Hi Hj [Hu _] _. contradiction Hu. apply image_file_free. exact Hi.
Qed.

Lemma fs_invariant_witness :
  let nm := cstr "notes" in
  let src := cstr "hello" in
  let fs := files image in
  (exists r fs', fs_create nm fs = Some (r, fs') /\ fs_wf fs' /\ fs_unique fs') /\
  (exists w fs', fs_write nm src 5 fs = Some (w, fs') /\ fs_wf fs' /\ fs_unique fs') /\
  (forall q, exists r fs', fs_remove q fs = Some (r, fs') /\ fs_wf fs' /\ fs_unique fs').
Proof.
  refine (fs_invariant (cstr "notes") (cstr "hello") 5 (files image)
            image_files_wf image_files_unique _ _).
  - vm_compute. lia.
  - vm_compute. split; discriminate.
Defined.

Lemma fs_find_created nm fs i :
  fs_wf fs -> (length (c_str nm) <= 15)%nat ->
  (forall j, 0 <= j < 16 -> ~ slot_named fs nm j) ->
  0 <= i < 16 -> used (file_at fs i) = 0 ->
  fs_wf (set_file i (created nm (file_at fs i)) fs) /\
  fs_find nm (set_file i (created nm (file_at fs i)) fs) = Some i.
Proof.
  intros Hwf Hshort Habs Hi Hu.
  assert (Hwf' : fs_wf (set_file i (created nm (file_at fs i)) fs)).
  { apply set_file_wf; [exact Hwf|]. apply created_ok, file_at_ok; assumption. }
  split; [exact Hwf'|].
  apply fs_find_intro; [exact Hwf'|]. right. split; [exact Hi|]. split.
  - apply slot_named_created; try assumption. left. split; [reflexivity|].
    apply created_name_short. exact Hshort.
  - intros j Hj Hn. apply slot_named_created in Hn; try assumption; [|lia].
    destruct Hn as [[Hn _]|[_ Hn]]; [lia|]. exact (Habs j ltac:(lia) Hn).
Qed.

(** After a [fs_write] that had a slot to write to, a lookup of the name
    finds the bytes. *)
Lemma fs_write_found nm src len fs :
  fs_wf fs -> (length (c_str nm) <= 15)%nat ->
  0 <= len <= Z.of_nat (length src) ->
  (exists j, 0 <= j < 16 /\ slot_named fs nm j) \/
  (exists j, 0 <= j < 16 /\ used (file_at fs j) = 0) ->
  let n := Z.min len MAX_FILE_SIZE in
  exists fs' idx,
    fs_write nm src len fs = Some (n, fs') /\ fs_wf fs' /\ 0 <= idx < 16 /\
    fs_find nm fs' = Some idx /\
    size (file_at fs' idx) = n /\
    take (Z.to_nat n) (data (file_at fs' idx)) = take (Z.to_nat n) src.
Proof.
  intros Hwf Hshort Hlen Hroom n. pose proof Hwf as [Hl _].
  destruct (fs_write_eq nm src len fs Hwf Hlen) as (r & E & _ & Ew).
  destruct (fs_find_spec nm fs Hwf) as (r' & E' & Hspec).
  rewrite E in E'. injection E' as <-.
  pose proof (first_free_spec fs 16 0 ltac:(lia) ltac:(lia)) as Hfree.
  cbv zeta in Ew, Hfree. set (i := first_free 16 0 fs) in *. clearbody i.
  fold n in Ew.
  assert (Hn : 0 <= n <= 512 /\ n <= Z.of_nat (length src))
    by (subst n; unfold MAX_FILE_SIZE; lia).
  assert (Hdata : forall e, take (Z.to_nat n) (data (written src n e))
                            = take (Z.to_nat n) src).
  { intros e. cbn [data written]. apply take_app_length'.
    rewrite length_take. lia. }
  destruct (0 <=? r) eqn:E0.
  - apply Z.leb_le in E0.
    destruct Hspec as [[H _]|(Hr & Hnamed & Hb)]; [lia|].
    pose proof (fs_write_wf nm src len fs _ _ Hwf Hlen Ew) as Hwf'.
    eexists _, r. split; [exact Ew|]. split; [exact Hwf'|]. split; [exact Hr|].
    split.
    { rewrite <- E. apply fs_find_ext; [exact Hwf|exact Hwf'|].
      intros j Hj. apply slot_named_written; assumption. }
    rewrite file_at_set_same by assumption. split; [reflexivity|apply Hdata].
  - apply Z.leb_gt in E0.
    destruct Hspec as [[_ Habs]|(Hr & _)]; [|lia].
    destruct Hroom as [(j & Hj & Hnj)|(j & Hj & Huj)]; [exfalso; exact (Habs j Hj Hnj)|].
    destruct Hfree as [[_ Hall]|(Hi & Hfu & _)]; [exfalso; exact (Hall j Hj Huj)|].
    replace (0 <=? i) with true in Ew by (symmetry; apply Z.leb_le; lia).
    pose proof (fs_write_wf nm src len fs _ _ Hwf Hlen Ew) as Hwf'.
    destruct (fs_find_created nm fs i Hwf Hshort Habs Hi Hfu) as [Hwf1 Ef1].
    eexists _, i. split; [exact Ew|]. split; [exact Hwf'|]. split; [exact Hi|].
    split.
    { rewrite <- Ef1.
      rewrite <- (set_file_twice fs i (created nm (file_at fs i))
                    (written src n (created nm (file_at fs i)))).
      rewrite <- (file_at_set_same fs i (created nm (file_at fs i)) Hi Hl) at 1.
      apply fs_find_ext; [exact Hwf1| |].
      - rewrite file_at_set_same, set_file_twice by assumption. exact Hwf'.
      - intros k Hk. apply slot_named_written;
          [rewrite length_set_file; exact Hl|exact Hi|exact Hk]. }
    rewrite file_at_set_same by assumption. split; [reflexivity|apply Hdata].
Qed.

Lemma fs_lookup_run nm st r :
  fs_find nm (files st) = Some r -> fs_lookup nm st = Some (r, st).
Proof. intros E. unfold fs_lookup, get, bind, lift. rewrite E. reflexivity. Qed.

(** [fs_read_to_console] on a name the table holds. *)
Lemma fs_read_run nm st idx :
  cursor_ok st -> fs_wf (files st) ->
  fs_find nm (files st) = Some idx -> 0 <= idx ->
  0 <= size (file_at (files st) idx) <= 512 ->
  exists st',
    fs_read_to_console nm st = Some (size (file_at (files st) idx), st') /\
    printed (take (Z.to_nat (size (file_at (files st) idx)))
                  (data (file_at (files st) idx))) st st'.
Proof.
  intros Hc Hwf E Hidx Hsz. unfold fs_read_to_console.
  rewrite (bind_some _ _ _ _ _ (fs_lookup_run nm st idx E)).
  replace (idx <? 0) with false by (symmetry; apply Z.ltb_ge; exact Hidx).
  unfold get at 1. unfold bind at 1. cbv zeta.
  destruct (fs_find_present nm (files st) idx Hwf E Hidx) as (H16 & _).
  destruct (file_at_ok (files st) idx Hwf ltac:(lia)) as (_ & Hd & _).
  set (e := file_at (files st) idx) in *.
  destruct (put_bytes_printed MAX_FILE_SIZE (data e) (Z.to_nat (size e)) 0 st Hc
              ltac:(unfold MAX_FILE_SIZE; lia)) as (st' & Ep & P).
  change (Z.of_nat 0) with 0 in Ep. rewrite (bind_some _ _ _ _ _ Ep).
  exists st'. split; [reflexivity|].
  rewrite drop_0, take_app_le in P by lia. exact P.
Qed.

(** X12.  Write, then read back.  On a well-formed table, after a
    [fs_write] of [len] bytes under a name of at most 15 characters
    (the name exists or a slot is free), [fs_read_to_console] of that
    name prints exactly the first [min len 512] bytes that were written
    and returns their number; it changes nothing in the table. *)
Theorem fs_write_then_read (nm src : list Z) (len : Z) (st : kernel) :
  cursor_ok st -> fs_wf (files st) -> (length (c_str nm) <= 15)%nat ->
  0 <= len <= Z.of_nat (length src) ->
  (exists j, 0 <= j < 16 /\ slot_named (files st) nm j) \/
  (exists j, 0 <= j < 16 /\ used (file_at (files st) j) = 0) ->
  let n := Z.min len MAX_FILE_SIZE in
  exists st1 st2,
    fs_op (fs_write nm src len) st = Some (n, st1) /\ tty st1 = tty st /\
    fs_read_to_console nm st1 = Some (n, st2) /\
    tty st2 = tty st1 ++ take (Z.to_nat n) src /\
    files st2 = files st1.
Proof.
  intros Hc Hwf Hshort Hlen Hroom n.
  destruct (fs_write_found nm src len (files st) Hwf Hshort Hlen Hroom)
    as (fs' & idx & Ew & Hwf' & Hidx & Ef & Hsz & Hdata).
  fold n in Ew, Hsz, Hdata.
  exists (set_files fs' st). 
  destruct (fs_read_run nm (set_files fs' st) idx Hc Hwf' Ef ltac:(lia)) as (st2 & Er & P).
  { cbn [files set_files]. rewrite Hsz. subst n. unfold MAX_FILE_SIZE. lia. }
  cbn [files set_files] in Er, P. rewrite Hsz in Er, P. rewrite Hdata in P.
  exists st2. split; [exact (fs_op_run _ st n fs' Ew)|]. split; [reflexivity|].
  split; [exact Er|]. destruct P as (_ & O & _ & F & _). split; [exact O|exact F].
Qed.

Lemma fs_write_then_read_witness :
  let nm := cstr "notes" in
  let src := cstr "hello" in
  exists st1 st2,
    fs_op (fs_write nm src 5) image = Some (Z.min 5 MAX_FILE_SIZE, st1) /\
    tty st1 = tty image /\
    fs_read_to_console nm st1 = Some (Z.min 5 MAX_FILE_SIZE, st2) /\
    tty st2 = tty st1 ++ take (Z.to_nat (Z.min 5 MAX_FILE_SIZE)) src /\
    files st2 = files st1.
Proof.
  refine (fs_write_then_read (cstr "notes") (cstr "hello") 5 image
            image_cursor_ok image_files_wf _ _ _).
  - vm_compute. lia.
  - vm_compute. split; discriminate.
  - right. exists 0. split; [lia|reflexivity].
Defined.

(** [fs_list] walks the slots in order; the lines it prints are those of
    the used entries. *)
Lemma map_file_at {A} (g : file_entry -> A) : forall (l pre : list file_entry),
  map (fun i => g (file_at (pre ++ l) i))
      (seqZ (Z.of_nat (length pre)) (Z.of_nat (length l)))
  = map g l.
Proof.
  induction l as [|x l IH]; intros pre; [reflexivity|].
  cbn [length]. rewrite Nat2Z.inj_succ, seqZ_cons by lia. cbn [map].
  f_equal.
  - unfold file_at. rewrite Nat2Z.id.
    rewrite lookup_total_app_r by lia. rewrite Nat.sub_diag. reflexivity.
  - specialize (IH (pre ++ [x])). rewrite <- app_assoc in IH. cbn [app] in IH.
    rewrite length_app in IH. cbn [length] in IH.
    replace (Z.succ (Z.of_nat (length pre))) with (Z.of_nat (length pre + 1)) by lia.
    rewrite Z.pred_succ. exact IH.
Qed.

Lemma listing_entries (fs : list file_entry) :
  length fs = 16%nat ->
  listing fs
  = cstr "Files:" ++ [LF] ++
    concat (map (fun p => cstr "  " ++ fst p ++ cstr " (" ++ itoa (i32 (snd p)) 10
                          ++ cstr " bytes)" ++ [LF])
                (entries fs)).
Proof.
  intros Hl. unfold listing. rewrite <- app_assoc. do 2 f_equal.
  pose proof (map_file_at (fun e => if negb (used e =? 0) then listing_line e else [])
                fs []) as M.
  cbn [app length] in M. rewrite Hl in M. change (Z.of_nat 0) with 0 in M.
  change (Z.of_nat 16) with 16 in M. rewrite M. clear M Hl.
  unfold entries. induction fs as [|e fs IH]; [reflexivity|].
  cbn [map List.filter concat]. destruct (negb (used e =? 0)).
  - cbn [map concat fst snd]. rewrite IH. reflexivity.
  - exact IH.
Qed.

(** X13.  [fs_list] prints the header "Files:" and then, for each used
    slot in table order, the line "  <name> (<size> bytes)" with the
    size, an [int], in decimal notation: one line per entry of the
    table, and nothing for a free slot.  The table is not changed. *)
Theorem fs_list_entries (st : kernel) :
  cursor_ok st -> fs_wf (files st) ->
  exists st',
    fs_list st = Some (tt, st') /\
    tty st' = tty st ++ cstr "Files:" ++ [LF] ++
              concat (map (fun p => cstr "  " ++ fst p ++ cstr " ("
                                    ++ decimal (i32 (snd p)) ++ cstr " bytes)" ++ [LF])
                          (entries (files st))) /\
    files st' = files st.
Proof.
  intros Hc [Hl _]. destruct (fs_list_printed st Hc) as (st' & E & P).
  exists st'. split; [exact E|]. destruct P as (_ & O & _ & F & _).
  rewrite O, (listing_entries _ Hl). split; [|exact F].
  rewrite (map_ext _ (fun p => cstr "  " ++ fst p ++ cstr " ("
                               ++ decimal (i32 (snd p)) ++ cstr " bytes)" ++ [LF])).
  - reflexivity.
  - intros p. rewrite (itoa_decimal (i32 (snd p)) (i32_range _)). reflexivity.
Qed.

Lemma fs_list_entries_witness :
  let st := set_files boot_files image in
  (cursor_ok st /\ fs_wf (files st)) /\
  exists st',
    fs_list st = Some (tt, st') /\
    tty st' = cstr "Files:" ++ [LF] ++ cstr "  welcome (39 bytes)" ++ [LF] /\
    files st' = files st.
Proof.
  cbv zeta. split; [split; [exact image_cursor_ok|exact boot_files_wf]|].
  destruct (fs_list_entries (set_files boot_files image) image_cursor_ok boot_files_wf)
    as (st' & E & O & F).
  exists st'. split; [exact E|]. split; [exact O|exact F].
Defined.

(** ** The text grid *)

Lemma for_indexed (P : Z -> kernel -> Prop) body : forall (n : nat) i st,
  (forall j s, i <= j < i + Z.of_nat n -> P j s ->
               exists s', body j s = Some (tt, s') /\ P (j + 1) s') ->
  P i st -> exists st', for_ n i body st = Some (tt, st') /\ P (i + Z.of_nat n) st'.
Proof.
  induction n as [|n IH]; intros i st Hbody Hi.
  - exists st. split; [reflexivity|]. rewrite Z.add_0_r. exact Hi.
  - cbn [for_]. destruct (Hbody i st ltac:(lia) Hi) as (s1 & E1 & H1).
    rewrite (bind_some _ _ _ _ _ E1).
    destruct (IH (i + 1) s1) as (st' & E & H).
    + intros j s Hj Hs. apply Hbody; [lia|exact Hs].
    + exact H1.
    + exists st'. split; [exact E|].
      replace (i + Z.of_nat (S n)) with (i + 1 + Z.of_nat n) by lia. exact H.
Qed.

Lemma cell_encoding c color :
  0 <= c < 256 -> 0 <= color < 256 ->
  u16 (Z.lor (u16 c) (Z.shiftl (u16 color) 8)) = cell c color.
Proof.
  intros Hc Hk. rewrite (u16_small c), (u16_small color) by lia.
  assert (Hland : Z.land c (Z.shiftl color 8) = 0).
  { apply Z.bits_inj'. intros i Hi. rewrite Z.land_spec, Z.bits_0.
    destruct (Z.lt_ge_cases i 8) as [Hlt|Hge].
    - rewrite Z.shiftl_spec_low by lia. apply andb_false_r.
    - replace (Z.testbit c i) with false; [reflexivity|]. symmetry.
      destruct (Z.eq_dec c 0) as [->|Hnz]; [apply Z.bits_0|].
      apply Z.bits_above_log2; [lia|].
      assert (Z.log2 c < 8); [|lia]. apply Z.log2_lt_pow2; lia. }
  rewrite <- (Z.lxor_lor _ _ Hland), <- (Z.add_nocarry_lxor _ _ Hland).
  rewrite Z.shiftl_mul_pow2 by lia. unfold cell.
  rewrite u16_small by (change (2 ^ 8) with 256; lia).
  change (2 ^ 8) with 256. lia.
Qed.

Lemma vga_store_run idx v st :
  0 <= idx < VGA_WIDTH * VGA_HEIGHT ->
  exists st', vga_store idx v st = Some (tt, st') /\ repaint st st' /\
    vga_buffer (term st') = <[Z.to_nat idx := v]> (vga_buffer (term st)).
Proof.
  intros H. unfold vga_store, wr. kunfold.
  replace ((0 <=? idx) && (idx <? VGA_WIDTH * VGA_HEIGHT)) with true
    by (symmetry; apply andb_true_iff; split; [apply Z.leb_le|apply Z.ltb_lt]; lia).
  eexists. split; [reflexivity|]. unfold repaint. cbn. tauto.
Qed.

Lemma vga_load_run idx st :
  0 <= idx < VGA_WIDTH * VGA_HEIGHT ->
  vga_load idx st = Some (nth (Z.to_nat idx) (vga_buffer (term st)) 0, st).
Proof.
  intros H. unfold vga_load, rd. kunfold.
  replace ((0 <=? idx) && (idx <? VGA_WIDTH * VGA_HEIGHT)) with true
    by (symmetry; apply andb_true_iff; split; [apply Z.leb_le|apply Z.ltb_lt]; lia).
  reflexivity.
Qed.

(** Copying cell [k + 80] to cell [k], for [k] upwards: after [k] cells
    the grid is the first [k] cells of the shifted grid, then the rest
    of the old one. *)
Lemma shift_step (b0 : list Z) (k : nat) :
  length b0 = 2000%nat -> (k < 1920)%nat ->
  let B := take k (drop 80 b0) ++ drop k b0 in
  <[k := nth (k + 80) B 0]> B = take (S k) (drop 80 b0) ++ drop (S k) b0.
Proof.
  intros Hl Hk B.
  destruct (lookup_lt_is_Some_2 b0 (k + 80) ltac:(lia)) as [x Hx].
  destruct (lookup_lt_is_Some_2 b0 k ltac:(lia)) as [y Hy].
  assert (HA : length (take k (drop 80 b0)) = k)
    by (rewrite length_take, length_drop; lia).
  assert (Hv : nth (k + 80) B 0 = x).
  { apply nth_lookup_Some. subst B. rewrite lookup_app_r by lia.
    rewrite HA, lookup_drop. rewrite <- Hx. f_equal. lia. }
  rewrite Hv. subst B.
  rewrite insert_app_r_alt by lia. rewrite HA, Nat.sub_diag.
  rewrite (drop_S _ _ _ Hy). cbn [insert list_insert].
  assert (HD : drop 80 b0 !! k = Some x)
    by (rewrite lookup_drop, <- Hx; f_equal; lia).
  rewrite (take_S_r _ _ _ HD), <- app_assoc. reflexivity.
Qed.

Lemma vga_scroll_run st :
  length (vga_buffer (term st)) = 2000%nat ->
  exists st', vga_scroll st = Some (tt, st') /\ repaint st st' /\
    vga_buffer (term st')
    = drop 80 (vga_buffer (term st))
      ++ replicate 80 (u16 (Z.lor (u16 SP) (Z.shiftl (u16 (term_color (term st))) 8))).
Proof.
  intros Hl. set (b0 := vga_buffer (term st)) in *.
  pose (Q := fun (k : Z) (s : kernel) =>
               repaint st s /\
               vga_buffer (term s)
               = take (Z.to_nat k) (drop 80 b0) ++ drop (Z.to_nat k) b0).
  unfold vga_scroll.
  destruct (for_indexed (fun r => Q (r * 80))
              (fun r => for_ 80 0 (fun c =>
                 let* v := vga_load ((r + 1) * VGA_WIDTH + c) in
                 vga_store (r * VGA_WIDTH + c) v)) 24 0 st) as (s1 & E1 & R1 & B1).
  { intros r s Hr Hs.
    destruct (for_indexed (fun c => Q (r * 80 + c))
                (fun c => let* v := vga_load ((r + 1) * VGA_WIDTH + c) in
                          vga_store (r * VGA_WIDTH + c) v) 80 0 s) as (s' & E & H).
    - intros c s' Hc [Rs Bs].
      rewrite (bind_some _ _ _ _ _
                 (vga_load_run ((r + 1) * VGA_WIDTH + c) s'
                    ltac:(unfold VGA_WIDTH, VGA_HEIGHT; lia))).
      destruct (vga_store_run (r * VGA_WIDTH + c)
                  (nth (Z.to_nat ((r + 1) * VGA_WIDTH + c)) (vga_buffer (term s')) 0) s')
        as (s'' & Es & Rs' & Bs'); [unfold VGA_WIDTH, VGA_HEIGHT; lia|].
      exists s''. split; [exact Es|]. split; [eauto using repaint_trans|].
      rewrite Bs', Bs. unfold VGA_WIDTH.
      replace (Z.to_nat ((r + 1) * 80 + c)) with (Z.to_nat (r * 80 + c) + 80)%nat by lia.
      replace (Z.to_nat (r * 80 + (c + 1))) with (S (Z.to_nat (r * 80 + c))) by lia.
      apply shift_step; [exact Hl|lia].
    - rewrite Z.add_0_r. exact Hs.
    - exists s'. split; [exact E|].
      replace ((r + 1) * 80) with (r * 80 + (0 + Z.of_nat 80)) by lia. exact H. }
  { split; [apply repaint_refl|]. reflexivity. }
  rewrite (bind_some _ _ _ _ _ E1).
  unfold get at 1. unfold bind at 1.
  assert (Hcol : term_color (term s1) = term_color (term st)) by apply R1.
  rewrite Hcol.
  set (blank := u16 (Z.lor (u16 SP) (Z.shiftl (u16 (term_color (term st))) 8))).
  change ((0 + Z.of_nat 24) * 80) with 1920 in B1.
  rewrite take_ge in B1 by (rewrite length_drop; lia).
  destruct (for_indexed
              (fun c s => repaint st s /\
                 vga_buffer (term s)
                 = drop 80 b0 ++ replicate (Z.to_nat c) blank
                   ++ drop (1920 + Z.to_nat c) b0)
              (fun c => vga_store ((VGA_HEIGHT - 1) * VGA_WIDTH + c) blank) 80 0 s1)
    as (s2 & E2 & R2 & B2).
  { intros c s Hc [Rs Bs].
    destruct (vga_store_run ((VGA_HEIGHT - 1) * VGA_WIDTH + c) blank s)
      as (s' & Es & Rs' & Bs'); [unfold VGA_WIDTH, VGA_HEIGHT; lia|].
    exists s'. split; [exact Es|]. split; [eauto using repaint_trans|].
    rewrite Bs', Bs. unfold VGA_WIDTH, VGA_HEIGHT.
    replace (Z.to_nat ((25 - 1) * 80 + c)) with (1920 + Z.to_nat c)%nat by lia.
    rewrite insert_app_r_alt by (rewrite length_drop; lia).
    rewrite length_drop, Hl.
    replace (1920 + Z.to_nat c - (2000 - 80))%nat with (Z.to_nat c) by lia.
    rewrite insert_app_r_alt by (rewrite length_replicate; lia).
    rewrite length_replicate, Nat.sub_diag.
    destruct (lookup_lt_is_Some_2 b0 (1920 + Z.to_nat c) ltac:(lia)) as [y Hy].
    rewrite (drop_S _ _ _ Hy). cbn [insert list_insert].
    replace (Z.to_nat (c + 1)) with (S (Z.to_nat c)) by lia.
    rewrite replicate_S_end, <- app_assoc.
    replace (1920 + S (Z.to_nat c))%nat with (S (1920 + Z.to_nat c)) by lia.
    reflexivity. }
  { split; [exact R1|]. rewrite B1. reflexivity. }
  exists s2. split; [exact E2|]. split; [exact R2|].
  rewrite B2. change (Z.to_nat (0 + Z.of_nat 80)) with 80%nat.
  rewrite (drop_ge b0 (1920 + 80)) by lia. rewrite app_nil_r. reflexivity.
Qed.

Lemma vga_clear_fill blank st :
  length (vga_buffer (term st)) = 2000%nat ->
  exists st', for_ 2000 0 (fun i => vga_store i blank) st = Some (tt, st') /\
    repaint st st' /\ vga_buffer (term st') = replicate 2000 blank.
Proof.
  intros Hl. set (b0 := vga_buffer (term st)) in *.
  destruct (for_indexed
              (fun i s => repaint st s /\
                 vga_buffer (term s)
                 = replicate (Z.to_nat i) blank ++ drop (Z.to_nat i) b0)
              (fun i => vga_store i blank) 2000 0 st) as (s1 & E1 & R1 & B1).
  { intros i s Hi [Rs Bs].
    destruct (vga_store_run i blank s) as (s' & Es & Rs' & Bs');
      [unfold VGA_WIDTH, VGA_HEIGHT; lia|].
    exists s'. split; [exact Es|]. split; [eauto using repaint_trans|].
    rewrite Bs', Bs.
    rewrite insert_app_r_alt by (rewrite length_replicate; lia).
    rewrite length_replicate, Nat.sub_diag.
    destruct (lookup_lt_is_Some_2 b0 (Z.to_nat i) ltac:(lia)) as [y Hy].
    rewrite (drop_S _ _ _ Hy). cbn [insert list_insert].
    replace (Z.to_nat (i + 1)) with (S (Z.to_nat i)) by lia.
    rewrite replicate_S_end, <- app_assoc. reflexivity. }
  { split; [apply repaint_refl|]. reflexivity. }
  exists s1. split; [exact E1|]. split; [exact R1|].
  rewrite B1. change (Z.to_nat (0 + Z.of_nat 2000)) with 2000%nat.
  rewrite (drop_ge b0) by lia. apply app_nil_r.
Qed.

Lemma update_cursor_ports st :
  0 <= term_row (term st) < 256 -> 0 <= term_col (term st) < 256 ->
  exists st', update_cursor st = Some (tt, st') /\
    term st' = term st /\ kbd st' = kbd st /\ files st' = files st /\
    tty st' = tty st /\ port_in (hw st') = port_in (hw st) /\
    irq1_keys (hw st') = irq1_keys (hw st) /\
    io_log (hw st')
    = io_log (hw st) ++ cursor_ports (term_row (term st) * 80 + term_col (term st)).
Proof.
  intros Hr Hc. unfold update_cursor. unfold get at 1. unfold bind at 1.
  unfold VGA_WIDTH.
  set (pos := term_row (term st) * 80 + term_col (term st)).
  assert (Hpos : 0 <= pos < 65536) by (subst pos; lia).
  rewrite (u16_small pos) by exact Hpos.
  assert (Hlo : u8 (Z.land pos 0xFF) = pos mod 256).
  { change 0xFF with (Z.ones 8). rewrite Z.land_ones by lia.
    change (2 ^ 8) with 256. apply u8_small. apply Z.mod_pos_bound. lia. }
  assert (Hhi : u8 (Z.land (Z.shiftr pos 8) 0xFF) = pos / 256).
  { change 0xFF with (Z.ones 8). rewrite Z.land_ones by lia.
    rewrite Z.shiftr_div_pow2 by lia. change (2 ^ 8) with 256.
    assert (0 <= pos / 256 < 256).
    { split; [apply Z.div_pos; lia|apply Z.div_lt_upper_bound; lia]. }
    rewrite Z.mod_small by lia. apply u8_small. lia. }
  rewrite Hlo, Hhi. unfold outb. kunfold.
  eexists. split; [reflexivity|]. cbn. rewrite <- !app_assoc. tauto.
Qed.

Lemma term_eta (t : term_state) :
  t = {| term_row := term_row t; term_col := term_col t;
         term_color := term_color t; vga_buffer := vga_buffer t |}.
Proof. destruct t. reflexivity. Qed.

Lemma repaint_term st st' b :
  repaint st st' -> vga_buffer (term st') = b -> term st' = set_buffer b (term st).
Proof.
  intros (R1 & R2 & R3 & _) B. rewrite (term_eta (term st')).
  unfold set_buffer. rewrite R1, R2, R3, B. reflexivity.
Qed.

Lemma next_row_run st :
  0 <= term_row (term st) < VGA_HEIGHT ->
  length (vga_buffer (term st)) = 2000%nat ->
  exists st', next_row st = Some (tt, st') /\
    term st' = line_feed (term st) /\
    kbd st' = kbd st /\ files st' = files st /\ hw st' = hw st /\ tty st' = tty st.
Proof.
  intros Hr Hl. unfold next_row, line_feed. unfold get at 1. unfold bind at 1.
  unfold VGA_HEIGHT in *. rewrite u8_small by lia.
  unfold set_term_row at 1. unfold modify at 1. unfold bind at 1.
  destruct (term_row (term st) + 1 =? 25) eqn:E.
  - unfold set_term_row, modify, bind at 1.
    set (s1 := set_term (set_row (25 - 1)
                  (term (set_term (set_row (term_row (term st) + 1) (term st)) st)))
                  (set_term (set_row (term_row (term st) + 1) (term st)) st)).
    assert (H1 : term s1 = set_row 24 (term st) /\ kbd s1 = kbd st /\
                 files s1 = files st /\ hw s1 = hw st /\ tty s1 = tty st)
      by (cbn; tauto).
    clearbody s1. destruct H1 as (T1 & K1 & F1 & W1 & O1).
    destruct (vga_scroll_run s1) as (s' & Es & R & B);
      [rewrite T1; exact Hl|].
    exists s'. split; [exact Es|].
    pose proof (repaint_term _ _ _ R B) as T'.
    destruct R as (_ & _ & _ & R4 & R5 & R6 & R7).
    split; [|repeat split; congruence].
    rewrite T', T1. reflexivity.
  - eexists. split; [reflexivity|]. cbn. tauto.
Qed.

Lemma vga_putat_run c color row col st :
  0 <= row < VGA_HEIGHT -> 0 <= col < VGA_WIDTH ->
  exists st', vga_putat c color row col st = Some (tt, st') /\
    term st' = set_buffer (<[Z.to_nat (row * 80 + col) := raw_cell c color]>
                             (vga_buffer (term st))) (term st) /\
    kbd st' = kbd st /\ files st' = files st /\ hw st' = hw st /\ tty st' = tty st.
Proof.
  intros Hr Hc. unfold vga_putat, VGA_WIDTH, VGA_HEIGHT in *.
  rewrite (u16_small (row * 80 + col)) by lia.
  destruct (vga_store_run (row * 80 + col)
              (u16 (Z.lor (u16 c) (Z.shiftl (u16 color) 8))) st)
    as (st' & E & R & B); [unfold VGA_WIDTH, VGA_HEIGHT; lia|].
  exists st'. split; [exact E|]. split; [exact (repaint_term _ _ _ R B)|].
  destruct R as (_ & _ & _ & R4 & R5 & R6 & R7). auto.
Qed.

(** [vga_putc] in full: the transcript, the terminal, and the port
    writes that move the hardware cursor to the new position. *)
Lemma vga_putc_run c st :
  cursor_ok st -> length (vga_buffer (term st)) = 2000%nat ->
  exists st', vga_putc c st = Some (tt, st') /\
    term st' = term_putc c (term st) /\
    tty st' = tty st ++ [c] /\ kbd st' = kbd st /\ files st' = files st /\
    port_in (hw st') = port_in (hw st) /\ irq1_keys (hw st') = irq1_keys (hw st) /\
    io_log (hw st')
    = io_log (hw st)
      ++ cursor_ports (term_row (term st') * 80 + term_col (term st')) /\
    cursor_ok st' /\ length (vga_buffer (term st')) = 2000%nat.
Proof.
  intros [Hr Hc] Hl. unfold vga_putc.
  unfold modify at 1. unfold bind at 1.
  set (s0 := set_tty (tty st ++ [c]) st).
  assert (H0 : term s0 = term st /\ kbd s0 = kbd st /\ files s0 = files st /\
               hw s0 = hw st /\ tty s0 = tty st ++ [c]) by (cbn; tauto).
  clearbody s0. destruct H0 as (T0 & K0 & F0 & W0 & O0).
  assert (Hput : exists s1,
    (if c =? LF then set_term_col 0 >> next_row
     else if c =? CR then set_term_col 0
     else if c =? BS then
       let* st := get in
       if 0 <? term_col (term st) then
         let col := u8 (term_col (term st) - 1) in
         set_term_col col >>
         vga_putat SP (term_color (term st)) (term_row (term st)) col
       else ret tt
     else
       let* st := get in
       vga_putat c (term_color (term st)) (term_row (term st)) (term_col (term st)) >>
       let col := u8 (term_col (term st) + 1) in
       set_term_col col >>
       if VGA_WIDTH <=? col then set_term_col 0 >> next_row else ret tt) s0
    = Some (tt, s1) /\
    term s1 = term_putc c (term s0) /\
    kbd s1 = kbd s0 /\ files s1 = files s0 /\ hw s1 = hw s0 /\ tty s1 = tty s0).
  { rewrite <- T0 in Hr, Hc, Hl. clear T0 K0 F0 W0 O0. unfold term_putc.
    unfold VGA_WIDTH, VGA_HEIGHT in *.
    destruct (c =? LF); [|destruct (c =? CR); [|destruct (c =? BS)]].
    - unfold set_term_col, modify. unfold bind at 1.
      destruct (next_row_run (set_term (set_col 0 (term s0)) s0))
        as (s1 & E & R1 & R2 & R3 & R4 & R5); [exact Hr|exact Hl|].
      exists s1. split; [exact E|]. auto.
    - eexists. split; [reflexivity|]. cbn. tauto.
    - unfold get at 1. unfold bind at 1.
      destruct (0 <? term_col (term s0)) eqn:E.
      + apply Z.ltb_lt in E. rewrite u8_small by lia.
        unfold set_term_col, modify. unfold bind at 1.
        destruct (vga_putat_run SP (term_color (term s0)) (term_row (term s0))
                    (term_col (term s0) - 1)
                    (set_term (set_col (term_col (term s0) - 1) (term s0)) s0))
          as (s1 & E1 & R1 & R2 & R3 & R4 & R5);
          [unfold VGA_HEIGHT; lia|unfold VGA_WIDTH; lia|].
        exists s1. split; [exact E1|]. split; [exact R1|]. auto.
      + eexists. split; [reflexivity|]. auto.
    - unfold get at 1. unfold bind at 1.
      destruct (vga_putat_run c (term_color (term s0)) (term_row (term s0))
                  (term_col (term s0)) s0)
        as (s1 & E1 & R1 & R2 & R3 & R4 & R5);
        [unfold VGA_HEIGHT; lia|unfold VGA_WIDTH; lia|].
      rewrite (bind_some _ _ _ _ _ E1). rewrite u8_small by lia.
      unfold set_term_col at 1. unfold modify at 1. unfold bind at 1.
      cbv zeta.
      destruct (80 <=? term_col (term s0) + 1) eqn:E.
      * unfold set_term_col, modify. unfold bind at 1.
        destruct (next_row_run
                    (set_term (set_col 0
                       (term (set_term (set_col (term_col (term s0) + 1) (term s1)) s1)))
                       (set_term (set_col (term_col (term s0) + 1) (term s1)) s1)))
          as (s2 & E2 & Q1 & Q2 & Q3 & Q4 & Q5).
        { cbn. unfold VGA_HEIGHT. rewrite R1. cbn. lia. }
        { cbn. rewrite R1. cbn. rewrite length_insert. exact Hl. }
        exists s2. split; [exact E2|]. split.
        { rewrite Q1. cbn. rewrite R1. reflexivity. }
        cbn in Q2, Q3, Q4, Q5. repeat split; congruence.
      * eexists. split; [reflexivity|]. cbn. rewrite R1. auto. }
  destruct Hput as (s1 & E1 & T1 & K1 & F1 & W1 & O1).
  rewrite (bind_some _ _ _ _ _ E1). rewrite T0 in T1.
  assert (Hshape : 0 <= term_row (term_putc c (term st)) < 25 /\
                   0 <= term_col (term_putc c (term st)) < 80 /\
                   length (vga_buffer (term_putc c (term st))) = 2000%nat).
  { unfold term_putc, line_feed, VGA_WIDTH, VGA_HEIGHT in *.
    repeat match goal with
           | |- context [if ?b then _ else _] => destruct b eqn:?
           end;
    cbn [term_row term_col vga_buffer set_col set_row set_buffer];
    rewrite ?length_app, ?length_drop, ?length_replicate, ?length_insert, ?Hl;
    repeat match goal with
           | H : (_ =? _) = true |- _ => apply Z.eqb_eq in H
           | H : (_ =? _) = false |- _ => apply Z.eqb_neq in H
           | H : (_ <? _) = true |- _ => apply Z.ltb_lt in H
           | H : (_ <? _) = false |- _ => apply Z.ltb_ge in H
           | H : (_ <=? _) = true |- _ => apply Z.leb_le in H
           | H : (_ <=? _) = false |- _ => apply Z.leb_gt in H
           end;
    cbn [term_row term_col vga_buffer set_col set_row set_buffer] in *; lia. }
  destruct Hshape as (S1 & S2 & S3).
  destruct (update_cursor_ports s1 ltac:(rewrite T1; lia) ltac:(rewrite T1; lia))
    as (s2 & E2 & T2 & K2 & F2 & O2 & P2 & I2 & L2).
  exists s2. split; [exact E2|].
  unfold cursor_ok.
  rewrite T2, K2, F2, O2, P2, I2, L2, T1, K1, F1, W1, O1, K0, F0, W0, O0.
  unfold VGA_HEIGHT, VGA_WIDTH. auto 12.
Qed.

Lemma raw_cell_cell c color :
  0 <= c < 256 -> 0 <= color < 256 -> raw_cell c color = cell c color.
Proof. apply cell_encoding. Qed.

Lemma image_term_ok : term_ok image.
Proof.
  split; [exact image_cursor_ok|]. split; [reflexivity|].
  cbn [term image term_color]. lia.
Qed.

(** [vga_clear] in full. *)
Lemma vga_clear_run st :
  length (vga_buffer (term st)) = 2000%nat ->
  0 <= term_color (term st) < 256 ->
  exists st', vga_clear st = Some (tt, st') /\
    term st' = {| term_row := 0; term_col := 0;
                  term_color := term_color (term st);
                  vga_buffer := replicate 2000 (cell SP (term_color (term st))) |} /\
    kbd st' = kbd st /\ files st' = files st /\ tty st' = tty st /\
    port_in (hw st') = port_in (hw st) /\ irq1_keys (hw st') = irq1_keys (hw st) /\
    io_log (hw st') = io_log (hw st) ++ cursor_ports 0.
Proof.
  intros Hl Hcol. unfold vga_clear. unfold get at 1. unfold bind at 1.
  destruct (vga_clear_fill
              (u16 (Z.lor (u16 SP) (Z.shiftl (u16 (term_color (term st))) 8))) st Hl)
    as (s1 & E1 & R1 & B1).
  rewrite (bind_some _ _ _ _ _ E1).
  rewrite cell_encoding in B1 by (unfold SP; lia).
  pose proof (repaint_term _ _ _ R1 B1) as T1.
  destruct R1 as (_ & _ & _ & K1 & F1 & W1 & O1).
  unfold set_term_col at 1. unfold modify at 1. unfold bind at 1.
  unfold set_term_row at 1. unfold modify at 1. unfold bind at 1.
  set (s3 := set_term (set_row 0 (term (set_term (set_col 0 (term s1)) s1)))
                      (set_term (set_col 0 (term s1)) s1)).
  assert (H3 : term s3 = set_row 0 (set_col 0 (term s1)) /\ kbd s3 = kbd s1 /\
               files s3 = files s1 /\ hw s3 = hw s1 /\ tty s3 = tty s1)
    by (cbn; tauto).
  clearbody s3. destruct H3 as (T3 & K3 & F3 & W3 & O3).
  destruct (update_cursor_ports s3) as (s4 & E4 & T4 & K4 & F4 & O4 & P4 & I4 & L4).
  { rewrite T3. cbn. lia. }
  { rewrite T3. cbn. lia. }
  exists s4. split; [exact E4|].
  rewrite T4, K4, F4, O4, P4, I4, L4, T3, K3, F3, W3, O3, T1, K1, F1, W1, O1.
  cbn [set_row set_col set_buffer term_row term_col term_color vga_buffer].
  auto 10.
Qed.

(** X14.  [vga_clear] blanks the screen: on a grid of 2000 cells, every
    cell becomes a space in the current attribute, the cursor goes to
    row 0, column 0, the attribute is kept, and the hardware cursor is
    set to position 0 by four port writes; nothing else changes. *)
Theorem vga_clear_blanks (st : kernel) :
  length (vga_buffer (term st)) = 2000%nat ->
  0 <= term_color (term st) < 256 ->
  exists st', vga_clear st = Some (tt, st') /\
    term st' = {| term_row := 0; term_col := 0;
                  term_color := term_color (term st);
                  vga_buffer := replicate 2000 (cell SP (term_color (term st))) |} /\
    kbd st' = kbd st /\ files st' = files st /\ tty st' = tty st /\
    io_log (hw st') = io_log (hw st) ++ cursor_ports 0.
Proof.
  intros Hl Hcol.
  destruct (vga_clear_run st Hl Hcol) as (st' & E & T & K & F & O & _ & _ & L).
  exists st'. auto 10.
Qed.

Lemma vga_clear_blanks_witness :
  exists st', vga_clear image = Some (tt, st') /\
    term st' = {| term_row := 0; term_col := 0;
                  term_color := term_color (term image);
                  vga_buffer := replicate 2000 (cell SP (term_color (term image))) |} /\
    kbd st' = kbd image /\ files st' = files image /\ tty st' = tty image /\
    io_log (hw st') = io_log (hw image) ++ cursor_ports 0.
Proof.
  refine (vga_clear_blanks image eq_refl _). cbn [term image term_color]. lia.
Defined.

(** X15.  [vga_scroll] moves the text up by one row: on a grid of 2000
    cells the new grid is the old one without its first 80 cells,
    followed by 80 blank cells in the current attribute (the in-place
    copy loses nothing but row 0); cursor, attribute and everything
    outside the grid are unchanged. *)
Theorem vga_scroll_rows (st : kernel) :
  length (vga_buffer (term st)) = 2000%nat ->
  0 <= term_color (term st) < 256 ->
  exists st', vga_scroll st = Some (tt, st') /\ repaint st st' /\
    vga_buffer (term st') = scrolled (term_color (term st)) (vga_buffer (term st)) /\
    (forall r c, 0 <= r < 24 -> 0 <= c < 80 ->
       nth (Z.to_nat (r * 80 + c)) (vga_buffer (term st')) 0
       = nth (Z.to_nat ((r + 1) * 80 + c)) (vga_buffer (term st)) 0) /\
    (forall c, 0 <= c < 80 ->
       nth (Z.to_nat (24 * 80 + c)) (vga_buffer (term st')) 0
       = cell SP (term_color (term st))).
Proof.
  intros Hl Hcol. destruct (vga_scroll_run st Hl) as (st' & E & R & B).
  rewrite cell_encoding in B by (unfold SP; lia).
  exists st'. split; [exact E|]. split; [exact R|]. split; [exact B|].
  rewrite B. split.
  - intros r c Hr Hc. rewrite app_nth1 by (rewrite length_drop; lia).
    apply nth_lookup_Some.
    destruct (lookup_lt_is_Some_2 (vga_buffer (term st)) (Z.to_nat ((r + 1) * 80 + c))
                ltac:(lia)) as [x Hx].
    rewrite (nth_lookup_Some _ _ 0 x Hx). rewrite lookup_drop. rewrite <- Hx.
    f_equal. lia.
  - intros c Hc. rewrite app_nth2 by (rewrite length_drop; lia).
    rewrite length_drop, Hl. apply nth_lookup_Some, lookup_replicate_2. lia.
Qed.

Lemma vga_scroll_rows_witness :
  exists st', vga_scroll image = Some (tt, st') /\ repaint image st' /\
    vga_buffer (term st')
    = scrolled (term_color (term image)) (vga_buffer (term image)) /\
    (forall r c, 0 <= r < 24 -> 0 <= c < 80 ->
       nth (Z.to_nat (r * 80 + c)) (vga_buffer (term st')) 0
       = nth (Z.to_nat ((r + 1) * 80 + c)) (vga_buffer (term image)) 0) /\
    (forall c, 0 <= c < 80 ->
       nth (Z.to_nat (24 * 80 + c)) (vga_buffer (term st')) 0
       = cell SP (term_color (term image))).
Proof.
  refine (vga_scroll_rows image eq_refl _). cbn [term image term_color]. lia.
Defined.

Lemma scrolled_raw color b :
  0 <= color < 256 ->
  drop 80 b ++ replicate 80 (raw_cell SP color) = scrolled color b.
Proof.
  intros H. unfold scrolled. rewrite raw_cell_cell by (unfold SP; lia). reflexivity.
Qed.

(** X16.  [vga_putc] of an ordinary character (an ASCII code other than
    newline, carriage return and backspace) stores the character with
    the current attribute in the cell under the cursor and advances the
    cursor: one column to the right; from the last column to the start
    of the next row; and from the last cell of the grid to the start of
    the last row, after scrolling the text (the new character included)
    up by one row. *)
Theorem vga_putc_draws (c : Z) (st : kernel) :
  term_ok st -> 0 <= c < 128 -> c <> LF -> c <> CR -> c <> BS ->
  let row := term_row (term st) in
  let col := term_col (term st) in
  let color := term_color (term st) in
  let b1 := <[Z.to_nat (row * 80 + col) := cell c color]> (vga_buffer (term st)) in
  exists st', vga_putc c st = Some (tt, st') /\ term_ok st' /\
    term_color (term st') = color /\ tty st' = tty st ++ [c] /\
    (col < 79 ->
       term_row (term st') = row /\ term_col (term st') = col + 1 /\
       vga_buffer (term st') = b1) /\
    (col = 79 -> row < 24 ->
       term_row (term st') = row + 1 /\ term_col (term st') = 0 /\
       vga_buffer (term st') = b1) /\
    (col = 79 -> row = 24 ->
       term_row (term st') = 24 /\ term_col (term st') = 0 /\
       vga_buffer (term st') = scrolled color b1).
Proof.
  intros (Hcur & Hl & Hcol) Hc HLF HCR HBS row col color b1.
  destruct (vga_putc_run c st Hcur Hl)
    as (st' & E & T & O & _ & _ & _ & _ & _ & Hcur' & Hl').
  exists st'. split; [exact E|].
  assert (Hcolor : term_color (term st') = color).
  { rewrite T. unfold term_putc, line_feed.
    repeat match goal with
           | |- context [if ?b then _ else _] => destruct b
           end; reflexivity. }
  split; [split; [exact Hcur'|split; [exact Hl'|rewrite Hcolor; exact Hcol]]|].
  split; [exact Hcolor|]. split; [exact O|].
  destruct Hcur as [Hrow Hcl]. unfold VGA_HEIGHT, VGA_WIDTH in *.
  fold row col in Hrow, Hcl.
  rewrite T. unfold term_putc, VGA_WIDTH.
  replace (c =? LF) with false by (symmetry; apply Z.eqb_neq; exact HLF).
  replace (c =? CR) with false by (symmetry; apply Z.eqb_neq; exact HCR).
  replace (c =? BS) with false by (symmetry; apply Z.eqb_neq; exact HBS).
  fold row col color. rewrite raw_cell_cell by lia. fold b1. cbv zeta.
  split; [|split].
  - intros H. replace (80 <=? col + 1) with false by (symmetry; apply Z.leb_gt; lia).
    cbn. auto.
  - intros H1 H2. replace (80 <=? col + 1) with true by (symmetry; apply Z.leb_le; lia).
    unfold line_feed, VGA_HEIGHT. cbn [set_col set_buffer term_row term_col term_color vga_buffer].
    fold row. replace (row + 1 =? 25) with false by (symmetry; apply Z.eqb_neq; lia).
    cbn. auto.
  - intros H1 H2. replace (80 <=? col + 1) with true by (symmetry; apply Z.leb_le; lia).
    unfold line_feed, VGA_HEIGHT. cbn [set_col set_buffer term_row term_col term_color vga_buffer].
    fold row color. replace (row + 1 =? 25) with true by (symmetry; apply Z.eqb_eq; lia).
    cbn [term_row term_col vga_buffer].
    rewrite scrolled_raw by exact Hcol. auto.
Qed.

Lemma vga_putc_draws_witness :
  let c := ch "A" in
  let st := image in
  let row := term_row (term st) in
  let col := term_col (term st) in
  let color := term_color (term st) in
  let b1 := <[Z.to_nat (row * 80 + col) := cell c color]> (vga_buffer (term st)) in
  exists st', vga_putc c st = Some (tt, st') /\ term_ok st' /\
    term_color (term st') = color /\ tty st' = tty st ++ [c] /\
    (col < 79 ->
       term_row (term st') = row /\ term_col (term st') = col + 1 /\
       vga_buffer (term st') = b1) /\
    (col = 79 -> row < 24 ->
       term_row (term st') = row + 1 /\ term_col (term st') = 0 /\
       vga_buffer (term st') = b1) /\
    (col = 79 -> row = 24 ->
       term_row (term st') = 24 /\ term_col (term st') = 0 /\
       vga_buffer (term st') = scrolled color b1).
Proof.
  refine (vga_putc_draws (ch "A") image image_term_ok _ _ _ _).
  - vm_compute. split; [discriminate|reflexivity].
  - vm_compute. discriminate.
  - vm_compute. discriminate.
  - vm_compute. discriminate.
Defined.

(** X17.  The control characters of [vga_putc].  A newline moves the
    cursor to column 0 of the next row, and on the last row scrolls the
    grid instead of leaving it; a carriage return moves to column 0 of
    the same row; a backspace moves one column left and blanks that
    cell, and at column 0 does nothing: it never goes back to the
    previous row. *)
Theorem vga_putc_control (st : kernel) :
  term_ok st ->
  let row := term_row (term st) in
  let col := term_col (term st) in
  let color := term_color (term st) in
  let buf := vga_buffer (term st) in
  (exists st', vga_putc LF st = Some (tt, st') /\ term_ok st' /\
     term_col (term st') = 0 /\
     (row < 24 -> term_row (term st') = row + 1 /\ vga_buffer (term st') = buf) /\
     (row = 24 -> term_row (term st') = 24 /\
                  vga_buffer (term st') = scrolled color buf)) /\
  (exists st', vga_putc CR st = Some (tt, st') /\ term_ok st' /\
     term_col (term st') = 0 /\ term_row (term st') = row /\
     vga_buffer (term st') = buf) /\
  (exists st', vga_putc BS st = Some (tt, st') /\ term_ok st' /\
     term_row (term st') = row /\
     (col = 0 -> term_col (term st') = 0 /\ vga_buffer (term st') = buf) /\
     (0 < col -> term_col (term st') = col - 1 /\
                 vga_buffer (term st')
                 = <[Z.to_nat (row * 80 + (col - 1)) := cell SP color]> buf)).
Proof.
  intros (Hcur & Hl & Hcol) row col color buf.
  assert (Hok : forall c st', term st' = term_putc c (term st) ->
                  cursor_ok st' -> length (vga_buffer (term st')) = 2000%nat ->
                  term_ok st').
  { intros c st' T C L. split; [exact C|]. split; [exact L|].
    rewrite T. unfold term_putc, line_feed.
    repeat match goal with
           | |- context [if ?b then _ else _] => destruct b
           end; exact Hcol. }
  pose proof Hcur as [Hrow Hcl]. unfold VGA_HEIGHT, VGA_WIDTH in *.
  fold row col in Hrow, Hcl.
  split; [|split].
  - destruct (vga_putc_run LF st Hcur Hl)
      as (st' & E & T & _ & _ & _ & _ & _ & _ & Hcur' & Hl').
    exists st'. split; [exact E|]. split; [exact (Hok LF st' T Hcur' Hl')|].
    rewrite T. unfold term_putc. cbn [Z.eqb LF Pos.eqb].
    unfold line_feed, VGA_HEIGHT.
    cbn [set_col term_row term_col term_color vga_buffer]. fold row color buf.
    destruct (row + 1 =? 25) eqn:Er.
    + apply Z.eqb_eq in Er. cbn [term_row term_col vga_buffer].
      rewrite scrolled_raw by exact Hcol.
      split; [reflexivity|]. split; [lia|]. auto.
    + apply Z.eqb_neq in Er. cbn. split; [reflexivity|]. split; [auto|lia].
  - destruct (vga_putc_run CR st Hcur Hl)
      as (st' & E & T & _ & _ & _ & _ & _ & _ & Hcur' & Hl').
    exists st'. split; [exact E|]. split; [exact (Hok CR st' T Hcur' Hl')|].
    rewrite T. cbn. auto.
  - destruct (vga_putc_run BS st Hcur Hl)
      as (st' & E & T & _ & _ & _ & _ & _ & _ & Hcur' & Hl').
    exists st'. split; [exact E|]. split; [exact (Hok BS st' T Hcur' Hl')|].
    rewrite T. unfold term_putc. cbn [Z.eqb BS LF CR Pos.eqb]. fold row col color buf.
    destruct (0 <? col) eqn:Ec.
    + apply Z.ltb_lt in Ec. cbn [set_buffer set_col term_row term_col vga_buffer].
      rewrite raw_cell_cell by (unfold SP; lia).
      split; [reflexivity|]. split; [lia|]. auto.
    + apply Z.ltb_ge in Ec. split; [reflexivity|]. split; [|lia].
      intros _. split; [lia|reflexivity].
Qed.

Lemma vga_putc_control_witness :
  term_ok image /\
  let st := image in
  let row := term_row (term st) in
  let col := term_col (term st) in
  let color := term_color (term st) in
  let buf := vga_buffer (term st) in
  (exists st', vga_putc LF st = Some (tt, st') /\ term_ok st' /\
     term_col (term st') = 0 /\
     (row < 24 -> term_row (term st') = row + 1 /\ vga_buffer (term st') = buf) /\
     (row = 24 -> term_row (term st') = 24 /\
                  vga_buffer (term st') = scrolled color buf)) /\
  (exists st', vga_putc CR st = Some (tt, st') /\ term_ok st' /\
     term_col (term st') = 0 /\ term_row (term st') = row /\
     vga_buffer (term st') = buf) /\
  (exists st', vga_putc BS st = Some (tt, st') /\ term_ok st' /\
     term_row (term st') = row /\
     (col = 0 -> term_col (term st') = 0 /\ vga_buffer (term st') = buf) /\
     (0 < col -> term_col (term st') = col - 1 /\
                 vga_buffer (term st')
                 = <[Z.to_nat (row * 80 + (col - 1)) := cell SP color]> buf)).
Proof.
  split; [exact image_term_ok|]. exact (vga_putc_control image image_term_ok).
Defined.

(** X18.  The hardware cursor follows the text cursor.  Every
    [vga_putc], whatever the character, ends by writing the new cursor
    position [row * 80 + col] to the display controller: index 0x0F and
    the low byte, index 0x0E and the high byte, on ports 0x3D4 and
    0x3D5; these four writes are all its port traffic. *)
Theorem hardware_cursor_follows (c : Z) (st : kernel) :
  term_ok st ->
  exists st', vga_putc c st = Some (tt, st') /\
    let pos := term_row (term st') * 80 + term_col (term st') in
    io_log (hw st')
    = io_log (hw st) ++ [ PortOut 0x3D4 0x0F; PortOut 0x3D5 (pos mod 256);
                          PortOut 0x3D4 0x0E; PortOut 0x3D5 (pos / 256) ] /\
    0 <= pos < 2000 /\ pos mod 256 + 256 * (pos / 256) = pos /\
    port_in (hw st') = port_in (hw st).
Proof.
  intros (Hcur & Hl & _).
  destruct (vga_putc_run c st Hcur Hl)
    as (st' & E & _ & _ & _ & _ & P & _ & L & [Hr Hc] & _).
  exists st'. split; [exact E|]. cbv zeta. split; [exact L|].
  unfold VGA_HEIGHT, VGA_WIDTH in *. split; [lia|]. split; [|exact P].
  pose proof (Z.div_mod (term_row (term st') * 80 + term_col (term st')) 256
                ltac:(lia)). lia.
Qed.

Lemma hardware_cursor_follows_witness :
  term_ok image /\
  exists st', vga_putc (ch "A") image = Some (tt, st') /\
    let pos := term_row (term st') * 80 + term_col (term st') in
    io_log (hw st')
    = io_log (hw image) ++ [ PortOut 0x3D4 0x0F; PortOut 0x3D5 (pos mod 256);
                             PortOut 0x3D4 0x0E; PortOut 0x3D5 (pos / 256) ] /\
    0 <= pos < 2000 /\ pos mod 256 + 256 * (pos / 256) = pos /\
    port_in (hw st') = port_in (hw image).
Proof.
  split; [exact image_term_ok|].
  exact (hardware_cursor_follows (ch "A") image image_term_ok).
Defined.

(** ** [kprintf] *)

Lemma format_plain pre : plain_text pre -> forall rest args,
  format (pre ++ rest) args = option_map (app pre) (format rest args).
Proof.
  induction 1 as [|c pre [Hc0 Hcp] Hpre IH]; intros rest args.
  - cbn [app]. destruct (format rest args); reflexivity.
  - cbn [app format].
    replace (c =? NUL) with false by (symmetry; apply Z.eqb_neq; exact Hc0).
    replace (c =? ch "%") with false by (symmetry; apply Z.eqb_neq; exact Hcp).
    cbn [negb]. rewrite IH. destruct (format rest args); reflexivity.
Qed.

Lemma format_plain_all s args : plain_text s -> format s args = Some s.
Proof.
  intros H. rewrite <- (app_nil_r s) at 1. rewrite (format_plain s H).
  cbn. rewrite app_nil_r. reflexivity.
Qed.

Lemma kprintf_plain_prefix pre : plain_text pre -> forall rest args st,
  cursor_ok st ->
  exists s1, printed pre st s1 /\
             kprintf (pre ++ rest) args st = kprintf rest args s1.
Proof.
  induction 1 as [|c pre [Hc0 Hcp] Hpre IH]; intros rest args st Hok.
  - exists st. split; [apply printed_nil; exact Hok|reflexivity].
  - cbn [app kprintf].
    replace (c =? NUL) with false by (symmetry; apply Z.eqb_neq; exact Hc0).
    replace (c =? ch "%") with false by (symmetry; apply Z.eqb_neq; exact Hcp).
    cbn [negb].
    destruct (vga_putc_printed c st Hok) as (s0 & E0 & P0).
    rewrite (bind_some _ _ _ _ _ E0).
    destruct (IH rest args s0 (printed_cursor _ _ _ P0)) as (s1 & P1 & E1).
    exists s1. split; [exact (printed_app [c] pre _ _ _ P0 P1)|exact E1].
Qed.

Lemma kprintf_conversion pre f post args s st :
  cursor_ok st -> plain_text pre ->
  format (ch "%" :: f :: post) args = Some s ->
  exists st', kprintf (pre ++ ch "%" :: f :: post) args st = Some (tt, st') /\
    tty st' = tty st ++ pre ++ s.
Proof.
  intros Hok Hp Hf.
  destruct (kprintf_printed (pre ++ ch "%" :: f :: post) args (pre ++ s) st Hok)
    as (st' & E & (_ & O & _)).
  { rewrite (format_plain pre Hp), Hf. reflexivity. }
  exists st'. auto.
Qed.

(** X19.  [kprintf].  Plain text (no ['%']) is printed as it is and
    the arguments are not looked at.  The conversions, between plain
    text [pre] and [post]: [%s] prints the string up to its NUL, and
    "(null)" for a null pointer; [%c] prints the argument converted to
    [char]; [%d] prints the decimal notation of the argument read as an
    [int], [%u] that of the argument read as an [unsigned], and [%x]
    its hexadecimal notation; any other character after ['%'] is printed
    together with the ['%'] and takes no argument, so that "%%" prints
    two percent signs; and after a ['%'] that ends the format the call
    has no defined result: it goes on reading behind the terminator. *)
Theorem kprintf_conversions (pre post str : list Z) (n f : Z) (st : kernel) :
  cursor_ok st -> plain_text pre -> plain_text post ->
  (forall args, exists st', kprintf pre args st = Some (tt, st') /\
     tty st' = tty st ++ pre) /\
  (exists st', kprintf (pre ++ cstr "%s" ++ post) [VStr (Some str)] st = Some (tt, st') /\
     tty st' = tty st ++ pre ++ c_str str ++ post) /\
  (exists st', kprintf (pre ++ cstr "%s" ++ post) [VStr None] st = Some (tt, st') /\
     tty st' = tty st ++ pre ++ cstr "(null)" ++ post) /\
  (exists st', kprintf (pre ++ cstr "%c" ++ post) [VInt n] st = Some (tt, st') /\
     tty st' = tty st ++ pre ++ [i8 n] ++ post) /\
  (exists st', kprintf (pre ++ cstr "%d" ++ post) [VInt n] st = Some (tt, st') /\
     tty st' = tty st ++ pre ++ decimal (i32 n) ++ post) /\
  (exists st', kprintf (pre ++ cstr "%u" ++ post) [VInt n] st = Some (tt, st') /\
     tty st' = tty st ++ pre ++ decimal (u32 n) ++ post) /\
  (exists st', kprintf (pre ++ cstr "%x" ++ post) [VInt n] st = Some (tt, st') /\
     tty st' = tty st ++ pre ++ hexadecimal (u32 n) ++ post) /\
  (f <> NUL -> f <> ch "s" -> f <> ch "d" -> f <> ch "u" -> f <> ch "x" ->
   f <> ch "c" ->
   exists st', kprintf (pre ++ ch "%" :: f :: post) [] st = Some (tt, st') /\
     tty st' = tty st ++ pre ++ ch "%" :: f :: post) /\
  kprintf (pre ++ [ch "%"]) [] st = None.
Proof.
  intros Hok Hpre Hpost.
  pose proof (format_plain_all post [] Hpost) as Fp.
  rewrite <- (itoa_decimal (i32 n)) by apply i32_range.
  rewrite <- (utoa_decimal (u32 n)) by apply u32_range.
  rewrite <- (utoa_hexadecimal (u32 n)) by apply u32_range.
  split.
  { intros args.
    destruct (kprintf_printed pre args pre st Hok (format_plain_all pre args Hpre))
      as (st' & E & (_ & O & _)).
    exists st'. auto. }
  repeat split.
  - apply kprintf_conversion; [exact Hok|exact Hpre|].
    cbn [format Z.eqb ch cstr map list_ascii_of_string app]. cbn. rewrite Fp. reflexivity.
  - apply kprintf_conversion; [exact Hok|exact Hpre|].
    cbn. rewrite Fp. reflexivity.
  - apply kprintf_conversion; [exact Hok|exact Hpre|].
    cbn. rewrite Fp. reflexivity.
  - apply kprintf_conversion; [exact Hok|exact Hpre|].
    change (format (ch "%" :: ch "d" :: post) [VInt n])
      with (option_map (app (itoa (i32 n) 10)) (format post [])).
    rewrite Fp. reflexivity.
  - apply kprintf_conversion; [exact Hok|exact Hpre|].
    change (format (ch "%" :: ch "u" :: post) [VInt n])
      with (option_map (app (utoa (u32 n) 10)) (format post [])).
    rewrite Fp. reflexivity.
  - apply kprintf_conversion; [exact Hok|exact Hpre|].
    change (format (ch "%" :: ch "x" :: post) [VInt n])
      with (option_map (app (utoa (u32 n) 16)) (format post [])).
    rewrite Fp. reflexivity.
  - intros H0 Hs Hd Hu Hx Hc.
    apply kprintf_conversion; [exact Hok|exact Hpre|].
    cbn [format]. change (ch "%" =? NUL) with false. change (ch "%" =? ch "%") with true.
    cbn [negb].
    replace (f =? ch "s") with false by (symmetry; apply Z.eqb_neq; exact Hs).
    replace (f =? ch "d") with false by (symmetry; apply Z.eqb_neq; exact Hd).
    replace (f =? ch "u") with false by (symmetry; apply Z.eqb_neq; exact Hu).
    replace (f =? ch "x") with false by (symmetry; apply Z.eqb_neq; exact Hx).
    replace (f =? ch "c") with false by (symmetry; apply Z.eqb_neq; exact Hc).
    replace (f =? NUL) with false by (symmetry; apply Z.eqb_neq; exact H0).
    rewrite Fp. reflexivity.
  - destruct (kprintf_plain_prefix pre Hpre [ch "%"] [] st Hok) as (s1 & P1 & E1).
    rewrite E1. cbn [kprintf]. change (ch "%" =? NUL) with false.
    change (ch "%" =? ch "%") with true. cbn [negb].
    destruct (vga_putc_printed (ch "%") s1 (printed_cursor _ _ _ P1)) as (s2 & E2 & P2).
    rewrite (bind_some _ _ _ _ _ E2).
    destruct (vga_putc_printed NUL s2 (printed_cursor _ _ _ P2)) as (s3 & E3 & P3).
    rewrite (bind_some _ _ _ _ _ E3). reflexivity.
Qed.

(** ** The editor: text lines *)

Lemma c_str_nil_iff line : c_str line = [] <-> chr line 0 = 0.
Proof.
  unfold chr. cbn [Z.ltb Z.compare Z.to_nat nth].
  destruct line as [|c l]; cbn [c_str nth]; [tauto|].
  destruct (c =? 0) eqn:E.
  - apply Z.eqb_eq in E. tauto.
  - apply Z.eqb_neq in E. split; [discriminate|contradiction].
Qed.

Lemma c_str_head line : c_str line <> [] -> chr line 0 = nth 0 (c_str line) 0.
Proof.
  unfold chr. cbn [Z.ltb Z.compare Z.to_nat].
  destruct line as [|c l]; cbn [c_str nth]; [contradiction|].
  destruct (c =? 0); [contradiction|reflexivity].
Qed.

Lemma nano_append_c_str : forall line buf len st,
  nano_append line buf len st = nano_append (c_str line) buf len st.
Proof.
  induction line as [|c l IH]; intros buf len st; [reflexivity|].
  cbn [c_str nano_append]. unfold NUL.
  destruct (c =? 0) eqn:E; [reflexivity|].
  cbn [nano_append]. unfold NUL. rewrite E.
  destruct (len <? MAX_FILE_SIZE); [|reflexivity].
  destruct (wr MAX_FILE_SIZE buf len c) as [b|]; [|reflexivity].
  rewrite !bind_lift. apply IH.
Qed.

(** The copy loop of the editor: as many characters of the line as the
    buffer has room for, and "Buffer full" if some are left. *)
Lemma nano_append_run : forall (text buf : list Z) (len : nat) st,
  cursor_ok st -> length buf = 512%nat -> (len <= 512)%nat ->
  Forall (fun c => c <> 0) text ->
  let k := Nat.min (length text) (512 - len) in
  exists st',
    nano_append text buf (Z.of_nat len) st
    = Some ((take len buf ++ take k text ++ drop (len + k) buf, Z.of_nat (len + k)), st') /\
    printed (if (k <? length text)%nat then cstr "Buffer full" ++ [LF] else []) st st'.
Proof.
  induction text as [|c text IH]; intros buf len st Hok Hl Hlen Hnz k.
  - subst k. cbn [length Nat.min take app nano_append Nat.ltb Nat.leb].
    rewrite Nat.add_0_r, take_drop. exists st.
    split; [reflexivity|apply printed_nil; exact Hok].
  - apply Forall_cons in Hnz. destruct Hnz as [Hc Hnz].
    cbn [nano_append]. unfold NUL.
    replace (c =? 0) with false by (symmetry; apply Z.eqb_neq; exact Hc).
    unfold MAX_FILE_SIZE.
    destruct (Nat.eq_dec len 512%nat) as [->|Hne].
    + replace (Z.of_nat 512 <? 512) with false by reflexivity.
      subst k. rewrite Nat.sub_diag, Nat.min_0_r.
      cbn [take app]. rewrite Nat.add_0_r, take_drop.
      destruct (kprintf_printed (cstr "Buffer full" ++ [LF]) [] _ st Hok eq_refl)
        as (s1 & E1 & P1).
      rewrite (bind_some _ _ _ _ _ E1). exists s1. split; [reflexivity|exact P1].
    + replace (Z.of_nat len <? 512) with true by (symmetry; apply Z.ltb_lt; lia).
      unfold wr.
      replace ((0 <=? Z.of_nat len) && (Z.of_nat len <? 512)) with true
        by (symmetry; apply andb_true_iff; split; [apply Z.leb_le|apply Z.ltb_lt]; lia).
      rewrite bind_lift, Nat2Z.id.
      replace (Z.of_nat len + 1) with (Z.of_nat (S len)) by lia.
      destruct (IH (<[len := c]> buf) (S len) st Hok
                  ltac:(rewrite length_insert; exact Hl) ltac:(lia) Hnz)
        as (st' & E & P).
      cbv zeta in E, P.
      assert (Hk : k = S (Nat.min (length text) (512 - S len)))
        by (subst k; cbn [length]; lia).
      set (k' := Nat.min (length text) (512 - S len)) in *.
      exists st'. split.
      * rewrite E, Hk. do 3 f_equal; [|f_equal; lia].
        rewrite take_insert_snoc by lia.
        rewrite drop_insert_lt by lia.
        cbn [take]. rewrite <- app_assoc. cbn [app].
        replace (S len + k')%nat with (len + S k')%nat by lia. reflexivity.
      * rewrite Hk. cbn [length]. exact P.
Qed.

Lemma c_str_text_nonzero line : Forall (fun c => c <> 0) (c_str line).
Proof. apply c_str_nonzero. Qed.

(** A line of text given to the editor. *)
Lemma nano_line_text fn line buf (len : nat) st :
  cursor_ok st -> length buf = 512%nat -> (len <= 512)%nat ->
  c_str line <> [] -> chr line 0 <> ch "." ->
  let text := c_str line in
  let k := Nat.min (length text) (512 - len) in
  let b1 := take len buf ++ take k text ++ drop (len + k) buf in
  exists st',
    nano_line fn line buf (Z.of_nat len) st
    = Some ((Continue,
             if (len + k <? 512)%nat
             then (<[(len + k)%nat := LF]> b1, Z.of_nat (len + k + 1))
             else (b1, Z.of_nat (len + k))), st') /\
    printed ((if (k <? length text)%nat then cstr "Buffer full" ++ [LF] else [])
             ++ (if (len + k <? 512)%nat then []
                 else cstr "Buffer full, no newline" ++ [LF])) st st'.
Proof.
  intros Hok Hl Hlen Hne Hdot text k b1. unfold nano_line.
  assert (H0 : chr line 0 <> 0) by (intros E; apply Hne, c_str_nil_iff; exact E).
  unfold NUL.
  replace (chr line 0 =? 0) with false by (symmetry; apply Z.eqb_neq; exact H0).
  replace (chr line 0 =? ch ".") with false by (symmetry; apply Z.eqb_neq; exact Hdot).
  destruct (nano_append_run text buf len st Hok Hl Hlen (c_str_nonzero line))
    as (s1 & E1 & P1).
  cbv zeta in E1, P1. fold k in E1, P1. fold b1 in E1.
  assert (Ea : nano_append line buf (Z.of_nat len) st
               = Some ((b1, Z.of_nat (len + k)), s1))
    by (rewrite nano_append_c_str; exact E1).
  rewrite (bind_some _ _ _ _ _ Ea). cbn [fst snd]. unfold MAX_FILE_SIZE.
  destruct (Nat.ltb_spec (len + k) 512) as [Hlt|Hge].
  - replace (Z.of_nat (len + k) <? 512) with true by (symmetry; apply Z.ltb_lt; lia).
    unfold wr.
    replace ((0 <=? Z.of_nat (len + k)) && (Z.of_nat (len + k) <? 512)) with true
      by (symmetry; apply andb_true_iff; split; [apply Z.leb_le|apply Z.ltb_lt]; lia).
    rewrite bind_lift, Nat2Z.id. exists s1. split.
    + unfold ret. do 4 f_equal. lia.
    + rewrite app_nil_r. exact P1.
  - replace (Z.of_nat (len + k) <? 512) with false by (symmetry; apply Z.ltb_ge; lia).
    destruct (kprintf_printed (cstr "Buffer full, no newline" ++ [LF]) [] _ s1
                (printed_cursor _ _ _ P1) eq_refl) as (s2 & E2 & P2).
    rewrite (bind_some _ _ _ _ _ E2). exists s2. split; [reflexivity|].
    exact (printed_app _ _ _ _ _ P1 P2).
Qed.

(** X20.  A line of text given to the editor is appended to the edit
    buffer with a newline.  When the text of the line (its characters
    up to the NUL; not empty, not starting with ['.']) and the newline
    fit in the 512 bytes, the buffer holds the old [len] bytes, then the
    text, then the newline; the length grows by the length of the text
    plus one; nothing is printed, the session goes on, and the file
    table is not touched. *)
Theorem nano_line_appends (fn line buf : list Z) (len : nat) (st : kernel) :
  cursor_ok st -> length buf = 512%nat ->
  c_str line <> [] -> chr line 0 <> ch "." ->
  (len + length (c_str line) < 512)%nat ->
  exists st',
    nano_line fn line buf (Z.of_nat len) st
    = Some ((Continue,
             (take len buf ++ c_str line ++ [LF]
                ++ drop (len + length (c_str line) + 1) buf,
              Z.of_nat (len + length (c_str line) + 1))), st') /\
    tty st' = tty st /\ files st' = files st.
Proof.
  intros Hok Hl Hne Hdot Hfit.
  destruct (nano_line_text fn line buf len st Hok Hl ltac:(lia) Hne Hdot)
    as (st' & E & P).
  cbv zeta in E, P.
  replace (Nat.min (length (c_str line)) (512 - len)) with (length (c_str line))
    in E, P by lia.
  replace (len + length (c_str line) <? 512)%nat with true in E, P
    by (symmetry; apply Nat.ltb_lt; lia).
  rewrite Nat.ltb_irrefl in P. cbn [app] in P.
  rewrite (take_ge (c_str line)) in E by lia.
  exists st'. split.
  - rewrite E. do 3 f_equal.
    set (t := c_str line) in *.
    assert (Hlen1 : length (take len buf) = len) by (rewrite length_take; lia).
    rewrite app_assoc.
    rewrite insert_app_r_alt by (rewrite length_app; lia).
    rewrite length_app, Hlen1, Nat.sub_diag.
    destruct (lookup_lt_is_Some_2 buf (len + length t) ltac:(lia)) as [y Hy].
    rewrite (drop_S _ _ _ Hy). cbn [insert list_insert].
    rewrite <- app_assoc. cbn [app].
    replace (len + length t + 1)%nat with (S (len + length t)) by lia. reflexivity.
  - destruct P as (_ & O & _ & F & _). rewrite app_nil_r in O. auto.
Qed.

Lemma nano_line_appends_witness :
  let line := cstr "hello" ++ [0; ch "x"] in
  let buf := replicate 512 0 in
  exists st',
    nano_line (cstr "notes") line buf (Z.of_nat 0) image
    = Some ((Continue,
             (take 0 buf ++ c_str line ++ [LF]
                ++ drop (0 + length (c_str line) + 1) buf,
              Z.of_nat (0 + length (c_str line) + 1))), st') /\
    tty st' = tty image /\ files st' = files image.
Proof.
  refine (nano_line_appends (cstr "notes") (cstr "hello" ++ [0; ch "x"])
            (replicate 512 0) 0 image image_cursor_ok eq_refl _ _ _).
  - vm_compute. discriminate.
  - vm_compute. discriminate.
  - vm_compute. lia.
Defined.

(** X21.  The editor never writes past its 512-byte buffer.  When the
    text of a line and its newline do not fit, the characters that fit
    are stored and the length stops at 512; "Buffer full" is printed if
    characters were left over, and "Buffer full, no newline" in every
    case; the session goes on and the file table is not touched. *)
Theorem nano_line_buffer_full (fn line buf : list Z) (len : nat) (st : kernel) :
  cursor_ok st -> length buf = 512%nat -> (len <= 512)%nat ->
  c_str line <> [] -> chr line 0 <> ch "." ->
  (512 <= len + length (c_str line))%nat ->
  exists st',
    nano_line fn line buf (Z.of_nat len) st
    = Some ((Continue, (take len buf ++ take (512 - len) (c_str line), 512)), st') /\
    tty st' = tty st
              ++ (if (len + length (c_str line) =? 512)%nat then []
                  else cstr "Buffer full" ++ [LF])
              ++ cstr "Buffer full, no newline" ++ [LF] /\
    files st' = files st.
Proof.
  intros Hok Hl Hlen Hne Hdot Hfull.
  destruct (nano_line_text fn line buf len st Hok Hl Hlen Hne Hdot)
    as (st' & E & P).
  cbv zeta in E, P.
  replace (Nat.min (length (c_str line)) (512 - len)) with (512 - len)%nat
    in E, P by lia.
  replace (len + (512 - len))%nat with 512%nat in E, P by lia.
  rewrite Nat.ltb_irrefl in E, P.
  rewrite drop_ge, app_nil_r in E by lia.
  exists st'. split; [exact E|].
  destruct P as (_ & O & _ & F & _). split; [|exact F]. rewrite O. do 2 f_equal.
  destruct (Nat.eqb_spec (len + length (c_str line)) 512) as [Heq|Hneq].
  - replace (512 - len <? length (c_str line))%nat with false
      by (symmetry; apply Nat.ltb_ge; lia). reflexivity.
  - replace (512 - len <? length (c_str line))%nat with true
      by (symmetry; apply Nat.ltb_lt; lia). reflexivity.
Qed.

Lemma nano_line_buffer_full_witness :
  let line := cstr "hello" in
  let buf := replicate 512 (ch "z") in
  exists st',
    nano_line (cstr "notes") line buf (Z.of_nat 509) image
    = Some ((Continue, (take 509 buf ++ take (512 - 509) (c_str line), 512)), st') /\
    tty st' = tty image
              ++ (if (509 + length (c_str line) =? 512)%nat then []
                  else cstr "Buffer full" ++ [LF])
              ++ cstr "Buffer full, no newline" ++ [LF] /\
    files st' = files image.
Proof.
  refine (nano_line_buffer_full (cstr "notes") (cstr "hello") (replicate 512 (ch "z"))
            509 image image_cursor_ok eq_refl _ _ _ _).
  - lia.
  - vm_compute. discriminate.
  - vm_compute. discriminate.
  - vm_compute. lia.
Defined.

(** ** The editor: sessions *)

Lemma nano_line_fits fn line buf (len : nat) st :
  cursor_ok st -> length buf = 512%nat ->
  c_str line <> [] -> chr line 0 <> ch "." ->
  (len + length (c_str line) < 512)%nat ->
  exists st',
    nano_line fn line buf (Z.of_nat len) st
    = Some ((Continue,
             (take len buf ++ c_str line ++ [LF]
                ++ drop (len + length (c_str line) + 1) buf,
              Z.of_nat (len + length (c_str line) + 1))), st') /\
    printed [] st st'.
Proof.
  intros Hok Hl Hne Hdot Hfit.
  destruct (nano_line_text fn line buf len st Hok Hl ltac:(lia) Hne Hdot)
    as (st' & E & P).
  cbv zeta in E, P.
  replace (Nat.min (length (c_str line)) (512 - len)) with (length (c_str line))
    in E, P by lia.
  replace (len + length (c_str line) <? 512)%nat with true in E, P
    by (symmetry; apply Nat.ltb_lt; lia).
  rewrite Nat.ltb_irrefl in P. cbn [app] in P.
  rewrite (take_ge (c_str line)) in E by lia.
  exists st'. split; [|exact P].
  rewrite E. do 3 f_equal.
  set (t := c_str line) in *.
  assert (Hlen1 : length (take len buf) = len) by (rewrite length_take; lia).
  rewrite app_assoc.
  rewrite insert_app_r_alt by (rewrite length_app; lia).
  rewrite length_app, Hlen1, Nat.sub_diag.
  destruct (lookup_lt_is_Some_2 buf (len + length t) ltac:(lia)) as [y Hy].
  rewrite (drop_S _ _ _ Hy). cbn [insert list_insert].
  rewrite <- app_assoc. cbn [app].
  replace (len + length t + 1)%nat with (S (len + length t)) by lia. reflexivity.
Qed.

Lemma text_line_plain l : text_line l ->
  Forall (fun c => c <> LF /\ c <> CR) l /\ Forall (fun c => c <> BS) l /\
  Forall (fun c => c <> 0) l.
Proof.
  intros (_ & _ & _ & H). repeat split; (eapply Forall_impl; [exact H|]);
    unfold NUL; cbn; tauto.
Qed.

(** What [read_line] returns for a plain line of at most 127
    characters. *)
Lemma read_line_plain buf st l rest :
  cursor_ok st -> ring_ok (kbd st) -> length buf = 128%nat ->
  (length l <= 127)%nat ->
  Forall (fun c => c <> NUL /\ c <> LF /\ c <> CR /\ c <> BS) l ->
  input_stream st = l ++ LF :: rest ->
  exists line st',
    read_line buf INPUT_BUF st = Some (line, st') /\
    length line = 128%nat /\ take (S (length l)) line = l ++ [0] /\ c_str line = l /\
    tty st' = tty st ++ l ++ [LF] /\ input_stream st' = rest /\
    files st' = files st /\ cursor_ok st' /\ ring_ok (kbd st') /\
    (input_budget st' < input_budget st)%nat.
Proof.
  intros Hc Hr Hb Hlen Hp Hs.
  assert (H1 : Forall (fun c => c <> LF /\ c <> CR) l)
    by (eapply Forall_impl; [exact Hp|]; cbn; tauto).
  assert (H2 : Forall (fun c => c <> BS) l)
    by (eapply Forall_impl; [exact Hp|]; cbn; tauto).
  assert (H3 : Forall (fun c => c <> 0) l)
    by (eapply Forall_impl; [exact Hp|]; unfold NUL; cbn; tauto).
  destruct (read_line_typed buf st l LF rest Hc Hr Hb Hs (or_introl eq_refl) H1)
    as (line & st' & E & Q1 & Q2 & Q3 & Q4 & Q5 & Q6 & Q7 & Q8).
  rewrite (typed_plain 127 l [] H2 ltac:(cbn; lia)) in Q2.
  rewrite (echoed_plain 127 l [] H2 ltac:(cbn; lia)) in Q4.
  cbn [app length] in Q2, Q4. rewrite Nat.sub_0_r in Q4.
  rewrite !(take_ge l) in Q2 by lia. rewrite (take_ge l) in Q4 by lia.
  exists line, st'. split; [exact E|]. split; [exact Q1|]. split; [exact Q2|].
  split; [apply c_str_of_prefix; assumption|].
  split; [exact Q4|]. split; [exact Q5|]. split; [exact Q6|].
  split; [exact Q7|]. split; [exact Q8|].
  change (read_line buf INPUT_BUF st)
    with (read_line_loop (input_budget st) buf INPUT_BUF 0 st) in E.
  destruct (read_line_loop_budget _ _ _ _ _ _ _ Hc Hr E) as (_ & _ & B & _).
  exact B.
Qed.

Lemma printed_stream s st st' :
  printed s st st' -> input_stream st' = input_stream st.
Proof.
  intros (_ & _ & _ & _ & K & _ & I). unfold input_stream. rewrite K, I. reflexivity.
Qed.

Lemma prompt_run st :
  cursor_ok st ->
  exists s1, kprintf (cstr "edit> ") [] st = Some (tt, s1) /\
             printed (cstr "edit> ") st s1.
Proof. intros Hc. exact (kprintf_printed (cstr "edit> ") [] _ st Hc eq_refl). Qed.

(** One round of the editor loop on a line of text that fits. *)
Lemma nano_round_text fn l rest0 line0 buf (len : nat) fuel st :
  cursor_ok st -> ring_ok (kbd st) -> length line0 = 128%nat ->
  length buf = 512%nat -> text_line l -> (len + length l < 512)%nat ->
  input_stream st = l ++ LF :: rest0 -> (input_budget st <= fuel)%nat ->
  exists line1 st1,
    nano_loop fuel fn line0 buf (Z.of_nat len) st
    = nano_loop (input_budget st1) fn line1
        (take len buf ++ l ++ [LF] ++ drop (len + length l + 1) buf)
        (Z.of_nat (len + length l + 1)) st1 /\
    cursor_ok st1 /\ ring_ok (kbd st1) /\ length line1 = 128%nat /\
    input_stream st1 = rest0 /\
    tty st1 = tty st ++ cstr "edit> " ++ l ++ [LF] /\ files st1 = files st.
Proof.
  intros Hc Hr Hl0 Hb Ht Hfit Hs Hf.
  pose proof (input_budget_pos st).
  destruct fuel as [|fuel]; [lia|]. cbn [nano_loop].
  destruct (prompt_run st Hc) as (s1 & E1 & P1).
  rewrite (bind_some _ _ _ _ _ E1).
  pose proof (printed_budget _ _ _ P1) as B1.
  pose proof (printed_ring _ _ _ P1 Hr) as R1.
  pose proof (printed_stream _ _ _ P1) as S1. rewrite Hs in S1.
  destruct Ht as (Hne & Hlen & Hdot & Hp).
  destruct (read_line_plain line0 s1 l rest0 (printed_cursor _ _ _ P1) R1 Hl0 Hlen Hp S1)
    as (line & s2 & E2 & L2 & _ & C2 & O2 & S2 & F2 & Hc2 & R2 & B2).
  rewrite (bind_some _ _ _ _ _ E2).
  destruct (nano_line_fits fn line buf len s2 Hc2 Hb) as (s3 & E3 & P3).
  { rewrite C2. exact Hne. }
  { rewrite c_str_head by (rewrite C2; exact Hne). rewrite C2. exact Hdot. }
  { rewrite C2. exact Hfit. }
  rewrite C2 in E3. rewrite (bind_some _ _ _ _ _ E3). cbn [fst snd].
  pose proof (printed_budget _ _ _ P3) as B3.
  pose proof (printed_ring _ _ _ P3 R2) as R3.
  pose proof (printed_stream _ _ _ P3) as S3.
  exists line, s3. split.
  { apply nano_loop_fuel; [exact (printed_cursor _ _ _ P3)|exact R3|lia|lia]. }
  split; [exact (printed_cursor _ _ _ P3)|]. split; [exact R3|]. split; [exact L2|].
  split; [rewrite S3; exact S2|].
  destruct P1 as (_ & O1 & _ & F1 & _). destruct P3 as (_ & O3 & _ & F3 & _).
  split; [rewrite O3, app_nil_r, O2, O1, <- !app_assoc; reflexivity|congruence].
Qed.

Lemma with_newlines_cons l ls : with_newlines (l :: ls) = l ++ LF :: with_newlines ls.
Proof. unfold with_newlines. cbn [map concat]. rewrite <- app_assoc. reflexivity. Qed.

Lemma edit_rounds_cons l ls :
  edit_rounds (l :: ls) = (cstr "edit> " ++ l ++ [LF]) ++ edit_rounds ls.
Proof. reflexivity. Qed.

(** The rounds of the editor loop on lines of text that fit. *)
Lemma nano_loop_texts fn : forall ls line0 buf (len : nat) fuel st rest0,
  cursor_ok st -> ring_ok (kbd st) -> length line0 = 128%nat ->
  length buf = 512%nat -> Forall text_line ls ->
  (len + length (with_newlines ls) <= 512)%nat ->
  input_stream st = with_newlines ls ++ rest0 -> (input_budget st <= fuel)%nat ->
  exists line1 st1,
    nano_loop fuel fn line0 buf (Z.of_nat len) st
    = nano_loop (input_budget st1) fn line1
        (take len buf ++ with_newlines ls
           ++ drop (len + length (with_newlines ls)) buf)
        (Z.of_nat (len + length (with_newlines ls))) st1 /\
    cursor_ok st1 /\ ring_ok (kbd st1) /\ length line1 = 128%nat /\
    input_stream st1 = rest0 /\
    tty st1 = tty st ++ edit_rounds ls /\ files st1 = files st.
Proof.
  induction ls as [|l ls IH]; intros line0 buf len fuel st rest0 Hc Hr Hl0 Hb Hts Hfit Hs Hf.
  - exists line0, st. cbn [with_newlines map concat length app] in *.
    rewrite Nat.add_0_r, take_drop. split.
    { apply nano_loop_fuel; [exact Hc|exact Hr|exact Hf|lia]. }
    unfold edit_rounds. cbn [map concat]. rewrite app_nil_r.
    split; [exact Hc|]. split; [exact Hr|]. split; [exact Hl0|].
    split; [exact Hs|]. split; reflexivity.
  - apply Forall_cons in Hts. destruct Hts as [Ht Hts].
    rewrite with_newlines_cons in Hfit, Hs. rewrite <- app_assoc in Hs. cbn [app] in Hs.
    rewrite length_app in Hfit. cbn [length] in Hfit.
    destruct (nano_round_text fn l (with_newlines ls ++ rest0) line0 buf len fuel st
                Hc Hr Hl0 Hb Ht ltac:(lia) Hs Hf)
      as (line1 & s1 & E1 & C1 & R1 & L1 & S1 & O1 & F1).
    set (buf1 := take len buf ++ l ++ [LF] ++ drop (len + length l + 1) buf) in *.
    assert (Hb1 : length buf1 = 512%nat).
    { subst buf1. rewrite !length_app, length_take, length_drop. cbn [length]. lia. }
    destruct (IH line1 buf1 (len + length l + 1)%nat (input_budget s1) s1 rest0
                C1 R1 L1 Hb1 Hts ltac:(lia) S1 ltac:(lia))
      as (line2 & s2 & E2 & C2 & R2 & L2 & S2 & O2 & F2).
    exists line2, s2. split.
    { rewrite E1, E2. rewrite with_newlines_cons.
      assert (HX : buf1 = (take len buf ++ l ++ [LF]) ++ drop (len + length l + 1) buf)
        by (subst buf1; rewrite <- !app_assoc; reflexivity).
      assert (HXl : length (take len buf ++ l ++ [LF]) = (len + length l + 1)%nat)
        by (rewrite !length_app, length_take; cbn [length]; lia).
      f_equal.
      - rewrite HX. rewrite take_app_length' by (symmetry; exact HXl).
        rewrite (drop_app_add' _ _ _ _ (eq_sym HXl)). rewrite drop_drop.
        rewrite <- !app_assoc. cbn [app]. do 4 f_equal.
        rewrite length_app. cbn [length]. f_equal. lia.
      - f_equal. rewrite length_app. cbn [length]. lia. }
    split; [exact C2|]. split; [exact R2|]. split; [exact L2|]. split; [exact S2|].
    split; [|congruence].
    rewrite O2, O1, edit_rounds_cons, <- !app_assoc. reflexivity.
Qed.

(** One round of the editor loop up to the line [read_line] returns. *)
Lemma nano_loop_round fn l rest0 line0 buf len fuel st :
  cursor_ok st -> ring_ok (kbd st) -> length line0 = 128%nat ->
  (length l <= 127)%nat ->
  Forall (fun c => c <> NUL /\ c <> LF /\ c <> CR /\ c <> BS) l ->
  input_stream st = l ++ LF :: rest0 -> (input_budget st <= fuel)%nat ->
  exists fuel' line s2,
    nano_loop fuel fn line0 buf len st
    = (let* r := nano_line fn line buf len in
       match fst r with
       | Continue => nano_loop fuel' fn line (fst (snd r)) (snd (snd r))
       | Break => ret tt
       end) s2 /\
    take (S (length l)) line = l ++ [0] /\ length line = 128%nat /\
    cursor_ok s2 /\ ring_ok (kbd s2) /\ input_stream s2 = rest0 /\
    tty s2 = tty st ++ cstr "edit> " ++ l ++ [LF] /\ files s2 = files st /\
    (input_budget s2 <= fuel')%nat.
Proof.
  intros Hc Hr Hl0 Hlen Hp Hs Hf.
  pose proof (input_budget_pos st).
  destruct fuel as [|fuel]; [lia|]. cbn [nano_loop].
  destruct (prompt_run st Hc) as (s1 & E1 & P1).
  rewrite (bind_some _ _ _ _ _ E1).
  pose proof (printed_budget _ _ _ P1) as B1.
  pose proof (printed_ring _ _ _ P1 Hr) as R1.
  pose proof (printed_stream _ _ _ P1) as S1. rewrite Hs in S1.
  destruct (read_line_plain line0 s1 l rest0 (printed_cursor _ _ _ P1) R1 Hl0 Hlen Hp S1)
    as (line & s2 & E2 & L2 & T2 & C2 & O2 & S2 & F2 & Hc2 & R2 & B2).
  rewrite (bind_some _ _ _ _ _ E2).
  exists fuel, line, s2. split; [reflexivity|].
  destruct P1 as (_ & O1 & _ & F1 & _).
  split; [exact T2|]. split; [exact L2|]. split; [exact Hc2|]. split; [exact R2|].
  split; [exact S2|].
  split; [rewrite O2, O1, <- !app_assoc; reflexivity|]. split; [congruence|lia].
Qed.

Lemma line_of_prefix (line l : list Z) :
  take (S (length l)) line = l ++ [0] ->
  line = l ++ 0 :: drop (S (length l)) line.
Proof.
  intros H. rewrite <- (take_drop (S (length l)) line) at 1.
  rewrite H, <- app_assoc. reflexivity.
Qed.

Lemma plain_dot_wq :
  Forall (fun c => c <> NUL /\ c <> LF /\ c <> CR /\ c <> BS) (cstr ".wq").
Proof. repeat (apply Forall_cons; split; [repeat split; discriminate|]). constructor. Qed.

Lemma plain_dot_q :
  Forall (fun c => c <> NUL /\ c <> LF /\ c <> CR /\ c <> BS) (cstr ".q").
Proof. repeat (apply Forall_cons; split; [repeat split; discriminate|]). constructor. Qed.

(** The round that reads [.wq]: the buffer is written and the loop
    ends. *)
Lemma nano_round_wq fn rest0 line0 buf len fuel st :
  cursor_ok st -> ring_ok (kbd st) -> length line0 = 128%nat ->
  fs_wf (files st) -> 0 <= len <= Z.of_nat (length buf) ->
  input_stream st = cstr ".wq" ++ LF :: rest0 -> (input_budget st <= fuel)%nat ->
  exists w st1,
    nano_loop fuel fn line0 buf len st = Some (tt, st1) /\
    fs_write fn buf len (files st) = Some (w, files st1) /\
    cursor_ok st1 /\ ring_ok (kbd st1) /\ input_stream st1 = rest0 /\
    tty st1 = tty st ++ cstr "edit> " ++ cstr ".wq" ++ [LF] ++ save_report w.
Proof.
  intros Hc Hr Hl0 Hwf Hlen Hs Hf.
  destruct (nano_loop_round fn (cstr ".wq") rest0 line0 buf len fuel st Hc Hr Hl0
              ltac:(cbn; lia) plain_dot_wq Hs Hf)
    as (fuel' & line & s2 & E & T2 & L2 & C2 & R2 & S2 & O2 & F2 & B2).
  rewrite E. rewrite (line_of_prefix line (cstr ".wq") T2).
  change (nano_line fn (cstr ".wq" ++ 0 :: drop (S (length (cstr ".wq"))) line) buf len)
    with (nano_save fn buf len >> ret (Break, (buf, len))).
  destruct (nano_save_run fn buf len s2 C2 ltac:(rewrite F2; exact Hwf) Hlen)
    as (w & s3 & E3 & W3 & C3 & O3).
  destruct (nano_save_quiet fn buf len s2 s3 C2 E3) as (_ & K3 & I3).
  exists w, s3. split.
  { unfold bind at 1. unfold bind at 1. rewrite E3. reflexivity. }
  rewrite F2 in W3. split; [exact W3|]. split; [exact C3|].
  split; [rewrite K3; exact R2|].
  split; [unfold input_stream in *; rewrite K3, I3; exact S2|].
  rewrite O3, O2, <- !app_assoc. reflexivity.
Qed.

(** The round that reads [.q]: the loop ends and the table is not
    touched. *)
Lemma nano_round_q fn rest0 line0 buf len fuel st :
  cursor_ok st -> ring_ok (kbd st) -> length line0 = 128%nat ->
  input_stream st = cstr ".q" ++ LF :: rest0 -> (input_budget st <= fuel)%nat ->
  exists st1,
    nano_loop fuel fn line0 buf len st = Some (tt, st1) /\
    files st1 = files st /\
    cursor_ok st1 /\ ring_ok (kbd st1) /\ input_stream st1 = rest0 /\
    tty st1 = tty st ++ cstr "edit> " ++ cstr ".q" ++ [LF]
              ++ cstr "Quit without saving" ++ [LF].
Proof.
  intros Hc Hr Hl0 Hs Hf.
  destruct (nano_loop_round fn (cstr ".q") rest0 line0 buf len fuel st Hc Hr Hl0
              ltac:(cbn; lia) plain_dot_q Hs Hf)
    as (fuel' & line & s2 & E & T2 & L2 & C2 & R2 & S2 & O2 & F2 & B2).
  rewrite E. rewrite (line_of_prefix line (cstr ".q") T2).
  change (nano_line fn (cstr ".q" ++ 0 :: drop (S (length (cstr ".q"))) line) buf len)
    with (kprintf (cstr "Quit without saving" ++ [LF]) [] >> ret (Break, (buf, len))).
  destruct (kprintf_printed (cstr "Quit without saving" ++ [LF]) [] _ s2 C2 eq_refl)
    as (s3 & E3 & P3).
  exists s3. split.
  { unfold bind at 1. unfold bind at 1. rewrite E3. reflexivity. }
  pose proof (printed_ring _ _ _ P3 R2) as R3.
  pose proof (printed_stream _ _ _ P3) as S3.
  destruct P3 as (C3 & O3 & _ & F3 & _).
  split; [congruence|]. split; [exact C3|]. split; [exact R3|].
  split; [congruence|]. rewrite O3, O2, <- !app_assoc. reflexivity.
Qed.

Lemma format_banner fn :
  format (cstr "--- nano: editing %s (max %d bytes) ---" ++ [LF])
         [VStr (Some fn); VInt MAX_FILE_SIZE]
  = Some (cstr "--- nano: editing " ++ c_str fn ++ cstr " (max 512 bytes) ---" ++ [LF]).
Proof.
  change (format (cstr "--- nano: editing %s (max %d bytes) ---" ++ [LF])
                 [VStr (Some fn); VInt MAX_FILE_SIZE])
    with (option_map (app (cstr "--- nano: editing "))
            (option_map (app (c_str fn))
               (format (cstr " (max %d bytes) ---" ++ [LF]) [VInt MAX_FILE_SIZE]))).
  evaluated (format (cstr " (max %d bytes) ---" ++ [LF]) [VInt MAX_FILE_SIZE]) E.
  rewrite E. reflexivity.
Qed.

Lemma file_text_found fn fs r :
  fs_find fn fs = Some r -> 0 <= r ->
  file_text fn fs = take (Z.to_nat (size (file_at fs r))) (data (file_at fs r)).
Proof.
  intros E Hr. unfold file_text. rewrite E.
  replace (0 <=? r) with true by (symmetry; apply Z.leb_le; exact Hr). reflexivity.
Qed.

Lemma file_text_absent fn fs : fs_find fn fs = Some (-1) -> file_text fn fs = [].
Proof. intros E. unfold file_text. rewrite E. reflexivity. Qed.

(** [nano_edit] up to its loop: the edit buffer starts as the contents
    of the file. *)
Lemma nano_edit_open fn st :
  cursor_ok st -> fs_wf (files st) ->
  (forall r, fs_find fn (files st) = Some r -> 0 <= r ->
             0 <= size (file_at (files st) r) <= 512) ->
  let old := file_text fn (files st) in
  exists s1,
    nano_edit fn st
    = (nano_loop (input_budget s1) fn (replicate 128 0)
         (old ++ replicate (512 - length old) 0) (Z.of_nat (length old)) >>
       kprintf (cstr "Exiting editor" ++ [LF]) []) s1 /\
    printed (nano_opening fn old) st s1 /\ (length old <= 512)%nat.
Proof.
  intros Hc Hwf Hsz old.
  destruct (fs_find_spec fn (files st) Hwf) as (r & Ef & Hspec).
  unfold nano_edit. rewrite (bind_some _ _ _ _ _ (fs_lookup_run fn st r Ef)).
  assert (Hseed : (length old <= 512)%nat /\
            (if 0 <=? r
             then
               let* st0 := get in
               let e := file_at (files st0) r in
               let len := if MAX_FILE_SIZE <? size e then MAX_FILE_SIZE else size e in
               let* r0 := lift (copy_bytes 512 (data e) (replicate 512 0)
                                           MAX_FILE_SIZE len MAX_FILE_SIZE 0) in
               ret (fst r0, len)
             else ret (replicate 512 0, 0)) st
            = Some ((old ++ replicate (512 - length old) 0, Z.of_nat (length old)), st)).
  { destruct (0 <=? r) eqn:E0.
    - apply Z.leb_le in E0. specialize (Hsz r Ef E0).
      destruct Hspec as [[H _]|(Hr & _)]; [lia|].
      destruct (file_at_ok (files st) r Hwf Hr) as (_ & Hd & _).
      subst old. rewrite (file_text_found fn (files st) r Ef E0).
      set (e := file_at (files st) r) in *.
      assert (Hlo : length (take (Z.to_nat (size e)) (data e)) = Z.to_nat (size e))
        by (rewrite length_take; lia).
      rewrite Hlo. split; [lia|].
      unfold get at 1. unfold bind at 1. cbv zeta. fold e. unfold MAX_FILE_SIZE.
      replace (512 <? size e) with false by (symmetry; apply Z.ltb_ge; lia).
      pose proof (copy_bytes_spec (data e) (replicate 512 0) 512 512
                    (Z.to_nat (size e)) (size e) (length_replicate _ _) ltac:(lia)
                    ltac:(lia) ltac:(lia) 512 0 ltac:(lia) ltac:(lia)) as Hcp.
      change (take 0 (data e)) with (@nil Z) in Hcp.
      rewrite drop_0 in Hcp. cbn [app] in Hcp.
      change (Z.of_nat 512) with 512 in Hcp. change (Z.of_nat 0) with 0 in Hcp.
      rewrite Hcp, bind_lift. cbn [fst]. rewrite drop_replicate.
      unfold ret. rewrite Z2Nat.id by lia. reflexivity.
    - apply Z.leb_gt in E0. destruct Hspec as [[-> _]|(Hr & _)]; [|lia].
      subst old. rewrite (file_text_absent fn (files st) Ef).
      split; [cbn; lia|reflexivity]. }
  destruct Hseed as (Hlen & Eseed).
  rewrite (bind_some _ _ _ _ _ Eseed). cbn [fst snd]. cbv zeta.
  destruct (kprintf_printed _ _ _ st Hc (format_banner fn)) as (s1 & E1 & P1).
  rewrite (bind_some _ _ _ _ _ E1).
  destruct (kprintf_printed (cstr "Commands: .help .save .wq .quit" ++ [LF]) [] _ s1
              (printed_cursor _ _ _ P1) eq_refl) as (s2 & E2 & P2).
  rewrite (bind_some _ _ _ _ _ E2).
  pose proof (printed_app _ _ _ _ _ P1 P2) as P12.
  assert (Hshow : exists s3,
            (if 0 <? Z.of_nat (length old)
             then kprintf (cstr "--- current contents ---" ++ [LF]) [] >>
                  put_bytes (Z.to_nat (Z.of_nat (length old))) MAX_FILE_SIZE
                            (old ++ replicate (512 - length old) 0) 0 >>
                  kprintf (cstr "--- end ---" ++ [LF]) []
             else ret tt) s2 = Some (tt, s3) /\
            printed (match old with
                     | [] => []
                     | _ => cstr "--- current contents ---" ++ [LF] ++ old
                            ++ cstr "--- end ---" ++ [LF]
                     end) s2 s3).
  { clear Eseed P12 P1 E1 E2. clearbody old. destruct old as [|c0 old0].
    - exists s2. split; [reflexivity|]. apply printed_nil. apply P2.
    - set (old := c0 :: old0) in *.
      replace (0 <? Z.of_nat (length old)) with true
        by (symmetry; apply Z.ltb_lt; subst old; cbn [length]; lia).
      destruct (kprintf_printed (cstr "--- current contents ---" ++ [LF]) [] _ s2
                  (printed_cursor _ _ _ P2) eq_refl) as (s3 & E3 & P3).
      rewrite (bind_some _ _ _ _ _ E3). rewrite Nat2Z.id.
      destruct (put_bytes_printed MAX_FILE_SIZE (old ++ replicate (512 - length old) 0)
                  (length old) 0 s3 (printed_cursor _ _ _ P3)
                  ltac:(unfold MAX_FILE_SIZE; lia)) as (s4 & E4 & P4).
      change (Z.of_nat 0) with 0 in E4. rewrite (bind_some _ _ _ _ _ E4).
      rewrite drop_0, <- app_assoc, take_app_length in P4.
      destruct (kprintf_printed (cstr "--- end ---" ++ [LF]) [] _ s4
                  (printed_cursor _ _ _ P4) eq_refl) as (s5 & E5 & P5).
      exists s5. split; [exact E5|].
      pose proof (printed_app _ _ _ _ _ P3 (printed_app _ _ _ _ _ P4 P5)) as P.
      subst old. exact P. }
  destruct Hshow as (s3 & E3 & P3).
  rewrite (bind_some _ _ _ _ _ E3). unfold get at 1. unfold bind at 1.
  exists s3. split; [reflexivity|]. split; [|exact Hlen].
  unfold nano_opening, nano_banner.
  pose proof (printed_app _ _ _ _ _ P12 P3) as P. rewrite <- ?app_assoc in P.
  rewrite <- ?app_assoc. exact P.
Qed.

Lemma edit_rounds_snoc ls l :
  edit_rounds (ls ++ [l]) = edit_rounds ls ++ cstr "edit> " ++ l ++ [LF].
Proof.
  unfold edit_rounds. rewrite map_app, concat_app. cbn [map concat].
  rewrite app_nil_r. reflexivity.
Qed.

(** The editor loop on lines of text followed by a command line [cmd]:
    the text is in the buffer when the command is read. *)
Lemma nano_edit_texts fn ls rest0 st :
  cursor_ok st -> ring_ok (kbd st) -> fs_wf (files st) ->
  (forall r, fs_find fn (files st) = Some r -> 0 <= r ->
             0 <= size (file_at (files st) r) <= 512) ->
  Forall text_line ls ->
  let old := file_text fn (files st) in
  (length old + length (with_newlines ls) <= 512)%nat ->
  input_stream st = with_newlines ls ++ rest0 ->
  exists line1 st1 buf,
    nano_edit fn st
    = (nano_loop (input_budget st1) fn line1 buf
         (Z.of_nat (length old + length (with_newlines ls))) >>
       kprintf (cstr "Exiting editor" ++ [LF]) []) st1 /\
    length buf = 512%nat /\
    take (length old + length (with_newlines ls)) buf = old ++ with_newlines ls /\
    cursor_ok st1 /\ ring_ok (kbd st1) /\ length line1 = 128%nat /\
    input_stream st1 = rest0 /\ files st1 = files st /\
    tty st1 = tty st ++ nano_opening fn old ++ edit_rounds ls.
Proof.
  intros Hc Hr Hwf Hsz Hts old Hfit Hs.
  destruct (nano_edit_open fn st Hc Hwf Hsz) as (s1 & E1 & P1 & Hold).
  fold old in E1, P1, Hold.
  pose proof (printed_ring _ _ _ P1 Hr) as R1.
  pose proof (printed_stream _ _ _ P1) as S1. rewrite Hs in S1.
  set (buf0 := old ++ replicate (512 - length old) 0) in *.
  assert (Hb0 : length buf0 = 512%nat)
    by (subst buf0; rewrite length_app, length_replicate; lia).
  destruct (nano_loop_texts fn ls (replicate 128 0) buf0 (length old) (input_budget s1)
              s1 rest0 (printed_cursor _ _ _ P1) R1 (length_replicate _ _) Hb0 Hts
              Hfit S1 ltac:(lia))
    as (line1 & s2 & E2 & C2 & R2 & L2 & S2 & O2 & F2).
  set (buf := take (length old) buf0 ++ with_newlines ls
              ++ drop (length old + length (with_newlines ls)) buf0) in *.
  exists line1, s2, buf. split.
  { rewrite E1. unfold bind at 1. rewrite E2. reflexivity. }
  assert (Ht0 : take (length old) buf0 = old)
    by (subst buf0; apply take_app_length).
  split.
  { subst buf. rewrite Ht0, !length_app, length_drop. lia. }
  split.
  { subst buf. rewrite Ht0, app_assoc. apply take_app_length'.
    rewrite length_app. reflexivity. }
  destruct P1 as (_ & O1 & _ & F1 & _).
  split; [exact C2|]. split; [exact R2|]. split; [exact L2|]. split; [exact S2|].
  split; [congruence|]. rewrite O2, O1, <- !app_assoc. reflexivity.
Qed.

(** X22.  An editing session that ends with [.wq].  On a well-formed
    terminal, keyboard ring and file table, the user opens a file whose
    name has at most 15 characters and which exists, with a size from 0
    to 512, or for which a slot is free; types lines of text (each not
    empty, of at most 127 plain characters, not starting with ['.'])
    that fit with the old contents in the 512 bytes; then types [.wq].
    [nano_edit] returns; the file then holds its old contents followed
    by the typed lines, each with its newline; the input stream is left
    behind the [.wq] line; and the terminal shows the opening banner
    (with the old contents, if any), a prompt and the echo of every
    line, "Saved <n> bytes" with the new size in decimal, and "Exiting
    editor". *)
Theorem nano_edit_session (fn : list Z) (ls : list (list Z)) (rest : list Z)
    (st : kernel) :
  cursor_ok st -> ring_ok (kbd st) -> fs_wf (files st) ->
  (length (c_str fn) <= 15)%nat ->
  (forall r, fs_find fn (files st) = Some r -> 0 <= r ->
             0 <= size (file_at (files st) r) <= 512) ->
  (exists j, 0 <= j < 16 /\ slot_named (files st) fn j) \/
  (exists j, 0 <= j < 16 /\ used (file_at (files st) j) = 0) ->
  Forall text_line ls ->
  let old := file_text fn (files st) in
  (length old + length (with_newlines ls) <= 512)%nat ->
  input_stream st = with_newlines ls ++ cstr ".wq" ++ LF :: rest ->
  exists st',
    nano_edit fn st = Some (tt, st') /\
    file_text fn (files st') = old ++ with_newlines ls /\
    input_stream st' = rest /\
    tty st' = tty st ++ nano_opening fn old ++ edit_rounds (ls ++ [cstr ".wq"])
              ++ cstr "Saved "
              ++ decimal (Z.of_nat (length old + length (with_newlines ls)))
              ++ cstr " bytes" ++ [LF]
              ++ cstr "Exiting editor" ++ [LF] /\
    cursor_ok st' /\ ring_ok (kbd st') /\ fs_wf (files st').
Proof.
  intros Hc Hr Hwf Hshort Hsz Hroom Hts old Hfit Hs.
  destruct (nano_edit_texts fn ls (cstr ".wq" ++ LF :: rest) st Hc Hr Hwf Hsz Hts Hfit Hs)
    as (line1 & s1 & buf & E1 & Hb & Ht & C1 & R1 & L1 & S1 & F1 & O1).
  fold old in E1, Ht, O1.
  set (n := (length old + length (with_newlines ls))%nat) in *.
  destruct (nano_round_wq fn rest line1 buf (Z.of_nat n) (input_budget s1) s1 C1 R1 L1
              ltac:(rewrite F1; exact Hwf) ltac:(lia) S1 ltac:(lia))
    as (w & s2 & E2 & W2 & C2 & R2 & S2 & O2).
  rewrite F1 in W2.
  destruct (fs_write_found fn buf (Z.of_nat n) (files st) Hwf Hshort ltac:(lia) Hroom)
    as (fs' & idx & Ew & Hwf' & Hidx & Ef & Hsize & Hdata).
  replace (Z.min (Z.of_nat n) MAX_FILE_SIZE) with (Z.of_nat n) in Ew, Hsize, Hdata
    by (unfold MAX_FILE_SIZE; lia).
  rewrite Ew in W2. injection W2 as <- Hfs.
  assert (Hrep : save_report (Z.of_nat n)
                 = cstr "Saved " ++ decimal (Z.of_nat n) ++ cstr " bytes" ++ [LF]).
  { unfold save_report.
    replace (Z.of_nat n <? 0) with false by (symmetry; apply Z.ltb_ge; lia).
    rewrite i32_small, itoa_decimal by (change (2 ^ 31) with 2147483648; lia).
    reflexivity. }
  rewrite Hrep in O2.
  destruct (kprintf_printed (cstr "Exiting editor" ++ [LF]) [] _ s2 C2 eq_refl)
    as (s3 & E3 & P3).
  exists s3. split.
  { rewrite E1. rewrite (bind_some _ _ _ _ _ E2). exact E3. }
  pose proof (printed_ring _ _ _ P3 R2) as R3.
  pose proof (printed_stream _ _ _ P3) as S3.
  destruct P3 as (C3 & O3 & _ & F3 & _).
  split.
  { rewrite F3, <- Hfs. rewrite (file_text_found fn fs' idx Ef ltac:(lia)).
    rewrite !Nat2Z.id in Hdata. rewrite Hsize, Nat2Z.id, Hdata. exact Ht. }
  split; [congruence|]. split.
  { rewrite O3, O2, O1, edit_rounds_snoc, <- !app_assoc. reflexivity. }
  split; [exact C3|]. split; [exact R3|]. rewrite F3, <- Hfs. exact Hwf'.
Qed.

(** One round of the editor loop on a line of text, whether it fits in
    the buffer or not. *)
Lemma nano_round_any fn l rest0 line0 buf (len : nat) fuel st :
  cursor_ok st -> ring_ok (kbd st) -> length line0 = 128%nat ->
  length buf = 512%nat -> (len <= 512)%nat -> text_line l ->
  input_stream st = l ++ LF :: rest0 -> (input_budget st <= fuel)%nat ->
  exists line1 buf1 (len1 : nat) st1,
    nano_loop fuel fn line0 buf (Z.of_nat len) st
    = nano_loop (input_budget st1) fn line1 buf1 (Z.of_nat len1) st1 /\
    cursor_ok st1 /\ ring_ok (kbd st1) /\ length line1 = 128%nat /\
    length buf1 = 512%nat /\ (len1 <= 512)%nat /\
    input_stream st1 = rest0 /\ files st1 = files st.
Proof.
  intros Hc Hr Hl0 Hb Hlen (Hne & Hl & Hdot & Hp) Hs Hf.
  destruct (nano_loop_round fn l rest0 line0 buf (Z.of_nat len) fuel st Hc Hr Hl0
              Hl Hp Hs Hf)
    as (fuel' & line & s2 & E & T2 & L2 & C2 & R2 & S2 & O2 & F2 & B2).
  assert (Hcs : c_str line = l).
  { apply c_str_of_prefix; [exact T2|].
    eapply Forall_impl; [exact Hp|]. unfold NUL. cbn. tauto. }
  destruct (nano_line_text fn line buf len s2 C2 Hb Hlen) as (s3 & E3 & P3).
  { rewrite Hcs. exact Hne. }
  { rewrite c_str_head by (rewrite Hcs; exact Hne). rewrite Hcs. exact Hdot. }
  cbv zeta in E3. rewrite Hcs in E3.
  rewrite E, (bind_some _ _ _ _ _ E3). cbn [fst].
  pose proof (printed_budget _ _ _ P3) as B3.
  pose proof (printed_ring _ _ _ P3 R2) as R3.
  pose proof (printed_stream _ _ _ P3) as S3.
  pose proof (printed_cursor _ _ _ P3) as C3.
  destruct P3 as (_ & _ & _ & F3 & _).
  set (k := Nat.min (length l) (512 - len)) in *.
  set (b1 := take len buf ++ take k l ++ drop (len + k) buf) in *.
  assert (Hb1 : length b1 = 512%nat).
  { subst b1. rewrite !length_app, !length_take, length_drop. lia. }
  destruct (len + k <? 512)%nat eqn:Ek; cbn [fst snd].
  - apply Nat.ltb_lt in Ek.
    exists line, (<[(len + k)%nat := LF]> b1), (len + k + 1)%nat, s3.
    split; [apply nano_loop_fuel; [exact C3|exact R3|lia|lia]|].
    split; [exact C3|]. split; [exact R3|]. split; [exact L2|].
    split; [rewrite length_insert; exact Hb1|]. split; [lia|].
    split; congruence.
  - apply Nat.ltb_ge in Ek.
    exists line, b1, (len + k)%nat, s3.
    split; [apply nano_loop_fuel; [exact C3|exact R3|lia|lia]|].
    split; [exact C3|]. split; [exact R3|]. split; [exact L2|].
    split; [exact Hb1|]. split; [lia|]. split; congruence.
Qed.

(** The rounds of the editor loop on lines of text: no file changes. *)
Lemma nano_loop_any fn : forall ls line0 buf (len : nat) fuel st rest0,
  cursor_ok st -> ring_ok (kbd st) -> length line0 = 128%nat ->
  length buf = 512%nat -> (len <= 512)%nat -> Forall text_line ls ->
  input_stream st = with_newlines ls ++ rest0 -> (input_budget st <= fuel)%nat ->
  exists line1 buf1 (len1 : nat) st1,
    nano_loop fuel fn line0 buf (Z.of_nat len) st
    = nano_loop (input_budget st1) fn line1 buf1 (Z.of_nat len1) st1 /\
    cursor_ok st1 /\ ring_ok (kbd st1) /\ length line1 = 128%nat /\
    length buf1 = 512%nat /\ (len1 <= 512)%nat /\
    input_stream st1 = rest0 /\ files st1 = files st.
Proof.
  induction ls as [|l ls IH]; intros line0 buf len fuel st rest0 Hc Hr Hl0 Hb Hlen Hts Hs Hf.
  - exists line0, buf, len, st.
    split; [apply nano_loop_fuel; [exact Hc|exact Hr|exact Hf|lia]|].
    repeat (split; [assumption|]). reflexivity.
  - apply Forall_cons in Hts. destruct Hts as [Ht Hts].
    rewrite with_newlines_cons in Hs. rewrite <- app_assoc in Hs. cbn [app] in Hs.
    destruct (nano_round_any fn l (with_newlines ls ++ rest0) line0 buf len fuel st
                Hc Hr Hl0 Hb Hlen Ht Hs Hf)
      as (line1 & buf1 & len1 & s1 & E1 & C1 & R1 & L1 & Hb1 & Hlen1 & S1 & F1).
    destruct (IH line1 buf1 len1 (input_budget s1) s1 rest0 C1 R1 L1 Hb1 Hlen1 Hts S1
                ltac:(lia))
      as (line2 & buf2 & len2 & s2 & E2 & C2 & R2 & L2 & Hb2 & Hlen2 & S2 & F2).
    exists line2, buf2, len2, s2. split; [rewrite E1; exact E2|].
    split; [exact C2|]. split; [exact R2|]. split; [exact L2|].
    split; [exact Hb2|]. split; [exact Hlen2|]. split; [exact S2|congruence].
Qed.

(** X23.  An editing session that ends with [.q] changes no file.  On
    a well-formed terminal, keyboard ring and file table, where the
    file, if it exists, has a size from 0 to 512: whatever lines of
    text are typed (each not empty, of at most 127 plain characters,
    not starting with ['.']), whether or not they fit in the buffer,
    after the line [.q] [nano_edit] returns with the file table as it
    was and the input left behind that line.  When the old contents
    and the lines fit in the 512 bytes, the terminal shows the opening
    banner, a prompt and the echo of every line, "Quit without saving"
    and "Exiting editor". *)
Theorem nano_edit_quit (fn : list Z) (ls : list (list Z)) (rest : list Z)
    (st : kernel) :
  cursor_ok st -> ring_ok (kbd st) -> fs_wf (files st) ->
  (forall r, fs_find fn (files st) = Some r -> 0 <= r ->
             0 <= size (file_at (files st) r) <= 512) ->
  Forall text_line ls ->
  let old := file_text fn (files st) in
  input_stream st = with_newlines ls ++ cstr ".q" ++ LF :: rest ->
  exists st',
    nano_edit fn st = Some (tt, st') /\
    files st' = files st /\
    input_stream st' = rest /\
    ((length old + length (with_newlines ls) <= 512)%nat ->
     tty st' = tty st ++ nano_opening fn old ++ edit_rounds (ls ++ [cstr ".q"])
               ++ cstr "Quit without saving" ++ [LF]
               ++ cstr "Exiting editor" ++ [LF]).
Proof.
  intros Hc Hr Hwf Hsz Hts old Hs.
  assert (Hgen : exists st',
            nano_edit fn st = Some (tt, st') /\ files st' = files st /\
            input_stream st' = rest).
  { destruct (nano_edit_open fn st Hc Hwf Hsz) as (s1 & E1 & P1 & Hold).
    fold old in E1, P1, Hold.
    pose proof (printed_ring _ _ _ P1 Hr) as R1.
    pose proof (printed_stream _ _ _ P1) as S1. rewrite Hs in S1.
    set (buf0 := old ++ replicate (512 - length old) 0) in *.
    assert (Hb0 : length buf0 = 512%nat)
      by (subst buf0; rewrite length_app, length_replicate; lia).
    destruct (nano_loop_any fn ls (replicate 128 0) buf0 (length old) (input_budget s1)
                s1 (cstr ".q" ++ LF :: rest) (printed_cursor _ _ _ P1) R1
                (length_replicate _ _) Hb0 Hold Hts S1 ltac:(lia))
      as (line1 & buf1 & len1 & s2 & E2 & C2 & R2 & L2 & Hb1 & Hlen1 & S2 & F2).
    destruct (nano_round_q fn rest line1 buf1 (Z.of_nat len1) (input_budget s2) s2
                C2 R2 L2 S2 ltac:(lia))
      as (s3 & E3 & F3 & C3 & R3 & S3 & O3).
    destruct (kprintf_printed (cstr "Exiting editor" ++ [LF]) [] _ s3 C3 eq_refl)
      as (s4 & E4 & P4).
    exists s4. split.
    { rewrite E1. unfold bind at 1. rewrite E2, E3. exact E4. }
    pose proof (printed_stream _ _ _ P4) as S4.
    destruct P1 as (_ & _ & _ & F1 & _). destruct P4 as (_ & _ & _ & F4 & _).
    split; congruence. }
  destruct Hgen as (st' & E & F & S).
  exists st'. split; [exact E|]. split; [exact F|]. split; [exact S|].
  intros Hfit.
  destruct (nano_edit_texts fn ls (cstr ".q" ++ LF :: rest) st Hc Hr Hwf Hsz Hts Hfit Hs)
    as (line1 & s1 & buf & E1 & Hb & Ht & C1 & R1 & L1 & S1 & F1 & O1).
  fold old in E1, Ht, O1.
  destruct (nano_round_q fn rest line1 buf
              (Z.of_nat (length old + length (with_newlines ls))) (input_budget s1) s1
              C1 R1 L1 S1 ltac:(lia))
    as (s2 & E2 & F2 & C2 & R2 & S2 & O2).
  destruct (kprintf_printed (cstr "Exiting editor" ++ [LF]) [] _ s2 C2 eq_refl)
    as (s3 & E3 & P3).
  assert (E' : nano_edit fn st = Some (tt, s3)).
  { rewrite E1. rewrite (bind_some _ _ _ _ _ E2). exact E3. }
  rewrite E in E'. injection E' as ->.
  destruct P3 as (_ & O3 & _).
  rewrite O3, O2, O1, edit_rounds_snoc, <- !app_assoc. reflexivity.
Qed.

Lemma text_line_hi : Forall text_line [cstr "hi"].
Proof.
  apply Forall_cons. split; [|constructor].
  split; [discriminate|]. split; [cbn; lia|]. split; [vm_compute; discriminate|].
  repeat (apply Forall_cons; split; [repeat split; discriminate|]). constructor.
Qed.

Lemma nano_edit_session_witness :
  let fn := cstr "notes" in
  let ls := [cstr "hi"] in
  let st := set_hw (set_irq1_keys [0x23; 0x17; 0x1C; 0x34; 0x11; 0x10; 0x1C] (hw image))
                   image in
  let old := file_text fn (files st) in
  exists st',
    nano_edit fn st = Some (tt, st') /\
    file_text fn (files st') = old ++ with_newlines ls /\
    input_stream st' = [] /\
    tty st' = tty st ++ nano_opening fn old ++ edit_rounds (ls ++ [cstr ".wq"])
              ++ cstr "Saved "
              ++ decimal (Z.of_nat (length old + length (with_newlines ls)))
              ++ cstr " bytes" ++ [LF]
              ++ cstr "Exiting editor" ++ [LF] /\
    cursor_ok st' /\ ring_ok (kbd st') /\ fs_wf (files st').
Proof.
  refine (nano_edit_session (cstr "notes") [cstr "hi"] []
            (set_hw (set_irq1_keys [0x23; 0x17; 0x1C; 0x34; 0x11; 0x10; 0x1C] (hw image))
                    image)
            image_cursor_ok image_ring_ok image_files_wf _ _ _ text_line_hi _ _).
  - vm_compute. lia.
  - intros r E Hr. vm_compute in E. injection E as <-. lia.
  - right. exists 0. split; [lia|reflexivity].
  - vm_compute. lia.
  - vm_compute. reflexivity.
Defined.

Lemma nano_edit_quit_witness :
  let fn := cstr "notes" in
  let ls := [cstr "hi"] in
  let st := set_hw (set_irq1_keys [0x23; 0x17; 0x1C; 0x34; 0x10; 0x1C] (hw image))
                   image in
  let old := file_text fn (files st) in
  exists st',
    nano_edit fn st = Some (tt, st') /\
    files st' = files st /\
    input_stream st' = [] /\
    ((length old + length (with_newlines ls) <= 512)%nat ->
     tty st' = tty st ++ nano_opening fn old ++ edit_rounds (ls ++ [cstr ".q"])
               ++ cstr "Quit without saving" ++ [LF]
               ++ cstr "Exiting editor" ++ [LF]).
Proof.
  refine (nano_edit_quit (cstr "notes") [cstr "hi"] []
            (set_hw (set_irq1_keys [0x23; 0x17; 0x1C; 0x34; 0x10; 0x1C] (hw image))
                    image)
            image_cursor_ok image_ring_ok image_files_wf _ text_line_hi _).
  - intros r E Hr. vm_compute in E. injection E as <-. lia.
  - vm_compute. reflexivity.
Defined.

Lemma plain_text_hello : plain_text (cstr "hello ").
Proof. repeat (apply Forall_cons; split; [split; discriminate|]). constructor. Qed.

Lemma kprintf_conversions_witness :
  let pre := cstr "hello " in
  let post := cstr "!" in
  let str := cstr "you" in
  let n := -42 in
  let f := ch "%" in
  let st := image in
  (forall args, exists st', kprintf pre args st = Some (tt, st') /\
     tty st' = tty st ++ pre) /\
  (exists st', kprintf (pre ++ cstr "%s" ++ post) [VStr (Some str)] st = Some (tt, st') /\
     tty st' = tty st ++ pre ++ c_str str ++ post) /\
  (exists st', kprintf (pre ++ cstr "%s" ++ post) [VStr None] st = Some (tt, st') /\
     tty st' = tty st ++ pre ++ cstr "(null)" ++ post) /\
  (exists st', kprintf (pre ++ cstr "%c" ++ post) [VInt n] st = Some (tt, st') /\
     tty st' = tty st ++ pre ++ [i8 n] ++ post) /\
  (exists st', kprintf (pre ++ cstr "%d" ++ post) [VInt n] st = Some (tt, st') /\
     tty st' = tty st ++ pre ++ decimal (i32 n) ++ post) /\
  (exists st', kprintf (pre ++ cstr "%u" ++ post) [VInt n] st = Some (tt, st') /\
     tty st' = tty st ++ pre ++ decimal (u32 n) ++ post) /\
  (exists st', kprintf (pre ++ cstr "%x" ++ post) [VInt n] st = Some (tt, st') /\
     tty st' = tty st ++ pre ++ hexadecimal (u32 n) ++ post) /\
  (f <> NUL -> f <> ch "s" -> f <> ch "d" -> f <> ch "u" -> f <> ch "x" ->
   f <> ch "c" ->
   exists st', kprintf (pre ++ ch "%" :: f :: post) [] st = Some (tt, st') /\
     tty st' = tty st ++ pre ++ ch "%" :: f :: post) /\
  kprintf (pre ++ [ch "%"]) [] st = None.
Proof.
  refine (kprintf_conversions (cstr "hello ") (cstr "!") (cstr "you") (-42) (ch "%") image
            image_cursor_ok plain_text_hello _).
  repeat (apply Forall_cons; split; [split; discriminate|]). constructor.
Defined.

(** ** The command interpreter *)

(** A string argument is seen up to its NUL. *)
Lemma c_str_split line : exists tl, line = c_str line ++ tl /\ c_str tl = [].
Proof.
  induction line as [|c l IH].
  - exists []. split; reflexivity.
  - cbn [c_str]. destruct (c =? 0) eqn:E.
    + exists (c :: l). split; [reflexivity|]. cbn [c_str]. rewrite E. reflexivity.
    + destruct IH as (tl & E1 & E2). exists tl. split; [|exact E2].
      cbn [app]. f_equal. exact E1.
Qed.

Lemma c_str_app_end s tl :
  Forall (fun c => c <> 0) s -> c_str tl = [] -> c_str (s ++ tl) = s.
Proof.
  intros Hs Ht. induction Hs as [|c s Hc Hs IH]; cbn [app c_str]; [exact Ht|].
  replace (c =? 0) with false by (symmetry; apply Z.eqb_neq; exact Hc).
  rewrite IH. reflexivity.
Qed.

Lemma skip_spaces_none s : chr s 0 <> SP -> skip_spaces s = s.
Proof.
  destruct s as [|c s]; [reflexivity|]. unfold chr. cbn [Z.ltb Z.compare Z.to_nat nth].
  intros H. cbn [skip_spaces].
  replace (c =? SP) with false by (symmetry; apply Z.eqb_neq; exact H). reflexivity.
Qed.

Lemma chr_app_head s tl : s <> [] -> chr (s ++ tl) 0 = chr s 0.
Proof. destruct s; [contradiction|reflexivity]. Qed.

Lemma chr_end tl : c_str tl = [] -> chr tl 0 = 0.
Proof. apply c_str_nil_iff. Qed.

(** The argument of a command: the spaces after the word are skipped. *)
Lemma skip_to_arg n arg tl :
  chr arg 0 <> SP -> c_str tl = [] ->
  skip_spaces (replicate n SP ++ arg ++ tl) = arg ++ tl.
Proof.
  intros Ha Ht. rewrite skip_spaces_leading. apply skip_spaces_none.
  destruct arg as [|a arg]; [|exact Ha].
  cbn [app]. rewrite (chr_end tl Ht). discriminate.
Qed.

Lemma Forall_app_r {A} (P : A -> Prop) l1 l2 : Forall P (l1 ++ l2) -> Forall P l2.
Proof. intros H. apply Forall_app in H. apply H. Qed.

(** The line as [run_command] sees it, given its text. *)
Lemma command_line line k (w tail : list Z) :
  c_str line = replicate k SP ++ w ++ tail ->
  chr w 0 <> SP -> w <> [] ->
  exists tl, c_str tl = [] /\ Forall (fun c => c <> 0) tail /\
             skip_spaces line = w ++ tail ++ tl.
Proof.
  intros E Hw Hne. destruct (c_str_split line) as (tl & E1 & E2).
  exists tl. split; [exact E2|].
  pose proof (c_str_nonzero line) as Hnz. rewrite E in Hnz.
  split; [exact (Forall_app_r _ _ _ (Forall_app_r _ _ _ Hnz))|].
  rewrite E1, E, <- !app_assoc. rewrite skip_spaces_leading.
  apply skip_spaces_none. rewrite chr_app_head by exact Hne. exact Hw.
Qed.

(** X24.  [echo] prints the rest of the line.  For a line that holds,
    after any leading spaces, the word [echo], spaces, and a text (the
    word alone is taken too), [run_command] prints the text, without
    the spaces before it, and a newline; the file table is untouched. *)
Theorem run_command_echo (line text : list Z) (k n : nat) (st : kernel) :
  cursor_ok st ->
  c_str line = replicate k SP ++ cstr "echo" ++ replicate n SP ++ text ->
  chr text 0 <> SP -> (n = 0%nat -> text = []) ->
  exists st', run_command line st = Some (tt, st') /\
    tty st' = tty st ++ text ++ [LF] /\ files st' = files st.
Proof.
  intros Hok E Ht Hn.
  destruct (command_line line k (cstr "echo") (replicate n SP ++ text) E
              ltac:(discriminate) ltac:(discriminate)) as (tl & Htl & Hnz & Ep).
  apply Forall_app_r in Hnz.
  assert (Harg : skip_spaces (replicate n SP ++ text ++ tl) = text ++ tl)
    by (apply skip_to_arg; assumption).
  assert (Er : run_command line
               = kprintf (cstr "%s" ++ [LF]) [VStr (Some (text ++ tl))]).
  { unfold run_command. rewrite Ep. rewrite <- app_assoc.
    destruct n as [|n].
    - rewrite (Hn eq_refl) in *. cbn [replicate app] in *.
      unfold end_or_space.
      change (chr (cstr "echo" ++ tl) 4) with (chr tl 0).
      change (advance 4 (cstr "echo" ++ tl)) with tl.
      rewrite (chr_end tl Htl). rewrite Harg.
      change (chr (cstr "echo" ++ tl) 0) with (ch "e"). reflexivity.
    - change (advance 4 (cstr "echo" ++ replicate (S n) SP ++ text ++ tl))
        with (replicate (S n) SP ++ text ++ tl).
      rewrite Harg. reflexivity. }
  rewrite Er.
  destruct (kprintf_printed (cstr "%s" ++ [LF]) [VStr (Some (text ++ tl))]
              (text ++ [LF]) st Hok) as (st' & E' & P).
  { change (format (cstr "%s" ++ [LF]) [VStr (Some (text ++ tl))])
      with (Some (c_str (text ++ tl) ++ [LF])).
    rewrite (c_str_app_end text tl Hnz Htl). reflexivity. }
  exists st'. split; [exact E'|]. destruct P as (_ & O & _ & F & _). auto.
Qed.

Lemma fs_find_c_str nm nm' fs :
  fs_wf fs -> c_str nm = c_str nm' -> fs_find nm fs = fs_find nm' fs.
Proof.
  intros Hwf E. destruct (fs_find_spec nm' fs Hwf) as (r & Er & H).
  rewrite Er. apply fs_find_intro; [exact Hwf|].
  unfold slot_named in *. rewrite E. exact H.
Qed.

Lemma strlen_c_str s : strlen s = Z.of_nat (length (c_str s)).
Proof.
  induction s as [|c s IH]; [reflexivity|]. cbn [strlen c_str]. unfold NUL.
  destruct (c =? 0); [reflexivity|]. cbn [length]. rewrite IH. lia.
Qed.

(** The file-name token of [write]: at most 15 characters are copied;
    what is left of a longer token stays in the argument. *)
Lemma take_name_spec rest : chr rest 0 = 0 \/ chr rest 0 = SP ->
  forall tok fname (fi : nat),
  Forall (fun c => c <> 0 /\ c <> SP) tok -> length fname = 16%nat ->
  (fi <= 15)%nat ->
  let k := Nat.min (length tok) (15 - fi) in
  take_name (tok ++ rest) fname (Z.of_nat fi)
  = Some (take fi fname ++ take k tok ++ drop (fi + k) fname,
          Z.of_nat (fi + k), drop k tok ++ rest).
Proof.
  intros Hrest. induction tok as [|c tok IH]; intros fname fi Htok Hl Hfi k.
  - subst k. cbn [length Nat.min take drop app]. rewrite Nat.add_0_r, take_drop.
    destruct rest as [|c r]; [reflexivity|]. cbn [take_name].
    change (chr (c :: r) 0) with c in Hrest.
    unfold NUL.
    destruct Hrest as [-> | ->]; reflexivity.
  - apply Forall_cons in Htok. destruct Htok as [[Hc0 HcS] Htok].
    cbn [app take_name]. unfold NUL, MAX_NAME.
    replace (c =? 0) with false by (symmetry; apply Z.eqb_neq; exact Hc0).
    replace (c =? SP) with false by (symmetry; apply Z.eqb_neq; exact HcS).
    cbn [negb andb].
    destruct (Nat.eq_dec fi 15%nat) as [->|Hne].
    + subst k. rewrite Nat.sub_diag, Nat.min_0_r.
      cbn [take drop app Z.ltb Z.compare Z.sub Z.of_nat Pos.of_succ_nat].
      replace (Z.of_nat 15 <? 16 - 1) with false by reflexivity.
      rewrite Nat.add_0_r, take_drop. reflexivity.
    + replace (Z.of_nat fi <? 16 - 1) with true by (symmetry; apply Z.ltb_lt; lia).
      unfold wr.
      replace ((0 <=? Z.of_nat fi) && (Z.of_nat fi <? 16)) with true
        by (symmetry; apply andb_true_iff; split; [apply Z.leb_le|apply Z.ltb_lt]; lia).
      rewrite Nat2Z.id.
      replace (Z.of_nat fi + 1) with (Z.of_nat (S fi)) by lia.
      rewrite (IH (<[fi := c]> fname) (S fi) Htok
                 ltac:(rewrite length_insert; exact Hl) ltac:(lia)).
      cbv zeta.
      assert (Hk : k = S (Nat.min (length tok) (15 - S fi)))
        by (subst k; cbn [length]; lia).
      rewrite Hk. set (k' := Nat.min (length tok) (15 - S fi)).
      rewrite take_insert_snoc by lia. rewrite drop_insert_lt by lia.
      cbn [take drop]. rewrite <- app_assoc. cbn [app].
      replace (S fi + k')%nat with (fi + S k')%nat by lia. reflexivity.
Qed.

Lemma run_command_word line k w tail st (body : list Z -> K unit) :
  c_str line = replicate k SP ++ w ++ tail ->
  chr w 0 <> SP -> w <> [] ->
  (forall tl, c_str tl = [] -> Forall (fun c => c <> 0) tail ->
              run_command (w ++ tail ++ tl) st = body tl st) ->
  exists tl, c_str tl = [] /\ Forall (fun c => c <> 0) tail /\
             run_command line st = body tl st.
Proof.
  intros E Hw Hne Hbody.
  destruct (command_line line k w tail E Hw Hne) as (tl & Htl & Hnz & Ep).
  exists tl. split; [exact Htl|]. split; [exact Hnz|].
  rewrite <- (Hbody tl Htl Hnz). unfold run_command. rewrite Ep.
  rewrite (skip_spaces_none (w ++ tail ++ tl)); [reflexivity|].
  rewrite chr_app_head by exact Hne. exact Hw.
Qed.

Lemma name_arg name tl :
  name <> [] -> Forall (fun c => c <> 0) name -> chr (name ++ tl) 0 <> 0.
Proof.
  intros Hne Hnz. destruct name as [|a name]; [contradiction|].
  apply Forall_cons in Hnz. destruct Hnz as [Ha _]. exact Ha.
Qed.

(** X25.  [cat] and [rm] of a name the table does not hold.  The
    argument is the whole rest of the line after the spaces; if no used
    slot has that name, [run_command] prints "No such file: <name>" and
    leaves the file table as it was. *)
Theorem run_command_no_such_file (line name : list Z) (k n : nat) (st : kernel) :
  cursor_ok st -> fs_wf (files st) ->
  name <> [] -> chr name 0 <> SP ->
  fs_find name (files st) = Some (-1) ->
  c_str line = replicate k SP ++ cstr "cat" ++ replicate (S n) SP ++ name \/
  c_str line = replicate k SP ++ cstr "rm" ++ replicate (S n) SP ++ name ->
  exists st', run_command line st = Some (tt, st') /\
    tty st' = tty st ++ cstr "No such file: " ++ name ++ [LF] /\
    files st' = files st.
Proof.
  intros Hok Hwf Hne Hsp Ef Hline.
  assert (Hmsg : forall tl, c_str tl = [] -> Forall (fun c => c <> 0) name ->
            exists st', kprintf (cstr "No such file: %s" ++ [LF])
                                [VStr (Some (name ++ tl))] st = Some (tt, st') /\
              tty st' = tty st ++ cstr "No such file: " ++ name ++ [LF] /\
              files st' = files st).
  { intros tl Htl Hnz.
    destruct (kprintf_printed (cstr "No such file: %s" ++ [LF])
                [VStr (Some (name ++ tl))] (cstr "No such file: " ++ name ++ [LF]) st Hok)
      as (st' & E' & P).
    { change (format (cstr "No such file: %s" ++ [LF]) [VStr (Some (name ++ tl))])
        with (Some (cstr "No such file: " ++ c_str (name ++ tl) ++ [LF])).
      rewrite (c_str_app_end name tl Hnz Htl). reflexivity. }
    exists st'. split; [exact E'|]. destruct P as (_ & O & _ & F & _). auto. }
  assert (Hfind : forall tl, c_str tl = [] -> Forall (fun c => c <> 0) name ->
            fs_find (name ++ tl) (files st) = Some (-1)).
  { intros tl Htl Hnz. rewrite <- Ef. apply fs_find_c_str; [exact Hwf|].
    rewrite (c_str_app_end name tl Hnz Htl). symmetry. apply c_str_id. exact Hnz. }
  destruct Hline as [E|E].
  - destruct (run_command_word line k (cstr "cat") (replicate (S n) SP ++ name) st
                (fun tl => kprintf (cstr "No such file: %s" ++ [LF])
                                   [VStr (Some (name ++ tl))]) E
                ltac:(discriminate) ltac:(discriminate)) as (tl & Htl & Hnz & Er).
    { intros tl Htl Hnz. apply Forall_app_r in Hnz.
      unfold run_command. rewrite <- !app_assoc.
      rewrite (skip_spaces_none (cstr "cat" ++ replicate (S n) SP ++ name ++ tl))
        by discriminate.
      change (advance 4 (cstr "cat" ++ replicate (S n) SP ++ name ++ tl))
        with (replicate n SP ++ name ++ tl).
      rewrite (skip_to_arg n name tl Hsp Htl).
      assert (Hb : (if negb (chr (name ++ tl) 0 =? NUL)
                    then let* r := fs_read_to_console (name ++ tl) in
                         if r <? 0
                         then kprintf (cstr "No such file: %s" ++ [LF])
                                      [VStr (Some (name ++ tl))]
                         else kprintf [LF] []
                    else kprintf (cstr "Usage: cat <file>" ++ [LF]) []) st
                   = kprintf (cstr "No such file: %s" ++ [LF])
                             [VStr (Some (name ++ tl))] st).
      { replace (chr (name ++ tl) 0 =? NUL) with false
          by (symmetry; apply Z.eqb_neq; apply name_arg; assumption).
        cbn [negb].
        assert (Erd : fs_read_to_console (name ++ tl) st = Some (-1, st)).
        { unfold fs_read_to_console.
          rewrite (bind_some _ _ _ _ _ (fs_lookup_run _ st _ (Hfind tl Htl Hnz))).
          reflexivity. }
        rewrite (bind_some _ _ _ _ _ Erd). reflexivity. }
      rewrite <- Hb. reflexivity. }
    rewrite Er. apply Hmsg; [exact Htl|]. exact (Forall_app_r _ _ _ Hnz).
  - destruct (run_command_word line k (cstr "rm") (replicate (S n) SP ++ name) st
                (fun tl => kprintf (cstr "No such file: %s" ++ [LF])
                                   [VStr (Some (name ++ tl))]) E
                ltac:(discriminate) ltac:(discriminate)) as (tl & Htl & Hnz & Er).
    { intros tl Htl Hnz. apply Forall_app_r in Hnz.
      unfold run_command. rewrite <- !app_assoc.
      rewrite (skip_spaces_none (cstr "rm" ++ replicate (S n) SP ++ name ++ tl))
        by discriminate.
      change (advance 3 (cstr "rm" ++ replicate (S n) SP ++ name ++ tl))
        with (replicate n SP ++ name ++ tl).
      rewrite (skip_to_arg n name tl Hsp Htl).
      assert (Hb : (if negb (chr (name ++ tl) 0 =? NUL)
                    then let* r := fs_op (fs_remove (name ++ tl)) in
                         if r <? 0
                         then kprintf (cstr "No such file: %s" ++ [LF])
                                      [VStr (Some (name ++ tl))]
                         else ret tt
                    else kprintf (cstr "Usage: rm <file>" ++ [LF]) []) st
                   = kprintf (cstr "No such file: %s" ++ [LF])
                             [VStr (Some (name ++ tl))] st).
      { replace (chr (name ++ tl) 0 =? NUL) with false
          by (symmetry; apply Z.eqb_neq; apply name_arg; assumption).
        cbn [negb].
        assert (Erm : fs_remove (name ++ tl) (files st) = Some (-1, files st))
          by (unfold fs_remove; rewrite (Hfind tl Htl Hnz); reflexivity).
        rewrite (bind_some _ _ _ _ _ (fs_op_run _ st _ _ Erm)).
        cbn [Z.ltb Z.compare]. destruct st; reflexivity. }
      rewrite <- Hb. reflexivity. }
    rewrite Er. apply Hmsg; [exact Htl|]. exact (Forall_app_r _ _ _ Hnz).
Qed.

Lemma c_str_length_le s : (length (c_str s) <= length s)%nat.
Proof.
  induction s as [|c s IH]; [reflexivity|]. cbn [c_str].
  destruct (c =? 0); cbn [length]; lia.
Qed.

Lemma take_c_str s n : (n <= length (c_str s))%nat -> take n s = take n (c_str s).
Proof.
  intros H. destruct (c_str_split s) as (tl & E & _).
  rewrite E at 1. apply take_app_le. exact H.
Qed.

Lemma token_nonzero tok :
  Forall (fun c => c <> 0 /\ c <> SP) tok ->
  Forall (fun c => c <> 0) tok /\ (tok <> [] -> chr tok 0 <> SP /\ chr tok 0 <> 0).
Proof.
  intros H. split; [eapply Forall_impl; [exact H|]; cbn; tauto|].
  intros Hne. destruct tok as [|c tok]; [contradiction|].
  apply Forall_cons in H. destruct H as [[H0 HS] _].
  change (chr (c :: tok) 0) with c. auto.
Qed.

(** The name array [write] builds from its token. *)
Lemma write_name_array tok :
  Forall (fun c => c <> 0 /\ c <> SP) tok -> tok <> [] ->
  let k := Nat.min (length tok) 15 in
  let f1 := <[k := 0]> (take k tok ++ drop k (replicate 16 0)) in
  wr MAX_NAME (take k tok ++ drop k (replicate 16 0)) (Z.of_nat k) NUL = Some f1 /\
  c_str f1 = take 15 tok /\ chr f1 0 <> 0.
Proof.
  intros Htok Hne k f1.
  destruct (token_nonzero tok Htok) as [Hnz Hhead].
  assert (Hk : (k <= 15)%nat) by (subst k; lia).
  assert (Hlk : length (take k tok) = k) by (rewrite length_take; subst k; lia).
  assert (Hf1 : f1 = take k tok ++ 0 :: drop (S k) (replicate 16 0)).
  { subst f1. rewrite insert_app_r_alt by lia. rewrite Hlk, Nat.sub_diag.
    rewrite !drop_replicate.
    replace (16 - k)%nat with (S (16 - S k)) by lia. reflexivity. }
  split; [|split].
  - unfold wr, MAX_NAME, NUL.
    replace ((0 <=? Z.of_nat k) && (Z.of_nat k <? 16)) with true
      by (symmetry; apply andb_true_iff; split; [apply Z.leb_le|apply Z.ltb_lt]; lia).
    rewrite Nat2Z.id. reflexivity.
  - rewrite Hf1, c_str_app_nul by (apply Forall_take; exact Hnz).
    subst k. destruct (Nat.le_ge_cases (length tok) 15).
    + rewrite Nat.min_l by lia. rewrite !take_ge by lia. reflexivity.
    + rewrite Nat.min_r by lia. reflexivity.
  - rewrite Hf1. destruct tok as [|c tok]; [contradiction|].
    assert (k = S (Nat.min (length tok) 14)) as -> by (subst k; cbn [length]; lia).
    cbn [take app]. change (chr (c :: _) 0) with c.
    apply Forall_cons in Hnz. apply Hnz.
Qed.

(** [write <token> <text>]: the file named by the first 15 characters
    of the token receives the rest of the line; a longer token spills
    into the text. *)
Lemma run_write line (k n m : nat) (tok text : list Z) st :
  cursor_ok st -> fs_wf (files st) ->
  c_str line = replicate k SP ++ cstr "write" ++ replicate (S n) SP ++ tok
               ++ replicate (S m) SP ++ text ->
  tok <> [] -> Forall (fun c => c <> 0 /\ c <> SP) tok ->
  text <> [] -> chr text 0 <> SP ->
  (exists j, 0 <= j < 16 /\ slot_named (files st) (take 15 tok) j) \/
  (exists j, 0 <= j < 16 /\ used (file_at (files st) j) = 0) ->
  let body := if (length tok <=? 15)%nat then text
              else drop 15 tok ++ replicate (S m) SP ++ text in
  let len := Z.min (Z.of_nat (length body)) MAX_FILE_SIZE in
  exists st' idx,
    run_command line st = Some (tt, st') /\
    tty st' = tty st ++ cstr "Wrote " ++ itoa (i32 len) 10 ++ cstr " bytes to "
              ++ take 15 tok ++ [LF] /\
    cursor_ok st' /\ fs_wf (files st') /\ 0 <= idx < 16 /\
    fs_find (take 15 tok) (files st') = Some idx /\
    size (file_at (files st') idx) = len /\
    take (Z.to_nat len) (data (file_at (files st') idx)) = take (Z.to_nat len) body.
Proof.
  intros Hok Hwf E Hne Htok Htne Htsp Hroom body len.
  destruct (token_nonzero tok Htok) as [Hnz Hhead].
  destruct (Hhead Hne) as [HtokSP Htok0].
  pose proof (write_name_array tok Htok Hne) as W. cbv zeta in W.
  remember (<[Nat.min (length tok) 15 := 0]>
              (take (Nat.min (length tok) 15) tok
               ++ drop (Nat.min (length tok) 15) (replicate 16 0))) as f1 eqn:Hf1.
  clear Hf1. destruct W as (Ewr & Hcf1 & Hf10).
  destruct (run_command_word line k (cstr "write")
              (replicate (S n) SP ++ tok ++ replicate (S m) SP ++ text) st
              (fun tl =>
                 let arg2 := skip_spaces (drop (Nat.min (length tok) 15) tok ++ replicate (S m) SP ++ text ++ tl) in
                 let* written := fs_op (fs_write f1 arg2 (strlen arg2)) in
                 if written <? 0 then kprintf (cstr "Failed to write file" ++ [LF]) []
                 else kprintf (cstr "Wrote %d bytes to %s" ++ [LF])
                              [VInt written; VStr (Some f1)]) E
              ltac:(discriminate) ltac:(discriminate)) as (tl & Htl & Hnzt & Er).
  { intros tl Htl Hnzt. apply Forall_app_r, Forall_app_r, Forall_app_r in Hnzt.
    unfold run_command. rewrite <- !app_assoc.
    rewrite (skip_spaces_none
               (cstr "write" ++ replicate (S n) SP ++ tok ++ replicate (S m) SP ++ text ++ tl))
      by discriminate.
    change (advance 6 (cstr "write" ++ replicate (S n) SP ++ tok
                       ++ replicate (S m) SP ++ text ++ tl))
      with (replicate n SP ++ tok ++ replicate (S m) SP ++ text ++ tl).
    set (rest := replicate (S m) SP ++ text ++ tl).
    assert (Harg : skip_spaces (replicate n SP ++ tok ++ rest) = tok ++ rest).
    { rewrite skip_spaces_leading. apply skip_spaces_none.
      rewrite chr_app_head by exact Hne. exact HtokSP. }
    rewrite Harg.
    pose proof (take_name_spec rest (or_intror eq_refl) tok (replicate 16 0) 0 Htok
                  (length_replicate _ _) ltac:(lia)) as Etn.
    cbv zeta in Etn. rewrite Nat.sub_0_r in Etn.
    change (take 0 (replicate 16 0)) with (@nil Z) in Etn.
    change (Z.of_nat 0) with 0 in Etn. cbn [app Nat.add] in Etn.
    set (arg2 := skip_spaces (drop (Nat.min (length tok) 15) tok ++ rest)).
    assert (Harg2 : chr arg2 0 <> 0).
    { subst arg2 rest. destruct (drop (Nat.min (length tok) 15) tok) as [|d0 dr] eqn:Ed.
      - cbn [app]. change (replicate (S m) SP ++ text ++ tl)
          with (SP :: replicate m SP ++ text ++ tl).
        change (skip_spaces (SP :: replicate m SP ++ text ++ tl))
          with (skip_spaces (replicate m SP ++ text ++ tl)).
        rewrite (skip_to_arg m text tl Htsp Htl).
        apply name_arg; assumption.
      - assert (Hd : Forall (fun c => c <> 0 /\ c <> SP) (d0 :: dr))
          by (rewrite <- Ed; apply Forall_drop; exact Htok).
        apply Forall_cons in Hd. destruct Hd as [[Hd0 HdS] _].
        cbn [app skip_spaces].
        replace (d0 =? SP) with false by (symmetry; apply Z.eqb_neq; exact HdS).
        exact Hd0. }
    assert (Hb : (if chr (tok ++ rest) 0 =? NUL
                  then kprintf (cstr "Usage: write <file> <text>" ++ [LF]) []
                  else
                    let* t := lift (take_name (tok ++ rest) (replicate 16 0) 0) in
                    let* fname := lift (wr MAX_NAME (fst (fst t)) (snd (fst t)) NUL) in
                    let arg := skip_spaces (snd t) in
                    if chr fname 0 =? NUL
                    then kprintf (cstr "Invalid file name" ++ [LF]) []
                    else if chr arg 0 =? NUL
                         then kprintf (cstr "No text provided" ++ [LF]) []
                         else
                           let len := strlen arg in
                           let* written := fs_op (fs_write fname arg len) in
                           if written <? 0
                           then kprintf (cstr "Failed to write file" ++ [LF]) []
                           else kprintf (cstr "Wrote %d bytes to %s" ++ [LF])
                                        [VInt written; VStr (Some fname)]) st
                 = (let* written := fs_op (fs_write f1 arg2 (strlen arg2)) in
                    if written <? 0 then kprintf (cstr "Failed to write file" ++ [LF]) []
                    else kprintf (cstr "Wrote %d bytes to %s" ++ [LF])
                                 [VInt written; VStr (Some f1)]) st).
    { rewrite chr_app_head by exact Hne. unfold NUL at 1.
      replace (chr tok 0 =? 0) with false by (symmetry; apply Z.eqb_neq; exact Htok0).
      rewrite Etn, bind_lift. cbn [fst snd]. rewrite Ewr, bind_lift.
      cbv zeta. fold arg2. unfold NUL.
      replace (chr f1 0 =? 0) with false by (symmetry; apply Z.eqb_neq; exact Hf10).
      replace (chr arg2 0 =? 0) with false by (symmetry; apply Z.eqb_neq; exact Harg2).
      reflexivity. }
    cbv zeta. fold rest. fold arg2. rewrite <- Hb. reflexivity. }
  cbv zeta in Er. apply Forall_app_r, Forall_app_r, Forall_app_r in Hnzt.
  set (arg2 := skip_spaces (drop (Nat.min (length tok) 15) tok ++ replicate (S m) SP ++ text ++ tl)) in *.
  assert (Hbody : c_str arg2 = body).
  { subst arg2 body. destruct (Nat.leb_spec (length tok) 15) as [Hle|Hgt].
    - rewrite Nat.min_l by lia. rewrite drop_ge by lia. cbn [app].
      change (replicate (S m) SP ++ text ++ tl)
        with (SP :: replicate m SP ++ text ++ tl).
      change (skip_spaces (SP :: replicate m SP ++ text ++ tl))
        with (skip_spaces (replicate m SP ++ text ++ tl)).
      rewrite (skip_to_arg m text tl Htsp Htl).
      apply c_str_app_end; assumption.
    - rewrite Nat.min_r by lia.
      assert (Hd : Forall (fun c => c <> 0 /\ c <> SP) (drop 15 tok))
        by (apply Forall_drop; exact Htok).
      destruct (drop 15 tok) as [|d0 dr] eqn:Ed.
      { apply (f_equal (@length Z)) in Ed. rewrite length_drop in Ed.
        cbn [length] in Ed. lia. }
      pose proof Hd as Hd'. apply Forall_cons in Hd'. destruct Hd' as [[Hd0 HdS] _].
      rewrite skip_spaces_none by exact HdS.
      rewrite !app_assoc. apply c_str_app_end; [|exact Htl].
      apply Forall_app. split; [|exact Hnzt].
      apply Forall_app. split.
      + eapply Forall_impl; [exact Hd|]. cbn. tauto.
      + apply Forall_replicate. discriminate. }
  rewrite strlen_c_str, Hbody in Er.
  destruct (fs_write_found f1 arg2 (Z.of_nat (length body)) (files st) Hwf)
    as (fs' & idx & Ew & Hwf' & Hidx & Ef & Hsize & Hdata).
  { rewrite Hcf1, length_take. lia. }
  { rewrite <- Hbody. pose proof (c_str_length_le arg2). lia. }
  { destruct Hroom as [(j & Hj & Hu & Hn)|Hfree]; [|right; exact Hfree].
    left. exists j. split; [exact Hj|]. split; [exact Hu|].
    rewrite Hn, Hcf1. apply c_str_id, Forall_take. exact Hnz. }
  fold len in Ew, Hsize, Hdata.
  rewrite (bind_some _ _ _ _ _ (fs_op_run _ st _ _ Ew)) in Er.
  assert (Hlen : 0 <= len <= 512) by (subst len; unfold MAX_FILE_SIZE; lia).
  replace (len <? 0) with false in Er by (symmetry; apply Z.ltb_ge; lia).
  destruct (kprintf_printed (cstr "Wrote %d bytes to %s" ++ [LF])
              [VInt len; VStr (Some f1)]
              (cstr "Wrote " ++ itoa (i32 len) 10 ++ cstr " bytes to " ++ take 15 tok ++ [LF])
              (set_files fs' st) Hok) as (st' & E' & P).
  { rewrite <- Hcf1. reflexivity. }
  exists st', idx. rewrite Er. split; [exact E'|].
  destruct P as (C & O & _ & F & _). cbn [tty files set_files] in O, F.
  split; [exact O|]. split; [exact C|]. rewrite F.
  split; [exact Hwf'|]. split; [exact Hidx|].
  split.
  { rewrite <- Ef. apply fs_find_c_str; [exact Hwf'|]. rewrite Hcf1.
    apply c_str_id. apply Forall_take. exact Hnz. }
  split; [exact Hsize|].
  rewrite Hdata. rewrite <- Hbody. apply take_c_str. rewrite Hbody. lia.
Qed.

(** [cat] of a file the table holds. *)
Lemma run_cat line (k n : nat) (name : list Z) st idx :
  cursor_ok st -> fs_wf (files st) ->
  c_str line = replicate k SP ++ cstr "cat" ++ replicate (S n) SP ++ name ->
  name <> [] -> chr name 0 <> SP ->
  fs_find name (files st) = Some idx -> 0 <= idx ->
  0 <= size (file_at (files st) idx) <= 512 ->
  exists st', run_command line st = Some (tt, st') /\
    tty st' = tty st ++ take (Z.to_nat (size (file_at (files st) idx)))
                             (data (file_at (files st) idx)) ++ [LF] /\
    files st' = files st.
Proof.
  intros Hok Hwf E Hne Hsp Ef Hidx Hsz.
  destruct (run_command_word line k (cstr "cat") (replicate (S n) SP ++ name) st
              (fun tl => let* r := fs_read_to_console (name ++ tl) in
                         if r <? 0
                         then kprintf (cstr "No such file: %s" ++ [LF])
                                      [VStr (Some (name ++ tl))]
                         else kprintf [LF] []) E
              ltac:(discriminate) ltac:(discriminate)) as (tl & Htl & Hnz & Er).
  { intros tl Htl Hnz. apply Forall_app_r in Hnz.
    unfold run_command. rewrite <- !app_assoc.
    rewrite (skip_spaces_none (cstr "cat" ++ replicate (S n) SP ++ name ++ tl))
      by discriminate.
    change (advance 4 (cstr "cat" ++ replicate (S n) SP ++ name ++ tl))
      with (replicate n SP ++ name ++ tl).
    rewrite (skip_to_arg n name tl Hsp Htl).
    assert (Hb : (if negb (chr (name ++ tl) 0 =? NUL)
                  then let* r := fs_read_to_console (name ++ tl) in
                       if r <? 0
                       then kprintf (cstr "No such file: %s" ++ [LF])
                                    [VStr (Some (name ++ tl))]
                       else kprintf [LF] []
                  else kprintf (cstr "Usage: cat <file>" ++ [LF]) []) st
                 = (let* r := fs_read_to_console (name ++ tl) in
                    if r <? 0
                    then kprintf (cstr "No such file: %s" ++ [LF])
                                 [VStr (Some (name ++ tl))]
                    else kprintf [LF] []) st).
    { replace (chr (name ++ tl) 0 =? NUL) with false
        by (symmetry; apply Z.eqb_neq; apply name_arg; assumption).
      reflexivity. }
    rewrite <- Hb. reflexivity. }
  apply Forall_app_r in Hnz. rewrite Er.
  assert (Ef' : fs_find (name ++ tl) (files st) = Some idx).
  { rewrite <- Ef. apply fs_find_c_str; [exact Hwf|].
    rewrite (c_str_app_end name tl Hnz Htl). symmetry. apply c_str_id. exact Hnz. }
  destruct (fs_read_run (name ++ tl) st idx Hok Hwf Ef' Hidx Hsz) as (s1 & E1 & P1).
  rewrite (bind_some _ _ _ _ _ E1).
  replace (size (file_at (files st) idx) <? 0) with false
    by (symmetry; apply Z.ltb_ge; lia).
  destruct (kprintf_printed [LF] [] [LF] s1 (printed_cursor _ _ _ P1) eq_refl)
    as (s2 & E2 & P2).
  exists s2. split; [exact E2|].
  destruct P1 as (_ & O1 & _ & F1 & _). destruct P2 as (_ & O2 & _ & F2 & _).
  split; [rewrite O2, O1, <- app_assoc; reflexivity|congruence].
Qed.

(** X26.  [write], then [cat].  "write <name> <text>" with a name of at
    most 15 characters (no spaces in it; the file exists or a slot is
    free) stores the text, that is the rest of the line after the
    spaces behind the name, at most 512 bytes of it, and reports
    "Wrote <n> bytes to <name>" with the number of bytes stored in
    decimal; "cat <name>" then prints that text and a newline. *)
Theorem run_command_write_cat (line1 line2 tok text : list Z) (k n m k2 n2 : nat)
    (st : kernel) :
  cursor_ok st -> fs_wf (files st) ->
  c_str line1 = replicate k SP ++ cstr "write" ++ replicate (S n) SP ++ tok
                ++ replicate (S m) SP ++ text ->
  c_str line2 = replicate k2 SP ++ cstr "cat" ++ replicate (S n2) SP ++ tok ->
  tok <> [] -> Forall (fun c => c <> 0 /\ c <> SP) tok -> (length tok <= 15)%nat ->
  text <> [] -> chr text 0 <> SP ->
  (exists j, 0 <= j < 16 /\ slot_named (files st) tok j) \/
  (exists j, 0 <= j < 16 /\ used (file_at (files st) j) = 0) ->
  exists st1 st2,
    run_command line1 st = Some (tt, st1) /\
    tty st1 = tty st ++ cstr "Wrote "
              ++ decimal (Z.min (Z.of_nat (length text)) MAX_FILE_SIZE)
              ++ cstr " bytes to " ++ tok ++ [LF] /\
    file_text tok (files st1) = take 512 text /\
    run_command line2 st1 = Some (tt, st2) /\
    tty st2 = tty st1 ++ take 512 text ++ [LF] /\
    files st2 = files st1.
Proof.
  intros Hok Hwf E1 E2 Hne Htok Hlen Htne Htsp Hroom.
  assert (Ht15 : take 15 tok = tok) by (apply take_ge; exact Hlen).
  destruct (run_write line1 k n m tok text st Hok Hwf E1 Hne Htok Htne Htsp)
    as (st1 & idx & Er & O1 & C1 & Hwf1 & Hidx & Ef & Hsize & Hdata).
  { rewrite Ht15. exact Hroom. }
  cbv zeta in O1, Hsize, Hdata. rewrite Ht15 in O1, Ef.
  replace (length tok <=? 15)%nat with true in O1, Hsize, Hdata
    by (symmetry; apply Nat.leb_le; exact Hlen).
  set (len := Z.min (Z.of_nat (length text)) MAX_FILE_SIZE) in *.
  assert (Hl : 0 <= len <= 512) by (subst len; unfold MAX_FILE_SIZE; lia).
  assert (Htk : take (Z.to_nat len) text = take 512 text).
  { subst len. unfold MAX_FILE_SIZE.
    destruct (Z.le_ge_cases (Z.of_nat (length text)) 512).
    - rewrite Z.min_l by lia. rewrite Nat2Z.id. rewrite !take_ge by lia. reflexivity.
    - rewrite Z.min_r by lia. reflexivity. }
  assert (Hsp : chr tok 0 <> SP).
  { destruct tok as [|c tok']; [contradiction|].
    apply Forall_cons in Htok. destruct Htok as [[_ H] _]. exact H. }
  destruct (run_cat line2 k2 n2 tok st1 idx C1 Hwf1 E2 Hne Hsp Ef ltac:(lia)
              ltac:(rewrite Hsize; lia)) as (st2 & Ec & O2 & F2).
  exists st1, st2. split; [exact Er|]. split.
  { rewrite O1, (i32_small len), (itoa_decimal len)
      by (change (2 ^ 31) with 2147483648; lia).
    reflexivity. }
  split.
  { rewrite (file_text_found tok (files st1) idx Ef ltac:(lia)).
    rewrite Hsize, Hdata. exact Htk. }
  split; [exact Ec|]. split; [|exact F2].
  rewrite O2, Hsize, Hdata, Htk. reflexivity.
Qed.

(** X27.  [write] with a name longer than 15 characters.  The name
    token is cut after 15 characters and the cut-off part is not
    skipped: the file is named by the first 15 characters, and its
    contents are the rest of the name, the spaces, and the text.  A
    lookup of the full name finds nothing. *)
Theorem run_command_write_long_name (line tok text : list Z) (k n m : nat)
    (st : kernel) :
  cursor_ok st -> fs_wf (files st) ->
  c_str line = replicate k SP ++ cstr "write" ++ replicate (S n) SP ++ tok
               ++ replicate (S m) SP ++ text ->
  Forall (fun c => c <> 0 /\ c <> SP) tok -> (15 < length tok)%nat ->
  text <> [] -> chr text 0 <> SP ->
  (exists j, 0 <= j < 16 /\ slot_named (files st) (take 15 tok) j) \/
  (exists j, 0 <= j < 16 /\ used (file_at (files st) j) = 0) ->
  let body := drop 15 tok ++ replicate (S m) SP ++ text in
  exists st1,
    run_command line st = Some (tt, st1) /\
    tty st1 = tty st ++ cstr "Wrote "
              ++ itoa (i32 (Z.min (Z.of_nat (length body)) MAX_FILE_SIZE)) 10
              ++ cstr " bytes to " ++ take 15 tok ++ [LF] /\
    file_text (take 15 tok) (files st1) = take 512 body /\
    fs_find tok (files st1) = Some (-1).
Proof.
  intros Hok Hwf E Htok Hlen Htne Htsp Hroom body.
  assert (Hne : tok <> []) by (intros ->; cbn in Hlen; lia).
  destruct (run_write line k n m tok text st Hok Hwf E Hne Htok Htne Htsp Hroom)
    as (st1 & idx & Er & O1 & C1 & Hwf1 & Hidx & Ef & Hsize & Hdata).
  cbv zeta in O1, Hsize, Hdata.
  replace (length tok <=? 15)%nat with false in O1, Hsize, Hdata
    by (symmetry; apply Nat.leb_gt; exact Hlen).
  fold body in O1, Hsize, Hdata.
  set (len := Z.min (Z.of_nat (length body)) MAX_FILE_SIZE) in *.
  assert (Htk : take (Z.to_nat len) body = take 512 body).
  { subst len. unfold MAX_FILE_SIZE.
    destruct (Z.le_ge_cases (Z.of_nat (length body)) 512).
    - rewrite Z.min_l by lia. rewrite Nat2Z.id. rewrite !take_ge by lia. reflexivity.
    - rewrite Z.min_r by lia. reflexivity. }
  exists st1. split; [exact Er|]. split; [exact O1|]. split.
  - rewrite (file_text_found (take 15 tok) (files st1) idx Ef ltac:(lia)).
    rewrite Hsize, Hdata. exact Htk.
  - apply long_name_not_found; [exact Hwf1|].
    rewrite c_str_id by (eapply Forall_impl; [exact Htok|]; cbn; tauto). exact Hlen.
Qed.

Lemma run_command_echo_witness :
  exists st', run_command (cstr "  echo  hi there") image = Some (tt, st') /\
    tty st' = tty image ++ cstr "hi there" ++ [LF] /\ files st' = files image.
Proof.
  refine (run_command_echo (cstr "  echo  hi there") (cstr "hi there") 2 2 image
            image_cursor_ok eq_refl _ _).
  - vm_compute. discriminate.
  - discriminate.
Defined.

Lemma run_command_no_such_file_witness :
  exists st', run_command (cstr "rm nosuch") image = Some (tt, st') /\
    tty st' = tty image ++ cstr "No such file: " ++ cstr "nosuch" ++ [LF] /\
    files st' = files image.
Proof.
  refine (run_command_no_such_file (cstr "rm nosuch") (cstr "nosuch") 0 0 image
            image_cursor_ok image_files_wf _ _ eq_refl (or_intror eq_refl)).
  - discriminate.
  - vm_compute. discriminate.
Defined.

Lemma token_notes : Forall (fun c => c <> 0 /\ c <> SP) (cstr "notes").
Proof. repeat (apply Forall_cons; split; [split; discriminate|]). constructor. Qed.

Lemma run_command_write_cat_witness :
  let tok := cstr "notes" in
  let text := cstr "hello world" in
  exists st1 st2,
    run_command (cstr "write notes hello world") image = Some (tt, st1) /\
    tty st1 = tty image ++ cstr "Wrote "
              ++ decimal (Z.min (Z.of_nat (length text)) MAX_FILE_SIZE)
              ++ cstr " bytes to " ++ tok ++ [LF] /\
    file_text tok (files st1) = take 512 text /\
    run_command (cstr "cat notes") st1 = Some (tt, st2) /\
    tty st2 = tty st1 ++ take 512 text ++ [LF] /\
    files st2 = files st1.
Proof.
  refine (run_command_write_cat (cstr "write notes hello world") (cstr "cat notes")
            (cstr "notes") (cstr "hello world") 0 0 0 0 0 image
            image_cursor_ok image_files_wf eq_refl eq_refl _ token_notes _ _ _ _).
  - discriminate.
  - vm_compute. lia.
  - discriminate.
  - vm_compute. discriminate.
  - right. exists 0. split; [lia|reflexivity].
Defined.

Lemma token_long : Forall (fun c => c <> 0 /\ c <> SP) (cstr "a_rather_long_name.txt").
Proof. repeat (apply Forall_cons; split; [split; discriminate|]). constructor. Qed.

Lemma run_command_write_long_name_witness :
  let tok := cstr "a_rather_long_name.txt" in
  let text := cstr "hi" in
  let body := drop 15 tok ++ replicate 1 SP ++ text in
  exists st1,
    run_command (cstr "write a_rather_long_name.txt hi") image = Some (tt, st1) /\
    tty st1 = tty image ++ cstr "Wrote "
              ++ itoa (i32 (Z.min (Z.of_nat (length body)) MAX_FILE_SIZE)) 10
              ++ cstr " bytes to " ++ take 15 tok ++ [LF] /\
    file_text (take 15 tok) (files st1) = take 512 body /\
    fs_find tok (files st1) = Some (-1).
Proof.
  refine (run_command_write_long_name (cstr "write a_rather_long_name.txt hi")
            (cstr "a_rather_long_name.txt") (cstr "hi") 0 0 0 image
            image_cursor_ok image_files_wf eq_refl token_long _ _ _ _).
  - vm_compute. lia.
  - discriminate.
  - vm_compute. discriminate.
  - right. exists 0. split; [lia|reflexivity].
Defined.

(** ** Start-up *)

Lemma pic_quiet st :
  exists st', (pic_remap >> pic_unmask_keyboard) st = Some (tt, st') /\
    term st' = term st /\ kbd st' = kbd st /\ files st' = files st /\
    tty st' = tty st /\ irq1_keys (hw st') = irq1_keys (hw st).
Proof.
  unfold pic_remap. unfold bind at 1.
  run_inb s1. run_inb s2.
  run_outb s3. run_outb s4. run_outb s5. run_outb s6. run_outb s7.
  run_outb s8. run_outb s9. run_outb s10. run_outb s11. run_outb s12.
  unfold pic_unmask_keyboard.
  run_inb s13. run_outb s14.
  exists s14. split; [reflexivity|]. repeat split; congruence.
Qed.

Lemma interrupts_install_run st :
  exists st', interrupts_install st = Some (tt, st') /\
    kbd st' = {| kbuf := kbuf (kbd st); kbuf_head := 0; kbuf_tail := 0 |} /\
    term st' = term st /\ files st' = files st /\ tty st' = tty st /\
    irq1_keys (hw st') = irq1_keys (hw st).
Proof.
  unfold interrupts_install.
  unfold modify at 1. unfold bind at 1. unfold modify at 1. unfold bind at 1.
  set (s0 := set_kbd (set_head 0 (kbd (set_kbd (set_tail 0 (kbd st)) st)))
                     (set_kbd (set_tail 0 (kbd st)) st)).
  assert (H0 : kbd s0 = {| kbuf := kbuf (kbd st); kbuf_head := 0; kbuf_tail := 0 |} /\
               term s0 = term st /\ files s0 = files st /\ tty s0 = tty st /\
               hw s0 = hw st) by (cbn; tauto).
  clearbody s0. destruct H0 as (K0 & T0 & F0 & O0 & W0).
  destruct (pic_quiet s0) as (s1 & E1 & T1 & K1 & F1 & O1 & I1).
  exists s1. split; [exact E1|]. repeat split; congruence.
Qed.

(** X28.  Start-up.  From any memory of the right shape (a grid of 2000
    cells, a ring array of 256 bytes, a file table of 16 slots),
    [kernel_main] reaches its command loop: the screen has been
    cleared and shows the two banner lines; the keyboard ring is empty
    and well formed, so that the input is exactly what the interrupts
    to come will deliver; and the file store holds the single file
    "welcome" of 39 bytes. *)
Theorem boot_state (st : kernel) :
  length (vga_buffer (term st)) = 2000%nat -> 0 <= term_color (term st) < 256 ->
  length (kbuf (kbd st)) = 256%nat -> fs_shape (files st) ->
  exists st', boot st = Some (tt, st') /\
    tty st' = tty st ++ cstr "MiniOS v0.3 - terminal + tiny FS" ++ [LF]
              ++ cstr "Type 'help' for commands." ++ [LF; LF] /\
    cursor_ok st' /\ ring_ok (kbd st') /\
    pending (kbd st') = [] /\ input_stream st' = decoded (irq1_keys (hw st)) /\
    fs_wf (files st') /\ fs_unique (files st') /\
    entries (files st') = [(cstr "welcome", 39)].
Proof.
  intros Hl Hcol Hk Hs. unfold boot.
  destruct (vga_clear_run st Hl Hcol) as (s1 & E1 & T1 & K1 & F1 & O1 & _ & I1 & _).
  rewrite (bind_some _ _ _ _ _ E1).
  destruct (interrupts_install_run s1) as (s2 & E2 & K2 & T2 & F2 & O2 & I2).
  rewrite (bind_some _ _ _ _ _ E2).
  destruct (fs_init_store (files s2)) as (fs' & Ei & Hwf & Hu & He & _);
    [rewrite F2, F1; exact Hs|].
  rewrite (bind_some _ _ _ _ _ (fs_op_run _ s2 _ _ Ei)).
  assert (C3 : cursor_ok (set_files fs' s2)).
  { unfold cursor_ok. cbn [term set_files]. rewrite T2, T1. cbn.
    unfold VGA_HEIGHT, VGA_WIDTH. lia. }
  destruct (kprintf_printed (cstr "MiniOS v0.3 - terminal + tiny FS" ++ [LF]) [] _
              (set_files fs' s2) C3 eq_refl) as (s4 & E4 & P4).
  rewrite (bind_some _ _ _ _ _ E4).
  destruct (kprintf_printed (cstr "Type 'help' for commands." ++ [LF; LF]) [] _
              s4 (printed_cursor _ _ _ P4) eq_refl) as (s5 & E5 & P5).
  exists s5. split; [exact E5|].
  pose proof (printed_app _ _ _ _ _ P4 P5) as P.
  destruct P as (C & O & _ & F & K & _ & I).
  cbn [tty files kbd hw set_files] in O, F, K, I.
  assert (Hring : ring_ok (kbd s5)).
  { rewrite K, K2. unfold ring_ok, KBUF_SIZE. cbn [kbuf kbuf_head kbuf_tail].
    rewrite K1. split; [lia|]. split; [lia|exact Hk]. }
  assert (Hpend : pending (kbd s5) = []).
  { apply pending_empty. rewrite K, K2. reflexivity. }
  split; [rewrite O, O2, O1; reflexivity|].
  split; [exact C|]. split; [exact Hring|]. split; [exact Hpend|].
  split; [unfold input_stream; rewrite Hpend, I, I2, I1; reflexivity|].
  rewrite F. auto.
Qed.

Lemma boot_state_witness :
  exists st', boot image = Some (tt, st') /\
    tty st' = tty image ++ cstr "MiniOS v0.3 - terminal + tiny FS" ++ [LF]
              ++ cstr "Type 'help' for commands." ++ [LF; LF] /\
    cursor_ok st' /\ ring_ok (kbd st') /\
    pending (kbd st') = [] /\ input_stream st' = decoded (irq1_keys (hw image)) /\
    fs_wf (files st') /\ fs_unique (files st') /\
    entries (files st') = [(cstr "welcome", 39)].
Proof.
  refine (boot_state image eq_refl _ eq_refl image_files_shape).
  cbn [term image term_color]. lia.
Defined.

(** X29.  One round of the command loop.  [kernel_main] prints the
    prompt "mini> ", reads a line, and hands to [run_command] a string
    that is exactly the characters typed before the newline; an empty
    line runs nothing.  The line is echoed, the input stream is left
    behind the newline, and reading touches no file. *)
Theorem shell_round_runs_line (line0 l rest : list Z) (st : kernel) :
  cursor_ok st -> ring_ok (kbd st) -> length line0 = 128%nat ->
  (length l <= 127)%nat ->
  Forall (fun c => c <> NUL /\ c <> LF /\ c <> CR /\ c <> BS) l ->
  input_stream st = l ++ LF :: rest ->
  exists line s1,
    c_str line = l /\ length line = 128%nat /\
    tty s1 = tty st ++ cstr "mini> " ++ l ++ [LF] /\
    input_stream s1 = rest /\ files s1 = files st /\
    cursor_ok s1 /\ ring_ok (kbd s1) /\
    (l = [] -> shell_round line0 st = Some (line, s1)) /\
    (l <> [] ->
     shell_round line0 st
     = match run_command line s1 with
       | Some (_, s2) => Some (line, s2)
       | None => None
       end).
Proof.
  intros Hc Hr Hl0 Hlen Hp Hs. unfold shell_round.
  destruct (kprintf_printed (cstr "mini> ") [] _ st Hc eq_refl) as (s1 & E1 & P1).
  rewrite (bind_some _ _ _ _ _ E1).
  pose proof (printed_ring _ _ _ P1 Hr) as R1.
  pose proof (printed_stream _ _ _ P1) as S1. rewrite Hs in S1.
  destruct (read_line_plain line0 s1 l rest (printed_cursor _ _ _ P1) R1 Hl0 Hlen Hp S1)
    as (line & s2 & E2 & L2 & _ & C2 & O2 & S2 & F2 & Hc2 & R2 & _).
  rewrite (bind_some _ _ _ _ _ E2).
  destruct P1 as (_ & O1 & _ & F1 & _).
  exists line, s2. split; [exact C2|]. split; [exact L2|].
  split; [rewrite O2, O1, <- !app_assoc; reflexivity|].
  split; [exact S2|]. split; [congruence|]. split; [exact Hc2|]. split; [exact R2|].
  unfold NUL. split.
  - intros ->. replace (chr line 0 =? 0) with true
      by (symmetry; apply Z.eqb_eq, c_str_nil_iff; exact C2).
    reflexivity.
  - intros Hne. replace (chr line 0 =? 0) with false.
    + unfold bind at 1. destruct (run_command line s2) as [[[] s3]|]; reflexivity.
    + symmetry. apply Z.eqb_neq. intros E. apply c_str_nil_iff in E. congruence.
Qed.

Lemma shell_round_runs_line_witness :
  let st := set_hw (set_irq1_keys [0x26; 0x1F; 0x1C] (hw image)) image in
  let l := cstr "ls" in
  exists line s1,
    c_str line = l /\ length line = 128%nat /\
    tty s1 = tty st ++ cstr "mini> " ++ l ++ [LF] /\
    input_stream s1 = [] /\ files s1 = files st /\
    cursor_ok s1 /\ ring_ok (kbd s1) /\
    (l = [] -> shell_round (replicate 128 0) st = Some (line, s1)) /\
    (l <> [] ->
     shell_round (replicate 128 0) st
     = match run_command line s1 with
       | Some (_, s2) => Some (line, s2)
       | None => None
       end).
Proof.
  refine (shell_round_runs_line (replicate 128 0) (cstr "ls") []
            (set_hw (set_irq1_keys [0x26; 0x1F; 0x1C] (hw image)) image)
            image_cursor_ok image_ring_ok eq_refl _ _ eq_refl).
  - vm_compute. lia.
  - repeat (apply Forall_cons; split; [repeat split; discriminate|]). constructor.
Defined.

(** ** Interrupt descriptor table *)

Lemma idt_clear_prefix (z : idt_entry) (t : list idt_entry) : forall n : nat,
  (n <= length t)%nat ->
  fold_left (fun t i => <[Z.to_nat i := z]> t) (seqZ 0 (Z.of_nat n)) t
  = replicate n z ++ drop n t.
Proof.
  induction n as [|n IH]; intros Hn; [reflexivity|].
  rewrite seqZ_S, fold_left_app, IH by lia. cbn [fold_left].
  rewrite Z.add_0_l, Nat2Z.id.
  rewrite insert_app_r_alt by (rewrite length_replicate; lia).
  rewrite length_replicate, Nat.sub_diag.
  destruct (lookup_lt_is_Some_2 t n ltac:(lia)) as [y Hy].
  rewrite (drop_S _ _ _ Hy). cbn [insert list_insert].
  rewrite replicate_S_end, <- app_assoc. reflexivity.
Qed.

Lemma split_halves h :
  0 <= h < 2 ^ 32 ->
  let lo := u16 (Z.land h 0xFFFF) in
  let hi := u16 (Z.land (Z.shiftr h 16) 0xFFFF) in
  lo + 65536 * hi = h /\ 0 <= lo < 65536 /\ 0 <= hi < 65536.
Proof.
  intros Hh lo hi.
  assert (Hlo : lo = h mod 65536).
  { subst lo. change 0xFFFF with (Z.ones 16). rewrite Z.land_ones by lia.
    change (2 ^ 16) with 65536. apply u16_small. apply Z.mod_pos_bound. lia. }
  assert (Hhi : hi = h / 65536).
  { subst hi. change 0xFFFF with (Z.ones 16). rewrite Z.land_ones by lia.
    rewrite Z.shiftr_div_pow2 by lia. change (2 ^ 16) with 65536.
    assert (0 <= h / 65536 < 65536).
    { split; [apply Z.div_pos; lia|apply Z.div_lt_upper_bound; lia]. }
    rewrite Z.mod_small by lia. apply u16_small. lia. }
  rewrite Hlo, Hhi. pose proof (Z.div_mod h 65536 ltac:(lia)).
  pose proof (Z.mod_pos_bound h 65536 ltac:(lia)).
  split; [lia|]. split; [lia|].
  split; [apply Z.div_pos; lia|apply Z.div_lt_upper_bound; lia].
Qed.

(** X30.  The interrupt gates.  [idt_set_gate n handler] makes entry
    [n] a present 32-bit interrupt gate (flags 0x8E) in the kernel code
    segment (selector 0x08) whose two offset halves give back the
    handler address, and touches no other entry.  After the
    descriptor-table calls of [interrupts_install], the table register
    covers the 256 entries (limit 2047) at the address of [idt], vector
    0x21 is the gate of the keyboard stub, and every other entry is
    zero, hence not present. *)
Theorem idt_gate_installed (idt_addr irq1_entry n handler : Z) (s : idt_state) :
  length (idt s) = 256%nat ->
  0 <= n < 256 -> 0 <= handler < 2 ^ 32 -> 0 <= irq1_entry < 2 ^ 32 ->
  (let s1 := idt_set_gate n handler s in
   let g := idt s1 !!! Z.to_nat n in
   offset_low g + 65536 * offset_high g = handler /\
   0 <= offset_low g < 65536 /\ 0 <= offset_high g < 65536 /\
   selector g = 0x08 /\ flags g = 0x8E /\ zero g = 0 /\
   (forall v, 0 <= v < 256 -> v <> n ->
              idt s1 !!! Z.to_nat v = idt s !!! Z.to_nat v) /\
   idtp s1 = idtp s /\ idtr s1 = idtr s) /\
  (let s2 := interrupts_install_idt idt_addr irq1_entry s in
   let g := idt s2 !!! 33%nat in
   idtr s2 = {| limit := 2047; base := u32 idt_addr |} /\
   length (idt s2) = 256%nat /\
   offset_low g + 65536 * offset_high g = irq1_entry /\
   selector g = 0x08 /\ flags g = 0x8E /\ Z.testbit (flags g) 7 = true /\
   (forall v, 0 <= v < 256 -> v <> 0x21 ->
              idt s2 !!! Z.to_nat v
              = {| offset_low := 0; selector := 0; zero := 0; flags := 0;
                   offset_high := 0 |})).
Proof.
  intros Hl Hn Hh He. split.
  - cbv zeta. unfold idt_set_gate. cbn [idt idtp idtr].
    rewrite (u8_small n) by lia. rewrite (u32_small handler) by lia.
    rewrite list_lookup_total_insert_eq by lia.
    cbn [offset_low offset_high selector flags zero].
    destruct (split_halves handler Hh) as (H1 & H2 & H3).
    split; [exact H1|]. split; [exact H2|]. split; [exact H3|].
    split; [reflexivity|]. split; [reflexivity|]. split; [reflexivity|].
    split; [|split; reflexivity].
    intros v Hv Hne. apply list_lookup_total_insert_ne. lia.
  - cbv zeta. unfold interrupts_install_idt, idt_load, idt_set_gate, idt_init.
    cbn [idt idtp idtr].
    change 256 with (Z.of_nat 256) at 1.
    rewrite (idt_clear_prefix _ (idt s) 256) by lia.
    rewrite drop_ge, app_nil_r by lia.
    rewrite (u32_small irq1_entry) by lia.
    change (Z.to_nat (u8 33)) with 33%nat.
    rewrite list_lookup_total_insert_eq by (rewrite length_replicate; lia).
    cbn [offset_low offset_high selector flags zero].
    destruct (split_halves irq1_entry He) as (H1 & _).
    split; [reflexivity|]. split; [rewrite length_insert, length_replicate; reflexivity|].
    split; [exact H1|]. split; [reflexivity|]. split; [reflexivity|].
    split; [reflexivity|].
    intros v Hv Hne. rewrite list_lookup_total_insert_ne by lia.
    apply lookup_total_replicate_2. lia.
Qed.

Lemma idt_gate_installed_witness :
  let s := {| idt := replicate 256 {| offset_low := 1; selector := 2; zero := 3;
                                      flags := 4; offset_high := 5 |};
              idtp := {| limit := 0; base := 0 |};
              idtr := {| limit := 0; base := 0 |} |} in
  let idt_addr := 0x105000 in
  let irq1_entry := 0x100ABC in
  let n := 0x80 in
  let handler := 0xC0DE1234 in
  (let s1 := idt_set_gate n handler s in
   let g := idt s1 !!! Z.to_nat n in
   offset_low g + 65536 * offset_high g = handler /\
   0 <= offset_low g < 65536 /\ 0 <= offset_high g < 65536 /\
   selector g = 0x08 /\ flags g = 0x8E /\ zero g = 0 /\
   (forall v, 0 <= v < 256 -> v <> n ->
              idt s1 !!! Z.to_nat v = idt s !!! Z.to_nat v) /\
   idtp s1 = idtp s /\ idtr s1 = idtr s) /\
  (let s2 := interrupts_install_idt idt_addr irq1_entry s in
   let g := idt s2 !!! 33%nat in
   idtr s2 = {| limit := 2047; base := u32 idt_addr |} /\
   length (idt s2) = 256%nat /\
   offset_low g + 65536 * offset_high g = irq1_entry /\
   selector g = 0x08 /\ flags g = 0x8E /\ Z.testbit (flags g) 7 = true /\
   (forall v, 0 <= v < 256 -> v <> 0x21 ->
              idt s2 !!! Z.to_nat v
              = {| offset_low := 0; selector := 0; zero := 0; flags := 0;
                   offset_high := 0 |})).
Proof.
  refine (idt_gate_installed 0x105000 0x100ABC 0x80 0xC0DE1234
            {| idt := replicate 256 {| offset_low := 1; selector := 2; zero := 3;
                                       flags := 4; offset_high := 5 |};
               idtp := {| limit := 0; base := 0 |};
               idtr := {| limit := 0; base := 0 |} |} eq_refl _ _ _); lia.
Defined.
